(** * CorroSight: the analytical core, embedded and checked against its specification

    The Python modules [config], [data_ingestion], [alignment], [matching],
    [growth] and [multi_run] are rendered as Rocq functions, one module per
    source file, and the properties the specification states about them are
    settled as theorems in the second half of the file.  The parts of
    [integrity_analytics] and [virtual_ili] that work on the match results
    are embedded as well, and the last part of the file proves further
    properties of the embedded code.

    Conventions of the embedding.

    - A numeric cell (a Python or NumPy float) is a value of [fl]: either the
      missing-value sentinel [NaN] or a finite number, kept as an exact
      rational.  Comparisons with [NaN] are false, arithmetic propagates it.
      The arithmetic is exact; infinities are outside the model.  Where a
      statement follows the code through the rounding of a number it has
      just computed, the statement allows for the error of the
      floating-point operations (see [close]).
    - A DataFrame is the list of its rows, in row order; a row of a run is a
      [feature], a row of a match set is a [match_record].  A positional index
      ([iloc], the index after [reset_index(drop=True)]) is a list position.
    - A Python exception is a [Raise] in the [result] monad.
    - SciPy and NumPy entry points whose code is not part of the repository
      (the assignment solver, the KD-tree ball query, cos, sin and pi) are
      the fields of the class [SciPy]; the interpolator, the regression
      fits and [int] on a string are those of [Interpolate], [Regression]
      and [Builtins]; every theorem holds for every instance. *)

From Stdlib Require Import QArith Qabs Qround Qminmax ZArith Lia Lqa String List Permutation.
From stdpp Require Import gmap strings list fin_maps sorting pretty.

Local Open Scope string_scope.

(** ** Numeric cells *)

Inductive fl : Type :=
| NaN
| Fin (q : Q).

Coercion Fin : Q >-> fl.

Definition isnan (x : fl) : bool :=
  match x with NaN => true | Fin _ => false end.

Definition notna (x : fl) : bool := negb (isnan x).

Definition Qlt_bool (x y : Q) : bool := negb (Qle_bool y x).

Definition lift2 (f : Q -> Q -> Q) (x y : fl) : fl :=
  match x, y with
  | Fin a, Fin b => Fin (f a b)
  | _, _ => NaN
  end.

Definition cmp2 (f : Q -> Q -> bool) (x y : fl) : bool :=
  match x, y with
  | Fin a, Fin b => f a b
  | _, _ => false
  end.

Definition fadd : fl -> fl -> fl := lift2 Qplus.
Definition fsub : fl -> fl -> fl := lift2 Qminus.
Definition fmul : fl -> fl -> fl := lift2 Qmult.
(** Only used with a divisor that is a non-zero constant or that the caller
    has checked to be non-zero. *)
Definition fdiv : fl -> fl -> fl := lift2 Qdiv.

Definition fabs (x : fl) : fl :=
  match x with NaN => NaN | Fin a => Fin (Qabs a) end.

Definition fle : fl -> fl -> bool := cmp2 Qle_bool.
Definition flt : fl -> fl -> bool := cmp2 Qlt_bool.
Definition fge (x y : fl) : bool := fle y x.
Definition fgt (x y : fl) : bool := flt y x.
Definition feqb : fl -> fl -> bool := cmp2 Qeq_bool.

Declare Scope fl_scope.
Delimit Scope fl_scope with fl.
Bind Scope fl_scope with fl.
Infix "+" := fadd : fl_scope.
Infix "-" := fsub : fl_scope.
Infix "*" := fmul : fl_scope.
Infix "/" := fdiv : fl_scope.
Infix "<=?" := fle : fl_scope.
Infix "<?" := flt : fl_scope.
Infix ">=?" := fge : fl_scope.
Infix ">?" := fgt : fl_scope.
Infix "=?" := feqb : fl_scope.

(** Equality of cells up to the representation of the rational. *)
Definition feq (x y : fl) : Prop :=
  match x, y with
  | NaN, NaN => True
  | Fin a, Fin b => (a == b)%Q
  | _, _ => False
  end.

(** Agreement to fifteen significant digits.  The exact result of one or
    two arithmetic steps and the double the code computes for it agree to
    that accuracy; where a statement has to follow the code through a
    rounding of such a result, it speaks of a number [close] to the exact
    one. *)
Definition close (x y : Q) : Prop :=
  (Qabs (x - y) <= Qabs y * (1 # 10 ^ 15))%Q.

(** Python's two-argument [max] and [min]: the first argument wins unless the
    second compares strictly better, so a [NaN] second argument is dropped. *)
Definition py_max (a b : fl) : fl := if (b >? a)%fl then b else a.
Definition py_min (a b : fl) : fl := if (b <? a)%fl then b else a.

(** [x % m] for a positive [m]: the result lies in [[0, m)]. *)
Definition Qmod (x m : Q) : Q := (x - m * inject_Z (Qfloor (x / m)))%Q.

Definition fmod (x m : fl) : fl := lift2 Qmod x m.

(** Rounding to the nearest integer, ties to the even one. *)
Definition round_half_even (q : Q) : Z :=
  let f := Qfloor q in
  let r := (q - inject_Z f)%Q in
  if Qlt_bool r (1 # 2) then f
  else if Qlt_bool (1 # 2) r then (f + 1)%Z
  else if Z.even f then f else (f + 1)%Z.

(** [round(x, ndigits)]: the value of [x] rounded correctly to [ndigits]
    decimals, a tie going to the even neighbour; [round] of a NaN with
    [ndigits] given is NaN. *)
Definition py_round (x : fl) (ndigits : nat) : fl :=
  match x with
  | NaN => NaN
  | Fin q =>
      let s := inject_Z (10 ^ Z.of_nat ndigits) in
      Fin (inject_Z (round_half_even (q * s)) / s)%Q
  end.

(** [int(x)] on a finite float: truncation toward zero. *)
Definition Qtrunc (q : Q) : Z :=
  if Qlt_bool q 0 then Qceiling q else Qfloor q.

(** ** Exceptions *)

(** The Python exceptions the modelled code can raise, and the two aligner
    error kinds of the specification, [insufficient_anchors] and
    [non_monotone_anchors]. *)
Inductive exn : Type :=
| IndexError
| KeyError
| TypeError
| ValueError
| OverflowError
| ZeroDivisionError
| insufficient_anchors
| non_monotone_anchors.

Inductive result (A : Type) : Type :=
| Ok (a : A)
| Raise (e : exn).
Arguments Ok {A} a.
Arguments Raise {A} e.

#[global] Instance result_ret : MRet result := fun A a => Ok a.
#[global] Instance result_bind : MBind result := fun A B k m =>
  match m with
  | Ok a => k a
  | Raise e => Raise e
  end.

(** [l[i]] with Python's bounds check. *)
Definition iloc {A : Type} (l : list A) (i : nat) : result A :=
  match l !! i with
  | Some a => Ok a
  | None => Raise IndexError
  end.

(** A loop whose body can raise: the first exception ends it. *)
Fixpoint for_each {A S : Type} (body : S -> A -> result S) (s : S) (l : list A)
  : result S :=
  match l with
  | [] => Ok s
  | a :: l' => s' ← body s a; for_each body s' l'
  end.

(** ** config.py *)

Module Config.

Definition YEARS_BETWEEN : list (Z * Z * Z) :=
  [ (2007, 2015, 8); (2015, 2022, 7); (2007, 2022, 15) ]%Z.

(** [YEARS_BETWEEN.get((y1, y2), default)]. *)
Fixpoint years_between_get (tbl : list (Z * Z * Z)) (y1 y2 default : Z) : Z :=
  match tbl with
  | [] => default
  | (a, b, n) :: tbl' =>
      if (Z.eqb a y1 && Z.eqb b y2)%bool then n
      else years_between_get tbl' y1 y2 default
  end.

Definition ANOMALY_TYPES : list string :=
  [ "Metal Loss"; "Cluster"; "Metal Loss Manufacturing"; "Dent";
    "Seam Weld Manufacturing"; "Seam Weld Anomaly"; "Seam Weld Dent";
    "Girth Weld Anomaly" ].

Definition REFERENCE_TYPES : list string := [ "Girth Weld" ].

Definition COMPATIBLE_TYPES : list (string * list string) :=
  [ ("Metal Loss", ["Metal Loss"; "Cluster"]);
    ("Cluster", ["Metal Loss"; "Cluster"]);
    ("Metal Loss Manufacturing",
      ["Metal Loss Manufacturing"; "Seam Weld Manufacturing"]);
    ("Seam Weld Manufacturing",
      ["Metal Loss Manufacturing"; "Seam Weld Manufacturing"]);
    ("Dent", ["Dent"; "Seam Weld Dent"]);
    ("Seam Weld Dent", ["Dent"; "Seam Weld Dent"]);
    ("Seam Weld Anomaly", ["Seam Weld Anomaly"]);
    ("Girth Weld Anomaly", ["Girth Weld Anomaly"]) ].

Definition DISTANCE_TOLERANCE_FT : fl := Fin 3.0.
Definition CLOCK_TOLERANCE_HOURS : fl := Fin 1.0.

Definition WEIGHT_DISTANCE : fl := Fin 0.35.
Definition WEIGHT_CLOCK : fl := Fin 0.25.
Definition WEIGHT_DEPTH : fl := Fin 0.20.
Definition WEIGHT_DIMENSIONS : fl := Fin 0.10.
Definition WEIGHT_TYPE : fl := Fin 0.10.

Definition HIGH_CONFIDENCE : fl := Fin 0.85.
Definition MEDIUM_CONFIDENCE : fl := Fin 0.60.
Definition LOW_CONFIDENCE : fl := Fin 0.40.

Definition MAX_PLAUSIBLE_GROWTH_RATE : fl := Fin 5.0.
Definition WALL_LOSS_REPAIR_THRESHOLD : fl := Fin 80.0.

End Config.

(** ** data_ingestion.py *)

Module DataIngestion.

(** One row of a normalised (and, once aligned, corrected) run. *)
Record feature : Type := {
  joint_number : fl;
  log_distance_ft : fl;
  corrected_distance : fl;
  event_type : string;
  depth_pct : fl;
  length_in : fl;
  width_in : fl;
  clock_hours : fl;
  id_od : string;
  wall_thickness_in : fl;
  comments : string;
  run_year : Z;
  source_row_idx : Z;
  is_anomaly : bool;
  is_girth_weld : bool
}.

Definition get_anomalies (df : list feature) : list feature :=
  List.filter
    (fun r => is_anomaly r && notna (depth_pct r) && notna (log_distance_ft r))
    df.

(** [astype(int)] on the joint-number column of rows that passed [notna]. *)
Definition joint_as_int (r : feature) : Z :=
  match joint_number r with
  | Fin q => Qtrunc q
  | NaN => 0%Z
  end.

(** [sort_values("log_distance_ft")], as an insertion sort that keeps the
    order of rows with equal distance.  (Which of two rows with the same
    distance comes first makes no difference to the distance read for a
    joint.) *)
Fixpoint insert_by_distance (r : feature) (l : list feature) : list feature :=
  match l with
  | [] => [r]
  | r' :: l' =>
      if (log_distance_ft r' <? log_distance_ft r)%fl
      then r' :: insert_by_distance r l'
      else r :: l
  end.

Definition sort_by_distance (df : list feature) : list feature :=
  List.fold_right insert_by_distance [] df.

(** The girth welds of a run, as (joint number, distance), by distance. *)
Definition get_girth_welds (df : list feature) : list (Z * fl) :=
  let mask := fun r =>
    is_girth_weld r && notna (joint_number r) && notna (log_distance_ft r) in
  List.map (fun r => (joint_as_int r, log_distance_ft r))
    (sort_by_distance (List.filter mask df)).

End DataIngestion.

(** ** alignment.py *)

Module Alignment.
Import DataIngestion.

(** One row of the girth-weld alignment table: the joint number, the
    columns [dist_<year>] and the columns [delta_<prev>_<curr>]. *)
Record gw_row : Type := {
  gw_joint_number : Z;
  gw_dist : list (Z * fl);
  gw_delta : list (Z * Z * fl)
}.

(** [drop_duplicates(subset="joint_number", keep="first")]. *)
Fixpoint drop_duplicates_from (seen : list Z) (gw : list (Z * fl))
  : list (Z * fl) :=
  match gw with
  | [] => []
  | (jn, d) :: gw' =>
      if existsb (Z.eqb jn) seen then drop_duplicates_from seen gw'
      else (jn, d) :: drop_duplicates_from (jn :: seen) gw'
  end.

Definition drop_duplicates : list (Z * fl) -> list (Z * fl) :=
  drop_duplicates_from [].

(** [series.loc[jn]] on a series indexed by joint number. *)
Fixpoint series_loc (s : list (Z * fl)) (jn : Z) : result fl :=
  match s with
  | [] => Raise KeyError
  | (k, d) :: s' => if Z.eqb k jn then Ok d else series_loc s' jn
  end.

(** [d[key]] on a dict given by its items. *)
Fixpoint dict_get {V : Type} (d : list (Z * V)) (key : Z) : result V :=
  match d with
  | [] => Raise KeyError
  | (k, v) :: d' => if Z.eqb k key then Ok v else dict_get d' key
  end.

(** The sorted intersection of the unpacked [joint_sets]; with no set at
    all [set.intersection] has no receiver and Python raises a TypeError. *)
Definition common_joints (joint_sets : list (list Z)) : result (list Z) :=
  match joint_sets with
  | [] => Raise TypeError
  | s :: rest =>
      Ok (merge_sort Z.le
            (List.filter
               (fun jn => forallb (fun t => existsb (Z.eqb jn) t) rest) s))
  end.

(** The runs are a dict from year to DataFrame, given by its items. *)
Definition match_girth_welds (runs : list (Z * list feature))
  : result (list gw_row) :=
  let gw_by_year :=
    List.map (fun '(year, df) => (year, drop_duplicates (get_girth_welds df)))
      runs in
  common ← common_joints (List.map (fun '(_, s) => List.map fst s) gw_by_year);
  let years := merge_sort Z.le (List.map fst gw_by_year) in
  records ← mapM (fun jn =>
      dists ← mapM (fun year =>
          s ← dict_get gw_by_year year;
          d ← series_loc s jn;
          Ok (year, d)) years;
      Ok {| gw_joint_number := jn; gw_dist := dists; gw_delta := [] |})
    common;
  (* a frame built from no record has no column at all, so the first
     [result["dist_<year>"]] of the delta loop is a KeyError *)
  let pairs := zip years (tail years) in
  match records, pairs with
  | [], _ :: _ => Raise KeyError
  | _, _ =>
      mapM (fun row =>
          deltas ← mapM (fun '(y_prev, y_curr) =>
              d_curr ← dict_get (gw_dist row) y_curr;
              d_prev ← dict_get (gw_dist row) y_prev;
              Ok (y_prev, y_curr, (d_curr - d_prev)%fl)) pairs;
          Ok {| gw_joint_number := gw_joint_number row;
                gw_dist := gw_dist row;
                gw_delta := deltas |})
        records
  end.

(** The arguments [scipy.interpolate.interp1d] is constructed with; with
    [assume_sorted] set the constructor takes [x] in the order given. *)
Record interp1d : Type := {
  interp_x : list fl;
  interp_y : list fl;
  interp_kind : string;
  interp_fill_value : string;
  interp_assume_sorted : bool
}.

(** [gw_alignment["dist_<year>"].values]; a table without rows is the
    frame built from no record, which has no column. *)
Definition dist_column (gw_alignment : list gw_row) (year : Z)
  : result (list fl) :=
  match gw_alignment with
  | [] => Raise KeyError
  | _ => mapM (fun row => dict_get (gw_dist row) year) gw_alignment
  end.

Definition build_distance_corrector (gw_alignment : list gw_row)
    (source_year reference_year : Z) : result interp1d :=
  src_dists ← dist_column gw_alignment source_year;
  ref_dists ← dist_column gw_alignment reference_year;
  Ok {| interp_x := src_dists;
        interp_y := ref_dists;
        interp_kind := "linear";
        interp_fill_value := "extrapolate";
        interp_assume_sorted := true |}.

End Alignment.

(** ** matching.py *)

Module Matching.
Import Config DataIngestion.
Local Open Scope Q_scope.
Local Open Scope fl_scope.

(** A point of the search space: (distance, cos clock, sin clock). *)
Definition point : Type := (fl * fl * fl)%type.

(** The library entry points the matcher calls.  [kd_within p x r] tells
    whether [KDTree.query_ball_point(x, r)] reports the data point [p], for
    points with finite coordinates (the library refuses the others with a
    [ValueError], see [KDTree] and [query_ball_point] below);
    [linear_sum_assignment] returns [(row_ind, col_ind)]. *)
Class SciPy : Type := {
  np_pi : fl;
  np_cos : fl -> fl;
  np_sin : fl -> fl;
  kd_within : point -> point -> fl -> bool;
  linear_sum_assignment : list (list fl) -> list nat * list nat
}.

(** One row of the matches DataFrame, as [_build_match_record] fills it. *)
Record match_record : Type := {
  similarity : fl;
  confidence : fl;
  confidence_label : string;
  earlier_year : Z;
  earlier_joint : fl;
  earlier_distance : fl;
  earlier_orig_distance : fl;
  earlier_clock : fl;
  earlier_depth_pct : fl;
  earlier_length_in : fl;
  earlier_width_in : fl;
  earlier_event_type : string;
  earlier_id_od : string;
  earlier_comments : string;
  earlier_wall_thickness : fl;
  earlier_row_idx : Z;
  later_year : Z;
  later_joint : fl;
  later_distance : fl;
  later_orig_distance : fl;
  later_clock : fl;
  later_depth_pct : fl;
  later_length_in : fl;
  later_width_in : fl;
  later_event_type : string;
  later_id_od : string;
  later_comments : string;
  later_wall_thickness : fl;
  later_row_idx : Z;
  years_between : Q;
  depth_growth_pct : fl;
  depth_growth_rate : fl;
  length_growth_in : fl;
  length_growth_rate : fl;
  width_growth_in : fl;
  width_growth_rate : fl
}.

Record match_result : Type := {
  matches : list match_record;
  new_anomalies : list feature;
  missing_anomalies : list feature;
  stats : gmap string fl
}.

(** *** Clock utilities *)

Definition clock_distance (h1 h2 : fl) : fl :=
  if isnan h1 || isnan h2 then Fin 6.0
  else
    let diff := fmod (fabs (h1 - h2)) 12.0 in
    py_min diff (12.0 - diff).

Definition clock_to_trig {lib : SciPy} (hours : fl) : fl * fl :=
  if isnan hours then (Fin 0.0, Fin 0.0)
  else
    let theta := hours * 2 * np_pi / 12.0 in
    (np_cos theta, np_sin theta).

(** *** Similarity scoring *)

Definition _safe_diff (a b : fl) : fl :=
  if isnan a || isnan b then Fin 1.5 else fabs (a - b).

Definition compute_similarity (a_later a_earlier : feature) (yb : Q) : fl :=
  let dist_diff :=
    fabs (corrected_distance a_later - corrected_distance a_earlier) in
  let s_dist := py_max 0 (1.0 - dist_diff / DISTANCE_TOLERANCE_FT) in
  let clk_diff := clock_distance (clock_hours a_later) (clock_hours a_earlier) in
  let s_clock := py_max 0 (1.0 - clk_diff / (CLOCK_TOLERANCE_HOURS * 6.0)) in
  let d_later := depth_pct a_later in
  let d_earlier := depth_pct a_earlier in
  let s_depth :=
    if isnan d_later || isnan d_earlier then Fin 0.5
    else
      let depth_diff := d_later - d_earlier in
      if depth_diff >=? 0 then py_max 0 (1.0 - depth_diff / 30.0)
      else py_max 0 (1.0 - fabs depth_diff / 10.0) in
  let len_diff := _safe_diff (length_in a_later) (length_in a_earlier) in
  let wid_diff := _safe_diff (width_in a_later) (width_in a_earlier) in
  let s_dim := py_max 0 (1.0 - (len_diff + wid_diff) / 6.0) in
  let s_type : fl :=
    if String.eqb (event_type a_later) (event_type a_earlier)
    then 1.0 else 0.7 in
  WEIGHT_DISTANCE * s_dist +
  WEIGHT_CLOCK * s_clock +
  WEIGHT_DEPTH * s_depth +
  WEIGHT_DIMENSIONS * s_dim +
  WEIGHT_TYPE * s_type.

(** *** Type compatibility *)

(** [COMPATIBLE_TYPES.get(type_a, {type_a})]. *)
Fixpoint compatible_get (tbl : list (string * list string)) (type_a : string)
  : list string :=
  match tbl with
  | [] => [type_a]
  | (k, v) :: tbl' => if String.eqb k type_a then v else compatible_get tbl' type_a
  end.

Definition types_compatible (type_a type_b : string) : bool :=
  if String.eqb type_a type_b then true
  else existsb (String.eqb type_b) (compatible_get COMPATIBLE_TYPES type_a).

(** *** Internal helpers *)

Definition _build_search_point_single {lib : SciPy} (row : feature) : point :=
  let '(cos_c, sin_c) := clock_to_trig (clock_hours row) in
  (corrected_distance row, cos_c, sin_c).

Definition _build_search_points {lib : SciPy} (df : list feature) : list point :=
  List.map _build_search_point_single df.

(** A point whose distance is a number.  The two other coordinates of a
    search point are always numbers: 0, or the cosine and the sine of a
    number. *)
Definition finite_point (p : point) : bool := notna (fst (fst p)).

(** [KDTree(data)]: the constructor raises [ValueError] when the data
    holds a value that is not finite. *)
Definition KDTree (data : list point) : result (list point) :=
  if forallb finite_point data then Ok data else Raise ValueError.

(** [tree.query_ball_point(x, r)]: the positions of the reported points;
    [ValueError] when [x] holds a value that is not finite. *)
Definition query_ball_point {lib : SciPy} (tree : list point) (x : point) (r : fl)
  : result (list nat) :=
  if finite_point x then
    Ok (List.map fst
          (List.filter (fun '(_, p) => kd_within p x r) (imap pair tree)))
  else Raise ValueError.

Definition _compute_confidence (similarity : fl) (n_candidates : nat)
    (a_later a_earlier : feature) (yb : Q) : fl :=
  let f_sim := similarity in
  let f_unique : fl :=
    if (n_candidates <=? 1)%nat then 1.0
    else if (n_candidates =? 2)%nat then 0.7
    else py_max 0.3 (1.0 - inject_Z (Z.of_nat n_candidates) * 0.1) in
  let d_l := depth_pct a_later in
  let d_e := depth_pct a_earlier in
  let f_plaus : fl :=
    if notna d_l && notna d_e && Qlt_bool 0 yb then
      let growth_rate := (d_l - d_e) / yb in
      if (0 <=? growth_rate) && (growth_rate <=? MAX_PLAUSIBLE_GROWTH_RATE)
      then 1.0
      else if growth_rate <? 0 then py_max 0 (0.5 + growth_rate / 10.0)
      else py_max 0.2
             (1.0 - (growth_rate - MAX_PLAUSIBLE_GROWTH_RATE) / 10.0)
    else 0.5 in
  let jn_l := joint_number a_later in
  let jn_e := joint_number a_earlier in
  let f_joint : fl :=
    match jn_l, jn_e with
    | Fin l, Fin e => if Z.eqb (Qtrunc l) (Qtrunc e) then 1.0 else 0.6
    | _, _ => 0.5
    end in
  let confidence :=
    0.40 * f_sim + 0.25 * f_unique + 0.20 * f_plaus + 0.15 * f_joint in
  py_round confidence 4.

Definition _classify_confidence (confidence : fl) : string :=
  if confidence >=? HIGH_CONFIDENCE then "HIGH"
  else if confidence >=? MEDIUM_CONFIDENCE then "MEDIUM"
  else "LOW".

Definition _safe_sub (a b : fl) : fl :=
  if isnan a || isnan b then NaN else a - b.

(** [growth / years_between if not np.isnan(growth) else np.nan]: a Python
    float divided by a zero [years_between] raises. *)
Definition annual_rate (growth : fl) (yb : Q) : result fl :=
  if notna growth then
    if Qeq_bool yb 0 then Raise ZeroDivisionError else Ok (growth / yb)
  else Ok NaN.

Definition round_notna (x : fl) (ndigits : nat) : fl :=
  if notna x then py_round x ndigits else NaN.

Definition _build_match_record (a_later a_earlier : feature)
    (sim conf : fl) (conf_label : string) (yb : Q) : result match_record :=
  let depth_growth := _safe_sub (depth_pct a_later) (depth_pct a_earlier) in
  let length_growth := _safe_sub (length_in a_later) (length_in a_earlier) in
  let width_growth := _safe_sub (width_in a_later) (width_in a_earlier) in
  depth_rate ← annual_rate depth_growth yb;
  length_rate ← annual_rate length_growth yb;
  width_rate ← annual_rate width_growth yb;
  Ok {| similarity := py_round sim 4;
        confidence := conf;
        confidence_label := conf_label;
        earlier_year := run_year a_earlier;
        earlier_joint := joint_number a_earlier;
        earlier_distance := py_round (corrected_distance a_earlier) 2;
        earlier_orig_distance := py_round (log_distance_ft a_earlier) 2;
        earlier_clock := py_round (clock_hours a_earlier) 2;
        earlier_depth_pct := depth_pct a_earlier;
        earlier_length_in := length_in a_earlier;
        earlier_width_in := width_in a_earlier;
        earlier_event_type := event_type a_earlier;
        earlier_id_od := id_od a_earlier;
        earlier_comments := comments a_earlier;
        earlier_wall_thickness := wall_thickness_in a_earlier;
        earlier_row_idx := source_row_idx a_earlier;
        later_year := run_year a_later;
        later_joint := joint_number a_later;
        later_distance := py_round (corrected_distance a_later) 2;
        later_orig_distance := py_round (log_distance_ft a_later) 2;
        later_clock := py_round (clock_hours a_later) 2;
        later_depth_pct := depth_pct a_later;
        later_length_in := length_in a_later;
        later_width_in := width_in a_later;
        later_event_type := event_type a_later;
        later_id_od := id_od a_later;
        later_comments := comments a_later;
        later_wall_thickness := wall_thickness_in a_later;
        later_row_idx := source_row_idx a_later;
        years_between := yb;
        depth_growth_pct := round_notna depth_growth 2;
        depth_growth_rate := round_notna depth_rate 3;
        length_growth_in := round_notna length_growth 2;
        length_growth_rate := round_notna length_rate 3;
        width_growth_in := round_notna width_growth 2;
        width_growth_rate := round_notna width_rate 3 |}.

(** [series.mean()], which skips missing values. *)
Definition series_mean (l : list fl) : fl :=
  match List.filter notna l with
  | [] => NaN
  | v => List.fold_left fadd v 0 / inject_Z (Z.of_nat (length v))
  end.

Definition count_of {A : Type} (p : A -> bool) (l : list A) : fl :=
  Fin (inject_Z (Z.of_nat (length (List.filter p l)))).

(** The statistics dict.  A non-empty matches frame is built from match
    records, so its columns include ["depth_growth_rate"]. *)
Definition _compute_match_stats (matches_df : list match_record)
    (new_df missing_df : list feature) : gmap string fl :=
  let stats : gmap string fl :=
    <["missing_anomalies" := count_of (fun _ => true) missing_df]>
   (<["new_anomalies" := count_of (fun _ => true) new_df]>
   (<["total_matches" := count_of (fun _ => true) matches_df]> ∅)) in
  if (0 <? length matches_df)%nat then
    let label_is lbl := fun m => String.eqb (confidence_label m) lbl in
    let valid_rates := List.filter notna (List.map depth_growth_rate matches_df) in
    <["high_growth_count" :=
        count_of (fun r => r >? MAX_PLAUSIBLE_GROWTH_RATE) valid_rates]>
   (<["negative_growth_count" := count_of (fun r => r <? 0) valid_rates]>
   (<["avg_depth_growth_rate" :=
        if (0 <? length valid_rates)%nat
        then py_round (series_mean valid_rates) 3 else NaN]>
   (<["avg_confidence" :=
        py_round (series_mean (List.map confidence matches_df)) 3]>
   (<["avg_similarity" :=
        py_round (series_mean (List.map similarity matches_df)) 3]>
   (<["low_confidence" := count_of (label_is "LOW") matches_df]>
   (<["medium_confidence" := count_of (label_is "MEDIUM") matches_df]>
   (<["high_confidence" := count_of (label_is "HIGH") matches_df]>
      stats)))))))
  else stats.

(** *** Main matching pipeline *)

(** Sentinel cost of a pair that is not a candidate. *)
Definition LARGE_COST : fl := Fin 1e6.

Definition search_radius : fl := py_max DISTANCE_TOLERANCE_FT 2.0.

(** Body of the loop over [candidate_indices], for the later anomaly
    [a_l]: the state is row [i] of the cost matrix and
    [candidate_counts[i]]. *)
Definition scan_candidate (a_l : feature) (anom_earlier : list feature)
    (yb : Q) (st : list fl * nat) (j : nat) : result (list fl * nat) :=
  let '(cost_row, count) := st in
  a_e ← iloc anom_earlier j;
  let dist_diff := fabs (corrected_distance a_l - corrected_distance a_e) in
  if dist_diff >? DISTANCE_TOLERANCE_FT then Ok st
  else
    let clk_diff := clock_distance (clock_hours a_l) (clock_hours a_e) in
    if clk_diff >? CLOCK_TOLERANCE_HOURS then Ok st
    else if negb (types_compatible (event_type a_l) (event_type a_e)) then Ok st
    else
      let sim := compute_similarity a_l a_e yb in
      Ok (<[j := 1.0 - sim]> cost_row, S count).

(** Body of the loop over the later anomalies. *)
Definition scan_later {lib : SciPy} (tree : list point)
    (anom_earlier : list feature) (yb : Q) (a_l : feature)
  : result (list fl * nat) :=
  let later_point := _build_search_point_single a_l in
  candidate_indices ← query_ball_point tree later_point search_radius;
  for_each (scan_candidate a_l anom_earlier yb)
    (replicate (length anom_earlier) LARGE_COST, 0%nat) candidate_indices.

(** Body of the loop over [zip(row_ind, col_ind)]: the state is
    [(matches, matched_later, matched_earlier)]. *)
Definition keep_assignment (anom_later anom_earlier : list feature)
    (cost_matrix : list (list fl)) (candidate_counts : list nat) (yb : Q)
    (st : list match_record * gset nat * gset nat) (ij : nat * nat)
  : result (list match_record * gset nat * gset nat) :=
  let '(ms, matched_later, matched_earlier) := st in
  let '(i, j) := ij in
  cost_row ← iloc cost_matrix i;
  c ← iloc cost_row j;
  if c >=? (1.0 - LOW_CONFIDENCE) then Ok st
  else
    let sim := 1.0 - c in
    a_l ← iloc anom_later i;
    a_e ← iloc anom_earlier j;
    n_candidates ← iloc candidate_counts i;
    let confidence := _compute_confidence sim n_candidates a_l a_e yb in
    let conf_label := _classify_confidence confidence in
    record ← _build_match_record a_l a_e sim confidence conf_label yb;
    Ok ((ms ++ [record])%list, {[i]} ∪ matched_later, {[j]} ∪ matched_earlier).

(** [[i for i in range(n) if i not in matched]]. *)
Definition unmatched_idx (n : nat) (matched : gset nat) : list nat :=
  filter (fun i => i ∉ matched) (seq 0 n).

Definition match_anomalies {lib : SciPy} (run_later run_earlier : list feature)
    (yb : Q) : result match_result :=
  let anom_later := get_anomalies run_later in
  let anom_earlier := get_anomalies run_earlier in
  let n_later := length anom_later in
  let n_earlier := length anom_earlier in
  if (n_later =? 0)%nat || (n_earlier =? 0)%nat then
    Ok {| matches := [];
          new_anomalies := anom_later;
          missing_anomalies := anom_earlier;
          stats := {[ "total_matches" := Fin 0 ]} |}
  else
    let earlier_points := _build_search_points anom_earlier in
    tree ← KDTree earlier_points;
    scanned ← mapM (scan_later tree anom_earlier yb) anom_later;
    let cost_matrix := List.map fst scanned in
    let candidate_counts := List.map snd scanned in
    let '(row_ind, col_ind) := linear_sum_assignment cost_matrix in
    '(ms, matched_later, matched_earlier) ←
      for_each
        (keep_assignment anom_later anom_earlier cost_matrix candidate_counts yb)
        ([], ∅, ∅) (zip row_ind col_ind);
    let new_idx := unmatched_idx n_later matched_later in
    let missing_idx := unmatched_idx n_earlier matched_earlier in
    new_anomalies ← mapM (iloc anom_later) new_idx;
    missing_anomalies ← mapM (iloc anom_earlier) missing_idx;
    Ok {| matches := ms;
          new_anomalies := new_anomalies;
          missing_anomalies := missing_anomalies;
          stats := _compute_match_stats ms new_anomalies missing_anomalies |}.

End Matching.

(** ** growth.py *)

Module Growth.
Import Config Matching.
Local Open Scope Q_scope.
Local Open Scope fl_scope.

(** A matches DataFrame on its way through the growth scorer: the match
    records, and the five derived columns, each present or not. *)
Record frame : Type := {
  rows : list match_record;
  remaining_wall_pct : option (list fl);
  remaining_life_years : option (list fl);
  growth_class : option (list string);
  risk_score : option (list fl);
  risk_category : option (list string)
}.

(** The frame [pd.DataFrame(matches)] the matcher returns. *)
Definition of_matches (ms : list match_record) : frame :=
  {| rows := ms;
     remaining_wall_pct := None;
     remaining_life_years := None;
     growth_class := None;
     risk_score := None;
     risk_category := None |}.

Definition empty (df : frame) : bool :=
  match rows df with [] => true | _ => false end.

Definition _remaining_life (row : match_record) : fl :=
  let rate := depth_growth_rate row in
  let current := later_depth_pct row in
  if isnan rate || isnan current || (rate <=? 0) then NaN
  else
    let remaining_capacity := WALL_LOSS_REPAIR_THRESHOLD - current in
    if remaining_capacity <=? 0 then Fin 0.0
    else py_round (remaining_capacity / rate) 1.

Definition _classify_growth (rate : fl) : string :=
  if isnan rate then "Unknown"
  else if rate <? 0 then "Apparent Shrinkage"
  else if rate =? 0 then "Stable"
  else if rate <=? 1.0 then "Low"
  else if rate <=? 3.0 then "Moderate"
  else if rate <=? MAX_PLAUSIBLE_GROWTH_RATE then "High"
  else "Severe".

Definition _compute_risk_score (row : match_record) : fl :=
  let depth := later_depth_pct row in
  let rate := depth_growth_rate row in
  let depth : fl := if isnan depth then 0 else depth in
  let rate : fl := if isnan rate || (rate <? 0) then 0 else rate in
  let depth_score := py_min 50 (depth * 50 / WALL_LOSS_REPAIR_THRESHOLD) in
  let rate_score := py_min 50 (rate * 50 / MAX_PLAUSIBLE_GROWTH_RATE) in
  py_round (depth_score + rate_score) 1.

Definition _classify_risk (score : fl) : string :=
  if isnan score then "Unknown"
  else if score >=? 70 then "Critical"
  else if score >=? 50 then "High"
  else if score >=? 30 then "Medium"
  else "Low".

(** [df[name]] for a derived column. *)
Definition column {A : Type} (c : option (list A)) : result (list A) :=
  match c with
  | Some v => Ok v
  | None => Raise KeyError
  end.

(** The five column assignments [df[name] = values]. *)
Definition set_remaining_wall_pct (df : frame) (v : list fl) : frame :=
  {| rows := rows df;
     remaining_wall_pct := Some v;
     remaining_life_years := remaining_life_years df;
     growth_class := growth_class df;
     risk_score := risk_score df;
     risk_category := risk_category df |}.

Definition set_remaining_life_years (df : frame) (v : list fl) : frame :=
  {| rows := rows df;
     remaining_wall_pct := remaining_wall_pct df;
     remaining_life_years := Some v;
     growth_class := growth_class df;
     risk_score := risk_score df;
     risk_category := risk_category df |}.

Definition set_growth_class (df : frame) (v : list string) : frame :=
  {| rows := rows df;
     remaining_wall_pct := remaining_wall_pct df;
     remaining_life_years := remaining_life_years df;
     growth_class := Some v;
     risk_score := risk_score df;
     risk_category := risk_category df |}.

Definition set_risk_score (df : frame) (v : list fl) : frame :=
  {| rows := rows df;
     remaining_wall_pct := remaining_wall_pct df;
     remaining_life_years := remaining_life_years df;
     growth_class := growth_class df;
     risk_score := Some v;
     risk_category := risk_category df |}.

Definition set_risk_category (df : frame) (v : list string) : frame :=
  {| rows := rows df;
     remaining_wall_pct := remaining_wall_pct df;
     remaining_life_years := remaining_life_years df;
     growth_class := growth_class df;
     risk_score := risk_score df;
     risk_category := Some v |}.

Definition calculate_growth_rates (matches_df : frame) : result frame :=
  if empty matches_df then Ok matches_df
  else
    let df := matches_df in
    let df :=
      set_remaining_wall_pct df
        (List.map (fun r => 100.0 - later_depth_pct r) (rows df)) in
    let df := set_remaining_life_years df (List.map _remaining_life (rows df)) in
    let df :=
      set_growth_class df
        (List.map (fun r => _classify_growth (depth_growth_rate r)) (rows df)) in
    let df := set_risk_score df (List.map _compute_risk_score (rows df)) in
    scores ← column (risk_score df);
    Ok (set_risk_category df (List.map _classify_risk scores)).

End Growth.

(** ** multi_run.py *)

Module MultiRun.
Import Config Matching.
Local Open Scope Q_scope.
Local Open Scope fl_scope.

(** One row of the triple-match DataFrame; the columns [joint_<year>],
    ... of the three (distinct) years are the fields [.._y1], [.._y2],
    [.._y3]. *)
Record triple : Type := {
  lifecycle : string;
  joint_y1 : fl;
  distance_y1 : fl;
  clock_y1 : fl;
  depth_y1 : fl;
  length_y1 : fl;
  width_y1 : fl;
  row_idx_y1 : Z;
  joint_y2 : fl;
  distance_y2 : fl;
  clock_y2 : fl;
  depth_y2 : fl;
  length_y2 : fl;
  width_y2 : fl;
  row_idx_y2 : Z;
  joint_y3 : fl;
  distance_y3 : fl;
  clock_y3 : fl;
  depth_y3 : fl;
  length_y3 : fl;
  width_y3 : fl;
  row_idx_y3 : Z;
  confidence_12 : fl;
  confidence_23 : fl;
  min_confidence : fl;
  total_depth_growth : fl;
  total_years : Z;
  overall_growth_rate : fl
}.

Record chain_result : Type := {
  triple_matches : list triple;
  lifecycle_summary : list (string * Z)
}.

Definition _safe_sub (a b : fl) : fl :=
  if isnan a || isnan b then NaN else a - b.

(** [pairwise.get(key, {}).get("matches", pd.DataFrame())] and its two
    siblings. *)
Definition get_matches (pairwise : gmap (Z * Z) match_result) (key : Z * Z)
  : list match_record :=
  match pairwise !! key with Some r => matches r | None => [] end.

Definition get_new (pairwise : gmap (Z * Z) match_result) (key : Z * Z)
  : list DataIngestion.feature :=
  match pairwise !! key with Some r => new_anomalies r | None => [] end.

Definition get_missing (pairwise : gmap (Z * Z) match_result) (key : Z * Z)
  : list DataIngestion.feature :=
  match pairwise !! key with Some r => missing_anomalies r | None => [] end.

Definition len {A : Type} (l : list A) : Z := Z.of_nat (length l).

Definition _build_lifecycle_summary (pairwise : gmap (Z * Z) match_result)
    (y1 y2 y3 : Z) (triple_df : list triple) : list (string * Z) :=
  [ ("Tracked All 3 Runs", len triple_df);
    ("New in " +:+ pretty y2 +:+ " (tracked to " +:+ pretty y3 +:+ ")",
      (len (get_matches pairwise (y2, y3)) - len triple_df)%Z);
    ("New in " +:+ pretty y3, len (get_new pairwise (y2, y3)));
    ("Disappeared after " +:+ pretty y1, len (get_missing pairwise (y1, y2)));
    ("Disappeared after " +:+ pretty y2, len (get_missing pairwise (y2, y3))) ].

(** The loop that fills the dict [y2_to_y1]: a later record with the same
    key replaces an earlier one. *)
Definition build_y2_to_y1 (matches_12 : list match_record)
  : gmap Z match_record :=
  List.fold_left (fun d m12 => <[later_row_idx m12 := m12]> d) matches_12 ∅.

(** The column operation [(growth / years).round(3)] on one row.  With
    [total_years = 0] pandas yields an infinity (or NaN for 0/0), which
    [fl] does not hold; the case is mapped to NaN here and excluded by
    hypothesis wherever this column is reasoned about. *)
Definition growth_per_year (growth : fl) (years : Z) : fl :=
  if Z.eqb years 0 then NaN
  else py_round (growth / inject_Z years) 3.

(** The record one pair [(m12, m23)] contributes, with the
    [overall_growth_rate] column filled in. *)
Definition triple_record (y1 y3 : Z) (m12 m23 : match_record) : triple :=
  let growth := _safe_sub (later_depth_pct m23) (earlier_depth_pct m12) in
  let years := years_between_get YEARS_BETWEEN y1 y3 (y3 - y1)%Z in
  {| lifecycle := "Tracked All 3 Runs";
     joint_y1 := earlier_joint m12;
     distance_y1 := earlier_distance m12;
     clock_y1 := earlier_clock m12;
     depth_y1 := earlier_depth_pct m12;
     length_y1 := earlier_length_in m12;
     width_y1 := earlier_width_in m12;
     row_idx_y1 := earlier_row_idx m12;
     joint_y2 := earlier_joint m23;
     distance_y2 := earlier_distance m23;
     clock_y2 := earlier_clock m23;
     depth_y2 := earlier_depth_pct m23;
     length_y2 := earlier_length_in m23;
     width_y2 := earlier_width_in m23;
     row_idx_y2 := earlier_row_idx m23;
     joint_y3 := later_joint m23;
     distance_y3 := later_distance m23;
     clock_y3 := later_clock m23;
     depth_y3 := later_depth_pct m23;
     length_y3 := later_length_in m23;
     width_y3 := later_width_in m23;
     row_idx_y3 := later_row_idx m23;
     confidence_12 := confidence m12;
     confidence_23 := confidence m23;
     min_confidence := py_min (confidence m12) (confidence m23);
     total_depth_growth := growth;
     total_years := years;
     overall_growth_rate := growth_per_year growth years |}.

Definition chain_three_runs (pairwise : gmap (Z * Z) match_result)
    (years : list Z) : result chain_result :=
  y1 ← iloc years 0;
  y2 ← iloc years 1;
  y3 ← iloc years 2;
  let matches_12 := get_matches pairwise (y1, y2) in
  let matches_23 := get_matches pairwise (y2, y3) in
  match matches_12, matches_23 with
  | [], _ | _, [] => Ok {| triple_matches := []; lifecycle_summary := [] |}
  | _, _ =>
      let y2_to_y1 := build_y2_to_y1 matches_12 in
      let triple_df :=
        List.flat_map (fun m23 =>
            match y2_to_y1 !! earlier_row_idx m23 with
            | Some m12 => [triple_record y1 y3 m12 m23]
            | None => []
            end) matches_23 in
      Ok {| triple_matches := triple_df;
            lifecycle_summary :=
              _build_lifecycle_summary pairwise y1 y2 y3 triple_df |}
  end.

End MultiRun.

(** ** alignment.py, continued: applying the correction *)

Module Correction.
Import DataIngestion Alignment.

(** Calling a [scipy.interpolate.interp1d] object on an array:
    [interp_call c xs] is the array the interpolator [c] returns for the
    inputs [xs], one value per input.  The value at a position may depend
    on the whole array, as it does when the interpolator was told to
    assume sorted anchors and they are not. *)
Class Interpolate : Type := {
  interp_call : interp1d -> list fl -> list fl;
  interp_call_length :
    forall c xs, length (interp_call c xs) = length xs
}.

(** [row["corrected_distance"] = v]. *)
Definition set_corrected_distance (r : feature) (v : fl) : feature :=
  {| joint_number := joint_number r;
     log_distance_ft := log_distance_ft r;
     corrected_distance := v;
     event_type := event_type r;
     depth_pct := depth_pct r;
     length_in := length_in r;
     width_in := width_in r;
     clock_hours := clock_hours r;
     id_od := id_od r;
     wall_thickness_in := wall_thickness_in r;
     comments := comments r;
     run_year := run_year r;
     source_row_idx := source_row_idx r;
     is_anomaly := is_anomaly r;
     is_girth_weld := is_girth_weld r |}.

(** [valid = df["log_distance_ft"].notna()]. *)
Definition valid (r : feature) : bool := notna (log_distance_ft r).

(** The two masked assignments [df.loc[valid, ...] = values] and
    [df.loc[~valid, ...] = np.nan]: the rows with a raw distance take the
    values in order, the others get NaN. *)
Fixpoint assign_corrected (df : list feature) (values : list fl)
  : list feature :=
  match df with
  | [] => []
  | r :: df' =>
      if valid r
      then set_corrected_distance r (hd NaN values)
           :: assign_corrected df' (tl values)
      else set_corrected_distance r NaN :: assign_corrected df' values
  end.

(** The body of the loop for a source year: one call of the corrector, on
    the array of the raw distances that are present. *)
Definition correct_run {ip : Interpolate} (corrector : interp1d)
    (df : list feature) : list feature :=
  let values :=
    interp_call corrector
      (List.map log_distance_ft (List.filter valid df)) in
  assign_corrected df values.

Definition apply_distance_correction {ip : Interpolate}
    (runs : list (Z * list feature)) (gw_alignment : list gw_row)
    (reference_year : Z) : result (list (Z * list feature)) :=
  mapM (fun '(year, df) =>
      if Z.eqb year reference_year then
        Ok (year,
            List.map (fun r => set_corrected_distance r (log_distance_ft r)) df)
      else
        corrector ← build_distance_corrector gw_alignment year reference_year;
        Ok (year, correct_run corrector df))
    runs.

End Correction.

(** ** growth.py, continued: trends over three runs *)

Module Trends.
Import Config Matching MultiRun.
Local Open Scope Q_scope.
Local Open Scope fl_scope.

(** The two fits, whose code is not part of the repository:
    [linregress x y] is [(slope, intercept, r_value)] of
    [scipy.stats.linregress], [polyfit2 x y] the leading coefficient
    [np.polyfit(x, y, 2)[0]]. *)
Class Regression : Type := {
  linregress : list fl -> list fl -> fl * fl * fl;
  polyfit2 : list fl -> list fl -> fl
}.

(** The five columns [predict_growth_trends] adds to a row. *)
Record prediction : Type := {
  linear_rate : fl;
  linear_r2 : fl;
  predicted_2030 : fl;
  predicted_2035 : fl;
  is_accelerating : bool
}.

(** [row.get("depth_<year>", np.nan)] on a row of the triple frame whose
    columns are named after the years [y1], [y2], [y3]. *)
Definition depth_column (y1 y2 y3 : Z) (row : triple) (year : Z) : fl :=
  if Z.eqb year y3 then depth_y3 row
  else if Z.eqb year y2 then depth_y2 row
  else if Z.eqb year y1 then depth_y1 row
  else NaN.

(** The body of the loop over the rows. *)
Definition predict_row {reg : Regression} (y1 y2 y3 : Z) (row : triple)
  : prediction :=
  let years : list fl := [Fin 2007; Fin 2015; Fin 2022] in
  let depths :=
    [ depth_column y1 y2 y3 row 2007;
      depth_column y1 y2 y3 row 2015;
      depth_column y1 y2 y3 row 2022 ] in
  let valid := List.filter (fun yd => notna (snd yd)) (zip years depths) in
  let n_valid := length valid in
  let y_valid := List.map fst valid in
  let d_valid := List.map snd valid in
  let pred :=
    {| linear_rate := NaN; linear_r2 := NaN;
       predicted_2030 := NaN; predicted_2035 := NaN;
       is_accelerating := false |} in
  let pred :=
    if (2 <=? n_valid)%nat then
      let '(slope, intercept, r_value) := linregress y_valid d_valid in
      {| linear_rate := py_round slope 4;
         linear_r2 := py_round (r_value * r_value) 4;
         predicted_2030 := py_round (slope * 2030 + intercept) 1;
         predicted_2035 := py_round (slope * 2035 + intercept) 1;
         is_accelerating := is_accelerating pred |}
    else pred in
  if (n_valid =? 3)%nat then
    {| linear_rate := linear_rate pred;
       linear_r2 := linear_r2 pred;
       predicted_2030 := predicted_2030 pred;
       predicted_2035 := predicted_2035 pred;
       is_accelerating := polyfit2 y_valid d_valid >? 0 |}
  else pred.

(** The triple frame with its prediction columns, row by row; an empty
    frame is returned as it is. *)
Definition predict_growth_trends {reg : Regression} (y1 y2 y3 : Z)
    (multi_run_matches : list triple) : list (triple * prediction) :=
  List.map (fun row => (row, predict_row y1 y2 y3 row)) multi_run_matches.

End Trends.

(** ** multi_run.py, continued: the whole analysis *)

Module FullAnalysis.
Import Config DataIngestion Alignment Matching MultiRun Trends.
Local Open Scope Q_scope.

(** The dict [run_full_analysis] returns.  [chain] is its entry ["chain"]
    and [trends] the frame that replaces [chain["triple_matches"]] when
    [predict_growth_trends] is called; the columns of the triple frame
    are named after the first three years, which the chainer has read by
    then. *)
Record analysis : Type := {
  pairwise : gmap (Z * Z) match_result;
  direct_first_last : option match_result;
  chain : option chain_result;
  trends : option (list (triple * prediction))
}.

(** [YEARS_BETWEEN.get((y_early, y_later), y_later - y_early)]. *)
Definition year_gap (y_early y_later : Z) : Q :=
  inject_Z (years_between_get YEARS_BETWEEN y_early y_later (y_later - y_early)).

(** Body of the loop over the consecutive pairs of years. *)
Definition match_pair {lib : SciPy} (corrected_runs : list (Z * list feature))
    (pw : gmap (Z * Z) match_result) (pair : Z * Z)
  : result (gmap (Z * Z) match_result) :=
  let '(y_early, y_later) := pair in
  let yb := year_gap y_early y_later in
  run_later ← dict_get corrected_runs y_later;
  run_earlier ← dict_get corrected_runs y_early;
  match_result ← match_anomalies run_later run_earlier yb;
  Ok (<[(y_early, y_later) := match_result]> pw).

Definition run_full_analysis {lib : SciPy} {reg : Regression}
    (corrected_runs : list (Z * list feature)) : result analysis :=
  let years := merge_sort Z.le (List.map fst corrected_runs) in
  pairwise ← for_each (match_pair corrected_runs) ∅ (zip years (tail years));
  if (3 <=? length years)%nat then
    y_first ← iloc years 0;
    y_last ← iloc years (length years - 1);
    let yb_direct := year_gap y_first y_last in
    run_last ← dict_get corrected_runs y_last;
    run_first ← dict_get corrected_runs y_first;
    direct_result ← match_anomalies run_last run_first yb_direct;
    chain ← chain_three_runs pairwise years;
    Ok {| pairwise := pairwise;
          direct_first_last := Some direct_result;
          chain := Some chain;
          trends :=
            match triple_matches chain with
            | [] => None
            | rows =>
                Some (predict_growth_trends
                        (nth 0 years 0%Z) (nth 1 years 0%Z) (nth 2 years 0%Z)
                        rows)
            end |}
  else
    Ok {| pairwise := pairwise;
          direct_first_last := None;
          chain := None;
          trends := None |}.

End FullAnalysis.

(** ** data_ingestion.py, continued: clock positions *)

Module ClockCells.
Local Open Scope Q_scope.

(** What a clock-position cell of a sheet can hold: nothing, a
    [datetime.time], a Python int, a float, a string, or anything else. *)
Inductive cell : Type :=
| Missing
| Time (hour minute second : Z)
| Int (n : Z)
| Float (q : Q)
| Text (s : string)
| Other.

(** [int(s)] on a string, whose parsing rules are Python's: [None] stands
    for a ValueError. *)
Class Builtins : Type := {
  py_int : string -> option Z
}.

(** An int where a float is needed, as in [float(n)], [n / 60.0] and
    [n + x]: an int that no double can hold raises an OverflowError. *)
Definition to_float (n : Z) : result Q :=
  if (Z.abs n <? 2 ^ 1024 - 2 ^ 970)%Z then Ok (inject_Z n)
  else Raise OverflowError.

(** The character [:], code point 58. *)
Definition colon : Ascii.ascii := Ascii.ascii_of_nat 58.

(** [s.split(":")]. *)
Fixpoint split_colon (s : string) : list string :=
  match s with
  | EmptyString => [EmptyString]
  | String c s' =>
      if Ascii.eqb c colon then EmptyString :: split_colon s'
      else
        match split_colon s' with
        | p :: ps => String c p :: ps
        | [] => [String c EmptyString]
        end
  end.

(** The [try] catches a ValueError and an IndexError, so the
    OverflowError of an oversized int in a string passes through. *)
Definition _clock_to_hours {py : Builtins} (val : cell) : result fl :=
  match val with
  | Missing => Ok NaN
  | Time hour minute second =>
      let total_hours :=
        inject_Z hour + inject_Z minute / 60.0 + inject_Z second / 3600.0 in
      if Qlt_bool 0 total_hours then Ok (Fin (Qmod total_hours 12.0))
      else Ok NaN
  | Int n =>
      x ← to_float n;
      let hours_24 := x * 24.0 in
      Ok (Fin (Qmod hours_24 12.0))
  | Float q =>
      let hours_24 := q * 24.0 in
      Ok (Fin (Qmod hours_24 12.0))
  | Text s =>
      let parts := split_colon s in
      match py_int (nth 0 parts EmptyString) with
      | None => Ok NaN
      | Some h =>
          match (if (1 <? length parts)%nat
                 then py_int (nth 1 parts EmptyString) else Some 0%Z) with
          | None => Ok NaN
          | Some m =>
              m' ← to_float m;
              h' ← to_float h;
              Ok (Fin (Qmod (h' + m' / 60.0) 12.0))
          end
      end
  | Other => Ok NaN
  end.

End ClockCells.

(** ** integrity_analytics.py: interaction clusters and the dig list *)

Module Integrity.
Import Config Matching Growth.
Local Open Scope Q_scope.
Local Open Scope fl_scope.

(** One entry of the dig list; the dict keys [joint], [distance_ft], ...
    are the fields [dig_joint], [dig_distance_ft], ...; [None] is Python's
    [None]. *)
Record dig_item : Type := {
  dig_joint : option Z;
  dig_distance_ft : option fl;
  dig_clock : option fl;
  dig_depth_pct : fl;
  dig_growth_rate : fl;
  dig_remaining_life_years : option fl;
  dig_event_type : string;
  dig_id_od : string;
  dig_wall_thickness_in : option fl;
  dig_urgency_score : fl;
  dig_category : string;
  dig_priority : Z;
  dig_risk_category : string;
  dig_confidence : string
}.

(** [row.get(name, default)] for a derived column, on the row at
    position [i]. *)
Definition row_get {A : Type} (c : option (list A)) (i : nat) (default : A)
  : A :=
  match c with
  | Some v => nth i v default
  | None => default
  end.

(** [round(float(x), n) if not pd.isna(x) else None]. *)
Definition round_or_none (x : fl) (n : nat) : option fl :=
  if isnan x then None else Some (py_round x n).

(** Unary minus. *)
Definition fneg (x : fl) : fl :=
  match x with NaN => NaN | Fin q => Fin (- q) end.

(** *** Interaction assessment *)

(** One interaction cluster; the dict keys [cluster_id], [anomaly_count],
    ... are the fields [ia_cluster_id], [ia_anomaly_count], ... *)
Record interaction : Type := {
  ia_cluster_id : Z;
  ia_anomaly_count : Z;
  ia_start_distance_ft : fl;
  ia_end_distance_ft : fl;
  ia_span_ft : fl;
  ia_effective_length_in : fl;
  ia_max_depth_pct : fl;
  ia_avg_depth_pct : fl;
  ia_max_growth_rate : option fl;
  ia_max_risk_score : option fl;
  ia_joint : option Z;
  ia_wall_thickness_in : fl;
  ia_interaction_threshold_in : fl;
  ia_severity : string
}.

(** [series.max()] and [series.min()], which skip missing values and give
    NaN for a series without a value. *)
Definition series_max (l : list fl) : fl :=
  match List.filter notna l with
  | [] => NaN
  | x :: v => List.fold_left py_max v x
  end.

Definition series_min (l : list fl) : fl :=
  match List.filter notna l with
  | [] => NaN
  | x :: v => List.fold_left py_min v x
  end.

(** [series.fillna(value)], on one cell. *)
Definition fillna (x value : fl) : fl := if isnan x then value else x.

(** A row of the working frame [df]: of the columns selected, seven are
    fields of the match record and the eighth is the cell of the derived
    column ["risk_score"], NaN when the frame has no such column (the
    maximum of a column of NaN is NaN, as [pd.Series().max()] is). *)
Definition work_row : Type := (match_record * fl)%type.

Definition distance_of (r : work_row) : fl := later_distance (fst r).

(** [sort_values("later_distance")] on rows that all have a distance, as
    an insertion sort that keeps the order of rows at the same distance
    (pandas leaves the order of such rows to numpy's sort). *)
Fixpoint insert_row (r : work_row) (l : list work_row) : list work_row :=
  match l with
  | [] => [r]
  | r' :: l' =>
      if distance_of r' <? distance_of r then r' :: insert_row r l'
      else r :: l
  end.

Definition sort_rows (l : list work_row) : list work_row :=
  List.fold_right insert_row [] l.

(** [matches_df[available].dropna(subset=["later_distance",
    "later_depth_pct"])], sorted and re-indexed. *)
Definition work_rows (matches_df : frame) : list work_row :=
  List.filter
    (fun r => notna (later_distance (fst r)) && notna (later_depth_pct (fst r)))
    (imap (fun i row => (row, row_get (risk_score matches_df) i NaN))
       (rows matches_df)).

(** The [while] loop: the rows after [row_i] that join its cluster, each
    within the threshold of the one added before it; the clear spacing
    always subtracts the length of [row_i]. *)
Fixpoint chain_forward (row_i : work_row) (threshold_ft last_dist : fl)
    (rest : list work_row) : list work_row :=
  match rest with
  | [] => []
  | r :: rest' =>
      let next_dist := distance_of r in
      let spacing := next_dist - last_dist in
      let length_i := later_length_in (fst row_i) in
      let length_i : fl := if isnan length_i then 0 else length_i in
      let clear_spacing := spacing - length_i / 12.0 in
      if clear_spacing <=? threshold_ft
      then r :: chain_forward row_i threshold_ft next_dist rest'
      else []
  end.

(** The dict appended for a cluster that starts at [row_i] and goes on
    with the rows [tail]; [n_before] is [len(interactions)]. *)
Definition cluster_record (n_before : nat) (wt : fl) (row_i : work_row)
    (tail : list work_row) : interaction :=
  let members := row_i :: tail in
  let dists := List.map distance_of members in
  let depths := List.map (fun r => later_depth_pct (fst r)) members in
  let total_span_ft := series_max dists - series_min dists in
  let member_lengths := List.map (fun r => later_length_in (fst r)) members in
  let total_length_in :=
    total_span_ft * 12
    + series_max (List.map (fun x => fillna x 0) member_lengths) in
  let max_depth := series_max depths in
  let avg_depth := series_mean depths in
  let max_growth :=
    series_max (List.map (fun r => depth_growth_rate (fst r)) members) in
  let max_risk := series_max (List.map snd members) in
  let severity :=
    if (max_depth >=? 60) || (4 <=? length members)%nat then "HIGH"
    else if (max_depth >=? 40) || (3 <=? length members)%nat then "MEDIUM"
    else "LOW" in
  {| ia_cluster_id := Z.of_nat n_before + 1;
     ia_anomaly_count := Z.of_nat (length members);
     ia_start_distance_ft := py_round (series_min dists) 2;
     ia_end_distance_ft := py_round (series_max dists) 2;
     ia_span_ft := py_round total_span_ft 2;
     ia_effective_length_in := py_round total_length_in 1;
     ia_max_depth_pct := py_round max_depth 1;
     ia_avg_depth_pct := py_round avg_depth 1;
     ia_max_growth_rate := round_or_none max_growth 3;
     ia_max_risk_score := round_or_none max_risk 1;
     ia_joint :=
       match later_joint (fst row_i) with
       | NaN => None
       | Fin q => Some (Qtrunc q)
       end;
     ia_wall_thickness_in := py_round wt 3;
     ia_interaction_threshold_in := py_round (6 * wt) 2;
     ia_severity := severity |}.

(** The body of the loop over [range(len(df))]: the state is
    [(interactions, used)].  ([df.iloc[i]] is inside the frame for every
    [i] of the range.) *)
Definition cluster_step (df : list work_row)
    (st : list interaction * gset nat) (i : nat)
  : list interaction * gset nat :=
  let '(interactions, used) := st in
  if bool_decide (i ∈ used) then st
  else
    match df !! i with
    | None => st
    | Some row_i =>
        let wt := later_wall_thickness (fst row_i) in
        let wt : fl := if isnan wt || (wt <=? 0) then 0.3 else wt in
        let threshold_ft := 6 * wt / 12.0 in
        let tail :=
          chain_forward row_i threshold_ft (distance_of row_i)
            (drop (S i) df) in
        let used := used ∪ list_to_set (seq (S i) (length tail)) in
        if (2 <=? length (row_i :: tail))%nat
        then ((interactions
               ++ [cluster_record (length interactions) wt row_i tail])%list,
              {[i]} ∪ used)
        else (interactions, used)
    end.

Definition interaction_clusters (df : list work_row) : list interaction :=
  fst (List.fold_left (cluster_step df) (seq 0 (length df)) ([], ∅)).

Definition interaction_assessment (matches_df : frame) : list interaction :=
  if empty matches_df then []
  else
    let df := sort_rows (work_rows matches_df) in
    if (length df <? 2)%nat then [] else interaction_clusters df.

(** *** Dig list *)

(** The body of the loop over the rows: [None] is the [continue] of a
    row that is shallow and slow. *)
Definition dig_row (df : frame) (i : nat) (row : match_record)
  : option dig_item :=
  let depth := later_depth_pct row in
  let rate := depth_growth_rate row in
  let rem_life := row_get (remaining_life_years df) i NaN in
  let depth : fl := if isnan depth then 0 else depth in
  let rate : fl := if isnan rate || (rate <? 0) then 0 else rate in
  let rem_life : fl := if isnan rem_life then 999 else rem_life in
  if (depth <? 20) && (rate <=? 0.5) then None
  else
    let depth_score := py_min 40 (depth / WALL_LOSS_REPAIR_THRESHOLD * 40) in
    let rate_score := py_min 30 (rate / MAX_PLAUSIBLE_GROWTH_RATE * 30) in
    let life_score : fl :=
      if rem_life <=? 0 then 30
      else if rem_life >=? 15 then 0
      else 30 * (1 - rem_life / 15) in
    let urgency := py_round (depth_score + rate_score + life_score) 1 in
    let '(category, priority) :=
      if (urgency >=? 75) || (depth >=? 70) || (rem_life <? 3)
      then ("IMMEDIATE", 1%Z)
      else if (urgency >=? 50) || (depth >=? 50) || (rem_life <? 7)
      then ("SCHEDULED", 2%Z)
      else ("MONITOR", 3%Z) in
    Some {| dig_joint :=
              match later_joint row with
              | NaN => None
              | Fin q => Some (Qtrunc q)
              end;
            dig_distance_ft := round_or_none (later_distance row) 2;
            dig_clock := round_or_none (later_clock row) 1;
            dig_depth_pct := py_round depth 1;
            dig_growth_rate := py_round rate 3;
            dig_remaining_life_years :=
              if rem_life <? 999 then Some (py_round rem_life 1) else None;
            dig_event_type := later_event_type row;
            dig_id_od := later_id_od row;
            dig_wall_thickness_in :=
              round_or_none (later_wall_thickness row) 3;
            dig_urgency_score := urgency;
            dig_category := category;
            dig_priority := priority;
            dig_risk_category := row_get (risk_category df) i "";
            dig_confidence := confidence_label row |}.

(** The sort key [(x["priority"], -x["urgency_score"])] and its order. *)
Definition key_lt (a b : dig_item) : bool :=
  (dig_priority a <? dig_priority b)%Z
  || ((dig_priority a =? dig_priority b)%Z
      && (fneg (dig_urgency_score a) <? fneg (dig_urgency_score b))).

(** [list.sort(key=...)], which keeps the order of items with equal keys,
    as an insertion sort. *)
Fixpoint insert_item (x : dig_item) (l : list dig_item) : list dig_item :=
  match l with
  | [] => [x]
  | y :: l' => if key_lt y x then y :: insert_item x l' else x :: l
  end.

Definition sort_items (l : list dig_item) : list dig_item :=
  List.fold_right insert_item [] l.

(** The items before the sort: the rows with a later depth, in row order,
    without those the loop skips. *)
Definition dig_items (df : frame) : list dig_item :=
  List.flat_map
    (fun '(i, row) =>
       if notna (later_depth_pct row)
       then match dig_row df i row with Some item => [item] | None => [] end
       else [])
    (imap pair (rows df)).

Definition generate_dig_list (matches_df : frame) : list dig_item :=
  if empty matches_df then [] else sort_items (dig_items matches_df).

End Integrity.

(** ** virtual_ili.py *)

Module VirtualILI.
Import Config Matching Growth MultiRun Integrity.
Local Open Scope Q_scope.
Local Open Scope fl_scope.

(** The frame [chain["triple_matches"]]: its rows, the three years its
    columns are named after, and the column ["linear_rate"], present or
    not. *)
Record triple_frame : Type := {
  t_years : Z * Z * Z;
  t_rows : list triple;
  t_linear_rate : option (list fl)
}.

(** What the function reads of [cache]: the dict [results["pairwise"]] as
    the list of its keys in insertion order, each with the frame
    [pairwise[key]["matches"]], and the triple frame.  Every [.get] on the
    way has an empty dict or an empty frame as default, so a missing entry
    is the empty one here. *)
Record cache : Type := {
  c_pairwise : list (Z * Z * frame);
  c_triple : triple_frame
}.

(** A scalar, as far as [_safe] tells scalars apart: [None], a NumPy
    integer, a NumPy float, a Python int, a Python float. *)
Inductive scalar : Type :=
| PyNone
| NpInteger (n : Z)
| NpFloating (x : fl)
| PyInt (n : Z)
| PyFloat (x : fl).

(** One prediction; the dict keys [joint], [distance_ft], ... are the
    fields [p_joint], [p_distance_ft], ...  In [p_years_to_80pct], [None]
    is Python's [None]. *)
Record forecast : Type := {
  p_joint : scalar;
  p_distance_ft : scalar;
  p_clock : scalar;
  p_current_depth_2022 : fl;
  p_growth_rate : fl;
  p_predicted_depth : fl;
  p_predicted_risk : string;
  p_years_to_80pct : option fl;
  p_event_type : string;
  p_confidence : string;
  p_is_triple_tracked : bool
}.

Record summary : Type := {
  s_target_year : Z;
  s_years_forward : Z;
  s_total_predicted : Z;
  s_mean_predicted_depth : fl;
  s_max_predicted_depth : fl;
  s_critical_count : Z;
  s_high_count : Z;
  s_medium_count : Z;
  s_low_count : Z;
  s_needing_repair_by_target : Z
}.

Record report : Type := {
  r_summary : summary;
  r_risk_distribution : gmap string Z;
  r_threshold_crossings : list (string * Z);
  r_depth_distribution : list (string * Z);
  r_top_concerns : list forecast;
  r_all_predictions : list forecast
}.

(** The dict returned: [{"error": msg}] or the report. *)
Inductive outcome : Type :=
| Error (msg : string)
| Report (r : report).

(** Only a NumPy scalar is converted; any other value is returned as it
    is. *)
Definition _safe (v : scalar) : scalar :=
  match v with
  | PyNone => PyNone
  | NpInteger n => PyInt n
  | NpFloating x => if isnan x then PyNone else PyFloat (py_round x 2)
  | _ => v
  end.

(** [key in pairwise] and [pairwise[key]]. *)
Definition has_key (pairwise : list (Z * Z * frame)) (key : Z * Z) : bool :=
  existsb (fun kv => bool_decide (fst kv = key)) pairwise.

Fixpoint pairwise_get (pairwise : list (Z * Z * frame)) (key : Z * Z)
  : result frame :=
  match pairwise with
  | [] => Raise KeyError
  | (k, v) :: pairwise' =>
      if bool_decide (k = key) then Ok v else pairwise_get pairwise' key
  end.

(** [triple["joint_2022"]]: the column exists when one of the three years
    is 2022. *)
Definition joint_2022 (tf : triple_frame) : result (list fl) :=
  let '(y1, y2, y3) := t_years tf in
  if (y3 =? 2022)%Z then Ok (List.map joint_y3 (t_rows tf))
  else if (y2 =? 2022)%Z then Ok (List.map joint_y2 (t_rows tf))
  else if (y1 =? 2022)%Z then Ok (List.map joint_y1 (t_rows tf))
  else Raise KeyError.

(** The position of the first row of [triple[triple["joint_2022"] == j]],
    counted from position [i]. *)
Fixpoint find_joint (col : list fl) (j : fl) (i : nat) : option nat :=
  match col with
  | [] => None
  | x :: col' => if x =? j then Some i else find_joint col' j (S i)
  end.

(** The rate to extrapolate with and [is_triple]. *)
Definition refine_rate (triple : triple_frame) (row : match_record)
    (growth_rate : fl) : result (fl * bool) :=
  match t_rows triple with
  | [] => Ok (growth_rate, false)
  | _ =>
      let j := later_joint row in
      col ← joint_2022 triple;
      match find_joint col j 0 with
      | None => Ok (growth_rate, false)
      | Some k =>
          let lr := row_get (t_linear_rate triple) k NaN in
          if isnan lr then Ok (growth_rate, false) else Ok (lr, true)
      end
  end.

(** The body of the loop over the rows: [None] is a [continue].  The
    matches frame has columns of strings next to its columns of numbers,
    so the row that [iterrows] hands out holds its numbers as Python
    floats. *)
Definition predict_row (triple : triple_frame) (years_forward : Z)
    (row : match_record) : result (option forecast) :=
  let current_depth := later_depth_pct row in
  let growth_rate := depth_growth_rate row in
  if isnan current_depth || isnan growth_rate then Ok None
  else
    '(refined_rate, is_triple) ← refine_rate triple row growth_rate;
    if refined_rate <? 0 then Ok None
    else
      let predicted_depth :=
        current_depth + refined_rate * Fin (inject_Z years_forward) in
      let predicted_depth := py_max 0 (py_min 100 predicted_depth) in
      let remaining_capacity :=
        WALL_LOSS_REPAIR_THRESHOLD - predicted_depth in
      let years_to_threshold : option fl :=
        if refined_rate >? 0
        then Some (if remaining_capacity >? 0
                   then remaining_capacity / refined_rate else 0)
        else None in
      let risk :=
        if predicted_depth >=? 70 then "Critical"
        else if predicted_depth >=? 50 then "High"
        else if predicted_depth >=? 30 then "Medium"
        else "Low" in
      Ok (Some
            {| p_joint := _safe (PyFloat (later_joint row));
               p_distance_ft := _safe (PyFloat (later_distance row));
               p_clock := _safe (PyFloat (later_clock row));
               p_current_depth_2022 := py_round current_depth 1;
               p_growth_rate := py_round refined_rate 3;
               p_predicted_depth := py_round predicted_depth 1;
               p_predicted_risk := risk;
               p_years_to_80pct :=
                 match years_to_threshold with
                 | Some y => Some (py_round y 1)
                 | None => None
                 end;
               p_event_type := later_event_type row;
               p_confidence := confidence_label row;
               p_is_triple_tracked := is_triple |}).

(** [int(mask.sum())] for a mask over the predictions. *)
Definition count_where (p : forecast -> bool) (l : list forecast) : Z :=
  Z.of_nat (length (List.filter p l)).

(** [pred_df["predicted_risk"].value_counts().to_dict()]. *)
Definition value_counts (l : list forecast) : gmap string Z :=
  List.fold_left
    (fun d p =>
       <[p_predicted_risk p := (default 0 (d !! p_predicted_risk p) + 1)%Z]> d)
    l ∅.

(** [pred_df.nlargest(n, "predicted_depth")]: the rows by falling
    predicted depth, rows of the same depth in their order, cut after
    [n]. *)
Fixpoint insert_desc (x : forecast) (l : list forecast) : list forecast :=
  match l with
  | [] => [x]
  | y :: l' =>
      if p_predicted_depth y <=? p_predicted_depth x then x :: l
      else y :: insert_desc x l'
  end.

Definition nlargest (n : nat) (l : list forecast) : list forecast :=
  take n (List.fold_right insert_desc [] l).

Definition crossing (thresh : fl) (l : list forecast) : Z :=
  count_where
    (fun p => (p_current_depth_2022 p <? thresh)
              && (p_predicted_depth p >=? thresh)) l.

Definition predict_future_inspection (c : cache) (target_year : Z)
  : result outcome :=
  let pairwise := c_pairwise c in
  let triple := c_triple c in
  let key : option (Z * Z) :=
    if has_key pairwise (2015, 2022)%Z then Some (2015, 2022)%Z
    else
      match pairwise with
      | [] => None
      | kv :: _ => Some (fst (List.last pairwise kv))
      end in
  match key with
  | None => Ok (Error "No match data available")
  | Some key =>
      matches ← pairwise_get pairwise key;
      if empty matches then Ok (Error "No matches to extrapolate")
      else
        let base_year := 2022%Z in
        let years_forward := (target_year - base_year)%Z in
        if (years_forward <=? 0)%Z
        then Ok (Error "Target year must be after 2022")
        else
          outs ← mapM (predict_row triple years_forward) (rows matches);
          let predictions := omap id outs in
          match predictions with
          | [] => Ok (Error "No predictions could be generated")
          | _ =>
              let depths := List.map p_predicted_depth predictions in
              Ok (Report
                {| r_summary :=
                     {| s_target_year := target_year;
                        s_years_forward := years_forward;
                        s_total_predicted := Z.of_nat (length predictions);
                        s_mean_predicted_depth :=
                          py_round (series_mean depths) 1;
                        s_max_predicted_depth :=
                          py_round (series_max depths) 1;
                        s_critical_count :=
                          count_where
                            (fun p => String.eqb (p_predicted_risk p) "Critical")
                            predictions;
                        s_high_count :=
                          count_where
                            (fun p => String.eqb (p_predicted_risk p) "High")
                            predictions;
                        s_medium_count :=
                          count_where
                            (fun p => String.eqb (p_predicted_risk p) "Medium")
                            predictions;
                        s_low_count :=
                          count_where
                            (fun p => String.eqb (p_predicted_risk p) "Low")
                            predictions;
                        s_needing_repair_by_target :=
                          count_where
                            (fun p => p_predicted_depth p
                                      >=? WALL_LOSS_REPAIR_THRESHOLD)
                            predictions |};
                   r_risk_distribution := value_counts predictions;
                   r_threshold_crossings :=
                     [ ("crossing_50pct", crossing 50 predictions);
                       ("crossing_60pct", crossing 60 predictions);
                       ("crossing_70pct", crossing 70 predictions);
                       ("crossing_80pct", crossing 80 predictions) ];
                   r_depth_distribution :=
                     [ ("0-20%",
                        count_where (fun p => p_predicted_depth p <? 20)
                          predictions);
                       ("20-40%",
                        count_where
                          (fun p => (p_predicted_depth p >=? 20)
                                    && (p_predicted_depth p <? 40))
                          predictions);
                       ("40-60%",
                        count_where
                          (fun p => (p_predicted_depth p >=? 40)
                                    && (p_predicted_depth p <? 60))
                          predictions);
                       ("60-80%",
                        count_where
                          (fun p => (p_predicted_depth p >=? 60)
                                    && (p_predicted_depth p <? 80))
                          predictions);
                       ("80-100%",
                        count_where (fun p => p_predicted_depth p >=? 80)
                          predictions) ];
                   r_top_concerns := nlargest 20 predictions;
                   r_all_predictions := predictions |})
          end
  end.

End VirtualILI.

(** ** A reference instance of the library interface

    Exact-arithmetic stand-ins for the library calls, used to run the
    matcher on concrete runs: the ball query compares squared Euclidean
    distances, the solver searches all one-to-one assignments of the shorter
    side and returns the first one of least total cost, and cos and sin are
    short Taylor polynomials. *)

Module Reference.
Import Matching.
Local Open Scope Q_scope.
Local Open Scope fl_scope.

Definition sq (x : fl) : fl := x * x.

Definition within (p x : point) (r : fl) : bool :=
  let '(p1, p2, p3) := p in
  let '(x1, x2, x3) := x in
  sq (p1 - x1) + sq (p2 - x2) + sq (p3 - x3) <=? sq r.

Definition cos_taylor (t : fl) : fl :=
  1 - sq t / 2 + sq (sq t) / 24.

Definition sin_taylor (t : fl) : fl :=
  t - t * sq t / 6 + t * sq (sq t) / 120.

(** All ways to give each of [rows] its own element of [cols]. *)
Fixpoint assignments (rows cols : list nat) : list (list (nat * nat)) :=
  match rows with
  | [] => [[]]
  | i :: rows' =>
      List.flat_map
        (fun j =>
           List.map (cons (i, j))
             (assignments rows' (List.remove Nat.eq_dec j cols)))
        cols
  end.

Definition cell (cost : list (list fl)) (ij : nat * nat) : fl :=
  match cost !! fst ij with
  | Some row => match row !! snd ij with Some c => c | None => NaN end
  | None => NaN
  end.

Definition total_cost (cost : list (list fl)) (a : list (nat * nat)) : fl :=
  List.fold_left (fun s ij => s + cell cost ij) a 0.

Definition cheapest (cost : list (list fl)) (l : list (list (nat * nat)))
  : list (nat * nat) :=
  match l with
  | [] => []
  | a :: l' =>
      List.fold_left
        (fun best b => if total_cost cost b <? total_cost cost best then b else best)
        l' a
  end.

Fixpoint insert_pair (p : nat * nat) (l : list (nat * nat)) : list (nat * nat) :=
  match l with
  | [] => [p]
  | q :: l' => if (fst q <=? fst p)%nat then q :: insert_pair p l' else p :: l
  end.

Definition solve (cost : list (list fl)) : list nat * list nat :=
  let n := length cost in
  let m := match cost with [] => 0%nat | row :: _ => length row end in
  let pairs :=
    if (n <=? m)%nat then cheapest cost (assignments (seq 0 n) (seq 0 m))
    else
      List.fold_right insert_pair []
        (cheapest cost
           (List.map (List.map (fun '(j, i) => (i, j)))
              (assignments (seq 0 m) (seq 0 n)))) in
  (List.map fst pairs, List.map snd pairs).

Definition scipy : SciPy := {|
  np_pi := Fin 3.141592653589793;
  np_cos := cos_taylor;
  np_sin := sin_taylor;
  kd_within := within;
  linear_sum_assignment := solve
|}.

End Reference.

(** ** Reference instances of the other library interfaces

    Exact-arithmetic stand-ins, used to run the embedded code on concrete
    inputs: piecewise linear interpolation on anchors in increasing order,
    with extrapolation from the first and the last segment, the least-squares line (without its
    correlation coefficient, which needs a square root), the parabola
    through three points, and [int] on an optionally signed string of
    decimal digits. *)

Module ReferenceMore.
Import Alignment Correction Trends ClockCells.
Local Open Scope Q_scope.
Local Open Scope fl_scope.

Fixpoint interp_linear (xs ys : list fl) (x : fl) : fl :=
  match xs, ys with
  | x0 :: ((x1 :: xs'') as xs'), y0 :: ((y1 :: _) as ys') =>
      match xs'' with
      | [] => y0 + (x - x0) * (y1 - y0) / (x1 - x0)
      | _ :: _ =>
          if x <=? x1 then y0 + (x - x0) * (y1 - y0) / (x1 - x0)
          else interp_linear xs' ys' x
      end
  | _, _ => NaN
  end.

Definition interpolate : Interpolate := {|
  interp_call := fun c xs =>
    List.map (interp_linear (interp_x c) (interp_y c)) xs;
  interp_call_length := fun c xs =>
    List.length_map (interp_linear (interp_x c) (interp_y c)) xs
|}.

Definition total (l : list fl) : fl := List.fold_left fadd l 0.

Definition mean (l : list fl) : fl :=
  total l / inject_Z (Z.of_nat (length l)).

Definition least_squares (xs ys : list fl) : fl * fl * fl :=
  let mx := mean xs in
  let my := mean ys in
  let sxy := total (List.map (fun p => (fst p - mx) * (snd p - my)) (zip xs ys)) in
  let sxx := total (List.map (fun x => (x - mx) * (x - mx)) xs) in
  let slope := sxy / sxx in
  (slope, my - slope * mx, NaN).

Definition parabola_lead (xs ys : list fl) : fl :=
  match xs, ys with
  | [x1; x2; x3], [y1; y2; y3] =>
      ((y3 - y1) / (x3 - x1) - (y2 - y1) / (x2 - x1)) / (x3 - x2)
  | _, _ => NaN
  end.

Definition regression : Regression := {|
  linregress := least_squares;
  polyfit2 := parabola_lead
|}.

Definition digit (c : Ascii.ascii) : option Z :=
  let n := Z.of_nat (Ascii.nat_of_ascii c) in
  if ((48 <=? n) && (n <=? 57))%Z then Some (n - 48)%Z else None.

Fixpoint digits (acc : Z) (s : string) : option Z :=
  match s with
  | EmptyString => Some acc
  | String c s' =>
      match digit c with
      | Some d => digits (10 * acc + d)%Z s'
      | None => None
      end
  end.

Definition int_of_string (s : string) : option Z :=
  match s with
  | EmptyString => None
  | String c s' =>
      if Ascii.eqb c (Ascii.ascii_of_nat 45) then
        match s' with
        | EmptyString => None
        | _ => option_map Z.opp (digits 0 s')
        end
      else digits 0 s
  end.

Definition builtins : Builtins := {| py_int := int_of_string |}.

End ReferenceMore.

(** * Vocabulary of the statements *)

(** ** Concrete rows *)

Module Examples.
Import DataIngestion Matching.
Local Open Scope Q_scope.

(** An anomaly row of an aligned run. *)
Definition anomaly (idx : Z) (joint dist clock depth len wid : fl)
    (type : string) : feature :=
  {| joint_number := joint;
     log_distance_ft := dist;
     corrected_distance := dist;
     event_type := type;
     depth_pct := depth;
     length_in := len;
     width_in := wid;
     clock_hours := clock;
     id_od := "External";
     wall_thickness_in := Fin 0.3;
     comments := "";
     run_year := 2015;
     source_row_idx := idx;
     is_anomaly := true;
     is_girth_weld := false |}.

(** A girth weld. *)
Definition girth_weld (year idx : Z) (joint dist : fl) : feature :=
  {| joint_number := joint;
     log_distance_ft := dist;
     corrected_distance := dist;
     event_type := "Girth Weld";
     depth_pct := NaN;
     length_in := NaN;
     width_in := NaN;
     clock_hours := NaN;
     id_od := "Unknown";
     wall_thickness_in := Fin 0.3;
     comments := "";
     run_year := year;
     source_row_idx := idx;
     is_anomaly := false;
     is_girth_weld := true |}.

(** A match row with the given row indices, confidence, depths and
    annual depth growth rate. *)
Definition matched (earlier_idx later_idx : Z) (conf : fl)
    (earlier_depth later_depth rate : fl) : match_record :=
  {| similarity := Fin 0.9;
     confidence := conf;
     confidence_label := "HIGH";
     earlier_year := 2015;
     earlier_joint := Fin 5;
     earlier_distance := Fin 1000;
     earlier_orig_distance := Fin 1000;
     earlier_clock := Fin 3;
     earlier_depth_pct := earlier_depth;
     earlier_length_in := Fin 2;
     earlier_width_in := Fin 1;
     earlier_event_type := "Metal Loss";
     earlier_id_od := "External";
     earlier_comments := "";
     earlier_wall_thickness := Fin 0.3;
     earlier_row_idx := earlier_idx;
     later_year := 2022;
     later_joint := Fin 5;
     later_distance := Fin 1000;
     later_orig_distance := Fin 1000;
     later_clock := Fin 3;
     later_depth_pct := later_depth;
     later_length_in := Fin 2;
     later_width_in := Fin 1;
     later_event_type := "Metal Loss";
     later_id_od := "External";
     later_comments := "";
     later_wall_thickness := Fin 0.3;
     later_row_idx := later_idx;
     years_between := 7;
     depth_growth_pct := NaN;
     depth_growth_rate := rate;
     length_growth_in := Fin 0;
     length_growth_rate := Fin 0;
     width_growth_in := Fin 0;
     width_growth_rate := Fin 0 |}.

End Examples.

(** ** Growth scorer *)

Section GrowthVocabulary.
Import Config Matching Growth.
Local Open Scope Q_scope.


(** The order in which two cells of a column can stand when a row is
    changed in that column only: unchanged, or both present and not
    decreasing. *)
Definition cell_le (x y : fl) : Prop :=
  x = y \/ exists a b, x = Fin a /\ y = Fin b /\ a <= b.

(** The depth the risk score works with: a missing depth counts as 0. *)
Definition risk_depth (x : fl) : Q := match x with NaN => 0 | Fin d => d end.

(** The rate the risk score works with: missing or negative counts as 0. *)
Definition risk_rate (x : fl) : Q :=
  match x with NaN => 0 | Fin r => if Qlt_bool r 0 then 0 else r end.

End GrowthVocabulary.

(** ** Chainer *)

Section ChainVocabulary.
Import Config Matching MultiRun.
Local Open Scope Q_scope.


(** Two pairwise results that chain row 1 of 2007 to row 2 of 2015 to row 3
    of 2022, with depths 10, 10.5 and 11. *)
Definition chained_pairs : gmap (Z * Z) match_result :=
  let result_of m :=
    {| matches := [m]; new_anomalies := []; missing_anomalies := [];
       stats := ∅ |} in
  <[(2007, 2015)%Z :=
      result_of (Examples.matched 1 2 (Fin 0.9) (Fin 10) (Fin 10.5) (Fin 0.063))]>
 (<[(2015, 2022)%Z :=
      result_of (Examples.matched 2 3 (Fin 0.8) (Fin 10.5) (Fin 11) (Fin 0.071))]>
    ∅).

End ChainVocabulary.

(** ** Aligner *)

Section AlignmentVocabulary.
Import Config DataIngestion Alignment.
Local Open Scope Q_scope.

(** The rows of the table before and after the delta columns are added. *)
Definition same_dists (r r' : gw_row) : Prop :=
  gw_joint_number r' = gw_joint_number r /\ gw_dist r' = gw_dist r.


(** The [joint_sets] of [match_girth_welds]: per run, the joint numbers of
    its girth welds. *)
Definition joint_sets (runs : list (Z * list feature)) : list (list Z) :=
  List.map (fun '(_, s) => List.map fst s)
    (List.map (fun '(year, df) => (year, drop_duplicates (get_girth_welds df)))
       runs).




End AlignmentVocabulary.

(** ** Matcher *)

Section MatchingVocabulary.
Import Config DataIngestion Matching.
Context {lib : SciPy}.
Local Open Scope Q_scope.

(** The three exact gates of the candidate loop. *)
Definition gate (a_l a_e : feature) : bool :=
  negb (fgt (fabs (fsub (corrected_distance a_l) (corrected_distance a_e)))
            DISTANCE_TOLERANCE_FT)
  && negb (fgt (clock_distance (clock_hours a_l) (clock_hours a_e))
               CLOCK_TOLERANCE_HOURS)
  && types_compatible (event_type a_l) (event_type a_e).

(** The cost the candidate loop writes for a pair that passes the gates. *)
Definition pair_cost (a_l a_e : feature) (yb : Q) : fl :=
  fsub 1.0 (compute_similarity a_l a_e yb).

(** A row of the cost matrix: every cell still holds the sentinel or the
    cost of a pair that passed the gates. *)
Definition row_ok (a_l : feature) (anom_earlier : list feature) (yb : Q)
    (row : list fl) : Prop :=
  length row = length anom_earlier /\
  forall j c, row !! j = Some c ->
    c = LARGE_COST \/
    exists a_e, anom_earlier !! j = Some a_e /\ gate a_l a_e = true /\
                c = pair_cost a_l a_e yb.

(** What a match row records of the pair it was built from. *)
Definition record_for (a_l a_e : feature) (m : match_record) : Prop :=
  later_row_idx m = source_row_idx a_l /\
  earlier_row_idx m = source_row_idx a_e /\
  later_distance m = py_round (corrected_distance a_l) 2 /\
  earlier_distance m = py_round (corrected_distance a_e) 2 /\
  later_clock m = py_round (clock_hours a_l) 2 /\
  earlier_clock m = py_round (clock_hours a_e) 2.

(** The solver's contract, as far as the matcher relies on it: no row and
    no column is used twice, and every index is inside the matrix. *)
Definition valid_assignment (n m : nat) (pairs : list (nat * nat)) : Prop :=
  NoDup (List.map fst pairs) /\ NoDup (List.map snd pairs) /\
  Forall (fun p => (fst p < n)%nat /\ (snd p < m)%nat) pairs.

(** The cost below which an assigned pair is kept. *)
Definition cost_cut : fl := fsub 1.0 LOW_CONFIDENCE.

(** Whether the loop over the assignment keeps the pair. *)
Definition keptb (cost_matrix : list (list fl)) (p : nat * nat) : bool :=
  match cost_matrix !! fst p with
  | Some row =>
      match row !! snd p with
      | Some c => negb (fge c cost_cut)
      | None => false
      end
  | None => false
  end.

Definition kept_pair (anom_later anom_earlier : list feature)
    (p : nat * nat) (m : match_record) : Prop :=
  exists a_l a_e,
    anom_later !! fst p = Some a_l /\ anom_earlier !! snd p = Some a_e /\
    record_for a_l a_e m.

(** The cost matrix the candidate scan builds, and the pairs the solver
    assigns on it. *)
Definition cost_matrix_of (anom_later anom_earlier : list feature) (yb : Q)
  : list (list fl) :=
  match mapM (scan_later (_build_search_points anom_earlier) anom_earlier yb)
          anom_later with
  | Ok scanned => List.map fst scanned
  | Raise _ => []
  end.

Definition assignment_of (anom_later anom_earlier : list feature) (yb : Q)
  : list (nat * nat) :=
  let '(row_ind, col_ind) :=
    linear_sum_assignment (cost_matrix_of anom_later anom_earlier yb) in
  zip row_ind col_ind.

(** A kept pair and its match row: both anomalies exist, the pair passed
    the three gates, the row records the pair, and the cost of the pair
    is below the cut. *)
Definition matched_pair (anom_later anom_earlier : list feature) (yb : Q)
    (p : nat * nat) (m : match_record) : Prop :=
  exists a_l a_e,
    anom_later !! fst p = Some a_l /\ anom_earlier !! snd p = Some a_e /\
    gate a_l a_e = true /\ record_for a_l a_e m /\
    fge (pair_cost a_l a_e yb) cost_cut = false.

(** An aligned run: every anomaly has a corrected distance.  (The
    aligner copies the raw distance in the reference run, which
    [get_anomalies] requires of an anomaly; in the other runs the
    corrected distance is what the interpolator returns.) *)
Definition aligned (run : list feature) : Prop :=
  Forall (fun a => corrected_distance a <> NaN) (get_anomalies run).

(** The source row index of the anomaly at a position. *)
Definition row_idx_at (df : list feature) (i : nat) : Z :=
  match df !! i with Some a => source_row_idx a | None => 0%Z end.

End MatchingVocabulary.

(** ** Runs for the matcher *)

Section ConcreteRuns.
Import Config DataIngestion Matching.
Local Open Scope Q_scope.

(** A later run with two anomalies and a girth weld, and an earlier run
    with two anomalies; both pairs are within the tolerances. *)
Definition later_run : list feature :=
  [ Examples.anomaly 7 5 1000.2 3.0 24 2 1 "Metal Loss";
    Examples.girth_weld 2015 8 (Fin 6) (Fin 1000.8);
    Examples.anomaly 11 5 1001.2 3.0 24 2 1 "Metal Loss" ].

Definition earlier_run : list feature :=
  [ Examples.anomaly 4 5 1000.0 3.0 20 2 1 "Metal Loss";
    Examples.anomaly 9 5 1001.0 3.5 30 2 1 "Cluster" ].

(** A run without anomalies. *)
Definition welds_only : list feature :=
  [ Examples.girth_weld 2015 0 (Fin 5) (Fin 990);
    Examples.girth_weld 2015 1 (Fin 6) (Fin 1030) ].

(** Two anomalies 2.5 ft and half an hour apart, the later one 10 points
    shallower and 5.25 in longer: the five sub-scores are 1/6, 11/12, 0,
    1/8 and 1, and the similarity is exactly 0.40. *)
Definition cut_later : feature :=
  Examples.anomaly 0 5 102.5 3.5 20 7.25 1 "Metal Loss".

Definition cut_earlier : feature :=
  Examples.anomaly 0 5 100.0 3.0 30 2 1 "Metal Loss".

(** An earlier run whose one anomaly has a raw distance but no corrected
    distance. *)
Definition uncorrected_run : list feature :=
  [ {| joint_number := Fin 5;
       log_distance_ft := Fin 1000.0;
       corrected_distance := NaN;
       event_type := "Metal Loss";
       depth_pct := Fin 20;
       length_in := Fin 2;
       width_in := Fin 1;
       clock_hours := Fin 3.0;
       id_od := "External";
       wall_thickness_in := Fin 0.3;
       comments := "";
       run_year := 2015;
       source_row_idx := 4;
       is_anomaly := true;
       is_girth_weld := false |} ].

End ConcreteRuns.

(** ** The whole analysis *)

Section AnalysisVocabulary.
Import Config DataIngestion Matching FullAnalysis.
Context {lib : SciPy}.
Local Open Scope Q_scope.

(** The solver keeps its contract on every pair of runs the analysis can
    match: an earlier and a later run, with their years apart. *)
Definition solver_valid_for (runs : list (Z * list feature)) : Prop :=
  forall y_early y_later run_earlier run_later,
    In (y_early, run_earlier) runs -> In (y_later, run_later) runs ->
    (y_early < y_later)%Z ->
    valid_assignment (length (get_anomalies run_later))
      (length (get_anomalies run_earlier))
      (assignment_of (get_anomalies run_later) (get_anomalies run_earlier)
         (inject_Z (y_later - y_early))).

End AnalysisVocabulary.

Section TrendVocabulary.
Import Trends.

(** A row for which no trend was fitted. *)
Definition no_prediction (p : prediction) : Prop :=
  linear_rate p = NaN /\ linear_r2 p = NaN /\
  predicted_2030 p = NaN /\ predicted_2035 p = NaN /\
  is_accelerating p = false.

End TrendVocabulary.

(** ** Dig list *)

Section DigVocabulary.
Import Integrity.
Local Open Scope Q_scope.

(** The order of the dig list: by priority, and within a priority by
    urgency, the most urgent first. *)
Definition dig_order (a b : dig_item) : Prop :=
  exists ua ub,
    dig_urgency_score a = Fin ua /\ dig_urgency_score b = Fin ub /\
    ((dig_priority a < dig_priority b)%Z \/
     (dig_priority a = dig_priority b /\ ub <= ua)).

(** The rate the dig list works with: missing or negative counts as 0. *)
Definition dig_rate (x : fl) : Q :=
  match x with NaN => 0 | Fin r => if Qlt_bool r 0 then 0 else r end.

End DigVocabulary.

(** ** Predicted inspections *)

Section VirtualVocabulary.
Import Matching Growth VirtualILI.
Local Open Scope Q_scope.

(** What holds of a prediction: a predicted depth between 0 and 100, a
    rate that is not negative, years to the repair threshold that are not
    negative and are given unless the rate is 0, and a risk class that
    goes with the predicted depth. *)
Definition forecast_ok (p : forecast) : Prop :=
  exists d g,
    p_predicted_depth p = Fin d /\ 0 <= d <= 100 /\
    p_growth_rate p = Fin g /\ 0 <= g /\
    (forall y, p_years_to_80pct p = Some y -> exists q, y = Fin q /\ 0 <= q) /\
    (p_years_to_80pct p = None -> g == 0) /\
    ((p_predicted_risk p = "Critical" /\ 70 <= d) \/
     (p_predicted_risk p = "High" /\ 50 <= d <= 70) \/
     (p_predicted_risk p = "Medium" /\ 30 <= d <= 50) \/
     (p_predicted_risk p = "Low" /\ d <= 30)).

(** The row a prediction was made of; its joint, distance and clock
    position are handed on as they are. *)
Definition forecast_of (row : match_record) (p : forecast) : Prop :=
  p_joint p = PyFloat (later_joint row) /\
  p_distance_ft p = PyFloat (later_distance row) /\
  p_clock p = PyFloat (later_clock row) /\
  p_current_depth_2022 p = py_round (later_depth_pct row) 1 /\
  later_depth_pct row <> NaN /\ depth_growth_rate row <> NaN /\
  p_event_type p = later_event_type row /\
  p_confidence p = confidence_label row /\
  (p_is_triple_tracked p = false ->
   p_growth_rate p = py_round (depth_growth_rate row) 3).

(** The counts of a dict of counts, added up. *)
Definition counted (l : list (string * Z)) : Z :=
  List.fold_right (fun kv s => (snd kv + s)%Z) 0%Z l.

(** The frame the predictions are made from: the entry of the key
    (2015, 2022), or when the dict has no such key, the entry of its last
    key. *)
Definition source_frame (c : cache) (matches : frame) : Prop :=
  exists key,
    pairwise_get (c_pairwise c) key = Ok matches /\
    (has_key (c_pairwise c) (2015, 2022)%Z = true -> key = (2015, 2022)%Z) /\
    (has_key (c_pairwise c) (2015, 2022)%Z = false ->
     exists kv, last (c_pairwise c) = Some kv /\ key = fst kv).

(** What holds of a report for [target_year]: the year is after 2022;
    there is a prediction; every prediction is in range and was made of a
    row of the source frame; the total, the four risk counts and the five
    depth bins all count the predictions; and the top concerns are at most
    20 of the predictions. *)
Definition report_ok (c : cache) (target_year : Z) (r : report) : Prop :=
  (2022 < target_year)%Z /\
  r_all_predictions r <> [] /\
  (exists matches,
     source_frame c matches /\
     Forall (fun p =>
       forecast_ok p /\
       exists row, In row (rows matches) /\ forecast_of row p)
       (r_all_predictions r)) /\
  s_total_predicted (r_summary r) = Z.of_nat (length (r_all_predictions r)) /\
  (s_critical_count (r_summary r) + s_high_count (r_summary r)
   + s_medium_count (r_summary r) + s_low_count (r_summary r)
   = s_total_predicted (r_summary r))%Z /\
  counted (r_depth_distribution r) = s_total_predicted (r_summary r) /\
  (length (r_top_concerns r) <= 20)%nat /\
  (forall p, In p (r_top_concerns r) -> In p (r_all_predictions r)).

End VirtualVocabulary.

(** ** Three runs for the whole analysis *)

Section ConcreteSurvey.
Import DataIngestion.
Local Open Scope Q_scope.

(** Three aligned runs, each with two girth welds and one anomaly that
    deepens from 10 to 15 to 20 percent of the wall. *)
Definition three_runs : list (Z * list feature) :=
  [ (2007%Z, [ Examples.girth_weld 2007 0 (Fin 10) (Fin 100);
               Examples.anomaly 1 10 150 3.0 10 2 1 "Metal Loss";
               Examples.girth_weld 2007 2 (Fin 20) (Fin 300) ]);
    (2015%Z, [ Examples.girth_weld 2015 0 (Fin 10) (Fin 101);
               Examples.anomaly 1 10 151 3.0 15 2 1 "Metal Loss";
               Examples.girth_weld 2015 2 (Fin 20) (Fin 302) ]);
    (2022%Z, [ Examples.girth_weld 2022 0 (Fin 10) (Fin 102);
               Examples.anomaly 1 10 152 3.0 20 2 1 "Metal Loss";
               Examples.girth_weld 2022 2 (Fin 20) (Fin 304) ]) ].

(** A triple with depths 10, 15 and 20. *)
Definition deepening_triple : MultiRun.triple :=
  MultiRun.triple_record 2007 2022
    (Examples.matched 1 2 (Fin 0.9) (Fin 10) (Fin 15) (Fin 0.625))
    (Examples.matched 2 3 (Fin 0.8) (Fin 15) (Fin 20) (Fin 0.714)).

End ConcreteSurvey.

(** ** Match rows *)

Section MatchRowVocabulary.
Import Config DataIngestion Matching.
Context {lib : SciPy}.
Local Open Scope Q_scope.

(** The match row the loop over the assignment builds for a kept pair
    whose later anomaly had [n] candidates. *)
Definition built_from (a_l a_e : feature) (n : nat) (yb : Q)
    (m : match_record) : Prop :=
  let sim := fsub 1.0 (pair_cost a_l a_e yb) in
  let conf := _compute_confidence sim n a_l a_e yb in
  _build_match_record a_l a_e sim conf (_classify_confidence conf) yb = Ok m.

(** A match row of a run pair: built from two anomalies of the runs that
    passed the three gates and the cost cut. *)
Definition match_row_of (anom_later anom_earlier : list feature) (yb : Q)
    (m : match_record) : Prop :=
  exists a_l a_e n,
    In a_l anom_later /\ In a_e anom_earlier /\
    gate a_l a_e = true /\
    fge (pair_cost a_l a_e yb) cost_cut = false /\
    built_from a_l a_e n yb m.

End MatchRowVocabulary.

(** ** Anchors *)

Section AnchorVocabulary.
Import DataIngestion Alignment.
Local Open Scope Q_scope.

(** The run has a girth weld with joint number [jn] at distance [d]. *)
Definition weld_of (df : list feature) (jn : Z) (d : Q) : Prop :=
  exists w,
    In w df /\ is_girth_weld w = true /\ joint_number w <> NaN /\
    joint_as_int w = jn /\ log_distance_ft w = Fin d.

(** Rows in distance order. *)
Definition by_distance (a b : feature) : Prop :=
  fle (log_distance_ft a) (log_distance_ft b) = true.

End AnchorVocabulary.

(** ** Interaction clusters *)

Section InteractionVocabulary.
Import Matching Growth Integrity.
Local Open Scope Q_scope.

(** A row the assessment works with: it has a distance and a depth. *)
Definition usable (r : work_row) : Prop :=
  distance_of r <> NaN /\ later_depth_pct (fst r) <> NaN.

(** The wall thickness and the length the loop uses for a row, in inches:
    0.3 for a wall thickness that is missing or not positive, 0 for a
    missing length. *)
Definition wall_q (r : work_row) : Q :=
  match later_wall_thickness (fst r) with
  | NaN => 0.3
  | Fin w => if Qle_bool w 0 then 0.3 else w
  end.

Definition length_q (r : work_row) : Q :=
  match later_length_in (fst r) with NaN => 0 | Fin l => l end.

(** The row [r'] is within the interaction threshold of the row [r]: the
    distance between them in feet, less the length of [r], is at most six
    wall thicknesses of [r], both converted from inches. *)
Definition within_threshold (r r' : work_row) : Prop :=
  exists x x',
    distance_of r = Fin x /\ distance_of r' = Fin x' /\
    x' - x - length_q r / 12 <= 6 * wall_q r / 12.

(** Two rows in the order of the pipe. *)
Definition dist_le (r r' : work_row) : Prop :=
  exists a b, distance_of r = Fin a /\ distance_of r' = Fin b /\ a <= b.

(** A cluster that ends where another one starts, or before. *)
Definition before (c c' : interaction) : Prop :=
  exists e s,
    ia_end_distance_ft c = Fin e /\ ia_start_distance_ft c' = Fin s /\ e <= s.

(** The anomalies of a list of clusters, counted per cluster. *)
Definition total_count (l : list interaction) : Z :=
  List.fold_right (fun c s => (ia_anomaly_count c + s)%Z) 0%Z l.

(** A cluster as the loop records it: a first row and at least one more,
    all with a distance and a depth. *)
Definition made_by (c : interaction) : Prop :=
  exists n wt row_i tail,
    c = cluster_record n wt row_i tail /\ tail <> [] /\
    Forall usable (row_i :: tail).

(** What the loop keeps about the clusters it has recorded: they are
    numbered from 1 in the order of the list. *)
Definition shape_inv (st : list interaction * gset nat) : Prop :=
  (forall k c, fst st !! k = Some c -> ia_cluster_id c = (Z.of_nat k + 1)%Z) /\
  Forall made_by (fst st).

(** What the loop keeps about [used] before it looks at row [i]: the
    clusters recorded so far lie in the rows before a row [m]; every row
    from [i] up to [m] is used; and no recorded cluster reaches beyond the
    distance of a row from [m] on. *)
Definition frontier_inv (df : list work_row) (i : nat)
    (st : list interaction * gset nat) : Prop :=
  exists m : nat,
    (forall j, j ∈ snd st -> (j < m)%nat) /\
    (forall j, (i <= j < m)%nat -> j ∈ snd st) /\
    (m <= length df)%nat /\
    (total_count (fst st) <= Z.of_nat m)%Z /\
    StronglySorted before (fst st) /\
    Forall (fun c =>
      exists e, ia_end_distance_ft c = py_round (Fin e) 2 /\
        forall j r x, (m <= j)%nat -> df !! j = Some r ->
          distance_of r = Fin x -> e <= x) (fst st).

End InteractionVocabulary.

(** * Properties *)

(** ** The numeric model *)

Section Numeric.
Local Open Scope Q_scope.

Lemma Qlt_bool_iff (x y : Q) : Qlt_bool x y = true <-> x < y.
Proof.
  unfold Qlt_bool. rewrite negb_true_iff.
  destruct (Qle_bool y x) eqn:E.
  - apply Qle_bool_iff in E. split; [discriminate | intros; lra].
  - split; [intros _ | reflexivity].
    apply Qnot_le_lt. intros Hle. apply Qle_bool_iff in Hle. congruence.
Qed.

Lemma Qlt_bool_false (x y : Q) : Qlt_bool x y = false <-> y <= x.
Proof.
  unfold Qlt_bool. rewrite negb_false_iff. apply Qle_bool_iff.
Qed.

Lemma Qle_bool_false (x y : Q) : Qle_bool x y = false <-> y < x.
Proof.
  rewrite <- Qlt_bool_iff. unfold Qlt_bool.
  destruct (Qle_bool x y); simpl; split; congruence.
Qed.

Lemma close_refl (x : Q) : close x x.
Proof.
  unfold close. assert (H0 : x - x == 0) by ring. rewrite H0.
  apply Qmult_le_0_compat; [apply Qabs_nonneg | discriminate].
Qed.

Lemma inject_Z_succ_le (a b : Z) : (a < b)%Z -> inject_Z a + 1 <= inject_Z b.
Proof.
  intros Hlt. change 1 with (inject_Z 1). rewrite <- inject_Z_plus.
  rewrite <- Zle_Qle. lia.
Qed.

Lemma round_half_even_mono (x y : Q) :
  x <= y -> (round_half_even x <= round_half_even y)%Z.
Proof.
  intros Hxy. unfold round_half_even.
  pose proof (Qfloor_resp_le _ _ Hxy) as Hf.
  pose proof (Qfloor_le x) as Hx1. pose proof (Qlt_floor x) as Hx2.
  pose proof (Qfloor_le y) as Hy1. pose proof (Qlt_floor y) as Hy2.
  destruct (Z.eq_dec (Qfloor x) (Qfloor y)) as [Heq | Hne].
  - rewrite <- Heq in Hy1, Hy2 |- * .
    destruct (Qlt_bool (x - inject_Z (Qfloor x)) (1 # 2)) eqn:E1;
    destruct (Qlt_bool (y - inject_Z (Qfloor x)) (1 # 2)) eqn:E2;
    destruct (Qlt_bool (1 # 2) (x - inject_Z (Qfloor x))) eqn:E3;
    destruct (Qlt_bool (1 # 2) (y - inject_Z (Qfloor x))) eqn:E4;
    destruct (Z.even (Qfloor x)) eqn:E5; try lia;
    rewrite ?Qlt_bool_iff, ?Qlt_bool_false in *; exfalso; lra.
  - assert (Hlt : (Qfloor x < Qfloor y)%Z) by lia.
    destruct (Qlt_bool (x - inject_Z (Qfloor x)) (1 # 2));
    destruct (Qlt_bool (y - inject_Z (Qfloor y)) (1 # 2));
    destruct (Qlt_bool (1 # 2) (x - inject_Z (Qfloor x)));
    destruct (Qlt_bool (1 # 2) (y - inject_Z (Qfloor y)));
    destruct (Z.even (Qfloor x)); destruct (Z.even (Qfloor y)); lia.
Qed.

Lemma pow10_pos (n : nat) : 0 < inject_Z (10 ^ Z.of_nat n).
Proof.
  change 0 with (inject_Z 0). rewrite <- Zlt_Qlt.
  apply Z.pow_pos_nonneg; lia.
Qed.

Lemma Qdiv_le_mono (a b s : Q) : 0 < s -> a <= b -> a / s <= b / s.
Proof.
  intros Hs Hab. unfold Qdiv.
  apply Qmult_le_compat_r; [exact Hab |].
  apply Qlt_le_weak, Qinv_lt_0_compat, Hs.
Qed.

(** [round] never reverses the order of two numbers. *)
Lemma py_round_mono (x y : Q) (n : nat) :
  x <= y ->
  exists a b, py_round (Fin x) n = Fin a /\ py_round (Fin y) n = Fin b /\ a <= b.
Proof.
  intros Hxy. simpl. eexists _, _. split; [reflexivity |]. split; [reflexivity |].
  pose proof (pow10_pos n) as Hs.
  apply Qdiv_le_mono; [exact Hs |].
  rewrite <- Zle_Qle. apply round_half_even_mono.
  apply Qmult_le_compat_r; [exact Hxy | lra].
Qed.


Lemma py_min_Fin (a b : Q) :
  py_min (Fin a) (Fin b) = Fin (if Qlt_bool b a then b else a).
Proof. unfold py_min. simpl. destruct (Qlt_bool b a); reflexivity. Qed.

Lemma py_max_Fin (a b : Q) :
  py_max (Fin a) (Fin b) = Fin (if Qlt_bool a b then b else a).
Proof. unfold py_max, fgt. simpl. destruct (Qlt_bool a b); reflexivity. Qed.

(** [max(a, x)] with a finite [a] is a finite number, at least [a]. *)
Lemma py_max_lower (a : Q) (x : fl) :
  exists m, py_max (Fin a) x = Fin m /\ a <= m.
Proof.
  destruct x as [| b].
  - exists a. split; [reflexivity | lra].
  - rewrite py_max_Fin. destruct (Qlt_bool a b) eqn:E.
    + apply Qlt_bool_iff in E. exists b. split; [reflexivity | lra].
    + exists a. split; [reflexivity | lra].
Qed.

End Numeric.

(** ** Growth scorer *)

Section GrowthProperties.
Import Config Matching Growth.
Local Open Scope Q_scope.



Lemma remaining_life_rounded_example :
  _remaining_life (Examples.matched 1 2 (Fin 0.9) (Fin 49) (Fin 70) (Fin 3))
  = Fin 3.3.
Proof. reflexivity. Qed.

Lemma py_min_mono (c a b : Q) :
  a <= b ->
  exists m n, py_min (Fin c) (Fin a) = Fin m /\ py_min (Fin c) (Fin b) = Fin n
              /\ m <= n.
Proof.
  intros Hab. rewrite !py_min_Fin. eexists _, _.
  split; [reflexivity |]. split; [reflexivity |].
  destruct (Qlt_bool a c) eqn:E1; destruct (Qlt_bool b c) eqn:E2;
    rewrite ?Qlt_bool_iff, ?Qlt_bool_false in *; lra.
Qed.

Lemma risk_depth_mono (x y : fl) : cell_le x y -> risk_depth x <= risk_depth y.
Proof.
  intros [-> | (a & b & -> & -> & Hab)]; [lra | exact Hab].
Qed.

Lemma risk_rate_mono (x y : fl) : cell_le x y -> risk_rate x <= risk_rate y.
Proof.
  intros [-> | (a & b & -> & -> & Hab)]; [lra |]. simpl.
  destruct (Qlt_bool a 0) eqn:E1; destruct (Qlt_bool b 0) eqn:E2;
    rewrite ?Qlt_bool_iff, ?Qlt_bool_false in *; lra.
Qed.

Lemma risk_score_unfold (row : match_record) :
  _compute_risk_score row =
  py_round
    (fadd (py_min (Fin 50) (Fin (risk_depth (later_depth_pct row) * 50 / 80.0)))
          (py_min (Fin 50) (Fin (risk_rate (depth_growth_rate row) * 50 / 5.0))))
    1.
Proof.
  unfold _compute_risk_score.
  destruct (later_depth_pct row) as [| d], (depth_growth_rate row) as [| r];
    simpl; try reflexivity;
    destruct (Qlt_bool r 0); reflexivity.
Qed.

(** C7: raising the later depth or the depth growth rate of a match row,
    everything else unchanged, never lowers its risk score. *)
Theorem risk_score_monotone (r1 r2 : match_record) :
  cell_le (later_depth_pct r1) (later_depth_pct r2) ->
  cell_le (depth_growth_rate r1) (depth_growth_rate r2) ->
  exists s1 s2,
    _compute_risk_score r1 = Fin s1 /\ _compute_risk_score r2 = Fin s2 /\
    s1 <= s2.
Proof.
  intros Hd Hr. rewrite !risk_score_unfold.
  apply risk_depth_mono in Hd. apply risk_rate_mono in Hr.
  destruct (py_min_mono 50 (risk_depth (later_depth_pct r1) * 50 / 80.0)
              (risk_depth (later_depth_pct r2) * 50 / 80.0))
    as (m1 & n1 & -> & -> & H1).
  { apply Qdiv_le_mono; [reflexivity | lra]. }
  destruct (py_min_mono 50 (risk_rate (depth_growth_rate r1) * 50 / 5.0)
              (risk_rate (depth_growth_rate r2) * 50 / 5.0))
    as (m2 & n2 & -> & -> & H2).
  { apply Qdiv_le_mono; [reflexivity | lra]. }
  apply py_round_mono. lra.
Qed.

Lemma risk_score_monotone_witness :
  exists s1 s2,
    _compute_risk_score (Examples.matched 1 2 (Fin 0.9) (Fin 20) (Fin 40) (Fin 1))
      = Fin s1 /\
    _compute_risk_score (Examples.matched 1 2 (Fin 0.9) (Fin 20) (Fin 60) (Fin 1))
      = Fin s2 /\
    s1 <= s2.
Proof.
  apply risk_score_monotone.
  - right. exists 40, 60. repeat split. discriminate.
  - left. reflexivity.
Defined.

(** C8: scoring never raises, and scoring an already scored match set
    returns it unchanged. *)
Theorem calculate_growth_rates_idempotent (df : frame) :
  exists scored,
    calculate_growth_rates df = Ok scored /\
    calculate_growth_rates scored = Ok scored.
Proof.
  destruct df as [rs c1 c2 c3 c4 c5]. destruct rs as [| r rs].
  - eexists. split; reflexivity.
  - unfold calculate_growth_rates. cbn.
    eexists. split; [reflexivity |]. cbn. reflexivity.
Qed.

End GrowthProperties.

(** ** Chainer *)

Section ChainProperties.
Import Config Matching MultiRun.
Local Open Scope Q_scope.

(** Every entry of the lookup dict is a record of [matches_12], filed
    under its own [later_row_idx]. *)
Lemma build_y2_to_y1_lookup (matches_12 : list match_record) (k : Z)
    (m12 : match_record) :
  build_y2_to_y1 matches_12 !! k = Some m12 ->
  In m12 matches_12 /\ later_row_idx m12 = k.
Proof.
  unfold build_y2_to_y1.
  assert (Hgen : forall (l : list match_record) (d : gmap Z match_record),
    (forall k' m, d !! k' = Some m -> In m matches_12 /\ later_row_idx m = k') ->
    (forall m, In m l -> In m matches_12) ->
    forall k' m,
      List.fold_left (fun d m12 => <[later_row_idx m12 := m12]> d) l d !! k'
        = Some m ->
      In m matches_12 /\ later_row_idx m = k').
  { induction l as [| a l IH]; intros d Hd Hl k' m; simpl.
    - apply Hd.
    - apply IH.
      + intros k'' m'. destruct (decide (later_row_idx a = k'')) as [<- | Hne].
        * rewrite lookup_insert_eq. intros [= <-].
          split; [apply Hl; left; reflexivity | reflexivity].
        * rewrite lookup_insert_ne by exact Hne. apply Hd.
      + intros m' Hm'. apply Hl. right. exact Hm'. }
  apply Hgen.
  - intros k' m. rewrite lookup_empty. discriminate.
  - auto.
Qed.




End ChainProperties.

(** ** Loops in the [result] monad *)

Section ResultLoops.
Context {A B : Type}.

Lemma mapM_Ok_Forall2 (f : A -> result B) (l : list A) (k : list B) :
  mapM f l = Ok k -> Forall2 (fun x y => f x = Ok y) l k.
Proof.
  revert k. induction l as [| x l IH]; intros k; simpl.
  - intros [= <-]. constructor.
  - destruct (f x) as [y | e] eqn:Ex; simpl; [| discriminate].
    destruct (mapM f l) as [k' | e]; simpl; [| discriminate].
    intros [= <-]. constructor; [exact Ex | apply IH; reflexivity].
Qed.

Lemma mapM_Ok_total (f : A -> result B) (l : list A) :
  (forall x, In x l -> exists y, f x = Ok y) -> exists k, mapM f l = Ok k.
Proof.
  induction l as [| x l IH]; intros Hf; simpl.
  - eexists. reflexivity.
  - destruct (Hf x) as [y Hy]; [left; reflexivity |].
    destruct IH as [k Hk]; [intros x' Hx'; apply Hf; right; exact Hx' |].
    rewrite Hy. simpl. rewrite Hk. simpl. eexists. reflexivity.
Qed.

Lemma mapM_Raise (f : A -> result B) (l : list A) (e : exn) :
  mapM f l = Raise e -> exists x, In x l /\ f x = Raise e.
Proof.
  induction l as [| x l IH]; simpl; [discriminate |].
  destruct (f x) as [y | e'] eqn:Ex; simpl.
  - destruct (mapM f l) as [k | e']; simpl; [discriminate |].
    intros [= <-]. destruct IH as (x' & Hin & Hx'); [reflexivity |].
    exists x'. split; [right; exact Hin | exact Hx'].
  - intros [= <-]. exists x. split; [left; reflexivity | exact Ex].
Qed.

Lemma mapM_length (f : A -> result B) (l : list A) (k : list B) :
  mapM f l = Ok k -> length k = length l.
Proof.
  intros H. apply mapM_Ok_Forall2 in H.
  induction H; simpl; congruence.
Qed.

End ResultLoops.

(** ** Aligner *)

Section AlignmentProperties.
Import Config DataIngestion Alignment.
Local Open Scope Q_scope.

Lemma dict_get_Raise {V : Type} (d : list (Z * V)) (k : Z) (e : exn) :
  dict_get d k = Raise e -> e = KeyError.
Proof.
  induction d as [| [k' v] d IH]; simpl.
  - intros [= <-]. reflexivity.
  - destruct (Z.eqb k' k); [discriminate | exact IH].
Qed.

Lemma dict_get_In {V : Type} (d : list (Z * V)) (k : Z) :
  In k (List.map fst d) -> exists v, dict_get d k = Ok v.
Proof.
  induction d as [| [k' v] d IH]; simpl; [intros [] |].
  intros Hin. destruct (Z.eqb k' k) eqn:E; [eexists; reflexivity |].
  apply IH. destruct Hin as [-> | Hin]; [| exact Hin].
  rewrite Z.eqb_refl in E. discriminate.
Qed.


Lemma dist_column_Raise (tbl : list gw_row) (year : Z) (e : exn) :
  dist_column tbl year = Raise e -> e = KeyError.
Proof.
  unfold dist_column. destruct tbl as [| row tbl].
  - intros [= <-]. reflexivity.
  - intros H. apply mapM_Raise in H. destruct H as (r & _ & Hr).
    eapply dict_get_Raise, Hr.
Qed.

(** What [match_girth_welds] returns, when it returns: one row per common
    joint, in sorted order, each with one distance per run year; and the
    table of two or more runs is never empty. *)
Lemma match_girth_welds_Ok (runs : list (Z * list feature)) (tbl : list gw_row) :
  match_girth_welds runs = Ok tbl ->
  exists common,
    common_joints
      (List.map (fun '(_, s) => List.map fst s)
         (List.map (fun '(year, df) =>
                      (year, drop_duplicates (get_girth_welds df))) runs))
      = Ok common /\
    List.map gw_joint_number tbl = common /\
    Forall (fun row =>
              List.map fst (gw_dist row)
              = merge_sort Z.le (List.map fst runs)) tbl /\
    (tbl = [] -> (length runs <= 1)%nat).
Proof.
  unfold match_girth_welds.
  set (gw_by_year :=
         List.map (fun '(year, df) =>
                     (year, drop_duplicates (get_girth_welds df))) runs).
  assert (Hyears : List.map fst gw_by_year = List.map fst runs).
  { unfold gw_by_year. rewrite List.map_map. apply List.map_ext.
    intros [y df]. reflexivity. }
  rewrite Hyears.
  destruct (common_joints _) as [common | e] eqn:Ec; simpl; [| discriminate].
  assert (Hlen : length (merge_sort Z.le (List.map fst runs)) = length runs).
  { rewrite merge_sort_Permutation. apply List.length_map. }
  remember (merge_sort Z.le (List.map fst runs)) as years eqn:Hy.
  destruct (mapM _ common) as [records | e] eqn:Er; simpl; [| discriminate].
  apply mapM_Ok_Forall2 in Er.
  assert (Hrec : List.map gw_joint_number records = common /\
                 Forall (fun row => List.map fst (gw_dist row) = years) records).
  { clear -Er. induction Er as [| jn row common records Hrow _ IH]; simpl.
    - split; [reflexivity | constructor].
    - destruct IH as [IH1 IH2].
      destruct (mapM _ years) as [dists | e] eqn:Ed; simpl in Hrow;
        [| discriminate].
      injection Hrow as <-. simpl. split; [f_equal; exact IH1 |].
      constructor; [| exact IH2]. simpl.
      apply mapM_Ok_Forall2 in Ed. clear -Ed.
      induction Ed as [| y p years dists Hp _ IH]; simpl; [reflexivity |].
      f_equal; [| exact IH].
      destruct (dict_get _ y) as [s |]; simpl in Hp; [| discriminate].
      destruct (series_loc s jn); simpl in Hp; [| discriminate].
      injection Hp as <-. reflexivity. }
  destruct Hrec as [Hjn Hdist].
  intros Htbl. exists common. split; [reflexivity |].
  assert (Hempty : records = [] -> (length runs <= 1)%nat).
  { intros ->. rewrite <- Hlen.
    destruct years as [| y [| y' years]]; simpl; try lia.
    simpl in Htbl. discriminate. }
  assert (Hfinal : exists tbl', mapM (fun row : gw_row =>
      deltas ← mapM (fun '(y_prev, y_curr) =>
          d_curr ← dict_get (gw_dist row) y_curr;
          d_prev ← dict_get (gw_dist row) y_prev;
          Ok (y_prev, y_curr, (d_curr - d_prev)%fl)) (zip years (tail years));
      Ok {| gw_joint_number := gw_joint_number row;
            gw_dist := gw_dist row;
            gw_delta := deltas |}) records = Ok tbl' /\ tbl' = tbl).
  { destruct records as [| r records]; destruct (zip years (tail years));
      try discriminate; eexists; split; try exact Htbl; reflexivity. }
  destruct Hfinal as (tbl' & Hmap & <-). clear Htbl.
  apply mapM_Ok_Forall2 in Hmap.
  assert (Hsame : Forall2 same_dists records tbl').
  { eapply Forall2_impl; [exact Hmap |]. intros r r' Hr. simpl in Hr.
    destruct (mapM _ (zip years (tail years))); simpl in Hr; [| discriminate].
    injection Hr as <-. split; reflexivity. }
  clear Hmap. rewrite <- Hjn. clear Hjn Er Ec.
  assert (Hnil : tbl' = [] -> (length runs <= 1)%nat).
  { intros ->. apply Hempty. inversion Hsame. reflexivity. }
  clear Hempty.
  split; [| split; [| exact Hnil]]; clear Hnil.
  - induction Hsame as [| r r' records tbl' [H1 H2] _ IH]; simpl;
      [reflexivity |].
    apply Forall_cons in Hdist. destruct Hdist as [_ Hdist].
    f_equal; [exact H1 | apply IH, Hdist].
  - induction Hsame as [| r r' records tbl' [H1 H2] _ IH]; [constructor |].
    apply Forall_cons in Hdist. destruct Hdist as [Hd Hdist].
    constructor; [rewrite H2; exact Hd | apply IH, Hdist].
Qed.


(** A table that [match_girth_welds] returned has a distance column for
    every year of the runs. *)
Lemma dist_column_Ok (runs : list (Z * list feature)) (tbl : list gw_row)
    (year : Z) :
  match_girth_welds runs = Ok tbl -> tbl <> [] ->
  In year (List.map fst runs) ->
  exists xs, dist_column tbl year = Ok xs /\ length xs = length tbl.
Proof.
  intros H Hne Hin. apply match_girth_welds_Ok in H.
  destruct H as (_ & _ & _ & Hdist & _).
  unfold dist_column. destruct tbl as [| row tbl]; [congruence |].
  destruct (mapM_Ok_total (fun row => dict_get (gw_dist row) year) (row :: tbl))
    as [xs Hxs].
  - intros r Hr. apply dict_get_In.
    rewrite Forall_forall in Hdist. rewrite (Hdist r).
    + rewrite merge_sort_Permutation. exact Hin.
    + apply list_elem_of_In. exact Hr.
  - exists xs. split; [exact Hxs | eapply mapM_length; exact Hxs].
Qed.



Lemma dict_get_Ok_In {V : Type} (d : list (Z * V)) (k : Z) (v : V) :
  dict_get d k = Ok v -> In (k, v) d.
Proof.
  induction d as [| [k' v'] d IH]; simpl; [discriminate |].
  destruct (Z.eqb k' k) eqn:E.
  - intros [= <-]. apply Z.eqb_eq in E. subst. left. reflexivity.
  - intros H. right. apply IH, H.
Qed.






End AlignmentProperties.

(** ** Matcher *)

Section MatchingProperties.
Import Config DataIngestion Matching.
Context {lib : SciPy}.
Local Open Scope Q_scope.

Lemma scan_candidate_Ok (a_l : feature) (anom_earlier : list feature) (yb : Q)
    (row : list fl) (count j : nat) (a_e : feature) :
  anom_earlier !! j = Some a_e ->
  scan_candidate a_l anom_earlier yb (row, count) j =
  Ok (if gate a_l a_e
      then (<[j := pair_cost a_l a_e yb]> row, S count)
      else (row, count)).
Proof.
  intros Hj. unfold scan_candidate, iloc, gate, pair_cost. rewrite Hj.
  cbn [mbind result_bind].
  destruct (fgt (fabs _) DISTANCE_TOLERANCE_FT); [reflexivity |].
  destruct (fgt (clock_distance _ _) CLOCK_TOLERANCE_HOURS); [reflexivity |].
  destruct (types_compatible _ _); reflexivity.
Qed.

Lemma row_ok_insert (a_l : feature) (anom_earlier : list feature) (yb : Q)
    (row : list fl) (j : nat) (a_e : feature) :
  anom_earlier !! j = Some a_e -> gate a_l a_e = true ->
  row_ok a_l anom_earlier yb row ->
  row_ok a_l anom_earlier yb (<[j := pair_cost a_l a_e yb]> row).
Proof.
  intros Hj Hg [Hlen Hcells]. split.
  - rewrite length_insert. exact Hlen.
  - intros j' c Hc. destruct (decide (j = j')) as [<- | Hne].
    + rewrite list_lookup_insert_eq in Hc.
      * injection Hc as <-. right. exists a_e. auto.
      * rewrite Hlen. eapply lookup_lt_Some, Hj.
    + rewrite list_lookup_insert_ne in Hc by exact Hne. apply Hcells, Hc.
Qed.

Lemma scan_candidates_Ok (a_l : feature) (anom_earlier : list feature)
    (yb : Q) (cands : list nat) (st : list fl * nat) :
  Forall (fun j => (j < length anom_earlier)%nat) cands ->
  row_ok a_l anom_earlier yb (fst st) ->
  exists st',
    for_each (scan_candidate a_l anom_earlier yb) st cands = Ok st' /\
    row_ok a_l anom_earlier yb (fst st').
Proof.
  intros Hc. revert st. induction Hc as [| j cands Hj _ IH]; intros st Hst.
  - exists st. split; [reflexivity | exact Hst].
  - destruct (lookup_lt_is_Some_2 anom_earlier j Hj) as [a_e Ha].
    destruct st as [row count]. cbn [for_each].
    rewrite (scan_candidate_Ok _ _ _ _ _ _ a_e Ha). cbn [mbind result_bind].
    apply IH. simpl in Hst. destruct (gate a_l a_e) eqn:Hg; simpl.
    + apply row_ok_insert; assumption.
    + exact Hst.
Qed.

Lemma query_ball_point_lt (tree : list point) (x : point) (r : fl)
    (cands : list nat) :
  query_ball_point tree x r = Ok cands ->
  Forall (fun j => (j < length tree)%nat) cands.
Proof.
  unfold query_ball_point. destruct (finite_point x); [| discriminate].
  intros [= <-].
  apply Forall_forall. intros j Hj. apply list_elem_of_In in Hj.
  apply in_map_iff in Hj.
  destruct Hj as ([j' p] & <- & Hin). apply filter_In in Hin.
  destruct Hin as [Hin _]. apply list_elem_of_In in Hin.
  apply elem_of_lookup_imap in Hin. destruct Hin as (i & q & [= -> ->] & Hi).
  simpl. eapply lookup_lt_Some, Hi.
Qed.

Lemma row_ok_init (a_l : feature) (anom_earlier : list feature) (yb : Q) :
  row_ok a_l anom_earlier yb (replicate (length anom_earlier) LARGE_COST).
Proof.
  split.
  - apply length_replicate.
  - intros j c Hc. apply lookup_replicate in Hc. left. apply Hc.
Qed.

Lemma finite_search_point (a : feature) :
  corrected_distance a <> NaN ->
  finite_point (_build_search_point_single a) = true.
Proof.
  intros Ha. unfold _build_search_point_single.
  destruct (clock_to_trig (clock_hours a)) as [cos_c sin_c].
  unfold finite_point. cbn [fst]. destruct (corrected_distance a);
    [congruence | reflexivity].
Qed.

Lemma KDTree_Ok (df : list feature) :
  Forall (fun a => corrected_distance a <> NaN) df ->
  KDTree (_build_search_points df) = Ok (_build_search_points df).
Proof.
  intros Hdf. unfold KDTree.
  replace (forallb finite_point (_build_search_points df)) with true;
    [reflexivity |].
  symmetry. apply forallb_forall. intros p Hp.
  unfold _build_search_points in Hp. apply in_map_iff in Hp.
  destruct Hp as (a & <- & Ha). apply finite_search_point.
  rewrite Forall_forall in Hdf. apply Hdf, list_elem_of_In, Ha.
Qed.

Lemma scan_later_Ok (anom_earlier : list feature) (yb : Q) (a_l : feature) :
  corrected_distance a_l <> NaN ->
  exists st,
    scan_later (_build_search_points anom_earlier) anom_earlier yb a_l = Ok st /\
    row_ok a_l anom_earlier yb (fst st).
Proof.
  intros Hal. unfold scan_later.
  destruct (query_ball_point (_build_search_points anom_earlier)
              (_build_search_point_single a_l) search_radius)
    as [cands | e] eqn:Hq.
  - cbn [mbind result_bind]. apply scan_candidates_Ok.
    + apply query_ball_point_lt in Hq.
      unfold _build_search_points in Hq at 1. rewrite List.length_map in Hq.
      exact Hq.
    + apply row_ok_init.
  - unfold query_ball_point in Hq.
    rewrite (finite_search_point a_l Hal) in Hq. discriminate.
Qed.

(** On later anomalies that all have a corrected distance the candidate
    scan does not raise, and fills a matrix whose rows are all [row_ok]. *)
Lemma scan_all_Ok (anom_later anom_earlier : list feature) (yb : Q) :
  Forall (fun a => corrected_distance a <> NaN) anom_later ->
  exists scanned,
    mapM (scan_later (_build_search_points anom_earlier) anom_earlier yb)
      anom_later = Ok scanned /\
    Forall2 (fun a_l st => row_ok a_l anom_earlier yb (fst st))
      anom_later scanned.
Proof.
  induction 1 as [| a_l anom_later Hal _ (scanned & Hs & Hrows)].
  - exists []. split; [reflexivity | constructor].
  - destruct (scan_later_Ok anom_earlier yb a_l Hal) as (st & Hst & Hok).
    exists (st :: scanned). split; [| constructor; assumption].
    cbn [mapM]. rewrite Hst. cbn [mbind result_bind]. rewrite Hs. reflexivity.
Qed.

Lemma annual_rate_Ok (growth : fl) (yb : Q) :
  Qeq_bool yb 0 = false -> exists r, annual_rate growth yb = Ok r.
Proof.
  intros Hyb. unfold annual_rate. rewrite Hyb.
  destruct (notna growth); eexists; reflexivity.
Qed.

Lemma build_match_record_Ok (a_l a_e : feature) (sim conf : fl)
    (label : string) (yb : Q) :
  Qeq_bool yb 0 = false ->
  exists m,
    _build_match_record a_l a_e sim conf label yb = Ok m /\
    record_for a_l a_e m /\ similarity m = py_round sim 4.
Proof.
  intros Hyb. unfold _build_match_record.
  destruct (annual_rate_Ok (_safe_sub (depth_pct a_l) (depth_pct a_e)) yb Hyb)
    as [r1 ->].
  destruct (annual_rate_Ok (_safe_sub (length_in a_l) (length_in a_e)) yb Hyb)
    as [r2 ->].
  destruct (annual_rate_Ok (_safe_sub (width_in a_l) (width_in a_e)) yb Hyb)
    as [r3 ->].
  cbn [mbind result_bind]. eexists. split; [reflexivity |].
  split; [| reflexivity]. repeat split.
Qed.

Lemma keep_assignment_Ok (anom_later anom_earlier : list feature)
    (cost_matrix : list (list fl)) (candidate_counts : list nat) (yb : Q)
    (ms : list match_record) (ML ME : gset nat) (i j : nat) :
  Qeq_bool yb 0 = false ->
  (i < length anom_later)%nat -> (j < length anom_earlier)%nat ->
  length candidate_counts = length anom_later ->
  length cost_matrix = length anom_later ->
  Forall (fun row => length row = length anom_earlier) cost_matrix ->
  exists m,
    kept_pair anom_later anom_earlier (i, j) m /\
    keep_assignment anom_later anom_earlier cost_matrix candidate_counts yb
      (ms, ML, ME) (i, j) =
    Ok (if keptb cost_matrix (i, j)
        then ((ms ++ [m])%list, {[i]} ∪ ML, {[j]} ∪ ME)
        else (ms, ML, ME)).
Proof.
  intros Hyb Hi Hj Hcounts Hcost Hrows.
  destruct (lookup_lt_is_Some_2 anom_later i Hi) as [a_l Hal].
  destruct (lookup_lt_is_Some_2 anom_earlier j Hj) as [a_e Hae].
  destruct (lookup_lt_is_Some_2 candidate_counts i) as [n_c Hnc]; [lia |].
  destruct (lookup_lt_is_Some_2 cost_matrix i) as [row Hrow]; [lia |].
  assert (Hlen : length row = length anom_earlier).
  { rewrite Forall_forall in Hrows. apply Hrows.
    eapply list_elem_of_lookup_2, Hrow. }
  destruct (lookup_lt_is_Some_2 row j) as [c Hc]; [lia |].
  destruct (build_match_record_Ok a_l a_e (fsub 1.0 c)
              (_compute_confidence (fsub 1.0 c) n_c a_l a_e yb)
              (_classify_confidence
                 (_compute_confidence (fsub 1.0 c) n_c a_l a_e yb)) yb Hyb)
    as (m & Hm & Hrec & _).
  exists m. split; [exists a_l, a_e; auto |].
  unfold keep_assignment, keptb, iloc, cost_cut. cbn [fst snd].
  rewrite Hrow. cbn [mbind result_bind]. rewrite Hc. cbn [mbind result_bind].
  destruct (fge c (fsub 1.0 LOW_CONFIDENCE)); [reflexivity |].
  rewrite Hal. cbn [mbind result_bind]. rewrite Hae. cbn [mbind result_bind].
  rewrite Hnc. cbn [mbind result_bind]. rewrite Hm. reflexivity.
Qed.

Lemma keep_loop_Ok (anom_later anom_earlier : list feature)
    (cost_matrix : list (list fl)) (candidate_counts : list nat) (yb : Q)
    (pairs : list (nat * nat)) :
  Qeq_bool yb 0 = false ->
  length candidate_counts = length anom_later ->
  length cost_matrix = length anom_later ->
  Forall (fun row => length row = length anom_earlier) cost_matrix ->
  Forall (fun p => (fst p < length anom_later)%nat /\
                   (snd p < length anom_earlier)%nat) pairs ->
  forall ms0 ML0 ME0,
  exists ms ML ME,
    for_each
      (keep_assignment anom_later anom_earlier cost_matrix candidate_counts yb)
      (ms0, ML0, ME0) pairs = Ok ((ms0 ++ ms)%list, ML, ME) /\
    Forall2 (kept_pair anom_later anom_earlier)
      (List.filter (keptb cost_matrix) pairs) ms /\
    (forall x, x ∈ ML <->
       x ∈ List.map fst (List.filter (keptb cost_matrix) pairs) \/ x ∈ ML0) /\
    (forall x, x ∈ ME <->
       x ∈ List.map snd (List.filter (keptb cost_matrix) pairs) \/ x ∈ ME0).
Proof.
  intros Hyb Hcounts Hcost Hrows Hpairs.
  induction Hpairs as [| [i j] pairs [Hi Hj] _ IH]; intros ms0 ML0 ME0.
  - exists [], ML0, ME0. cbn [for_each List.filter List.map].
    rewrite app_nil_r. split; [reflexivity |]. split; [constructor |].
    split; intros x; rewrite elem_of_nil; tauto.
  - cbn [fst snd] in Hi, Hj.
    destruct (keep_assignment_Ok anom_later anom_earlier cost_matrix
                candidate_counts yb ms0 ML0 ME0 i j Hyb Hi Hj Hcounts Hcost
                Hrows) as (m & Hm & Hstep).
    cbn [for_each List.filter]. rewrite Hstep.
    destruct (keptb cost_matrix (i, j)); cbn [mbind result_bind].
    + destruct (IH (ms0 ++ [m])%list ({[i]} ∪ ML0) ({[j]} ∪ ME0))
        as (ms & ML & ME & Hloop & Hms & HML & HME).
      exists (m :: ms), ML, ME. rewrite Hloop, <- app_assoc.
      split; [reflexivity |]. split; [constructor; assumption |].
      cbn [List.map fst snd].
      split; intros x; [rewrite HML | rewrite HME];
        rewrite elem_of_cons, elem_of_union, elem_of_singleton; tauto.
    + apply IH.
Qed.

Lemma mapM_iloc_Ok {A : Type} (l : list A) (idx : list nat) :
  Forall (fun i => (i < length l)%nat) idx ->
  exists rows,
    mapM (iloc l) idx = Ok rows /\
    Forall2 (fun i a => l !! i = Some a) idx rows.
Proof.
  intros Hidx.
  destruct (mapM_Ok_total (iloc l) idx) as [rows Hrows].
  - intros i Hi. rewrite Forall_forall in Hidx.
    apply list_elem_of_In, Hidx, lookup_lt_is_Some_2 in Hi.
    destruct Hi as [a Ha]. exists a. unfold iloc. rewrite Ha. reflexivity.
  - exists rows. split; [exact Hrows |].
    apply mapM_Ok_Forall2 in Hrows. eapply Forall2_impl; [exact Hrows |].
    intros i a. unfold iloc. destruct (l !! i); congruence.
Qed.

Lemma unmatched_idx_lt (n : nat) (matched : gset nat) :
  Forall (fun i => (i < n)%nat) (unmatched_idx n matched).
Proof.
  apply Forall_forall. intros i Hi. unfold unmatched_idx in Hi.
  apply list_elem_of_filter in Hi. destruct Hi as [_ Hi].
  apply elem_of_seq in Hi. lia.
Qed.

Lemma unmatched_idx_ext (n : nat) (matched : gset nat) (K : list nat) :
  (forall x, x ∈ matched <-> x ∈ K) ->
  unmatched_idx n matched = filter (fun i => i ∉ K) (seq 0 n).
Proof.
  intros HK. unfold unmatched_idx. apply list_filter_iff.
  intros i. rewrite HK. reflexivity.
Qed.

(** The positions the assignment keeps, and the ones it leaves over, are
    a rearrangement of all positions. *)
Lemma kept_unmatched_Permutation (n : nat) (K : list nat) :
  NoDup K -> Forall (fun i => (i < n)%nat) K ->
  (K ++ filter (fun i => i ∉ K) (seq 0 n))%list ≡ₚ seq 0 n.
Proof.
  intros Hnd Hlt. apply NoDup_Permutation.
  - apply NoDup_app. split; [exact Hnd |]. split.
    + intros x Hx Hx'. apply list_elem_of_filter in Hx'. tauto.
    + apply NoDup_filter, NoDup_seq.
  - apply NoDup_seq.
  - intros x. rewrite elem_of_app, list_elem_of_filter, elem_of_seq.
    rewrite Forall_forall in Hlt. split.
    + intros [Hx | [_ Hx]]; [apply Hlt in Hx; lia | exact Hx].
    + intros Hx. destruct (decide (x ∈ K)); [left | right]; tauto.
Qed.

Lemma NoDup_map_filter {A B : Type} (f : A -> B) (p : A -> bool) (l : list A) :
  NoDup (List.map f l) -> NoDup (List.map f (List.filter p l)).
Proof.
  induction l as [| a l IH]; simpl; [auto |].
  rewrite NoDup_cons. intros [Ha Hl]. destruct (p a); simpl; [| auto].
  apply NoDup_cons. split; [| auto].
  intros Hin. apply Ha. apply list_elem_of_In in Hin.
  apply in_map_iff in Hin. destruct Hin as (x & Hx & Hin).
  apply filter_In in Hin. apply list_elem_of_In, in_map_iff.
  exists x. tauto.
Qed.

Lemma Forall2_seq_lookup {A : Type} (l : list A) :
  Forall2 (fun i a => l !! i = Some a) (seq 0 (length l)) l.
Proof.
  apply Forall2_same_length_lookup_2.
  - apply length_seq.
  - intros i j a Hj Ha. apply lookup_seq in Hj. destruct Hj as [-> _].
    exact Ha.
Qed.

Lemma filter_notin_nil (l : list nat) :
  filter (fun i => i ∉ ([] : list nat)) l = l.
Proof.
  induction l as [| a l IH]; [reflexivity |].
  rewrite filter_cons_True by apply not_elem_of_nil. f_equal. exact IH.
Qed.

Lemma cost_matrix_rows (anom_later anom_earlier : list feature) (yb : Q) :
  Forall (fun a => corrected_distance a <> NaN) anom_later ->
  Forall2 (fun a_l row => row_ok a_l anom_earlier yb row)
    anom_later (cost_matrix_of anom_later anom_earlier yb).
Proof.
  intros Hfin. unfold cost_matrix_of.
  destruct (scan_all_Ok anom_later anom_earlier yb Hfin)
    as (scanned & -> & Hs).
  clear Hfin. induction Hs; simpl; constructor; auto.
Qed.

(** A kept cell is the cost of a pair that passed the gates. *)
Lemma keptb_gate (anom_later anom_earlier : list feature) (yb : Q)
    (p : nat * nat) (a_l a_e : feature) :
  Forall (fun a => corrected_distance a <> NaN) anom_later ->
  anom_later !! fst p = Some a_l -> anom_earlier !! snd p = Some a_e ->
  keptb (cost_matrix_of anom_later anom_earlier yb) p = true ->
  gate a_l a_e = true /\
  fge (pair_cost a_l a_e yb) cost_cut = false.
Proof.
  intros Hfin Hal Hae Hk. unfold keptb in Hk.
  destruct (cost_matrix_of anom_later anom_earlier yb !! fst p)
    as [row |] eqn:Hrow; [| discriminate].
  destruct (row !! snd p) as [c |] eqn:Hc; [| discriminate].
  apply negb_true_iff in Hk.
  pose proof (cost_matrix_rows anom_later anom_earlier yb Hfin) as Hrows.
  destruct (Forall2_lookup_lr _ _ _ _ _ _ Hrows Hal Hrow) as [_ Hcells].
  destruct (Hcells _ _ Hc) as [-> | (a_e' & Hae' & Hg & ->)].
  - vm_compute in Hk. discriminate.
  - rewrite Hae in Hae'. injection Hae' as <-. split; assumption.
Qed.

(** The matcher, run on two aligned runs with a non-zero year gap and a
    solver that answers with a valid assignment: it returns, and its three
    outputs are described by the list [kept] of assigned pairs that
    survive the cost cut. *)
Lemma match_anomalies_Ok (run_later run_earlier : list feature) (yb : Q) :
  Qeq_bool yb 0 = false ->
  valid_assignment (length (get_anomalies run_later))
    (length (get_anomalies run_earlier))
    (assignment_of (get_anomalies run_later) (get_anomalies run_earlier) yb) ->
  aligned run_later -> aligned run_earlier ->
  exists r kept,
    match_anomalies run_later run_earlier yb = Ok r /\
    NoDup (List.map fst kept) /\ NoDup (List.map snd kept) /\
    Forall2
      (matched_pair (get_anomalies run_later) (get_anomalies run_earlier) yb)
      kept (matches r) /\
    Forall2 (fun i a => get_anomalies run_later !! i = Some a)
      (filter (fun i => i ∉ List.map fst kept)
         (seq 0 (length (get_anomalies run_later))))
      (new_anomalies r) /\
    Forall2 (fun j a => get_anomalies run_earlier !! j = Some a)
      (filter (fun j => j ∉ List.map snd kept)
         (seq 0 (length (get_anomalies run_earlier))))
      (missing_anomalies r).
Proof.
  intros Hyb Hvalid HfinL HfinE. revert Hvalid.
  unfold match_anomalies, aligned in *.
  set (anom_later := get_anomalies run_later) in *.
  set (anom_earlier := get_anomalies run_earlier) in *.
  intros (Hnd1 & Hnd2 & Hrange).
  destruct ((length anom_later =? 0)%nat || (length anom_earlier =? 0)%nat)
    eqn:Hempty.
  { eexists _, []. split; [reflexivity |]. cbn [List.map matches new_anomalies
                                                missing_anomalies].
    split; [constructor |]. split; [constructor |]. split; [constructor |].
    rewrite !filter_notin_nil. split; apply Forall2_seq_lookup. }
  unfold assignment_of in Hnd1, Hnd2, Hrange.
  pose proof (cost_matrix_rows anom_later anom_earlier yb HfinL) as Hrows.
  pose proof (fun p a_l a_e =>
                keptb_gate anom_later anom_earlier yb p a_l a_e HfinL)
    as Hgate.
  unfold cost_matrix_of in Hnd1, Hnd2, Hrange, Hrows, Hgate.
  rewrite (KDTree_Ok anom_earlier HfinE). cbn [mbind result_bind].
  destruct (scan_all_Ok anom_later anom_earlier yb HfinL)
    as (scanned & Hs & _).
  rewrite Hs in Hnd1, Hnd2, Hrange, Hrows, Hgate |- *.
  cbn [mbind result_bind].
  apply mapM_length in Hs.
  destruct (linear_sum_assignment (List.map fst scanned))
    as [row_ind col_ind].
  destruct (keep_loop_Ok anom_later anom_earlier (List.map fst scanned)
              (List.map snd scanned) yb (zip row_ind col_ind) Hyb)
    with (ms0 := @nil match_record) (ML0 := (∅ : gset nat))
         (ME0 := (∅ : gset nat))
    as (ms & ML & ME & Hloop & Hms & HML & HME).
  { rewrite List.length_map. exact Hs. }
  { rewrite List.length_map. exact Hs. }
  { apply Forall_forall. intros row Hrow.
    apply list_elem_of_lookup in Hrow. destruct Hrow as [i Hrow].
    destruct (Forall2_lookup_r _ _ _ _ _ Hrows Hrow) as (a_l & _ & [Hlen _]).
    exact Hlen. }
  { exact Hrange. }
  rewrite Hloop. cbn [mbind result_bind app].
  set (kept := List.filter (keptb (List.map fst scanned)) (zip row_ind col_ind))
    in *.
  assert (HML' : forall x, x ∈ ML <-> x ∈ List.map fst kept).
  { intros x. rewrite HML, elem_of_empty. tauto. }
  assert (HME' : forall x, x ∈ ME <-> x ∈ List.map snd kept).
  { intros x. rewrite HME, elem_of_empty. tauto. }
  destruct (mapM_iloc_Ok anom_later (unmatched_idx (length anom_later) ML))
    as (new & Hnew & Hnew2); [apply unmatched_idx_lt |].
  destruct (mapM_iloc_Ok anom_earlier (unmatched_idx (length anom_earlier) ME))
    as (missing & Hmissing & Hmissing2); [apply unmatched_idx_lt |].
  rewrite Hnew, Hmissing. cbn [mbind result_bind].
  rewrite (unmatched_idx_ext _ _ _ HML') in Hnew2.
  rewrite (unmatched_idx_ext _ _ _ HME') in Hmissing2.
  eexists _, kept. split; [reflexivity |].
  cbn [matches new_anomalies missing_anomalies].
  split; [apply NoDup_map_filter, Hnd1 |].
  split; [apply NoDup_map_filter, Hnd2 |].
  split; [| split; assumption].
  assert (Hkept : Forall (fun p => keptb (List.map fst scanned) p = true) kept).
  { apply Forall_forall. intros p Hp. apply list_elem_of_In, filter_In in Hp.
    apply Hp. }
  clear -Hms Hkept Hgate.
  induction Hms as [| p m kept ms (a_l & a_e & Hal & Hae & Hrec) _ IH];
    [constructor |].
  apply Forall_cons in Hkept. destruct Hkept as [Hp Hkept].
  constructor; [| apply IH, Hkept].
  exists a_l, a_e. destruct (Hgate p a_l a_e Hal Hae Hp) as [Hg Hcut]. auto.
Qed.

(** When either run has no anomaly the matcher returns at once, with no
    match, every later anomaly as new, every earlier anomaly as missing
    and [total_matches = 0]. *)
Lemma match_anomalies_early_return (run_later run_earlier : list feature)
    (yb : Q) :
  get_anomalies run_later = [] \/ get_anomalies run_earlier = [] ->
  match_anomalies run_later run_earlier yb =
  Ok {| matches := [];
        new_anomalies := get_anomalies run_later;
        missing_anomalies := get_anomalies run_earlier;
        stats := {[ "total_matches" := Fin 0 ]} |}.
Proof.
  intros Hempty. unfold match_anomalies.
  destruct Hempty as [-> | ->]; cbn [length Nat.eqb orb].
  - reflexivity.
  - rewrite orb_true_r. reflexivity.
Qed.

(** C9: the matcher does fail on data content.  When either run has no
    anomaly it returns at once, with no match, every later anomaly as new,
    every earlier anomaly as missing and [total_matches = 0].  But when
    the later run has an anomaly and an anomaly of the earlier run has no
    corrected distance, the KD-tree cannot be built and the matcher raises
    a [ValueError]. *)
Theorem match_anomalies_unaligned_raises (run_later run_earlier : list feature)
    (yb : Q) :
  (get_anomalies run_later = [] \/ get_anomalies run_earlier = [] ->
   match_anomalies run_later run_earlier yb =
   Ok {| matches := [];
         new_anomalies := get_anomalies run_later;
         missing_anomalies := get_anomalies run_earlier;
         stats := {[ "total_matches" := Fin 0 ]} |}) /\
  (get_anomalies run_later <> [] ->
   Exists (fun a => corrected_distance a = NaN) (get_anomalies run_earlier) ->
   match_anomalies run_later run_earlier yb = Raise ValueError).
Proof.
  split; [apply match_anomalies_early_return |].
  intros HneL Hex. unfold match_anomalies.
  destruct (get_anomalies run_later) as [| a_l anom_later] eqn:EL;
    [congruence |].
  destruct (get_anomalies run_earlier) as [| a_e anom_earlier] eqn:EE;
    [inversion Hex |].
  cbn [length Nat.eqb orb]. unfold KDTree.
  destruct (forallb finite_point (_build_search_points (a_e :: anom_earlier)))
    eqn:Hfin; [| reflexivity].
  exfalso. apply Exists_exists in Hex. destruct Hex as (a & Ha & Hnan).
  rewrite forallb_forall in Hfin.
  assert (Hf : finite_point (_build_search_point_single a) = true).
  { apply Hfin. unfold _build_search_points.
    apply in_map, list_elem_of_In, Ha. }
  unfold _build_search_point_single, finite_point in Hf.
  destruct (clock_to_trig (clock_hours a)) as [cos_c sin_c].
  cbn [fst] in Hf. rewrite Hnan in Hf. discriminate.
Qed.

Lemma row_idx_at_rows (df : list feature) (idx : list nat)
    (rows : list feature) :
  Forall2 (fun i a => df !! i = Some a) idx rows ->
  List.map source_row_idx rows = List.map (row_idx_at df) idx.
Proof.
  induction 1 as [| i a idx rows Hi _ IH]; simpl; [reflexivity |].
  unfold row_idx_at at 1. rewrite Hi, IH. reflexivity.
Qed.

Lemma matched_pair_lt (anom_later anom_earlier : list feature) (yb : Q)
    (kept : list (nat * nat)) (ms : list match_record) :
  Forall2 (matched_pair anom_later anom_earlier yb) kept ms ->
  Forall (fun i => (i < length anom_later)%nat) (List.map fst kept) /\
  Forall (fun j => (j < length anom_earlier)%nat) (List.map snd kept) /\
  List.map later_row_idx ms = List.map (row_idx_at anom_later) (List.map fst kept) /\
  List.map earlier_row_idx ms
  = List.map (row_idx_at anom_earlier) (List.map snd kept).
Proof.
  induction 1 as [| p m kept ms (a_l & a_e & Hal & Hae & _ & Hrec & _) _ IH];
    simpl.
  - repeat split; constructor.
  - destruct IH as (IH1 & IH2 & IH3 & IH4).
    destruct Hrec as (Hl & He & _).
    split; [constructor; [eapply lookup_lt_Some, Hal | exact IH1] |].
    split; [constructor; [eapply lookup_lt_Some, Hae | exact IH2] |].
    unfold row_idx_at at 1 3. rewrite Hal, Hae, Hl, He, IH3, IH4.
    split; reflexivity.
Qed.

(** One side of the partition: the row indices of the matches and of the
    left-over anomalies are a rearrangement of the row indices of the
    side's anomalies. *)
Lemma side_partition (df : list feature) (K : list nat)
    (matched_idx : list Z) (rest : list feature) :
  NoDup K -> Forall (fun i => (i < length df)%nat) K ->
  matched_idx = List.map (row_idx_at df) K ->
  Forall2 (fun i a => df !! i = Some a)
    (filter (fun i => i ∉ K) (seq 0 (length df))) rest ->
  (matched_idx ++ List.map source_row_idx rest)%list
  ≡ₚ List.map source_row_idx df.
Proof.
  intros Hnd Hlt -> Hrest.
  rewrite (row_idx_at_rows _ _ _ Hrest).
  rewrite (row_idx_at_rows _ _ _ (Forall2_seq_lookup df)).
  rewrite <- List.map_app.
  apply (fmap_Permutation (row_idx_at df)).
  apply kept_unmatched_Permutation; assumption.
Qed.

(** C1: the result of [match_anomalies] is a one-to-one partial pairing
    that partitions both anomaly sets.  No later row index and no earlier
    row index occurs in two match rows, and the row indices of the matches
    together with those of [new_anomalies] (later side) or of
    [missing_anomalies] (earlier side) list every anomaly of that side
    exactly once. *)
Theorem match_anomalies_partition (run_later run_earlier : list feature)
    (yb : Q) :
  Qeq_bool yb 0 = false ->
  valid_assignment (length (get_anomalies run_later))
    (length (get_anomalies run_earlier))
    (assignment_of (get_anomalies run_later) (get_anomalies run_earlier) yb) ->
  aligned run_later -> aligned run_earlier ->
  NoDup (List.map source_row_idx (get_anomalies run_later)) ->
  NoDup (List.map source_row_idx (get_anomalies run_earlier)) ->
  exists r,
    match_anomalies run_later run_earlier yb = Ok r /\
    NoDup (List.map later_row_idx (matches r)) /\
    NoDup (List.map earlier_row_idx (matches r)) /\
    NoDup (List.map later_row_idx (matches r)
           ++ List.map source_row_idx (new_anomalies r)) /\
    NoDup (List.map earlier_row_idx (matches r)
           ++ List.map source_row_idx (missing_anomalies r)) /\
    (List.map later_row_idx (matches r)
     ++ List.map source_row_idx (new_anomalies r))%list
    ≡ₚ List.map source_row_idx (get_anomalies run_later) /\
    (List.map earlier_row_idx (matches r)
     ++ List.map source_row_idx (missing_anomalies r))%list
    ≡ₚ List.map source_row_idx (get_anomalies run_earlier).
Proof.
  intros Hyb Hvalid HfinL HfinE HndL HndE.
  destruct (match_anomalies_Ok run_later run_earlier yb Hyb Hvalid HfinL HfinE)
    as (r & kept & Hr & Hnd1 & Hnd2 & Hms & Hnew & Hmissing).
  destruct (matched_pair_lt _ _ _ _ _ Hms) as (Hlt1 & Hlt2 & Hidx1 & Hidx2).
  pose proof (side_partition _ _ _ _ Hnd1 Hlt1 Hidx1 Hnew) as HpL.
  pose proof (side_partition _ _ _ _ Hnd2 Hlt2 Hidx2 Hmissing) as HpE.
  assert (HallL : NoDup (List.map later_row_idx (matches r)
                         ++ List.map source_row_idx (new_anomalies r))).
  { rewrite HpL. exact HndL. }
  assert (HallE : NoDup (List.map earlier_row_idx (matches r)
                         ++ List.map source_row_idx (missing_anomalies r))).
  { rewrite HpE. exact HndE. }
  exists r. split; [exact Hr |].
  split; [apply NoDup_app in HallL; tauto |].
  split; [apply NoDup_app in HallE; tauto |].
  tauto.
Qed.

Lemma clock_distance_Fin (h1 h2 : fl) :
  exists c, clock_distance h1 h2 = Fin c.
Proof.
  unfold clock_distance. destruct h1 as [| a], h2 as [| b];
    cbn [isnan orb]; try (eexists; reflexivity).
  cbn [fsub fabs fmod lift2]. rewrite py_min_Fin. eexists. reflexivity.
Qed.

Lemma clock_distance_NaN (h : fl) :
  clock_distance NaN h = Fin 6.0 /\ clock_distance h NaN = Fin 6.0.
Proof.
  unfold clock_distance. split; [reflexivity |].
  destruct h; reflexivity.
Qed.

(** What passing the gates means for the numbers. *)
Lemma gate_tolerances (a_l a_e : feature) (dl de : Q) :
  gate a_l a_e = true ->
  corrected_distance a_l = Fin dl -> corrected_distance a_e = Fin de ->
  Qabs (dl - de) <= 3 /\
  exists clk,
    clock_distance (clock_hours a_l) (clock_hours a_e) = Fin clk /\ clk <= 1.
Proof.
  unfold gate. intros Hg Hl He. rewrite Hl, He in Hg.
  apply andb_true_iff in Hg. destruct Hg as [Hg _].
  apply andb_true_iff in Hg. destruct Hg as [Hd Hc].
  apply negb_true_iff in Hd, Hc. split.
  - cbn in Hd. apply Qlt_bool_false in Hd.
    assert (H3 : 3.0 == 3) by reflexivity. rewrite <- H3. exact Hd.
  - destruct (clock_distance_Fin (clock_hours a_l) (clock_hours a_e))
      as [clk Hclk].
    rewrite Hclk in Hc. exists clk. split; [exact Hclk |].
    cbn in Hc. apply Qlt_bool_false in Hc.
    assert (H1 : 1.0 == 1) by reflexivity. rewrite <- H1. exact Hc.
Qed.

Lemma gate_clock_present (a_l a_e : feature) :
  gate a_l a_e = true -> clock_hours a_l <> NaN /\ clock_hours a_e <> NaN.
Proof.
  unfold gate. intros Hg.
  apply andb_true_iff in Hg. destruct Hg as [Hg _].
  apply andb_true_iff in Hg. destruct Hg as [_ Hc].
  apply negb_true_iff in Hc.
  split; intros Hnan; rewrite Hnan in Hc.
  - rewrite (proj1 (clock_distance_NaN _)) in Hc. vm_compute in Hc.
    discriminate.
  - rewrite (proj2 (clock_distance_NaN _)) in Hc. vm_compute in Hc.
    discriminate.
Qed.

Lemma py_round_present (x : fl) (n : nat) : x <> NaN -> py_round x n <> NaN.
Proof. destruct x; [congruence | discriminate]. Qed.

(** C2: every match row pairs two anomalies whose corrected distances
    differ by at most 3.0 ft and whose clock positions are at most 1.0 h
    apart on the clock face. *)
Theorem matches_within_tolerances (run_later run_earlier : list feature)
    (yb : Q) :
  Qeq_bool yb 0 = false ->
  valid_assignment (length (get_anomalies run_later))
    (length (get_anomalies run_earlier))
    (assignment_of (get_anomalies run_later) (get_anomalies run_earlier) yb) ->
  aligned run_later -> aligned run_earlier ->
  exists r,
    match_anomalies run_later run_earlier yb = Ok r /\
    Forall (fun m =>
      exists a_l a_e dl de clk,
        In a_l (get_anomalies run_later) /\
        In a_e (get_anomalies run_earlier) /\
        record_for a_l a_e m /\
        corrected_distance a_l = Fin dl /\
        corrected_distance a_e = Fin de /\
        Qabs (dl - de) <= 3 /\
        clock_distance (clock_hours a_l) (clock_hours a_e) = Fin clk /\
        clk <= 1) (matches r).
Proof.
  intros Hyb Hvalid HfinL HfinE.
  destruct (match_anomalies_Ok run_later run_earlier yb Hyb Hvalid HfinL HfinE)
    as (r & kept & Hr & _ & _ & Hms & _).
  exists r. split; [exact Hr |].
  unfold aligned in HfinL, HfinE. rewrite Forall_forall in HfinL, HfinE.
  induction Hms
      as [| p m kept ms (a_l & a_e & Hal & Hae & Hg & Hrec & Hcut) _ IH];
    constructor; [| exact IH].
  apply list_elem_of_lookup_2 in Hal, Hae.
  pose proof (HfinL _ Hal) as Hl. pose proof (HfinE _ Hae) as He.
  destruct (corrected_distance a_l) as [| dl] eqn:El; [congruence |].
  destruct (corrected_distance a_e) as [| de] eqn:Ee; [congruence |].
  destruct (gate_tolerances a_l a_e dl de Hg El Ee) as (Hd & clk & Hclk & Hc).
  exists a_l, a_e, dl, de, clk.
  apply list_elem_of_In in Hal, Hae. rewrite El, Ee. tauto.
Qed.

(** C10: a missing clock position disqualifies a pair.  The clock
    distance to or from a NaN is the maximal 6.0, such a pair fails the
    1.0-hour gate of the candidate loop, which leaves the cost matrix and
    the candidate count as they were, and every match row has a clock
    position on both sides. *)
Theorem missing_clock_never_matched (run_later run_earlier : list feature)
    (yb : Q) :
  (forall h, clock_distance NaN h = Fin 6.0 /\ clock_distance h NaN = Fin 6.0) /\
  (forall a_l a_e anom_earlier row count j,
     clock_hours a_l = NaN \/ clock_hours a_e = NaN ->
     anom_earlier !! j = Some a_e ->
     fgt (clock_distance (clock_hours a_l) (clock_hours a_e))
         CLOCK_TOLERANCE_HOURS = true /\
     scan_candidate a_l anom_earlier yb (row, count) j = Ok (row, count)) /\
  (Qeq_bool yb 0 = false ->
   valid_assignment (length (get_anomalies run_later))
     (length (get_anomalies run_earlier))
     (assignment_of (get_anomalies run_later) (get_anomalies run_earlier) yb) ->
   aligned run_later -> aligned run_earlier ->
   exists r,
     match_anomalies run_later run_earlier yb = Ok r /\
     Forall (fun m =>
       exists a_l a_e,
         In a_l (get_anomalies run_later) /\
         In a_e (get_anomalies run_earlier) /\
         record_for a_l a_e m /\
         clock_hours a_l <> NaN /\ clock_hours a_e <> NaN /\
         later_clock m <> NaN /\ earlier_clock m <> NaN) (matches r)).
Proof.
  split; [exact clock_distance_NaN |]. split.
  - intros a_l a_e anom_earlier row count j Hnan Hj.
    assert (Hg : gate a_l a_e = false).
    { destruct (gate a_l a_e) eqn:Hg; [| reflexivity].
      apply gate_clock_present in Hg. tauto. }
    rewrite (scan_candidate_Ok _ _ _ _ _ _ a_e Hj), Hg.
    split; [| reflexivity].
    destruct Hnan as [Hnan | Hnan]; rewrite Hnan.
    + rewrite (proj1 (clock_distance_NaN _)). reflexivity.
    + rewrite (proj2 (clock_distance_NaN _)). reflexivity.
  - intros Hyb Hvalid HfinL HfinE.
    destruct (match_anomalies_Ok run_later run_earlier yb Hyb Hvalid HfinL HfinE)
      as (r & kept & Hr & _ & _ & Hms & _).
    exists r. split; [exact Hr |].
    induction Hms
      as [| p m kept ms (a_l & a_e & Hal & Hae & Hg & Hrec & Hcut) _ IH];
      constructor; [| exact IH].
    apply list_elem_of_lookup_2, list_elem_of_In in Hal, Hae.
    destruct (gate_clock_present a_l a_e Hg) as [Hcl Hce].
    exists a_l, a_e.
    pose proof Hrec as (_ & _ & _ & _ & Hlc & Hec).
    rewrite Hlc, Hec.
    repeat (split; [assumption |]).
    split; apply py_round_present; assumption.
Qed.

(** Where the cost cut falls: a candidate pair of similarity [s] is kept
    exactly when [s > 0.40]. *)
Lemma cost_cut_similarity (s : Q) :
  fge (fsub 1.0 (Fin s)) cost_cut = false <-> 0.40 < s.
Proof.
  cbn. rewrite Qle_bool_false. split; intros Hs; lra.
Qed.

(** The similarity is a number, whatever is missing in the two rows. *)
Lemma compute_similarity_Fin (a_l a_e : feature) (yb : Q) :
  exists s, compute_similarity a_l a_e yb = Fin s.
Proof.
  unfold compute_similarity.
  destruct (py_max_lower 0
              (fsub 1.0
                 (fdiv (fabs (fsub (corrected_distance a_l)
                                   (corrected_distance a_e)))
                       DISTANCE_TOLERANCE_FT))) as (s1 & -> & _).
  destruct (py_max_lower 0
              (fsub 1.0
                 (fdiv (clock_distance (clock_hours a_l) (clock_hours a_e))
                       (fmul CLOCK_TOLERANCE_HOURS 6.0)))) as (s2 & -> & _).
  destruct (py_max_lower 0
              (fsub 1.0
                 (fdiv (fadd (_safe_diff (length_in a_l) (length_in a_e))
                             (_safe_diff (width_in a_l) (width_in a_e)))
                       6.0))) as (s4 & -> & _).
  destruct (py_max_lower 0
              (fsub 1.0
                 (fdiv (fsub (depth_pct a_l) (depth_pct a_e)) 30.0)))
    as (s3 & -> & _).
  destruct (py_max_lower 0
              (fsub 1.0
                 (fdiv (fabs (fsub (depth_pct a_l) (depth_pct a_e))) 10.0)))
    as (s3' & -> & _).
  destruct (isnan (depth_pct a_l) || isnan (depth_pct a_e));
    [| destruct (fge (fsub (depth_pct a_l) (depth_pct a_e)) 0)];
    destruct (String.eqb (event_type a_l) (event_type a_e));
    eexists; reflexivity.
Qed.

(** Every match row comes from an assigned pair whose similarity is
    strictly above 0.40. *)
Lemma matches_above_cut (run_later run_earlier : list feature) (yb : Q) :
  Qeq_bool yb 0 = false ->
  valid_assignment (length (get_anomalies run_later))
    (length (get_anomalies run_earlier))
    (assignment_of (get_anomalies run_later) (get_anomalies run_earlier) yb) ->
  aligned run_later -> aligned run_earlier ->
  exists r,
    match_anomalies run_later run_earlier yb = Ok r /\
    Forall (fun m =>
      exists a_l a_e s,
        In a_l (get_anomalies run_later) /\
        In a_e (get_anomalies run_earlier) /\
        record_for a_l a_e m /\
        compute_similarity a_l a_e yb = Fin s /\ 0.40 < s) (matches r).
Proof.
  intros Hyb Hvalid HfinL HfinE.
  destruct (match_anomalies_Ok run_later run_earlier yb Hyb Hvalid HfinL HfinE)
    as (r & kept & Hr & _ & _ & Hms & _).
  exists r. split; [exact Hr |].
  induction Hms
    as [| p m kept ms (a_l & a_e & Hal & Hae & Hg & Hrec & Hcut) _ IH];
    constructor; [| exact IH].
  apply list_elem_of_lookup_2, list_elem_of_In in Hal, Hae.
  destruct (compute_similarity_Fin a_l a_e yb) as [s Hs].
  exists a_l, a_e, s. unfold pair_cost in Hcut. rewrite Hs in Hcut.
  apply cost_cut_similarity in Hcut. tauto.
Qed.

End MatchingProperties.

(** ** The theorems at concrete runs *)

Section Witnesses.
Import Config DataIngestion Matching Growth MultiRun.
Local Open Scope Q_scope.

Lemma reference_assignment_valid :
  valid_assignment
    (length (get_anomalies later_run)) (length (get_anomalies earlier_run))
    (assignment_of (lib := Reference.scipy)
       (get_anomalies later_run) (get_anomalies earlier_run) 8).
Proof.
  unfold valid_assignment. apply (bool_decide_unpack _). vm_compute. exact I.
Defined.

Lemma later_run_aligned : aligned later_run.
Proof. unfold aligned. cbn. repeat constructor; discriminate. Defined.

Lemma earlier_run_aligned : aligned earlier_run.
Proof. unfold aligned. cbn. repeat constructor; discriminate. Defined.

Lemma match_anomalies_partition_witness :
  exists r,
    match_anomalies (lib := Reference.scipy) later_run earlier_run 8 = Ok r /\
    NoDup (List.map later_row_idx (matches r)) /\
    NoDup (List.map earlier_row_idx (matches r)) /\
    NoDup (List.map later_row_idx (matches r)
           ++ List.map source_row_idx (new_anomalies r)) /\
    NoDup (List.map earlier_row_idx (matches r)
           ++ List.map source_row_idx (missing_anomalies r)) /\
    (List.map later_row_idx (matches r)
     ++ List.map source_row_idx (new_anomalies r))%list
    ≡ₚ List.map source_row_idx (get_anomalies later_run) /\
    (List.map earlier_row_idx (matches r)
     ++ List.map source_row_idx (missing_anomalies r))%list
    ≡ₚ List.map source_row_idx (get_anomalies earlier_run).
Proof.
  apply (match_anomalies_partition (lib := Reference.scipy) later_run earlier_run 8).
  - reflexivity.
  - exact reference_assignment_valid.
  - exact later_run_aligned.
  - exact earlier_run_aligned.
  - apply (bool_decide_unpack _). vm_compute. exact I.
  - apply (bool_decide_unpack _). vm_compute. exact I.
Defined.

Lemma matches_within_tolerances_witness :
  exists r,
    match_anomalies (lib := Reference.scipy) later_run earlier_run 8 = Ok r /\
    Forall (fun m =>
      exists a_l a_e dl de clk,
        In a_l (get_anomalies later_run) /\
        In a_e (get_anomalies earlier_run) /\
        record_for a_l a_e m /\
        corrected_distance a_l = Fin dl /\
        corrected_distance a_e = Fin de /\
        Qabs (dl - de) <= 3 /\
        clock_distance (clock_hours a_l) (clock_hours a_e) = Fin clk /\
        clk <= 1) (matches r).
Proof.
  apply (matches_within_tolerances (lib := Reference.scipy)
           later_run earlier_run 8).
  - reflexivity.
  - exact reference_assignment_valid.
  - exact later_run_aligned.
  - exact earlier_run_aligned.
Defined.

Lemma match_anomalies_unaligned_raises_witness :
  match_anomalies (lib := Reference.scipy) later_run uncorrected_run 8
  = Raise ValueError.
Proof.
  apply (proj2 (match_anomalies_unaligned_raises (lib := Reference.scipy)
                  later_run uncorrected_run 8)).
  - discriminate.
  - apply Exists_cons_hd. reflexivity.
Defined.

Lemma missing_clock_never_matched_witness :
  exists r,
    match_anomalies (lib := Reference.scipy) later_run earlier_run 8 = Ok r /\
    Forall (fun m =>
      exists a_l a_e,
        In a_l (get_anomalies later_run) /\
        In a_e (get_anomalies earlier_run) /\
        record_for a_l a_e m /\
        clock_hours a_l <> NaN /\ clock_hours a_e <> NaN /\
        later_clock m <> NaN /\ earlier_clock m <> NaN) (matches r).
Proof.
  apply (proj2 (proj2 (missing_clock_never_matched (lib := Reference.scipy)
                         later_run earlier_run 8))).
  - reflexivity.
  - exact reference_assignment_valid.
  - exact later_run_aligned.
  - exact earlier_run_aligned.
Defined.

(** C3, at the boundary: the pair above passes the three gates, is the
    pair the solver assigns, has similarity exactly 0.40 and cost exactly
    0.60, and the matcher discards it. *)
Theorem similarity_at_cut_discarded :
  gate cut_later cut_earlier = true /\
  feq (compute_similarity cut_later cut_earlier 8) (Fin 0.40) /\
  feq (pair_cost cut_later cut_earlier 8) cost_cut /\
  assignment_of (lib := Reference.scipy) [cut_later] [cut_earlier] 8
  = [(0%nat, 0%nat)] /\
  exists r,
    match_anomalies (lib := Reference.scipy) [cut_later] [cut_earlier] 8 = Ok r /\
    matches r = [] /\
    new_anomalies r = [cut_later] /\
    missing_anomalies r = [cut_earlier].
Proof.
  split; [vm_compute; reflexivity |].
  split; [vm_compute; reflexivity |].
  split; [vm_compute; reflexivity |].
  split; [vm_compute; reflexivity |].
  eexists. split; [vm_compute; reflexivity |].
  repeat split.
Qed.



End Witnesses.

(** * Further properties of the embedded code *)

(** ** Clock arithmetic *)

Section ClockProperties.
Import Config DataIngestion Matching.
Local Open Scope Q_scope.

Lemma Qfloor_unique (y : Q) (n : Z) :
  inject_Z n <= y -> y < inject_Z (n + 1) -> Qfloor y = n.
Proof.
  intros Hlo Hhi.
  pose proof (Qfloor_le y) as Hf. pose proof (Qlt_floor y) as Hc.
  assert (H1 : (inject_Z n < inject_Z (Qfloor y + 1))) by lra.
  assert (H2 : (inject_Z (Qfloor y) < inject_Z (n + 1))) by lra.
  rewrite <- Zlt_Qlt in H1, H2. lia.
Qed.

Lemma Qmod_range (x m : Q) : 0 < m -> 0 <= Qmod x m /\ Qmod x m < m.
Proof.
  intros Hm. unfold Qmod.
  pose proof (Qfloor_le (x / m)) as Hf. pose proof (Qlt_floor (x / m)) as Hc.
  rewrite inject_Z_plus in Hc.
  assert (Hx : x == m * (x / m)) by (field; lra).
  set (k := inject_Z (Qfloor (x / m))) in *.
  set (y := x / m) in *.
  split.
  - assert (m * k <= m * y) by (apply Qmult_le_l; assumption). lra.
  - assert (m * y < m * (k + inject_Z 1)) by (apply Qmult_lt_l; assumption).
    change (inject_Z 1) with 1 in *. lra.
Qed.

Lemma Qmod_comp (x y m : Q) : x == y -> Qmod x m == Qmod y m.
Proof.
  intros H. unfold Qmod.
  assert (Hf : Qfloor (x / m) = Qfloor (y / m))
    by (apply Qfloor_comp; rewrite H; reflexivity).
  rewrite Hf. lra.
Qed.

Lemma Qmod_small (x m : Q) : 0 <= x -> x < m -> Qmod x m == x.
Proof.
  intros H0 Hm. unfold Qmod.
  assert (Hf : Qfloor (x / m) = 0%Z).
  { apply Qfloor_unique.
    - change (inject_Z 0) with 0. apply Qle_shift_div_l; lra.
    - change (inject_Z (0 + 1)) with 1. apply Qlt_shift_div_r; lra. }
  rewrite Hf. change (inject_Z 0) with 0. lra.
Qed.

(** The distance on the dial between two present clock positions. *)
Lemma clock_distance_dial (h1 h2 : Q) :
  exists c,
    clock_distance (Fin h1) (Fin h2) = Fin c /\
    c == Qmin (Qmod (Qabs (h1 - h2)) 12) (12 - Qmod (Qabs (h1 - h2)) 12).
Proof.
  unfold clock_distance. cbn [isnan orb fsub fabs fmod lift2].
  rewrite py_min_Fin. eexists. split; [reflexivity |].
  assert (E : Qmod (Qabs (h1 - h2)) 12.0 == Qmod (Qabs (h1 - h2)) 12).
  { unfold Qmod.
    assert (Hf : Qfloor (Qabs (h1 - h2) / 12.0) = Qfloor (Qabs (h1 - h2) / 12))
      by (apply Qfloor_comp; field).
    rewrite Hf. lra. }
  destruct (Qlt_bool _ _) eqn:Hlt.
  - apply Qlt_bool_iff in Hlt. rewrite Q.min_r; lra.
  - apply Qlt_bool_false in Hlt. rewrite Q.min_l; lra.
Qed.

Lemma dial_range (x : Q) :
  0 <= Qmin (Qmod x 12) (12 - Qmod x 12) <= 6.
Proof.
  destruct (Qmod_range x 12) as [H0 H12]; [lra |].
  destruct (Q.min_spec (Qmod x 12) (12 - Qmod x 12)) as [[Hlt ->] | [Hle ->]];
    lra.
Qed.

(** X1: two present clock positions are between 0 and 6 hours apart, the
    distance does not depend on the order of the two positions, and a
    position is at distance 0 from itself. *)
Theorem clock_distance_on_dial (h1 h2 : Q) :
  exists c,
    clock_distance (Fin h1) (Fin h2) = Fin c /\
    0 <= c <= 6 /\
    feq (clock_distance (Fin h2) (Fin h1)) (Fin c) /\
    feq (clock_distance (Fin h1) (Fin h1)) (Fin 0).
Proof.
  destruct (clock_distance_dial h1 h2) as (c & Hc & Ec).
  exists c. split; [exact Hc |]. split.
  { pose proof (dial_range (Qabs (h1 - h2))). lra. }
  split.
  { destruct (clock_distance_dial h2 h1) as (c' & -> & Ec'). cbn [feq].
    rewrite Ec, Ec', (Qabs_Qminus h2 h1). reflexivity. }
  destruct (clock_distance_dial h1 h1) as (c' & -> & Ec'). cbn [feq].
  rewrite Ec'.
  assert (E0 : Qmod (Qabs (h1 - h1)) 12 == 0).
  { rewrite (Qmod_comp (Qabs (h1 - h1)) 0).
    - apply Qmod_small; lra.
    - rewrite Qabs_pos by lra. lra. }
  destruct (Q.min_spec (Qmod (Qabs (h1 - h1)) 12)
              (12 - Qmod (Qabs (h1 - h1)) 12)) as [[H1 ->] | [H1 ->]]; lra.
Qed.

End ClockProperties.

Section SimilarityProperties.
Import Config DataIngestion Matching.
Local Open Scope Q_scope.

Lemma clock_distance_bounds (h1 h2 : fl) :
  exists c, clock_distance h1 h2 = Fin c /\ 0 <= c <= 6.
Proof.
  destruct h1 as [| a], h2 as [| b];
    try (exists 6.0; split; [reflexivity | lra]).
  destruct (clock_distance_dial a b) as (c & Hc & Ec).
  exists c. split; [exact Hc |].
  pose proof (dial_range (Qabs (a - b))). lra.
Qed.

(** A sub-score [max(0, x)] with [x] at most 1 lies in the unit interval. *)
Lemma unit_score (x : fl) :
  (forall q, x = Fin q -> q <= 1) ->
  exists m, py_max (Fin 0) x = Fin m /\ 0 <= m <= 1.
Proof.
  intros Hx. destruct x as [| q].
  - exists 0. split; [reflexivity | lra].
  - rewrite py_max_Fin. specialize (Hx q eq_refl).
    destruct (Qlt_bool 0 q) eqn:Hq; eexists; (split; [reflexivity |]).
    + apply Qlt_bool_iff in Hq. lra.
    + lra.
Qed.

Lemma one_minus_ratio (d : fl) (t q : Q) :
  0 < t -> (forall v, d = Fin v -> 0 <= v) ->
  fsub (Fin 1.0) (fdiv d (Fin t)) = Fin q -> q <= 1.
Proof.
  intros Ht Hd. destruct d as [| v]; cbn; [discriminate |].
  intros [= <-]. specialize (Hd v eq_refl).
  assert (0 <= v / t) by (apply Qle_shift_div_l; lra). lra.
Qed.

Lemma fabs_nonneg (x : fl) (v : Q) : fabs x = Fin v -> 0 <= v.
Proof. destruct x; cbn; [discriminate |]. intros [= <-]. apply Qabs_nonneg. Qed.

Lemma safe_diff_nonneg (a b : fl) (v : Q) : _safe_diff a b = Fin v -> 0 <= v.
Proof.
  unfold _safe_diff. destruct (isnan a || isnan b).
  - intros [= <-]. lra.
  - apply fabs_nonneg.
Qed.

(** The weighted sum of the five sub-scores, in exact arithmetic. *)
Lemma compute_similarity_bounds (a_l a_e : feature) (yb : Q) :
  exists s, compute_similarity a_l a_e yb = Fin s /\ 0.07 <= s <= 1.
Proof.
  unfold compute_similarity.
  destruct (unit_score
              (fsub 1.0
                 (fdiv (fabs (fsub (corrected_distance a_l)
                                   (corrected_distance a_e)))
                       DISTANCE_TOLERANCE_FT))) as (s1 & -> & H1).
  { intros q. apply one_minus_ratio; [reflexivity |]. apply fabs_nonneg. }
  destruct (unit_score
              (fsub 1.0
                 (fdiv (clock_distance (clock_hours a_l) (clock_hours a_e))
                       (fmul CLOCK_TOLERANCE_HOURS 6.0)))) as (s2 & -> & H2).
  { intros q. apply one_minus_ratio; [reflexivity |].
    intros v Hv.
    destruct (clock_distance_bounds (clock_hours a_l) (clock_hours a_e))
      as (c & Hc & Hb).
    rewrite Hc in Hv. injection Hv as <-. lra. }
  destruct (unit_score
              (fsub 1.0
                 (fdiv (fadd (_safe_diff (length_in a_l) (length_in a_e))
                             (_safe_diff (width_in a_l) (width_in a_e)))
                       6.0))) as (s4 & -> & H4).
  { intros q. apply one_minus_ratio; [reflexivity |].
    intros v.
    destruct (_safe_diff (length_in a_l) (length_in a_e)) as [| x] eqn:Ex;
      [discriminate |].
    destruct (_safe_diff (width_in a_l) (width_in a_e)) as [| y] eqn:Ey;
      [discriminate |].
    apply safe_diff_nonneg in Ex, Ey. cbn. intros [= <-]. lra. }
  assert (H3 : exists s3,
    (if isnan (depth_pct a_l) || isnan (depth_pct a_e) then Fin 0.5
     else if fge (fsub (depth_pct a_l) (depth_pct a_e)) 0
          then py_max 0 (fsub 1.0 (fdiv (fsub (depth_pct a_l) (depth_pct a_e)) 30.0))
          else py_max 0
                 (fsub 1.0
                    (fdiv (fabs (fsub (depth_pct a_l) (depth_pct a_e))) 10.0)))
    = Fin s3 /\ 0 <= s3 <= 1).
  { destruct (isnan (depth_pct a_l) || isnan (depth_pct a_e)).
    - exists 0.5. split; [reflexivity | lra].
    - destruct (fge (fsub (depth_pct a_l) (depth_pct a_e)) 0) eqn:Hge.
      + apply unit_score. intros q.
        apply one_minus_ratio; [reflexivity |].
        intros v Hv. rewrite Hv in Hge. cbn in Hge.
        apply Qle_bool_iff in Hge. exact Hge.
      + apply unit_score. intros q.
        apply one_minus_ratio; [reflexivity |]. apply fabs_nonneg. }
  destruct H3 as (s3 & -> & H3).
  destruct (String.eqb (event_type a_l) (event_type a_e));
    unfold WEIGHT_DISTANCE, WEIGHT_CLOCK, WEIGHT_DEPTH, WEIGHT_DIMENSIONS,
      WEIGHT_TYPE;
    cbn [fadd fmul lift2]; eexists; (split; [reflexivity | lra]).
Qed.

(** X2: the similarity of two anomalies is a number, whatever values are
    missing in the two rows; it is at most 1, and at least 0.07 to the
    accuracy of the floating-point sum. *)
Theorem compute_similarity_range (a_l a_e : feature) (yb : Q) :
  exists s,
    compute_similarity a_l a_e yb = Fin s /\
    (exists lo, close lo 0.07 /\ lo <= s) /\ s <= 1.
Proof.
  destruct (compute_similarity_bounds a_l a_e yb) as (s & Hs & Hlo & Hhi).
  exists s. split; [exact Hs |]. split; [| exact Hhi].
  exists 0.07. split; [apply close_refl | exact Hlo].
Qed.

End SimilarityProperties.

Section TypeProperties.
Import Config DataIngestion Matching.
Local Open Scope Q_scope.

(** Two types are compatible only if they are equal or both in the table. *)
Lemma types_compatible_inv (a b : string) :
  types_compatible a b = true ->
  a = b \/ (In a (List.map fst COMPATIBLE_TYPES) /\
            In b (List.map fst COMPATIBLE_TYPES)).
Proof.
  unfold types_compatible.
  destruct (String.eqb_spec a b) as [-> | Hne]; [auto |].
  unfold COMPATIBLE_TYPES. cbn [compatible_get].
  repeat match goal with
  | |- context [String.eqb ?k a] =>
      destruct (String.eqb_spec k a) as [<- | ?]
  end;
  intros H; apply existsb_exists in H as (x & Hin & Hx);
  apply String.eqb_eq in Hx; subst x;
  try (right; split; [cbn; tauto | cbn in Hin |- *; tauto]).
  cbn in Hin. left. tauto.
Qed.

(** X3: type compatibility is an equivalence relation on event types, and
    a type outside the compatibility table is compatible with itself only. *)
Theorem types_compatible_equivalence :
  (forall a, types_compatible a a = true) /\
  (forall a b, types_compatible a b = true -> types_compatible b a = true) /\
  (forall a b c, types_compatible a b = true -> types_compatible b c = true ->
     types_compatible a c = true) /\
  (forall a b, ~ In a (List.map fst COMPATIBLE_TYPES) ->
     types_compatible a b = true -> a = b).
Proof.
  assert (Hrefl : forall a, types_compatible a a = true).
  { intros a. unfold types_compatible. rewrite String.eqb_refl. reflexivity. }
  split; [exact Hrefl |]. split; [| split].
  - intros a b H.
    destruct (types_compatible_inv a b H) as [-> | [Ha Hb]]; [apply Hrefl |].
    cbn in Ha, Hb.
    repeat (destruct Ha as [<- | Ha]; [| try contradiction]);
    repeat (destruct Hb as [<- | Hb]; [| try contradiction]);
    solve [ reflexivity | vm_compute in H; discriminate H ].
  - intros a b c Hab Hbc.
    destruct (types_compatible_inv a b Hab) as [-> | [Ha Hb]]; [exact Hbc |].
    destruct (types_compatible_inv b c Hbc) as [<- | [_ Hc]]; [exact Hab |].
    cbn in Ha, Hb, Hc.
    repeat (destruct Ha as [<- | Ha]; [| try contradiction]);
    repeat (destruct Hb as [<- | Hb]; [| try contradiction]);
    try (vm_compute in Hab; discriminate Hab);
    repeat (destruct Hc as [<- | Hc]; [| try contradiction]);
    solve [ reflexivity | vm_compute in Hbc; discriminate Hbc ].
  - intros a b Hna H.
    destruct (types_compatible_inv a b H) as [-> | [Ha _]]; tauto.
Qed.

End TypeProperties.

Section ConfidenceProperties.
Import Config DataIngestion Matching.
Local Open Scope Q_scope.

Lemma py_max_range (a u : Q) (x : fl) :
  a <= u -> (forall q, x = Fin q -> q <= u) ->
  exists m, py_max (Fin a) x = Fin m /\ a <= m <= u.
Proof.
  intros Hau Hx. destruct x as [| q].
  - exists a. split; [reflexivity | lra].
  - rewrite py_max_Fin. specialize (Hx q eq_refl).
    destruct (Qlt_bool a q) eqn:Hq; eexists; (split; [reflexivity |]).
    + apply Qlt_bool_iff in Hq. lra.
    + lra.
Qed.

Lemma py_round_range (x lo hi : Q) (n : nat) :
  lo <= x <= hi ->
  exists a b c,
    py_round (Fin lo) n = Fin a /\ py_round (Fin x) n = Fin b /\
    py_round (Fin hi) n = Fin c /\ a <= b <= c.
Proof.
  intros [Hlo Hhi].
  destruct (py_round_mono lo x n Hlo) as (a & b & Ha & Hb & Hab).
  destruct (py_round_mono x hi n Hhi) as (b' & c & Hb' & Hc & Hbc).
  rewrite Hb in Hb'. injection Hb' as <-.
  exists a, b, c. repeat split; assumption.
Qed.

(** The uniqueness factor. *)
Lemma f_unique_range (n : nat) :
  exists u,
    (if (n <=? 1)%nat then Fin 1.0
     else if (n =? 2)%nat then Fin 0.7
     else py_max 0.3 (fsub 1.0 (fmul (Fin (inject_Z (Z.of_nat n))) 0.1)))
    = Fin u /\ 0.3 <= u <= 1.
Proof.
  destruct (n <=? 1)%nat; [exists 1.0; split; [reflexivity | lra] |].
  destruct (n =? 2)%nat; [exists 0.7; split; [reflexivity | lra] |].
  apply py_max_range; [lra |]. cbn. intros q [= <-].
  assert (0 <= inject_Z (Z.of_nat n)).
  { change 0 with (inject_Z 0). rewrite <- Zle_Qle. lia. }
  lra.
Qed.

(** The growth-plausibility factor. *)
Lemma f_plaus_range (d_l d_e : fl) (yb : Q) :
  exists p,
    (if notna d_l && notna d_e && Qlt_bool 0 yb then
       if fle 0 (fdiv (fsub d_l d_e) yb)
          && fle (fdiv (fsub d_l d_e) yb) MAX_PLAUSIBLE_GROWTH_RATE
       then Fin 1.0
       else if flt (fdiv (fsub d_l d_e) yb) 0
            then py_max 0 (fadd 0.5 (fdiv (fdiv (fsub d_l d_e) yb) 10.0))
            else py_max 0.2
                   (fsub 1.0
                      (fdiv (fsub (fdiv (fsub d_l d_e) yb)
                               MAX_PLAUSIBLE_GROWTH_RATE) 10.0))
     else Fin 0.5) = Fin p /\ 0 <= p <= 1.
Proof.
  destruct (notna d_l && notna d_e && Qlt_bool 0 yb) eqn:Hc;
    [| exists 0.5; split; [reflexivity | lra]].
  destruct d_l as [| l]; [discriminate |].
  destruct d_e as [| e]; [discriminate |].
  cbn [fsub fdiv lift2]. set (g := (l - e) / yb).
  destruct (fle 0 g && fle g MAX_PLAUSIBLE_GROWTH_RATE) eqn:Hin;
    [exists 1.0; split; [reflexivity | lra] |].
  destruct (flt g 0) eqn:Hneg.
  - cbn in Hneg. apply Qlt_bool_iff in Hneg.
    destruct (py_max_range 0 1 (fadd 0.5 (fdiv g 10.0))) as (m & Hm & Hb);
      [lra | | exists m; split; [exact Hm | lra]].
    cbn. intros q [= <-].
    assert (g / 10.0 <= 0) by (apply Qle_shift_div_r; lra). lra.
  - cbn in Hneg. apply Qlt_bool_false in Hneg.
    apply andb_false_iff in Hin. cbn in Hin.
    assert (Hbig : 5.0 < g).
    { destruct Hin as [Hin | Hin]; apply Qle_bool_false in Hin; lra. }
    destruct (py_max_range 0.2 1
                (fsub 1.0 (fdiv (fsub g MAX_PLAUSIBLE_GROWTH_RATE) 10.0)))
      as (m & Hm & Hb); [lra | | exists m; split; [exact Hm | lra]].
    cbn. intros q [= <-].
    assert (0 <= (g - 5.0) / 10.0) by (apply Qle_shift_div_l; lra). lra.
Qed.

(** The confidence of a similarity between [lo] and 1. *)
Lemma compute_confidence_between (s lo : Q) (n : nat) (a_l a_e : feature)
    (yb : Q) :
  lo <= s <= 1 ->
  exists c a,
    _compute_confidence (Fin s) n a_l a_e yb = Fin c /\
    py_round (Fin (0.40 * lo + 0.15)) 4 = Fin a /\ a <= c <= 1.
Proof.
  intros Hs. unfold _compute_confidence. cbv zeta.
  destruct (f_unique_range n) as (u & -> & Hu).
  destruct (f_plaus_range (depth_pct a_l) (depth_pct a_e) yb) as (p & -> & Hp).
  assert (Hj : exists j,
    match joint_number a_l, joint_number a_e with
    | Fin l, Fin e => if Z.eqb (Qtrunc l) (Qtrunc e) then Fin 1.0 else Fin 0.6
    | _, _ => Fin 0.5
    end = Fin j /\ 0.5 <= j <= 1).
  { destruct (joint_number a_l) as [| l], (joint_number a_e) as [| e];
      try (exists 0.5; split; [reflexivity | lra]).
    destruct (Z.eqb (Qtrunc l) (Qtrunc e));
      [exists 1.0 | exists 0.6]; (split; [reflexivity | lra]). }
  destruct Hj as (j & -> & Hj).
  cbn [fadd fmul lift2].
  destruct (py_round_range (0.40 * s + 0.25 * u + 0.20 * p + 0.15 * j)
              (0.40 * lo + 0.15) 1 4) as (a & b & c & Ha & Hb & Hc & Hab);
    [lra |].
  exists b, a. split; [exact Hb |]. split; [exact Ha |].
  assert (Ec : c == 1) by (injection Hc as <-; reflexivity).
  lra.
Qed.

(** X4: for a similarity in the unit interval the confidence is a number
    between 0.15 and 1, however many candidates the later anomaly had and
    whatever is missing in the two rows. *)
Theorem compute_confidence_range (s : Q) (n : nat) (a_l a_e : feature)
    (yb : Q) :
  0 <= s <= 1 ->
  exists c, _compute_confidence (Fin s) n a_l a_e yb = Fin c /\ 0.15 <= c <= 1.
Proof.
  intros Hs.
  destruct (compute_confidence_between s 0 n a_l a_e yb Hs)
    as (c & a & Hc & Ha & Hb).
  exists c. split; [exact Hc |].
  assert (Ea : a == 0.15) by (injection Ha as <-; reflexivity).
  lra.
Qed.

(** The label of a confidence is one of the three levels, and it is HIGH
    from 0.85 and MEDIUM from 0.60 on. *)
Lemma classify_confidence_cases (c : Q) :
  (0.85 <= c /\ _classify_confidence (Fin c) = "HIGH") \/
  (0.60 <= c < 0.85 /\ _classify_confidence (Fin c) = "MEDIUM") \/
  (c < 0.60 /\ _classify_confidence (Fin c) = "LOW").
Proof.
  unfold _classify_confidence. cbn.
  destruct (Qle_bool 0.85 c) eqn:H1.
  - apply Qle_bool_iff in H1. left. split; [lra | reflexivity].
  - apply Qle_bool_false in H1.
    destruct (Qle_bool 0.60 c) eqn:H2.
    + apply Qle_bool_iff in H2. right. left. split; [lra | reflexivity].
    + apply Qle_bool_false in H2. right. right. split; [lra | reflexivity].
Qed.

End ConfidenceProperties.

Section MatchRowProperties.
Import Config DataIngestion Matching.
Context {lib : SciPy}.
Local Open Scope Q_scope.

Lemma keep_assignment_inv (anom_later anom_earlier : list feature)
    (cost_matrix : list (list fl)) (candidate_counts : list nat) (yb : Q)
    (ms ms' : list match_record) (ML ME ML' ME' : gset nat) (ij : nat * nat) :
  Forall2 (fun a_l row => row_ok a_l anom_earlier yb row)
    anom_later cost_matrix ->
  keep_assignment anom_later anom_earlier cost_matrix candidate_counts yb
    (ms, ML, ME) ij = Ok (ms', ML', ME') ->
  ms' = ms \/
  exists m, ms' = (ms ++ [m])%list /\ match_row_of anom_later anom_earlier yb m.
Proof.
  intros Hrows. destruct ij as [i j]. unfold keep_assignment, iloc.
  destruct (cost_matrix !! i) as [row |] eqn:Hrow; [| discriminate].
  cbn [mbind result_bind].
  destruct (row !! j) as [c |] eqn:Hc; [| discriminate].
  cbn [mbind result_bind].
  destruct (fge c (fsub 1.0 LOW_CONFIDENCE)) eqn:Hcut.
  { intros [= <- _ _]. left. reflexivity. }
  destruct (anom_later !! i) as [a_l |] eqn:Hal; [| discriminate].
  cbn [mbind result_bind].
  destruct (anom_earlier !! j) as [a_e |] eqn:Hae; [| discriminate].
  cbn [mbind result_bind].
  destruct (candidate_counts !! i) as [n |] eqn:Hn; [| discriminate].
  cbn [mbind result_bind].
  destruct (_build_match_record a_l a_e (fsub 1.0 c)
              (_compute_confidence (fsub 1.0 c) n a_l a_e yb)
              (_classify_confidence
                 (_compute_confidence (fsub 1.0 c) n a_l a_e yb)) yb)
    as [m |] eqn:Hm; [| discriminate].
  cbn [mbind result_bind]. intros [= <- _ _]. right. exists m.
  split; [reflexivity |].
  destruct (Forall2_lookup_lr _ _ _ _ _ _ Hrows Hal Hrow) as [_ Hcells].
  destruct (Hcells _ _ Hc) as [-> | (a_e' & Hae' & Hg & ->)].
  { vm_compute in Hcut. discriminate. }
  rewrite Hae in Hae'. injection Hae' as <-.
  exists a_l, a_e, n.
  apply list_elem_of_lookup_2, list_elem_of_In in Hal, Hae.
  repeat (split; [assumption |]). exact Hm.
Qed.

Lemma keep_loop_rows (anom_later anom_earlier : list feature)
    (cost_matrix : list (list fl)) (candidate_counts : list nat) (yb : Q)
    (pairs : list (nat * nat)) :
  Forall2 (fun a_l row => row_ok a_l anom_earlier yb row)
    anom_later cost_matrix ->
  forall ms ML ME ms' ML' ME',
    for_each
      (keep_assignment anom_later anom_earlier cost_matrix candidate_counts yb)
      (ms, ML, ME) pairs = Ok (ms', ML', ME') ->
    Forall (match_row_of anom_later anom_earlier yb) ms ->
    Forall (match_row_of anom_later anom_earlier yb) ms'.
Proof.
  intros Hrows. induction pairs as [| ij pairs IH];
    intros ms ML ME ms' ML' ME'; cbn [for_each].
  - intros [= <- _ _]. auto.
  - destruct (keep_assignment anom_later anom_earlier cost_matrix
                candidate_counts yb (ms, ML, ME) ij)
      as [[[ms1 ML1] ME1] |] eqn:Hstep; [| discriminate].
    cbn [mbind result_bind]. intros Hloop Hms.
    apply (IH _ _ _ _ _ _ Hloop).
    destruct (keep_assignment_inv _ _ _ _ _ _ _ _ _ _ _ _ Hrows Hstep)
      as [-> | (m & -> & Hm)]; [exact Hms |].
    apply Forall_app. split; [exact Hms |]. constructor; [exact Hm | constructor].
Qed.

(** The row a scan returns holds sentinels and costs of gated pairs. *)
Lemma scan_later_inv (anom_earlier : list feature) (yb : Q) (a_l : feature)
    (st : list fl * nat) :
  scan_later (_build_search_points anom_earlier) anom_earlier yb a_l = Ok st ->
  row_ok a_l anom_earlier yb (fst st).
Proof.
  unfold scan_later.
  destruct (query_ball_point (_build_search_points anom_earlier)
              (_build_search_point_single a_l) search_radius)
    as [cands | e] eqn:Hq; [| discriminate].
  cbn [mbind result_bind]. intros Hst.
  destruct (scan_candidates_Ok a_l anom_earlier yb cands
              (replicate (length anom_earlier) LARGE_COST, 0%nat))
    as (st' & Hst' & Hok).
  - apply query_ball_point_lt in Hq.
    unfold _build_search_points in Hq at 1. rewrite List.length_map in Hq.
    exact Hq.
  - apply row_ok_init.
  - rewrite Hst in Hst'. injection Hst' as <-. exact Hok.
Qed.

(** What a returned result is made of: either one of the runs has no
    anomaly, or the statistics are computed from the three outputs and
    every match row was built from a pair that passed the gates and the
    cut. *)
Lemma match_anomalies_inv (run_later run_earlier : list feature) (yb : Q)
    (r : match_result) :
  match_anomalies run_later run_earlier yb = Ok r ->
  ((get_anomalies run_later = [] \/ get_anomalies run_earlier = []) /\
   r = {| matches := [];
          new_anomalies := get_anomalies run_later;
          missing_anomalies := get_anomalies run_earlier;
          stats := {[ "total_matches" := Fin 0 ]} |}) \/
  (get_anomalies run_later <> [] /\ get_anomalies run_earlier <> [] /\
   stats r =
     _compute_match_stats (matches r) (new_anomalies r) (missing_anomalies r) /\
   Forall (match_row_of (get_anomalies run_later) (get_anomalies run_earlier) yb)
     (matches r)).
Proof.
  unfold match_anomalies.
  set (anom_later := get_anomalies run_later).
  set (anom_earlier := get_anomalies run_earlier).
  destruct ((length anom_later =? 0)%nat || (length anom_earlier =? 0)%nat)
    eqn:Hempty.
  { intros [= <-]. left. split; [| reflexivity].
    apply orb_true_iff in Hempty.
    destruct Hempty as [H | H]; apply Nat.eqb_eq in H;
      [left | right]; apply length_zero_iff_nil; exact H. }
  apply orb_false_iff in Hempty. destruct Hempty as [HL HE].
  apply Nat.eqb_neq in HL, HE.
  unfold KDTree.
  destruct (forallb finite_point (_build_search_points anom_earlier));
    [| discriminate].
  cbn [mbind result_bind].
  destruct (mapM (scan_later (_build_search_points anom_earlier)
                    anom_earlier yb) anom_later) as [scanned |] eqn:Hs;
    [| discriminate].
  cbn [mbind result_bind].
  assert (Hrows : Forall2 (fun a_l row => row_ok a_l anom_earlier yb row)
                    anom_later (List.map fst scanned)).
  { apply mapM_Ok_Forall2 in Hs. clear -Hs.
    induction Hs as [| a_l st l scanned Hst _ IH]; cbn [List.map];
      constructor; [eapply scan_later_inv, Hst | exact IH]. }
  destruct (linear_sum_assignment (List.map fst scanned))
    as [row_ind col_ind].
  destruct (for_each _ _ _) as [[[ms ML] ME] |] eqn:Hloop; [| discriminate].
  cbn [mbind result_bind].
  destruct (mapM (iloc anom_later) _) as [new |]; [| discriminate].
  cbn [mbind result_bind].
  destruct (mapM (iloc anom_earlier) _) as [missing |]; [| discriminate].
  cbn [mbind result_bind]. intros [= <-]. right.
  cbn [matches new_anomalies missing_anomalies stats].
  split; [intros E; apply HL; rewrite E; reflexivity |].
  split; [intros E; apply HE; rewrite E; reflexivity |].
  split; [reflexivity |].
  apply (keep_loop_rows _ _ _ _ _ _ Hrows _ _ _ _ _ _ Hloop). constructor.
Qed.

End MatchRowProperties.

Section MatchOutputProperties.
Import Config DataIngestion Matching.
Context {lib : SciPy}.
Local Open Scope Q_scope.

Lemma built_from_fields (a_l a_e : feature) (n : nat) (yb : Q)
    (m : match_record) :
  built_from a_l a_e n yb m ->
  confidence m =
    _compute_confidence (fsub 1.0 (pair_cost a_l a_e yb)) n a_l a_e yb /\
  confidence_label m = _classify_confidence (confidence m) /\
  similarity m = py_round (fsub 1.0 (pair_cost a_l a_e yb)) 4 /\
  later_event_type m = event_type a_l /\
  earlier_event_type m = event_type a_e /\
  later_depth_pct m = depth_pct a_l /\
  earlier_depth_pct m = depth_pct a_e /\
  years_between m = yb /\
  depth_growth_pct m =
    round_notna (Matching._safe_sub (depth_pct a_l) (depth_pct a_e)) 2 /\
  exists rate,
    annual_rate (Matching._safe_sub (depth_pct a_l) (depth_pct a_e)) yb
      = Ok rate /\
    depth_growth_rate m = round_notna rate 3.
Proof.
  unfold built_from, _build_match_record.
  destruct (annual_rate (Matching._safe_sub (depth_pct a_l) (depth_pct a_e)) yb)
    as [r1 |]; [| discriminate].
  destruct (annual_rate (Matching._safe_sub (length_in a_l) (length_in a_e)) yb)
    as [r2 |]; [| discriminate].
  destruct (annual_rate (Matching._safe_sub (width_in a_l) (width_in a_e)) yb)
    as [r3 |]; [| discriminate].
  cbn [mbind result_bind]. intros [= <-].
  cbn [confidence confidence_label similarity later_event_type
       earlier_event_type later_depth_pct earlier_depth_pct years_between
       depth_growth_pct depth_growth_rate].
  repeat (split; [reflexivity |]). exists r1. split; reflexivity.
Qed.

(** The rows of a returned result, whatever the runs. *)
Lemma match_anomalies_match_rows (run_later run_earlier : list feature)
    (yb : Q) (r : match_result) :
  match_anomalies run_later run_earlier yb = Ok r ->
  Forall (match_row_of (get_anomalies run_later) (get_anomalies run_earlier) yb)
    (matches r).
Proof.
  intros Hr.
  destruct (match_anomalies_inv _ _ _ _ Hr) as [[_ ->] | (_ & _ & _ & H)];
    [constructor | exact H].
Qed.

Lemma round_half_even_comp (x y : Q) :
  x == y -> round_half_even x = round_half_even y.
Proof.
  intros E. unfold round_half_even.
  rewrite (Qfloor_comp x y E).
  assert (Er : x - inject_Z (Qfloor y) == y - inject_Z (Qfloor y))
    by (rewrite E; reflexivity).
  assert (H1 : Qlt_bool (x - inject_Z (Qfloor y)) (1 # 2)
               = Qlt_bool (y - inject_Z (Qfloor y)) (1 # 2)).
  { unfold Qlt_bool. f_equal.
    destruct (Qle_bool (1 # 2) (x - inject_Z (Qfloor y))) eqn:A;
    destruct (Qle_bool (1 # 2) (y - inject_Z (Qfloor y))) eqn:B;
      try reflexivity;
      [apply Qle_bool_iff in A; apply Qle_bool_false in B
      | apply Qle_bool_false in A; apply Qle_bool_iff in B]; lra. }
  assert (H2 : Qlt_bool (1 # 2) (x - inject_Z (Qfloor y))
               = Qlt_bool (1 # 2) (y - inject_Z (Qfloor y))).
  { unfold Qlt_bool. f_equal.
    destruct (Qle_bool (x - inject_Z (Qfloor y)) (1 # 2)) eqn:A;
    destruct (Qle_bool (y - inject_Z (Qfloor y)) (1 # 2)) eqn:B;
      try reflexivity;
      [apply Qle_bool_iff in A; apply Qle_bool_false in B
      | apply Qle_bool_false in A; apply Qle_bool_iff in B]; lra. }
  rewrite H1, H2. reflexivity.
Qed.

(** Rounding moves a number by at most half a unit of the last digit
    kept. *)
Lemma round_half_even_near (x : Q) :
  Qabs (inject_Z (round_half_even x) - x) <= 1 # 2.
Proof.
  unfold round_half_even.
  pose proof (Qfloor_le x) as H1. pose proof (Qlt_floor x) as H2.
  rewrite inject_Z_plus in H2. change (inject_Z 1) with 1 in H2.
  destruct (Qlt_bool (x - inject_Z (Qfloor x)) (1 # 2)) eqn:E1.
  { apply Qlt_bool_iff in E1. apply Qabs_case; intros _; lra. }
  apply Qlt_bool_false in E1.
  destruct (Qlt_bool (1 # 2) (x - inject_Z (Qfloor x))) eqn:E2.
  { rewrite inject_Z_plus. change (inject_Z 1) with 1.
    apply Qabs_case; intros _; lra. }
  apply Qlt_bool_false in E2.
  destruct (Z.even (Qfloor x)).
  - apply Qabs_case; intros _; lra.
  - rewrite inject_Z_plus. change (inject_Z 1) with 1.
    apply Qabs_case; intros _; lra.
Qed.

Lemma py_round_near (q : Q) (n : nat) :
  exists y,
    py_round (Fin q) n = Fin y /\
    Qabs (y - q) <= (1 # 2) / inject_Z (10 ^ Z.of_nat n).
Proof.
  cbn [py_round]. eexists. split; [reflexivity |].
  pose proof (pow10_pos n) as Hs.
  set (s := inject_Z (10 ^ Z.of_nat n)) in *.
  pose proof (round_half_even_near (q * s)) as Hk.
  set (k := inject_Z (round_half_even (q * s))) in *.
  assert (E : k / s - q == (k - q * s) / s) by (field; lra).
  rewrite E. apply Qabs_Qle_condition in Hk. destruct Hk as [Hlo Hhi].
  apply Qabs_Qle_condition. split.
  - assert (E' : - ((1 # 2) / s) == (- (1 # 2)) / s) by (field; lra).
    rewrite E'. apply Qdiv_le_mono; assumption.
  - apply Qdiv_le_mono; assumption.
Qed.

(** X5: every match row of two aligned runs pairs two anomalies of
    compatible event types. *)
Theorem matches_compatible_types (run_later run_earlier : list feature)
    (yb : Q) :
  Qeq_bool yb 0 = false ->
  valid_assignment (length (get_anomalies run_later))
    (length (get_anomalies run_earlier))
    (assignment_of (get_anomalies run_later) (get_anomalies run_earlier) yb) ->
  aligned run_later -> aligned run_earlier ->
  exists r,
    match_anomalies run_later run_earlier yb = Ok r /\
    Forall (fun m =>
      types_compatible (later_event_type m) (earlier_event_type m) = true)
      (matches r).
Proof.
  intros Hyb Hvalid HfinL HfinE.
  destruct (match_anomalies_Ok run_later run_earlier yb Hyb Hvalid HfinL HfinE)
    as (r & _ & Hr & _).
  exists r. split; [exact Hr |].
  eapply Forall_impl; [exact (match_anomalies_match_rows _ _ _ _ Hr) |].
  intros m (a_l & a_e & n & _ & _ & Hg & _ & Hm).
  destruct (built_from_fields _ _ _ _ _ Hm) as (_ & _ & _ & -> & -> & _).
  unfold gate in Hg. apply andb_true_iff in Hg. apply Hg.
Qed.

(** X6: every match row of two aligned runs stores a similarity between
    0.4 and 1 that lies within 0.0001 of the similarity of the pair it
    comes from; its confidence is between 0.31 and 1; and its label is
    the one the confidence thresholds give: HIGH from 0.85, MEDIUM from
    0.60, LOW below. *)
Theorem matches_scores_and_labels (run_later run_earlier : list feature)
    (yb : Q) :
  Qeq_bool yb 0 = false ->
  valid_assignment (length (get_anomalies run_later))
    (length (get_anomalies run_earlier))
    (assignment_of (get_anomalies run_later) (get_anomalies run_earlier) yb) ->
  aligned run_later -> aligned run_earlier ->
  exists r,
    match_anomalies run_later run_earlier yb = Ok r /\
    Forall (fun m =>
      exists a_l a_e raw s c,
        In a_l (get_anomalies run_later) /\
        In a_e (get_anomalies run_earlier) /\
        compute_similarity a_l a_e yb = Fin raw /\
        similarity m = Fin s /\ Qabs (s - raw) <= 0.0001 /\
        0.4 <= s <= 1 /\
        confidence m = Fin c /\ 0.31 <= c <= 1 /\
        ((0.85 <= c /\ confidence_label m = "HIGH") \/
         (0.60 <= c < 0.85 /\ confidence_label m = "MEDIUM") \/
         (c < 0.60 /\ confidence_label m = "LOW"))) (matches r).
Proof.
  intros Hyb Hvalid HfinL HfinE.
  destruct (match_anomalies_Ok run_later run_earlier yb Hyb Hvalid HfinL HfinE)
    as (r & _ & Hr & _).
  exists r. split; [exact Hr |].
  eapply Forall_impl; [exact (match_anomalies_match_rows _ _ _ _ Hr) |].
  intros m (a_l & a_e & n & Hl & He & _ & Hcut & Hm).
  destruct (built_from_fields _ _ _ _ _ Hm) as (Hconf & Hlabel & Hsim & _).
  unfold pair_cost in *.
  destruct (compute_similarity_bounds a_l a_e yb) as (s & Es & Hs).
  rewrite Es in *. apply cost_cut_similarity in Hcut.
  cbn [fsub lift2] in Hconf, Hsim.
  destruct (py_round_range (1.0 - (1.0 - s)) 0.4 1 4)
    as (lo & s' & hi & Hlo & Hs' & Hhi & Hb); [lra |].
  assert (Elo : lo == 0.4) by (injection Hlo as <-; reflexivity).
  assert (Ehi : hi == 1) by (injection Hhi as <-; reflexivity).
  destruct (compute_confidence_between (1.0 - (1.0 - s)) 0.4 n a_l a_e yb)
    as (c & a & Hc & Ha & Hac); [lra |].
  assert (Ea : a == 0.31) by (injection Ha as <-; reflexivity).
  exists a_l, a_e, s, s', c.
  split; [exact Hl |]. split; [exact He |]. split; [exact Es |].
  rewrite Hsim, Hs'. split; [reflexivity |].
  split.
  { destruct (py_round_near (1.0 - (1.0 - s)) 4) as (y & Hy & Hnear).
    rewrite Hs' in Hy. injection Hy as <-.
    assert (Eh : (1 # 2) / inject_Z (10 ^ Z.of_nat 4) == 0.00005)
      by reflexivity.
    rewrite Eh in Hnear. apply Qabs_Qle_condition in Hnear.
    apply Qabs_Qle_condition. split; lra. }
  split; [lra |]. rewrite Hlabel, Hconf, Hc. split; [reflexivity |].
  split; [lra |]. apply classify_confidence_cases.
Qed.

End MatchOutputProperties.

Section MatchStatsProperties.
Import Config DataIngestion Matching.
Context {lib : SciPy}.
Local Open Scope Q_scope.

Lemma get_anomalies_depth (run : list feature) (a : feature) :
  In a (get_anomalies run) -> exists d, depth_pct a = Fin d.
Proof.
  unfold get_anomalies. intros Ha. apply filter_In in Ha.
  destruct Ha as [_ Ha]. apply andb_true_iff in Ha. destruct Ha as [Ha _].
  apply andb_true_iff in Ha. destruct Ha as [_ Ha].
  destruct (depth_pct a) as [| d]; [discriminate | exists d; reflexivity].
Qed.

(** The depth columns of a match row of two runs. *)
Lemma match_row_depths (run_later run_earlier : list feature) (yb : Q)
    (m : match_record) :
  Qeq_bool yb 0 = false ->
  match_row_of (get_anomalies run_later) (get_anomalies run_earlier) yb m ->
  exists dl de g q,
    later_depth_pct m = Fin dl /\ earlier_depth_pct m = Fin de /\
    years_between m = yb /\
    close g (dl - de) /\ depth_growth_pct m = py_round (Fin g) 2 /\
    close q ((dl - de) / yb) /\ depth_growth_rate m = py_round (Fin q) 3.
Proof.
  intros Hyb (a_l & a_e & n & Hl & He & _ & _ & Hm).
  destruct (built_from_fields _ _ _ _ _ Hm)
    as (_ & _ & _ & _ & _ & Edl & Ede & Eyb & Eg & rate & Hrate & Er).
  destruct (get_anomalies_depth _ _ Hl) as [dl Hdl].
  destruct (get_anomalies_depth _ _ He) as [de Hde].
  rewrite Hdl, Hde in *. exists dl, de, (dl - de), ((dl - de) / yb).
  repeat (split; [assumption |]).
  split; [apply close_refl |]. split; [exact Eg |].
  split; [apply close_refl |].
  unfold annual_rate in Hrate. cbn in Hrate. rewrite Hyb in Hrate.
  injection Hrate as <-. exact Er.
Qed.


Lemma classify_confidence_label (c : fl) :
  _classify_confidence c = "HIGH" \/ _classify_confidence c = "MEDIUM" \/
  _classify_confidence c = "LOW".
Proof.
  unfold _classify_confidence.
  destruct (fge c HIGH_CONFIDENCE); [auto |].
  destruct (fge c MEDIUM_CONFIDENCE); auto.
Qed.

Lemma label_counts (ms : list match_record) :
  Forall (fun m => confidence_label m = "HIGH" \/
                   confidence_label m = "MEDIUM" \/
                   confidence_label m = "LOW") ms ->
  (length (List.filter (fun m => String.eqb (confidence_label m) "HIGH") ms)
   + length (List.filter (fun m => String.eqb (confidence_label m) "MEDIUM") ms)
   + length (List.filter (fun m => String.eqb (confidence_label m) "LOW") ms)
   = length ms)%nat.
Proof.
  induction 1 as [| m ms Hm _ IH]; [reflexivity |].
  cbn [List.filter length].
  destruct Hm as [-> | [-> | ->]]; cbn; lia.
Qed.

Lemma compute_match_stats_lookup (ms : list match_record)
    (new missing : list feature) :
  let n (k : nat) : fl := Fin (inject_Z (Z.of_nat k)) in
  let s := _compute_match_stats ms new missing in
  s !! "total_matches" = Some (n (length ms)) /\
  s !! "new_anomalies" = Some (n (length new)) /\
  s !! "missing_anomalies" = Some (n (length missing)) /\
  (ms <> [] ->
   s !! "high_confidence" =
     Some (n (length (List.filter
                        (fun m => String.eqb (confidence_label m) "HIGH") ms))) /\
   s !! "medium_confidence" =
     Some (n (length (List.filter
                        (fun m => String.eqb (confidence_label m) "MEDIUM") ms))) /\
   s !! "low_confidence" =
     Some (n (length (List.filter
                        (fun m => String.eqb (confidence_label m) "LOW") ms)))).
Proof.
  intros n s. subst s. unfold _compute_match_stats, count_of.
  assert (Hall : forall A (l : list A), List.filter (fun _ => true) l = l).
  { intros A l. induction l as [| x l IH]; [reflexivity |].
    cbn. rewrite IH. reflexivity. }
  rewrite !Hall.
  destruct ms as [| m ms]; cbn [length Nat.ltb Nat.leb].
  - split; [| split; [| split]];
      try (repeat (rewrite lookup_insert_ne by discriminate);
           rewrite lookup_insert_eq; reflexivity).
    intros Hne. contradiction.
  - split; [| split; [| split; [| intros _; split; [| split]]]];
      repeat (rewrite lookup_insert_ne by discriminate);
      rewrite lookup_insert_eq; reflexivity.
Qed.

Lemma unmatched_length (n : nat) (K : list nat) :
  NoDup K -> Forall (fun i => (i < n)%nat) K ->
  (length K + length (filter (fun i => i ∉ K) (seq 0 n)) = n)%nat.
Proof.
  intros Hnd Hlt.
  pose proof (kept_unmatched_Permutation n K Hnd Hlt) as Hp.
  apply Permutation_length in Hp.
  rewrite length_app, length_seq in Hp. exact Hp.
Qed.

(** X8: on two aligned runs the statistics agree with the three outputs.
    The matches and the new anomalies together are as many as the later
    anomalies, the matches and the missing anomalies as many as the
    earlier ones; [total_matches] is the number of match rows; when both
    runs have anomalies [new_anomalies] and [missing_anomalies] are the
    sizes of the two other outputs; and when there is a match the HIGH,
    MEDIUM and LOW counts add up to [total_matches]. *)
Theorem match_stats_agree (run_later run_earlier : list feature) (yb : Q) :
  Qeq_bool yb 0 = false ->
  valid_assignment (length (get_anomalies run_later))
    (length (get_anomalies run_earlier))
    (assignment_of (get_anomalies run_later) (get_anomalies run_earlier) yb) ->
  aligned run_later -> aligned run_earlier ->
  exists r,
    match_anomalies run_later run_earlier yb = Ok r /\
    (length (matches r) + length (new_anomalies r)
     = length (get_anomalies run_later))%nat /\
    (length (matches r) + length (missing_anomalies r)
     = length (get_anomalies run_earlier))%nat /\
    stats r !! "total_matches"
      = Some (Fin (inject_Z (Z.of_nat (length (matches r))))) /\
    (get_anomalies run_later <> [] -> get_anomalies run_earlier <> [] ->
     stats r !! "new_anomalies"
       = Some (Fin (inject_Z (Z.of_nat (length (new_anomalies r))))) /\
     stats r !! "missing_anomalies"
       = Some (Fin (inject_Z (Z.of_nat (length (missing_anomalies r)))))) /\
    (matches r <> [] ->
     exists h m l : nat,
       stats r !! "high_confidence" = Some (Fin (inject_Z (Z.of_nat h))) /\
       stats r !! "medium_confidence" = Some (Fin (inject_Z (Z.of_nat m))) /\
       stats r !! "low_confidence" = Some (Fin (inject_Z (Z.of_nat l))) /\
       (h + m + l = length (matches r))%nat).
Proof.
  intros Hyb Hvalid HfinL HfinE.
  destruct (match_anomalies_Ok run_later run_earlier yb Hyb Hvalid HfinL HfinE)
    as (r & kept & Hr & Hnd1 & Hnd2 & Hms & Hnew & Hmissing).
  exists r. split; [exact Hr |].
  destruct (matched_pair_lt _ _ _ _ _ Hms) as (Hlt1 & Hlt2 & _).
  pose proof (unmatched_length _ _ Hnd1 Hlt1) as Hc1.
  pose proof (unmatched_length _ _ Hnd2 Hlt2) as Hc2.
  apply Forall2_length in Hms, Hnew, Hmissing.
  rewrite List.length_map in Hc1, Hc2.
  split; [lia |]. split; [lia |].
  destruct (match_anomalies_inv _ _ _ _ Hr)
    as [[Hemp ->] | (HL & HE & Hstats & Hrows)].
  { cbn [matches stats length]. split; [reflexivity |].
    split; [| intros H; contradiction].
    intros HL HE. destruct Hemp; contradiction. }
  rewrite Hstats.
  destruct (compute_match_stats_lookup (matches r) (new_anomalies r)
              (missing_anomalies r)) as (Ht & Hn & Hm & Hlabels).
  split; [exact Ht |]. split; [intros _ _; split; assumption |].
  intros Hne. destruct (Hlabels Hne) as (Hh & Hmd & Hlo).
  eexists _, _, _. split; [exact Hh |]. split; [exact Hmd |].
  split; [exact Hlo |]. apply label_counts.
  eapply Forall_impl; [exact Hrows |].
  intros m (a_l & a_e & n & _ & _ & _ & _ & Hb).
  destruct (built_from_fields _ _ _ _ _ Hb) as (_ & -> & _).
  apply classify_confidence_label.
Qed.

End MatchStatsProperties.

(** ** Growth scorer, continued *)

Section GrowthRanges.
Import Config Matching Growth.
Local Open Scope Q_scope.

Lemma py_min_cap (c x : Q) :
  exists m, py_min (Fin c) (Fin x) = Fin m /\ m <= c /\ m <= x /\
            (m == c \/ m == x).
Proof.
  rewrite py_min_Fin.
  destruct (Qlt_bool x c) eqn:E; eexists; (split; [reflexivity |]);
    rewrite ?Qlt_bool_iff, ?Qlt_bool_false in E; repeat split; lra.
Qed.

Lemma classify_risk_cases (s : Q) :
  (70 <= s /\ _classify_risk (Fin s) = "Critical") \/
  (50 <= s < 70 /\ _classify_risk (Fin s) = "High") \/
  (30 <= s < 50 /\ _classify_risk (Fin s) = "Medium") \/
  (s < 30 /\ _classify_risk (Fin s) = "Low").
Proof.
  unfold _classify_risk. cbn.
  destruct (Qle_bool 70 s) eqn:H1;
    [apply Qle_bool_iff in H1; left; split; [lra | reflexivity] |].
  apply Qle_bool_false in H1.
  destruct (Qle_bool 50 s) eqn:H2;
    [apply Qle_bool_iff in H2; right; left; split; [lra | reflexivity] |].
  apply Qle_bool_false in H2.
  destruct (Qle_bool 30 s) eqn:H3;
    [apply Qle_bool_iff in H3; right; right; left; split; [lra | reflexivity] |].
  apply Qle_bool_false in H3. right. right. right. split; [lra | reflexivity].
Qed.

Lemma risk_rate_nonneg (x : fl) : 0 <= risk_rate x.
Proof.
  destruct x as [| r]; cbn; [lra |].
  destruct (Qlt_bool r 0) eqn:E; [lra |]. apply Qlt_bool_false in E. exact E.
Qed.

(** The two components of the risk score of a row: the depth component
    [ds] and the rate component [rs], each capped at 50. *)
Lemma risk_components (row : match_record) :
  exists ds rs,
    _compute_risk_score row = py_round (Fin (ds + rs)) 1 /\
    ds <= 50 /\ 0 <= rs <= 50 /\
    (0 <= risk_depth (later_depth_pct row) -> 0 <= ds) /\
    (forall k, k <= 80 -> k <= risk_depth (later_depth_pct row) ->
       (5 # 8) * k <= ds) /\
    (forall k, k <= 5 -> k <= risk_rate (depth_growth_rate row) ->
       10 * k <= rs).
Proof.
  rewrite risk_score_unfold.
  set (d := risk_depth (later_depth_pct row)).
  set (r := risk_rate (depth_growth_rate row)).
  pose proof (risk_rate_nonneg (depth_growth_rate row)) as Hr. fold r in Hr.
  destruct (py_min_cap 50 (d * 50 / 80.0)) as (ds & -> & Hd1 & Hd2 & Hd3).
  destruct (py_min_cap 50 (r * 50 / 5.0)) as (rs & -> & Hr1 & Hr2 & Hr3).
  cbn [fadd lift2].
  assert (Ed : d * 50 / 80.0 == d * (5 # 8)) by field.
  assert (Er : r * 50 / 5.0 == r * 10) by field.
  exists ds, rs. split; [reflexivity |].
  split; [exact Hd1 |].
  split; [destruct Hr3; lra |].
  split; [intros H0; destruct Hd3; lra |].
  split; [intros k Hk Hkd; destruct Hd3; lra |].
  intros k Hk Hkr. destruct Hr3; lra.
Qed.

Lemma risk_category_known (row : match_record) :
  In (_classify_risk (_compute_risk_score row))
     ["Low"; "Medium"; "High"; "Critical"].
Proof.
  destruct (risk_components row) as (ds & rs & -> & _).
  destruct (py_round_mono (ds + rs) (ds + rs) 1) as (s & _ & -> & _); [lra |].
  destruct (classify_risk_cases s) as [[_ ->] | [[_ ->] | [[_ ->] | [_ ->]]]];
    cbn; tauto.
Qed.

(** X9: the risk score of a row is a number, at most 100 and, when the
    later depth is missing or not negative, at least 0; so the risk
    category of a scored row is never Unknown. *)
Theorem risk_score_range (row : match_record) :
  exists s,
    _compute_risk_score row = Fin s /\ s <= 100 /\
    (0 <= risk_depth (later_depth_pct row) -> 0 <= s) /\
    In (_classify_risk (_compute_risk_score row))
       ["Low"; "Medium"; "High"; "Critical"].
Proof.
  destruct (risk_components row) as (ds & rs & E & Hd & Hr & Hd0 & _).
  destruct (py_round_mono (ds + rs) 100 1) as (s & c & Hs & Hc & Hsc); [lra |].
  assert (Ec : c == 100) by (injection Hc as <-; reflexivity).
  exists s. rewrite E, Hs. split; [reflexivity |]. split; [lra |]. split.
  - intros H0. specialize (Hd0 H0).
    destruct (py_round_mono 0 (ds + rs) 1) as (a & s' & Ha & Hs' & Has); [lra |].
    rewrite Hs in Hs'. injection Hs' as <-.
    assert (Ea : a == 0) by (injection Ha as <-; reflexivity). lra.
  - rewrite <- Hs, <- E. apply risk_category_known.
Qed.

(** X10: a row whose later depth has reached the 80 % repair threshold is
    High or Critical whatever its growth rate, and Critical as soon as the
    rate is at least 2 %/yr; a row growing at 5 %/yr or more is Critical
    from a later depth of 32 % on. *)
Theorem risk_category_floor (row : match_record) (d : Q) :
  later_depth_pct row = Fin d ->
  (80 <= d ->
     _classify_risk (_compute_risk_score row) = "High" \/
     _classify_risk (_compute_risk_score row) = "Critical") /\
  (80 <= d -> forall r, depth_growth_rate row = Fin r -> 2 <= r ->
     _classify_risk (_compute_risk_score row) = "Critical") /\
  (32 <= d -> forall r, depth_growth_rate row = Fin r -> 5 <= r ->
     _classify_risk (_compute_risk_score row) = "Critical").
Proof.
  intros Hd.
  destruct (risk_components row) as (ds & rs & E & Hds & Hrs & _ & Hdk & Hk).
  rewrite Hd in Hdk. cbn [risk_depth] in Hdk. rewrite E.
  assert (Hround : forall lo, lo <= ds + rs ->
            exists s a, py_round (Fin (ds + rs)) 1 = Fin s /\
                        py_round (Fin lo) 1 = Fin a /\ a <= s).
  { intros lo Hlo.
    destruct (py_round_mono lo (ds + rs) 1 Hlo) as (a & s & Ha & Hs & H1).
    exists s, a. repeat split; assumption. }
  assert (Hrate : forall r k, depth_growth_rate row = Fin r -> k <= 5 ->
            0 <= k -> k <= r -> 10 * k <= rs).
  { intros r k Er Hk5 Hk0 Hkr. apply Hk; [exact Hk5 |]. rewrite Er. cbn.
    destruct (Qlt_bool r 0) eqn:Hneg;
      [apply Qlt_bool_iff in Hneg; lra | exact Hkr]. }
  split; [| split].
  - intros H80. pose proof (Hdk 80 ltac:(lra) H80) as H50.
    destruct (Hround 50) as (s & a & -> & Ha & Hs); [lra |].
    assert (Ea : a == 50) by (injection Ha as <-; reflexivity).
    destruct (classify_risk_cases s) as [[_ ->] | [[_ ->] | [[H _] | [H _]]]];
      [auto | auto | |]; lra.
  - intros H80 r Er Hr. pose proof (Hdk 80 ltac:(lra) H80) as H50.
    pose proof (Hrate r 2 Er ltac:(lra) ltac:(lra) Hr) as H20.
    destruct (Hround 70) as (s & a & -> & Ha & Hs); [lra |].
    assert (Ea : a == 70) by (injection Ha as <-; reflexivity).
    destruct (classify_risk_cases s) as [[_ ->] | [[H _] | [[H _] | [H _]]]];
      [reflexivity | | |]; lra.
  - intros H32 r Er Hr. pose proof (Hdk 32 ltac:(lra) H32) as H20.
    pose proof (Hrate r 5 Er ltac:(lra) ltac:(lra) Hr) as H50.
    destruct (Hround 70) as (s & a & -> & Ha & Hs); [lra |].
    assert (Ea : a == 70) by (injection Ha as <-; reflexivity).
    destruct (classify_risk_cases s) as [[_ ->] | [[H _] | [[H _] | [H _]]]];
      [reflexivity | | |]; lra.
Qed.

(** X11: a row has a remaining life exactly when it has a later depth and
    its growth class is one of Low, Moderate, High and Severe, that is,
    when its rate is present and positive. *)
Theorem remaining_life_iff_growing (row : match_record) :
  _remaining_life row <> NaN <->
  later_depth_pct row <> NaN /\
  In (_classify_growth (depth_growth_rate row))
     ["Low"; "Moderate"; "High"; "Severe"].
Proof.
  unfold _remaining_life, _classify_growth.
  destruct (depth_growth_rate row) as [| r].
  { cbn. split; [congruence |]. intros [_ H].
    repeat (destruct H as [H | H]; [discriminate H |]). contradiction. }
  destruct (later_depth_pct row) as [| d].
  { cbn. split; [congruence | tauto]. }
  cbn [isnan orb fle flt feqb cmp2].
  destruct (Qle_bool r 0) eqn:Hle.
  - apply Qle_bool_iff in Hle. split; [congruence |]. intros [_ H].
    destruct (Qlt_bool r 0) eqn:Hlt.
    { repeat (destruct H as [H | H]; [discriminate H |]). contradiction. }
    apply Qlt_bool_false in Hlt.
    assert (Heq : Qeq_bool r 0 = true) by (apply Qeq_bool_iff; lra).
    rewrite Heq in H.
    repeat (destruct H as [H | H]; [discriminate H |]). contradiction.
  - apply Qle_bool_false in Hle.
    assert (Hlt : Qlt_bool r 0 = false) by (apply Qlt_bool_false; lra).
    assert (Heq : Qeq_bool r 0 = false).
    { destruct (Qeq_bool r 0) eqn:E; [| reflexivity].
      apply Qeq_bool_iff in E. lra. }
    rewrite Hlt, Heq. split.
    + intros _. split; [discriminate |].
      destruct (Qle_bool r 1.0); [cbn; tauto |].
      destruct (Qle_bool r 3.0); [cbn; tauto |].
      unfold MAX_PLAUSIBLE_GROWTH_RATE.
      destruct (Qle_bool r 5.0); cbn; tauto.
    + intros _. unfold WALL_LOSS_REPAIR_THRESHOLD.
      cbn [fsub fdiv lift2 fle cmp2 py_round].
      destruct (Qle_bool (80.0 - d) 0); discriminate.
Qed.

End GrowthRanges.

(** ** Chainer, continued *)

Section ChainJoin.
Import Config Matching MultiRun.
Local Open Scope Q_scope.

(** The table agrees with the subtraction it falls back on. *)
Lemma years_between_difference (y1 y2 : Z) :
  years_between_get YEARS_BETWEEN y1 y2 (y2 - y1) = (y2 - y1)%Z.
Proof.
  unfold YEARS_BETWEEN. cbn [years_between_get].
  repeat match goal with
  | |- context [(Z.eqb ?a y1 && Z.eqb ?b y2)%bool] =>
      destruct (Z.eqb_spec a y1); destruct (Z.eqb_spec b y2);
      cbn [andb]; try lia
  end.
Qed.

Lemma build_y2_to_y1_fold (matches_12 : list match_record)
    (d : gmap Z match_record) (k : Z) :
  (exists m, In m matches_12 /\ later_row_idx m = k) \/ is_Some (d !! k) ->
  is_Some
    (List.fold_left (fun d m12 => <[later_row_idx m12 := m12]> d) matches_12 d
       !! k).
Proof.
  revert d. induction matches_12 as [| m ms IH]; intros d; cbn [List.fold_left].
  - intros [(m & [] & _) | H]; exact H.
  - intros H. apply IH.
    destruct (Z.eq_dec (later_row_idx m) k) as [<- | Hne].
    + right. rewrite lookup_insert_eq. eauto.
    + destruct H as [(m' & [<- | Hin] & Hk) | H].
      * contradiction.
      * left. eauto.
      * right. rewrite lookup_insert_ne by exact Hne. exact H.
Qed.

(** Every row index of a 1-2 match is a key of the lookup table. *)
Lemma build_y2_to_y1_complete (matches_12 : list match_record)
    (m12 : match_record) :
  In m12 matches_12 ->
  exists m, build_y2_to_y1 matches_12 !! later_row_idx m12 = Some m.
Proof.
  intros Hin. apply (build_y2_to_y1_fold matches_12 ∅). left. eauto.
Qed.

Lemma NoDup_map_eq {A B : Type} (f : A -> B) (l : list A) (a b : A) :
  NoDup (List.map f l) -> In a l -> In b l -> f a = f b -> a = b.
Proof.
  induction l as [| x l IH]; cbn [List.map]; [intros _ [] |].
  rewrite NoDup_cons. intros [Hx Hl] [<- | Ha] [<- | Hb] Hf.
  - reflexivity.
  - exfalso. apply Hx. rewrite Hf. apply list_elem_of_In, in_map. exact Hb.
  - exfalso. apply Hx. rewrite <- Hf. apply list_elem_of_In, in_map. exact Ha.
  - apply IH; assumption.
Qed.

(** The chainer on at least three years: it returns, and when both legs
    have matches its triples are the records of the 2-3 matches whose
    earlier row is a key of the lookup table. *)
Lemma chain_three_runs_unfold (pairwise : gmap (Z * Z) match_result)
    (y1 y2 y3 : Z) (more : list Z) :
  exists r,
    chain_three_runs pairwise (y1 :: y2 :: y3 :: more) = Ok r /\
    ((get_matches pairwise (y1, y2) = [] \/ get_matches pairwise (y2, y3) = []) ->
     triple_matches r = [] /\ lifecycle_summary r = []) /\
    (get_matches pairwise (y1, y2) <> [] ->
     get_matches pairwise (y2, y3) <> [] ->
     triple_matches r =
       List.flat_map (fun m23 =>
         match build_y2_to_y1 (get_matches pairwise (y1, y2))
                 !! earlier_row_idx m23 with
         | Some m12 => [triple_record y1 y3 m12 m23]
         | None => []
         end) (get_matches pairwise (y2, y3)) /\
     lifecycle_summary r =
       _build_lifecycle_summary pairwise y1 y2 y3 (triple_matches r)).
Proof.
  unfold chain_three_runs, iloc. cbn [lookup list_lookup mbind result_bind].
  destruct (get_matches pairwise (y1, y2)) as [| a l12] eqn:E12.
  { eexists. split; [reflexivity |]. split; [auto |]. intros H. contradiction. }
  destruct (get_matches pairwise (y2, y3)) as [| b l23] eqn:E23.
  { eexists. split; [reflexivity |]. split; [auto |].
    intros _ H. contradiction. }
  eexists. split; [reflexivity |]. split.
  - intros [H | H]; discriminate H.
  - intros _ _. split; reflexivity.
Qed.

Lemma in_triples (pairwise : gmap (Z * Z) match_result) (y1 y2 y3 : Z)
    (t : triple) :
  In t (List.flat_map (fun m23 =>
          match build_y2_to_y1 (get_matches pairwise (y1, y2))
                  !! earlier_row_idx m23 with
          | Some m12 => [triple_record y1 y3 m12 m23]
          | None => []
          end) (get_matches pairwise (y2, y3))) <->
  exists m12 m23,
    In m23 (get_matches pairwise (y2, y3)) /\
    build_y2_to_y1 (get_matches pairwise (y1, y2)) !! earlier_row_idx m23
      = Some m12 /\
    t = triple_record y1 y3 m12 m23.
Proof.
  rewrite in_flat_map. split.
  - intros (m23 & H23 & Ht).
    destruct (build_y2_to_y1 _ !! earlier_row_idx m23) as [m12 |] eqn:E;
      [| destruct Ht].
    destruct Ht as [<- | []]. exists m12, m23. auto.
  - intros (m12 & m23 & H23 & E & ->). exists m23. split; [exact H23 |].
    rewrite E. left. reflexivity.
Qed.


(** There are never more triples than 2-3 matches. *)
Lemma chain_join_bound (pairwise : gmap (Z * Z) match_result)
    (y1 y2 y3 : Z) (more : list Z) :
  exists r,
    chain_three_runs pairwise (y1 :: y2 :: y3 :: more) = Ok r /\
    (length (triple_matches r) <= length (get_matches pairwise (y2, y3)))%nat.
Proof.
  destruct (chain_three_runs_unfold pairwise y1 y2 y3 more)
    as (r & Hr & Hempty & Hfull).
  exists r. split; [exact Hr |].
  destruct (get_matches pairwise (y1, y2)) as [| a l12] eqn:E12.
  { destruct Hempty as [-> _]; [auto |]. cbn; lia. }
  destruct (get_matches pairwise (y2, y3)) as [| b l23] eqn:E23.
  { destruct Hempty as [-> _]; [auto |]. cbn; lia. }
  destruct Hfull as [-> _]; [discriminate | discriminate |].
  generalize (b :: l23). intros l. induction l as [| m23 l IH];
    cbn [List.flat_map length]; [lia |].
  rewrite length_app.
  destruct (build_y2_to_y1 (a :: l12) !! earlier_row_idx m23);
    cbn [length]; lia.
Qed.

(** X14: the chain is the full join of the two legs.  When no two 1-2
    matches share their later row, every pair of a 1-2 match and a 2-3
    match that meet in the same row of the middle run gives its triple;
    and there are never more triples than 2-3 matches. *)
Theorem chain_join_complete (pairwise : gmap (Z * Z) match_result)
    (y1 y2 y3 : Z) (more : list Z) :
  NoDup (List.map later_row_idx (get_matches pairwise (y1, y2))) ->
  exists r,
    chain_three_runs pairwise (y1 :: y2 :: y3 :: more) = Ok r /\
    (length (triple_matches r) <= length (get_matches pairwise (y2, y3)))%nat /\
    forall m12 m23,
      In m12 (get_matches pairwise (y1, y2)) ->
      In m23 (get_matches pairwise (y2, y3)) ->
      later_row_idx m12 = earlier_row_idx m23 ->
      In (triple_record y1 y3 m12 m23) (triple_matches r).
Proof.
  intros Hnd.
  destruct (chain_join_bound pairwise y1 y2 y3 more) as (r & Hr & Hle).
  destruct (chain_three_runs_unfold pairwise y1 y2 y3 more)
    as (r' & Hr' & _ & Hfull).
  rewrite Hr in Hr'. injection Hr' as <-.
  exists r. split; [exact Hr |]. split; [exact Hle |].
  intros m12 m23 H12 H23 Hkey.
  destruct Hfull as [-> _].
  { intros E. rewrite E in H12. destruct H12. }
  { intros E. rewrite E in H23. destruct H23. }
  apply in_triples.
  destruct (build_y2_to_y1_complete _ _ H12) as [m Hm].
  exists m12, m23. split; [exact H23 |]. split; [| reflexivity].
  rewrite <- Hkey, Hm. f_equal.
  destruct (build_y2_to_y1_lookup _ _ _ Hm) as [Hin Hk].
  exact (NoDup_map_eq later_row_idx _ m m12 Hnd Hin H12 Hk).
Qed.

(** X15: the edges of the chainer.  With fewer than three years it raises
    an IndexError; with three or more it returns.  When one of the two
    legs has no match both outputs are empty.  Otherwise the summary has
    its five categories, no count in it is negative, and the first two
    counts add up to the number of 2-3 matches. *)
Theorem chain_three_runs_edges (pairwise : gmap (Z * Z) match_result)
    (years : list Z) :
  ((length years < 3)%nat -> chain_three_runs pairwise years = Raise IndexError) /\
  (forall y1 y2 y3 more, years = y1 :: y2 :: y3 :: more ->
   exists r,
     chain_three_runs pairwise years = Ok r /\
     ((get_matches pairwise (y1, y2) = [] \/
       get_matches pairwise (y2, y3) = []) ->
      triple_matches r = [] /\ lifecycle_summary r = []) /\
     (get_matches pairwise (y1, y2) <> [] ->
      get_matches pairwise (y2, y3) <> [] ->
      exists tracked fresh new3 gone1 gone2,
        List.map snd (lifecycle_summary r)
          = [tracked; fresh; new3; gone1; gone2] /\
        tracked = len (triple_matches r) /\
        (tracked + fresh)%Z = len (get_matches pairwise (y2, y3)) /\
        Forall (fun c => (0 <= c)%Z) [tracked; fresh; new3; gone1; gone2])).
Proof.
  split.
  - intros Hlen. destruct years as [| y1 [| y2 [| y3 more]]];
      try reflexivity. cbn in Hlen. lia.
  - intros y1 y2 y3 more ->.
    destruct (chain_join_bound pairwise y1 y2 y3 more) as (r & Hr & Hle).
    destruct (chain_three_runs_unfold pairwise y1 y2 y3 more)
      as (r' & Hr' & Hempty & Hfull).
    rewrite Hr in Hr'. injection Hr' as <-.
    exists r. split; [exact Hr |]. split; [exact Hempty |].
    intros H12 H23. destruct (Hfull H12 H23) as [_ ->].
    unfold _build_lifecycle_summary. cbn [List.map snd].
    eexists _, _, _, _, _. split; [reflexivity |]. split; [reflexivity |].
    unfold len in *. split; [lia |].
    repeat constructor; lia.
Qed.

End ChainJoin.

(** ** Aligner, continued *)

Section AnchorTable.
Import Config DataIngestion Alignment.
Local Open Scope Q_scope.

Lemma insert_by_distance_In (r x : feature) (l : list feature) :
  In x (insert_by_distance r l) <-> x = r \/ In x l.
Proof.
  induction l as [| r' l IH]; cbn [insert_by_distance].
  - cbn. intuition auto.
  - destruct (flt (log_distance_ft r') (log_distance_ft r)); cbn [In].
    + rewrite IH. intuition auto.
    + intuition auto.
Qed.

Lemma sort_by_distance_In (x : feature) (l : list feature) :
  In x (sort_by_distance l) <-> In x l.
Proof.
  unfold sort_by_distance. induction l as [| r l IH]; cbn [List.fold_right].
  - reflexivity.
  - rewrite insert_by_distance_In, IH. cbn. intuition auto.
Qed.

Lemma insert_by_distance_sorted (r : feature) (l : list feature) :
  Forall (fun x => log_distance_ft x <> NaN) (r :: l) ->
  StronglySorted by_distance l ->
  StronglySorted by_distance (insert_by_distance r l).
Proof.
  intros Hfin Hs. apply Forall_cons in Hfin. destruct Hfin as [Hr Hfin].
  induction Hs as [| r' l Hs IH Hhd]; cbn [insert_by_distance].
  - repeat constructor.
  - apply Forall_cons in Hfin. destruct Hfin as [Hr' Hfin].
    destruct (log_distance_ft r) as [| x] eqn:Ex; [congruence |].
    destruct (log_distance_ft r') as [| y] eqn:Ey; [congruence |].
    cbn [flt cmp2].
    destruct (Qlt_bool y x) eqn:Hlt.
    + apply Qlt_bool_iff in Hlt. constructor; [apply IH, Hfin |].
      apply Forall_forall. intros z Hz. apply list_elem_of_In in Hz.
      apply insert_by_distance_In in Hz. destruct Hz as [-> | Hz].
      * unfold by_distance. rewrite Ex, Ey. cbn. apply Qle_bool_iff. lra.
      * rewrite Forall_forall in Hhd. apply Hhd, list_elem_of_In, Hz.
    + apply Qlt_bool_false in Hlt.
      constructor; [constructor; assumption |].
      constructor.
      * unfold by_distance. rewrite Ex, Ey. cbn. apply Qle_bool_iff. exact Hlt.
      * eapply Forall_impl; [exact Hhd |]. intros z. unfold by_distance.
        rewrite Ex, Ey. destruct (log_distance_ft z) as [| w]; cbn;
          [discriminate |].
        rewrite !Qle_bool_iff. lra.
Qed.

Lemma sort_by_distance_sorted (l : list feature) :
  Forall (fun x => log_distance_ft x <> NaN) l ->
  StronglySorted by_distance (sort_by_distance l).
Proof.
  unfold sort_by_distance. induction 1 as [| r l Hr Hl IH];
    cbn [List.fold_right]; [constructor |].
  apply insert_by_distance_sorted; [| exact IH].
  constructor; [exact Hr |].
  apply Forall_forall. intros x Hx. apply list_elem_of_In in Hx.
  apply (proj1 (sort_by_distance_In x l)) in Hx. rewrite Forall_forall in Hl.
  apply Hl, list_elem_of_In, Hx.
Qed.

(** What [get_girth_welds] lists: the welds of the run, by distance. *)
Lemma get_girth_welds_In (df : list feature) (jn : Z) (x : fl) :
  In (jn, x) (get_girth_welds df) <-> exists d, x = Fin d /\ weld_of df jn d.
Proof.
  unfold get_girth_welds, weld_of. rewrite in_map_iff. split.
  - intros (w & [= <- <-] & Hw). apply sort_by_distance_In, filter_In in Hw.
    destruct Hw as [Hin Hmask].
    apply andb_true_iff in Hmask. destruct Hmask as [Hmask Hd].
    apply andb_true_iff in Hmask. destruct Hmask as [Hgw Hj].
    destruct (log_distance_ft w) as [| d] eqn:Ed; [discriminate |].
    exists d. split; [reflexivity |]. exists w.
    repeat (split; [assumption || reflexivity |]).
    split; [| split; [reflexivity | exact Ed]].
    destruct (joint_number w); [discriminate | discriminate].
  - intros (d & -> & w & Hin & Hgw & Hj & <- & Hd). exists w.
    split; [rewrite Hd; reflexivity |].
    apply sort_by_distance_In, filter_In. split; [exact Hin |].
    rewrite Hgw, Hd. destruct (joint_number w); [congruence | reflexivity].
Qed.

Lemma get_girth_welds_sorted (df : list feature) :
  StronglySorted (fun p q : Z * fl => fle (snd p) (snd q) = true)
    (get_girth_welds df).
Proof.
  unfold get_girth_welds.
  set (mask := fun r => is_girth_weld r && notna (joint_number r)
                        && notna (log_distance_ft r)).
  assert (Hs : StronglySorted by_distance (sort_by_distance (List.filter mask df))).
  { apply sort_by_distance_sorted. apply Forall_forall. intros x Hx.
    apply list_elem_of_In, filter_In in Hx. destruct Hx as [_ Hx].
    unfold mask in Hx. apply andb_true_iff in Hx. destruct Hx as [_ Hx].
    destruct (log_distance_ft x); [discriminate | discriminate]. }
  induction Hs as [| r l _ IH Hhd]; cbn [List.map]; constructor; [exact IH |].
  apply Forall_forall. intros p Hp. apply list_elem_of_In, in_map_iff in Hp.
  destruct Hp as (w & <- & Hw). rewrite Forall_forall in Hhd.
  apply Hhd, list_elem_of_In, Hw.
Qed.

(** The series of a run after [drop_duplicates]: a lookup finds the first
    row of the joint. *)
Lemma drop_duplicates_loc (seen : list Z) (gw : list (Z * fl)) (jn : Z) :
  series_loc (drop_duplicates_from seen gw) jn =
  if existsb (Z.eqb jn) seen then Raise KeyError else series_loc gw jn.
Proof.
  revert seen. induction gw as [| [k d] gw IH]; intros seen;
    cbn [drop_duplicates_from series_loc].
  - destruct (existsb _ seen); reflexivity.
  - destruct (existsb (Z.eqb k) seen) eqn:Hk.
    + rewrite IH. destruct (Z.eqb_spec k jn) as [-> | Hne]; [| reflexivity].
      rewrite Hk. reflexivity.
    + cbn [series_loc]. destruct (Z.eqb_spec k jn) as [-> | Hne].
      * rewrite Hk. reflexivity.
      * rewrite IH. cbn [existsb].
        destruct (Z.eqb_spec jn k) as [E | _]; [congruence | reflexivity].
Qed.

Lemma series_loc_In (s : list (Z * fl)) (jn : Z) :
  In jn (List.map fst s) <-> exists d, series_loc s jn = Ok d.
Proof.
  induction s as [| [k d] s IH]; cbn [List.map series_loc fst In].
  - split; [intros [] | intros [d H]; discriminate H].
  - destruct (Z.eqb_spec k jn) as [-> | Hne].
    + split; [eauto | auto].
    + rewrite <- IH. intuition congruence.
Qed.

Lemma drop_duplicates_keys (gw : list (Z * fl)) (jn : Z) :
  In jn (List.map fst (drop_duplicates gw)) <-> In jn (List.map fst gw).
Proof.
  rewrite !series_loc_In. unfold drop_duplicates.
  rewrite drop_duplicates_loc. reflexivity.
Qed.

Lemma drop_duplicates_from_NoDup (seen : list Z) (gw : list (Z * fl)) :
  NoDup (List.map fst (drop_duplicates_from seen gw)) /\
  forall k, In k (List.map fst (drop_duplicates_from seen gw)) -> ~ In k seen.
Proof.
  revert seen. induction gw as [| [k d] gw IH]; intros seen;
    cbn [drop_duplicates_from].
  - split; [constructor | intros k []].
  - destruct (existsb (Z.eqb k) seen) eqn:Hk; [apply IH |].
    cbn [List.map fst]. destruct (IH (k :: seen)) as [Hnd Hseen]. split.
    + constructor; [| exact Hnd]. intros Hin. apply list_elem_of_In in Hin.
      apply (Hseen k Hin). left. reflexivity.
    + intros k' [<- | Hin].
      * intros Hin. assert (existsb (Z.eqb k) seen = true); [| congruence].
        apply existsb_exists. exists k. split; [exact Hin | apply Z.eqb_refl].
      * intros Hs. apply (Hseen k' Hin). right. exact Hs.
Qed.

(** In a list in distance order the first row of a joint has its least
    distance. *)
Lemma series_loc_least (s : list (Z * fl)) (jn : Z) (x : fl) :
  StronglySorted (fun p q : Z * fl => fle (snd p) (snd q) = true) s ->
  Forall (fun p => snd p <> NaN) s ->
  series_loc s jn = Ok x ->
  In (jn, x) s /\ forall y, In (jn, y) s -> fle x y = true.
Proof.
  intros Hs Hfin. induction Hs as [| [k d] s _ IH Hhd]; cbn [series_loc];
    [discriminate |].
  apply Forall_cons in Hfin. destruct Hfin as [Hd Hfin]. cbn [snd] in Hd.
  destruct (Z.eqb_spec k jn) as [-> | Hne].
  - intros [= <-]. split; [left; reflexivity |].
    intros y [[= <-] | Hy].
    + destruct d as [| q]; [congruence |]. cbn. apply Qle_bool_iff. lra.
    + rewrite Forall_forall in Hhd.
      apply (Hhd (jn, y)), list_elem_of_In, Hy.
  - intros Hx. destruct (IH Hfin Hx) as [Hin Hmin].
    split; [right; exact Hin |].
    intros y [[= E _] | Hy]; [congruence | apply Hmin, Hy].
Qed.

Lemma common_joints_In (s0 : list Z) (rest : list (list Z)) (common : list Z) :
  common_joints (s0 :: rest) = Ok common ->
  (forall jn, In jn common <-> forall t, In t (s0 :: rest) -> In jn t) /\
  (NoDup s0 -> NoDup common) /\
  Sorted Z.le common.
Proof.
  unfold common_joints. intros [= <-]. split; [| split].
  - intros jn.
    transitivity
      (In jn (List.filter
                (fun jn => forallb (fun t => existsb (Z.eqb jn) t) rest) s0)).
    { rewrite <- !list_elem_of_In, merge_sort_Permutation. reflexivity. }
    rewrite filter_In, forallb_forall. split.
    + intros [H0 Hrest] t [<- | Ht]; [exact H0 |].
      specialize (Hrest t Ht). apply existsb_exists in Hrest.
      destruct Hrest as (k & Hk & E). apply Z.eqb_eq in E. subst k. exact Hk.
    + intros H. split; [apply H; left; reflexivity |].
      intros t Ht. apply existsb_exists. exists jn.
      split; [apply H; right; exact Ht | apply Z.eqb_refl].
  - intros Hnd. rewrite merge_sort_Permutation.
    apply NoDup_ListNoDup, List.NoDup_filter, NoDup_ListNoDup, Hnd.
  - apply Sorted_merge_sort. intros x y. lia.
Qed.

Lemma sorted_NoDup_strict (l : list Z) :
  Sorted Z.le l -> NoDup l -> StronglySorted Z.lt l.
Proof.
  intros Hs Hnd. apply Sorted_StronglySorted in Hs; [| intros x y z; lia].
  induction Hs as [| a l _ IH Hhd]; [constructor |].
  apply NoDup_cons in Hnd. destruct Hnd as [Ha Hnd].
  constructor; [apply IH, Hnd |].
  apply Forall_forall. intros x Hx. rewrite Forall_forall in Hhd.
  specialize (Hhd x Hx). assert (a <> x) by congruence. lia.
Qed.

(** X16: the anchors of the alignment table.  A joint number is in the
    table exactly when every run has a girth weld with that joint number
    and a distance; and the table lists each such joint once, in
    increasing order. *)
Theorem anchor_joints (runs : list (Z * list feature)) (tbl : list gw_row) :
  match_girth_welds runs = Ok tbl ->
  (forall jn,
     In jn (List.map gw_joint_number tbl) <->
     forall year df, In (year, df) runs -> exists d, weld_of df jn d) /\
  StronglySorted Z.lt (List.map gw_joint_number tbl).
Proof.
  intros Htbl. apply match_girth_welds_Ok in Htbl.
  destruct Htbl as (common & Hc & -> & _).
  destruct runs as [| [y0 df0] runs]; [discriminate |].
  cbn [List.map] in Hc. apply common_joints_In in Hc.
  destruct Hc as (Hin & Hnd & Hsorted).
  assert (Hkeys : forall df jn,
    In jn (List.map fst (drop_duplicates (get_girth_welds df))) <->
    exists d, weld_of df jn d).
  { intros df jn. rewrite drop_duplicates_keys, in_map_iff. split.
    - intros ([k x] & <- & Hp). apply get_girth_welds_In in Hp.
      destruct Hp as (d & _ & Hw). eauto.
    - intros (d & Hw). exists (jn, Fin d). split; [reflexivity |].
      apply get_girth_welds_In. eauto. }
  split.
  - intros jn. rewrite Hin. split.
    + intros H year df Hrun. apply Hkeys. apply H.
      destruct Hrun as [[= <- <-] | Hrun]; [left; reflexivity |].
      right. apply in_map_iff.
      exists (year, drop_duplicates (get_girth_welds df)).
      split; [reflexivity |]. apply in_map_iff. exists (year, df). auto.
    + intros H t [<- | Ht].
      * apply Hkeys. apply (H y0). left. reflexivity.
      * apply in_map_iff in Ht. destruct Ht as ([y s] & <- & Hs).
        apply in_map_iff in Hs. destruct Hs as ([y' df] & [= <- <-] & Hrun).
        apply Hkeys. apply (H y'). right. exact Hrun.
  - apply sorted_NoDup_strict; [exact Hsorted |]. apply Hnd.
    apply (drop_duplicates_from_NoDup [] (get_girth_welds df0)).
Qed.

(** The distance cells of the table: for each year, the value the
    de-duplicated series of that year holds for the joint of the row. *)
Lemma match_girth_welds_dists (runs : list (Z * list feature))
    (tbl : list gw_row) :
  match_girth_welds runs = Ok tbl ->
  Forall (fun row =>
    Forall2 (fun y p =>
      fst p = y /\
      exists s,
        dict_get
          (List.map (fun '(year, df) =>
                       (year, drop_duplicates (get_girth_welds df))) runs) y
          = Ok s /\
        series_loc s (gw_joint_number row) = Ok (snd p))
      (merge_sort Z.le (List.map fst runs)) (gw_dist row)) tbl.
Proof.
  unfold match_girth_welds.
  set (gw_by_year :=
         List.map (fun '(year, df) =>
                     (year, drop_duplicates (get_girth_welds df))) runs).
  assert (Hyears : List.map fst gw_by_year = List.map fst runs).
  { unfold gw_by_year. rewrite List.map_map. apply List.map_ext.
    intros [y df]. reflexivity. }
  rewrite Hyears.
  destruct (common_joints _) as [common | e]; cbn [mbind result_bind];
    [| discriminate].
  remember (merge_sort Z.le (List.map fst runs)) as years eqn:Hy.
  destruct (mapM _ common) as [records | e] eqn:Er; cbn [mbind result_bind];
    [| discriminate].
  apply mapM_Ok_Forall2 in Er.
  set (P := fun row : gw_row =>
    Forall2 (fun y p =>
      fst p = y /\
      exists s, dict_get gw_by_year y = Ok s /\
                series_loc s (gw_joint_number row) = Ok (snd p))
      years (gw_dist row)).
  assert (Hrec : Forall P records).
  { clear -Er. induction Er as [| jn row common records Hrow _ IH];
      constructor; [| exact IH].
    destruct (mapM _ years) as [dists | e] eqn:Ed; cbn [mbind result_bind] in Hrow;
      [| discriminate].
    injection Hrow as <-. unfold P. cbn [gw_dist gw_joint_number].
    apply mapM_Ok_Forall2 in Ed.
    eapply Forall2_impl; [exact Ed |]. intros y p Hp. cbn beta in Hp.
    destruct (dict_get gw_by_year y) as [s |] eqn:Es;
      cbn [mbind result_bind] in Hp; [| discriminate].
    destruct (series_loc s jn) as [d |] eqn:Eloc;
      cbn [mbind result_bind] in Hp; [| discriminate].
    injection Hp as <-. split; [reflexivity |]. exists s. auto. }
  intros Htbl.
  assert (Hfinal : exists tbl', mapM (fun row : gw_row =>
      deltas ← mapM (fun '(y_prev, y_curr) =>
          d_curr ← dict_get (gw_dist row) y_curr;
          d_prev ← dict_get (gw_dist row) y_prev;
          Ok (y_prev, y_curr, (d_curr - d_prev)%fl)) (zip years (tail years));
      Ok {| gw_joint_number := gw_joint_number row;
            gw_dist := gw_dist row;
            gw_delta := deltas |}) records = Ok tbl' /\ tbl' = tbl).
  { destruct records as [| r records]; destruct (zip years (tail years));
      try discriminate; eexists; split; try exact Htbl; reflexivity. }
  destruct Hfinal as (tbl' & Hmap & <-). clear Htbl.
  apply mapM_Ok_Forall2 in Hmap.
  clear -Hmap Hrec. induction Hmap as [| r r' records tbl' Hr _ IH];
    [constructor |].
  apply Forall_cons in Hrec. destruct Hrec as [Hr0 Hrec].
  constructor; [| apply IH, Hrec].
  destruct (mapM _ (zip years (tail years))); cbn [mbind result_bind] in Hr;
    [| discriminate].
  injection Hr as <-. exact Hr0.
Qed.

Lemma dict_get_first {V : Type} (d : list (Z * V)) (k : Z) (v : V) :
  NoDup (List.map fst d) -> In (k, v) d -> dict_get d k = Ok v.
Proof.
  induction d as [| [k' v'] d IH]; cbn [List.map fst dict_get]; [intros _ [] |].
  rewrite NoDup_cons. intros [Hk Hnd] [[= -> ->] | Hin].
  - rewrite Z.eqb_refl. reflexivity.
  - destruct (Z.eqb_spec k' k) as [-> | Hne]; [| apply IH; assumption].
    exfalso. apply Hk, list_elem_of_In, in_map_iff. exists (k, v). auto.
Qed.

Lemma dict_get_Forall2 {V : Type} (P : Z -> V -> Prop) (keys : list Z)
    (d : list (Z * V)) (k : Z) :
  Forall2 (fun y p => fst p = y /\ P y (snd p)) keys d ->
  In k keys -> exists v, dict_get d k = Ok v /\ P k v.
Proof.
  induction 1 as [| y [k' v] keys d [Hk Hp] _ IH]; cbn [dict_get];
    [intros [] |].
  cbn [fst snd] in Hk, Hp. subst k'. intros Hin.
  destruct (Z.eqb_spec y k) as [<- | Hne]; [eauto |].
  apply IH. destruct Hin as [E | Hin]; [congruence | exact Hin].
Qed.

(** X17: the distance the table holds for an anchor.  For a table built
    from runs with distinct years, the cell of a row in the column of a
    year is the distance of a girth weld of that run with the joint number
    of the row, and when the run has several such welds it is the least
    of their distances. *)
Theorem anchor_distance_least (runs : list (Z * list feature))
    (tbl : list gw_row) :
  match_girth_welds runs = Ok tbl ->
  NoDup (List.map fst runs) ->
  Forall (fun row =>
    forall year df, In (year, df) runs ->
      exists d,
        dict_get (gw_dist row) year = Ok (Fin d) /\
        weld_of df (gw_joint_number row) d /\
        forall d', weld_of df (gw_joint_number row) d' -> d <= d') tbl.
Proof.
  intros Htbl Hnd. apply match_girth_welds_dists in Htbl.
  eapply Forall_impl; [exact Htbl |]. intros row Hrow year df Hrun.
  cbn beta in Hrow.
  destruct (dict_get_Forall2
              (fun y v => exists s,
                 dict_get
                   (List.map (fun '(year, df) =>
                                (year, drop_duplicates (get_girth_welds df)))
                      runs) y = Ok s /\
                 series_loc s (gw_joint_number row) = Ok v)
              _ _ year Hrow) as (x & Hx & s & Hs & Hloc).
  { apply list_elem_of_In. rewrite merge_sort_Permutation.
    apply list_elem_of_In, in_map_iff. exists (year, df). auto. }
  assert (Es : s = drop_duplicates (get_girth_welds df)).
  { rewrite (dict_get_first _ year (drop_duplicates (get_girth_welds df))) in Hs.
    - congruence.
    - rewrite List.map_map.
      erewrite List.map_ext; [exact Hnd |]. intros [y df']. reflexivity.
    - apply in_map_iff. exists (year, df). auto. }
  subst s. unfold drop_duplicates in Hloc. rewrite drop_duplicates_loc in Hloc.
  cbn [existsb] in Hloc.
  assert (Hfin : Forall (fun p : Z * fl => snd p <> NaN) (get_girth_welds df)).
  { apply Forall_forall. intros [k y] Hp. apply list_elem_of_In in Hp.
    apply get_girth_welds_In in Hp. destruct Hp as (d & -> & _). discriminate. }
  destruct (series_loc_least _ _ _ (get_girth_welds_sorted df) Hfin Hloc)
    as [Hin Hmin].
  apply get_girth_welds_In in Hin. destruct Hin as (d & -> & Hw).
  exists d. split; [exact Hx |]. split; [exact Hw |].
  intros d' Hw'. specialize (Hmin (Fin d')). cbn in Hmin.
  apply Qle_bool_iff, Hmin, get_girth_welds_In. eauto.
Qed.

End AnchorTable.

(** ** Applying the correction *)

Section CorrectionProperties.
Import Config DataIngestion Alignment Matching Correction.
Context {ip : Interpolate}.
Local Open Scope Q_scope.

Lemma get_anomalies_set_corrected (f : feature -> fl) (df : list feature) :
  get_anomalies (List.map (fun r => set_corrected_distance r (f r)) df) =
  List.map (fun r => set_corrected_distance r (f r)) (get_anomalies df).
Proof.
  unfold get_anomalies. induction df as [| r df IH]; [reflexivity |].
  cbn [List.map List.filter set_corrected_distance is_anomaly depth_pct
       log_distance_ft].
  destruct (is_anomaly r && notna (depth_pct r) && notna (log_distance_ft r));
    cbn [List.map]; rewrite IH; reflexivity.
Qed.

Lemma assign_corrected_rows (df : list feature) (values : list fl) :
  Forall2 (fun r r' => r' = set_corrected_distance r (corrected_distance r'))
    df (assign_corrected df values).
Proof.
  revert values. induction df as [| r df IH]; intros values;
    cbn [assign_corrected]; [constructor |].
  destruct (valid r); constructor; try reflexivity; apply IH.
Qed.

Lemma assign_corrected_values (df : list feature) (values : list fl) :
  length values = length (List.filter valid df) ->
  List.map corrected_distance (List.filter valid (assign_corrected df values))
  = values.
Proof.
  revert values. induction df as [| r df IH]; intros values;
    cbn [assign_corrected List.filter].
  - destruct values; [reflexivity | discriminate].
  - destruct (valid r) eqn:Hr; cbn [List.filter].
    + assert (Hr' : valid (set_corrected_distance r (hd NaN values)) = true)
        by exact Hr.
      rewrite Hr'. destruct values as [| v values]; [discriminate |].
      cbn [length hd tl List.map corrected_distance set_corrected_distance].
      intros [= Hlen]. f_equal. apply IH, Hlen.
    + assert (Hr' : valid (set_corrected_distance r NaN) = false) by exact Hr.
      rewrite Hr'. apply IH.
Qed.

Lemma assign_corrected_missing (df : list feature) (values : list fl) :
  Forall (fun r' => log_distance_ft r' = NaN -> corrected_distance r' = NaN)
    (assign_corrected df values).
Proof.
  revert values. induction df as [| r df IH]; intros values;
    cbn [assign_corrected]; [constructor |].
  destruct (valid r) eqn:Hr; (constructor; [| apply IH]).
  - cbn [log_distance_ft set_corrected_distance]. intros Hnan.
    unfold valid in Hr. rewrite Hnan in Hr. discriminate.
  - intros _. reflexivity.
Qed.

Lemma corrected_anomalies (df df' : list feature) :
  Forall2 (fun r r' => r' = set_corrected_distance r (corrected_distance r'))
    df df' ->
  List.map source_row_idx (get_anomalies df')
  = List.map source_row_idx (get_anomalies df).
Proof.
  unfold get_anomalies.
  induction 1 as [| r r' df df' Hr _ IH]; [reflexivity |].
  cbn [List.filter]. rewrite Hr.
  cbn [set_corrected_distance is_anomaly depth_pct log_distance_ft].
  destruct (is_anomaly r && notna (depth_pct r) && notna (log_distance_ft r));
    cbn [List.map source_row_idx]; rewrite IH; reflexivity.
Qed.

Lemma corrected_rows (f : feature -> fl) (df : list feature) :
  Forall2 (fun r r' => r' = set_corrected_distance r (corrected_distance r'))
    df (List.map (fun r => set_corrected_distance r (f r)) df) /\
  List.map source_row_idx
    (get_anomalies (List.map (fun r => set_corrected_distance r (f r)) df))
  = List.map source_row_idx (get_anomalies df).
Proof.
  split.
  - induction df as [| r df IH]; cbn [List.map]; constructor;
      [reflexivity | exact IH].
  - rewrite get_anomalies_set_corrected, List.map_map. reflexivity.
Qed.

Lemma build_distance_corrector_Raise (tbl : list gw_row) (src ref : Z)
    (e : exn) :
  build_distance_corrector tbl src ref = Raise e -> e = KeyError.
Proof.
  unfold build_distance_corrector.
  destruct (dist_column tbl src) as [xs | e1] eqn:E1; cbn [mbind result_bind].
  - destruct (dist_column tbl ref) as [ys | e2] eqn:E2; cbn [mbind result_bind];
      [discriminate |].
    intros [= <-]. eapply dist_column_Raise, E2.
  - intros [= <-]. eapply dist_column_Raise, E1.
Qed.

(** X18: the correction after the anchor table.  With the table that
    [match_girth_welds] built from the same runs, and a reference year
    that is one of the run years, the correction returns a run for every
    year, in the same order.  In each run only the corrected distance
    changes, so the anomalies are the same rows as before; the reference
    run gets its raw distance as corrected distance, which makes it an
    aligned run; in the other runs a row without a raw distance has no
    corrected distance, and the rows with one have, in row order, the
    values the interpolator returns for the array of their raw
    distances. *)
Theorem correction_after_anchors (runs : list (Z * list feature))
    (tbl : list gw_row) (ref : Z) :
  match_girth_welds runs = Ok tbl -> In ref (List.map fst runs) ->
  exists out,
    apply_distance_correction runs tbl ref = Ok out /\
    Forall2 (fun run run' =>
      fst run' = fst run /\
      Forall2 (fun r r' =>
                 r' = set_corrected_distance r (corrected_distance r'))
        (snd run) (snd run') /\
      List.map source_row_idx (get_anomalies (snd run'))
        = List.map source_row_idx (get_anomalies (snd run)) /\
      (fst run = ref ->
         Forall (fun r' => corrected_distance r' = log_distance_ft r')
           (snd run') /\
         aligned (snd run')) /\
      (fst run <> ref ->
         exists c,
           build_distance_corrector tbl (fst run) ref = Ok c /\
           List.map corrected_distance (List.filter valid (snd run'))
           = interp_call c
               (List.map log_distance_ft (List.filter valid (snd run))) /\
           Forall (fun r' =>
                     log_distance_ft r' = NaN -> corrected_distance r' = NaN)
             (snd run'))) runs out.
Proof.
  intros Htbl Href.
  assert (Hcorr : forall year, In year (List.map fst runs) -> year <> ref ->
            exists c, build_distance_corrector tbl year ref = Ok c).
  { intros year Hyear Hne.
    assert (Hnil : tbl <> []).
    { intros ->. apply match_girth_welds_Ok in Htbl.
      destruct Htbl as (_ & _ & _ & _ & Hlen). specialize (Hlen eq_refl).
      destruct runs as [| [y0 df0] [| run runs']];
        cbn [List.map fst In length] in Hlen, Hyear, Href;
        [tauto | intuition congruence | lia]. }
    destruct (dist_column_Ok runs tbl year Htbl Hnil Hyear) as (xs & Hxs & _).
    destruct (dist_column_Ok runs tbl ref Htbl Hnil Href) as (ys & Hys & _).
    unfold build_distance_corrector. rewrite Hxs, Hys. eexists. reflexivity. }
  unfold apply_distance_correction.
  clear Htbl Href. induction runs as [| [year df] runs IH]; cbn [mapM].
  { exists []. split; [reflexivity | constructor]. }
  destruct IH as (out & Hout & Hall).
  { intros y Hy. apply Hcorr. right. exact Hy. }
  destruct (Z.eqb_spec year ref) as [-> | Hne].
  - cbn [mbind result_bind]. rewrite Hout. cbn [mbind result_bind mret result_ret].
    eexists. split; [reflexivity |]. constructor; [| exact Hall].
    cbn [fst snd]. split; [reflexivity |].
    destruct (corrected_rows log_distance_ft df) as [Hrows Hidx].
    split; [exact Hrows |]. split; [exact Hidx |]. split; [| congruence].
    intros _. split.
    + apply Forall_forall. intros r' Hr'.
      apply list_elem_of_In, in_map_iff in Hr'.
      destruct Hr' as (r & <- & _). reflexivity.
    + unfold aligned. rewrite get_anomalies_set_corrected.
      apply Forall_forall. intros r' Hr'.
      apply list_elem_of_In, in_map_iff in Hr'.
      destruct Hr' as (r & <- & Hr). cbn [corrected_distance set_corrected_distance].
      apply filter_In in Hr. destruct Hr as [_ Hr].
      apply andb_true_iff in Hr. destruct Hr as [_ Hr].
      destruct (log_distance_ft r); [discriminate | discriminate].
  - destruct (Hcorr year) as [c Hc]; [left; reflexivity | exact Hne |].
    rewrite Hc. cbn [mbind result_bind]. rewrite Hout.
    cbn [mbind result_bind mret result_ret].
    eexists. split; [reflexivity |]. constructor; [| exact Hall].
    cbn [fst snd]. split; [reflexivity |].
    split; [apply assign_corrected_rows |].
    split; [apply corrected_anomalies, assign_corrected_rows |].
    split; [congruence |].
    intros _. exists c. split; [exact Hc |].
    split; [| apply assign_corrected_missing].
    apply assign_corrected_values. rewrite interp_call_length.
    apply List.length_map.
Qed.

(** X19: the ways the correction fails.  It raises nothing but a KeyError.
    With an empty table it raises one as soon as a run is not the reference
    run; and with the table of runs that do not include the reference year
    it raises one unless there is no run at all. *)
Theorem correction_errors (runs : list (Z * list feature))
    (tbl : list gw_row) (ref : Z) :
  (forall e, apply_distance_correction runs tbl ref = Raise e -> e = KeyError) /\
  (tbl = [] -> (exists year, In year (List.map fst runs) /\ year <> ref) ->
     apply_distance_correction runs tbl ref = Raise KeyError) /\
  (match_girth_welds runs = Ok tbl -> ~ In ref (List.map fst runs) ->
     apply_distance_correction runs tbl ref = Raise KeyError).
Proof.
  assert (Hraise : forall e,
            apply_distance_correction runs tbl ref = Raise e -> e = KeyError).
  { intros e H. apply mapM_Raise in H. destruct H as ([year df] & _ & H).
    destruct (Z.eqb year ref); [discriminate |].
    destruct (build_distance_corrector tbl year ref) as [c |] eqn:Ec;
      cbn [mbind result_bind] in H; [discriminate |].
    injection H as <-. eapply build_distance_corrector_Raise, Ec. }
  assert (Hsome : forall year df,
            In (year, df) runs -> year <> ref ->
            (forall c, build_distance_corrector tbl year ref <> Ok c) ->
            apply_distance_correction runs tbl ref = Raise KeyError).
  { intros year df Hin Hne Hc.
    destruct (apply_distance_correction runs tbl ref) as [out | e] eqn:E;
      [| rewrite (Hraise e eq_refl); reflexivity].
    exfalso. apply mapM_Ok_Forall2 in E.
    apply list_elem_of_In, list_elem_of_lookup in Hin. destruct Hin as [i Hi].
    destruct (Forall2_lookup_l _ _ _ _ _ E Hi) as (run' & _ & Hrun).
    cbn beta iota in Hrun. destruct (Z.eqb_spec year ref); [contradiction |].
    destruct (build_distance_corrector tbl year ref) as [c |] eqn:Ec;
      [exact (Hc c eq_refl) | discriminate]. }
  split; [exact Hraise |]. split.
  - intros -> (year & Hyear & Hne). apply in_map_iff in Hyear.
    destruct Hyear as ([y df] & <- & Hin).
    apply (Hsome y df Hin Hne). intros c. discriminate.
  - intros Htbl Href.
    destruct runs as [| [year df] runs']; [discriminate |].
    apply (Hsome year df); [left; reflexivity | |].
    + intros ->. apply Href. left. reflexivity.
    + intros c Hc. unfold build_distance_corrector in Hc.
      destruct (dist_column tbl year) as [xs |]; cbn [mbind result_bind] in Hc;
        [| discriminate].
      destruct (dist_column tbl ref) as [ys |] eqn:Eys;
        cbn [mbind result_bind] in Hc; [| discriminate].
      unfold dist_column in Eys. destruct tbl as [| row tbl']; [discriminate |].
      apply mapM_Ok_Forall2 in Eys. apply Forall2_cons_inv_l in Eys.
      destruct Eys as (y & ys' & Hy & _ & _).
      apply match_girth_welds_Ok in Htbl.
      destruct Htbl as (_ & _ & _ & Hkeys & _).
      apply Forall_cons in Hkeys. destruct Hkeys as [Hkeys _].
      apply Href.
      assert (Hin : In ref (List.map fst (gw_dist row))).
      { clear -Hy. induction (gw_dist row) as [| [k v] l IH];
          cbn [dict_get] in Hy; [discriminate |].
        destruct (Z.eqb_spec k ref) as [-> | _]; [left; reflexivity |].
        right. apply IH, Hy. }
      rewrite Hkeys in Hin. apply list_elem_of_In in Hin.
      rewrite merge_sort_Permutation in Hin. apply list_elem_of_In, Hin.
Qed.

End CorrectionProperties.

(** ** Trends *)

Section TrendProperties.
Import Config Matching MultiRun Trends.
Context {reg : Regression}.
Local Open Scope Q_scope.

(** The depths [predict_row] reads, and how many of them are present. *)
Lemma predict_row_cases (y1 y2 y3 : Z) (row : triple) :
  let present :=
    List.filter notna
      [ depth_column y1 y2 y3 row 2007; depth_column y1 y2 y3 row 2015;
        depth_column y1 y2 y3 row 2022 ] in
  ((length present < 2)%nat -> no_prediction (predict_row y1 y2 y3 row)) /\
  (is_accelerating (predict_row y1 y2 y3 row) = true -> length present = 3%nat).
Proof.
  unfold predict_row.
  destruct (depth_column y1 y2 y3 row 2007) as [| a];
  destruct (depth_column y1 y2 y3 row 2015) as [| b];
  destruct (depth_column y1 y2 y3 row 2022) as [| c];
    cbn [zip zip_with List.filter notna isnan negb snd length Nat.leb Nat.eqb
         List.map fst];
    (split; [intros Hlt; try (exfalso; lia); repeat split |]);
    try (intros H; discriminate H); try (intros _; reflexivity);
    destruct (linregress _ _) as [[slope intercept] r_value]; cbn;
    try (intros H; discriminate H).
Qed.

Lemma depth_column_absent (y1 y2 y3 : Z) (row : triple) (k : Z) :
  existsb (Z.eqb k) [y1; y2; y3] = false -> depth_column y1 y2 y3 row k = NaN.
Proof.
  cbn [existsb]. unfold depth_column.
  destruct (Z.eqb k y1), (Z.eqb k y2), (Z.eqb k y3); cbn; try discriminate.
  reflexivity.
Qed.

(** X22: the trend columns.  The rows of the triple frame are kept as they
    are and each gets its prediction.  A row with fewer than two of the
    depths of 2007, 2015 and 2022 gets no prediction at all, and a row is
    flagged as accelerating only if it has all three.  The three years are
    fixed in the code: for a chain in which at most one of them names a
    column, no row gets a prediction. *)
Theorem trends_fixed_years (y1 y2 y3 : Z) (rows : list triple) :
  List.map fst (predict_growth_trends y1 y2 y3 rows) = rows /\
  Forall (fun rp =>
    let present :=
      List.filter notna
        [ depth_column y1 y2 y3 (fst rp) 2007;
          depth_column y1 y2 y3 (fst rp) 2015;
          depth_column y1 y2 y3 (fst rp) 2022 ] in
    ((length present < 2)%nat -> no_prediction (snd rp)) /\
    (is_accelerating (snd rp) = true -> length present = 3%nat))
    (predict_growth_trends y1 y2 y3 rows) /\
  ((length (List.filter (fun k => existsb (Z.eqb k) [y1; y2; y3])
              [2007; 2015; 2022]%Z) <= 1)%nat ->
   Forall (fun rp => no_prediction (snd rp))
     (predict_growth_trends y1 y2 y3 rows)).
Proof.
  unfold predict_growth_trends. split; [| split].
  - rewrite List.map_map. cbn [fst]. apply List.map_id.
  - apply Forall_forall. intros rp Hrp.
    apply list_elem_of_In, in_map_iff in Hrp. destruct Hrp as (row & <- & _).
    cbn [fst snd]. apply predict_row_cases.
  - intros Hfew. apply Forall_forall. intros rp Hrp.
    apply list_elem_of_In, in_map_iff in Hrp. destruct Hrp as (row & <- & _).
    cbn [fst snd]. apply predict_row_cases.
    cbn [List.filter] in Hfew.
    pose proof (depth_column_absent y1 y2 y3 row 2007) as H1.
    pose proof (depth_column_absent y1 y2 y3 row 2015) as H2.
    pose proof (depth_column_absent y1 y2 y3 row 2022) as H3.
    destruct (existsb (Z.eqb 2007) [y1; y2; y3]);
    destruct (existsb (Z.eqb 2015) [y1; y2; y3]);
    destruct (existsb (Z.eqb 2022) [y1; y2; y3]);
      cbn [length] in Hfew; try lia;
      try rewrite (H1 eq_refl); try rewrite (H2 eq_refl);
      try rewrite (H3 eq_refl); cbn [List.filter notna isnan negb];
      repeat match goal with
      | |- context [notna ?x] => destruct (notna x)
      end; cbn [length]; lia.
Qed.

End TrendProperties.

(** ** The whole analysis *)

Section MatcherErrors.
Import Config DataIngestion Matching.
Context {lib : SciPy}.
Local Open Scope Q_scope.

Lemma for_each_Raise {A S : Type} (body : S -> A -> result S) (l : list A)
    (s : S) (e : exn) :
  for_each body s l = Raise e -> exists s' a, In a l /\ body s' a = Raise e.
Proof.
  revert s. induction l as [| a l IH]; intros s; cbn [for_each];
    [discriminate |].
  destruct (body s a) as [s1 |] eqn:E; cbn [mbind result_bind].
  - intros H. destruct (IH _ H) as (s' & a' & Hin & Hb).
    exists s', a'. split; [right; exact Hin | exact Hb].
  - intros [= <-]. exists s, a. split; [left; reflexivity | exact E].
Qed.

Lemma iloc_Raise {A : Type} (l : list A) (i : nat) (e : exn) :
  iloc l i = Raise e -> e = IndexError.
Proof. unfold iloc. destruct (l !! i); [discriminate | congruence]. Qed.

Lemma annual_rate_Raise (growth : fl) (yb : Q) (e : exn) :
  annual_rate growth yb = Raise e ->
  e = ZeroDivisionError /\ Qeq_bool yb 0 = true.
Proof.
  unfold annual_rate. destruct (notna growth); [| discriminate].
  destruct (Qeq_bool yb 0); [| discriminate]. intros [= <-]. auto.
Qed.

Lemma build_match_record_Raise (a_l a_e : feature) (sim conf : fl)
    (label : string) (yb : Q) (e : exn) :
  _build_match_record a_l a_e sim conf label yb = Raise e ->
  e = ZeroDivisionError /\ Qeq_bool yb 0 = true.
Proof.
  unfold _build_match_record.
  destruct (annual_rate (Matching._safe_sub (depth_pct a_l) (depth_pct a_e)) yb)
    as [r1 |] eqn:E1; cbn [mbind result_bind];
    [| intros [= <-]; eapply annual_rate_Raise, E1].
  destruct (annual_rate (Matching._safe_sub (length_in a_l) (length_in a_e)) yb)
    as [r2 |] eqn:E2; cbn [mbind result_bind];
    [| intros [= <-]; eapply annual_rate_Raise, E2].
  destruct (annual_rate (Matching._safe_sub (width_in a_l) (width_in a_e)) yb)
    as [r3 |] eqn:E3; cbn [mbind result_bind];
    [discriminate | intros [= <-]; eapply annual_rate_Raise, E3].
Qed.

Lemma keep_assignment_Raise (anom_later anom_earlier : list feature)
    (cost_matrix : list (list fl)) (candidate_counts : list nat) (yb : Q)
    (st : list match_record * gset nat * gset nat) (ij : nat * nat) (e : exn) :
  keep_assignment anom_later anom_earlier cost_matrix candidate_counts yb st ij
    = Raise e ->
  e = IndexError \/ (e = ZeroDivisionError /\ Qeq_bool yb 0 = true).
Proof.
  destruct st as [[ms ML] ME]. destruct ij as [i j]. unfold keep_assignment.
  destruct (iloc cost_matrix i) as [row |] eqn:E1; cbn [mbind result_bind];
    [| intros [= <-]; left; eapply iloc_Raise, E1].
  destruct (iloc row j) as [c |] eqn:E2; cbn [mbind result_bind];
    [| intros [= <-]; left; eapply iloc_Raise, E2].
  destruct (fge c (fsub 1.0 LOW_CONFIDENCE)); [discriminate |].
  destruct (iloc anom_later i) as [a_l |] eqn:E3; cbn [mbind result_bind];
    [| intros [= <-]; left; eapply iloc_Raise, E3].
  destruct (iloc anom_earlier j) as [a_e |] eqn:E4; cbn [mbind result_bind];
    [| intros [= <-]; left; eapply iloc_Raise, E4].
  destruct (iloc candidate_counts i) as [n |] eqn:E5; cbn [mbind result_bind];
    [| intros [= <-]; left; eapply iloc_Raise, E5].
  destruct (_build_match_record _ _ _ _ _ _) as [m |] eqn:E6;
    cbn [mbind result_bind]; [discriminate |].
  intros [= <-]. right. eapply build_match_record_Raise, E6.
Qed.

Lemma scan_later_Raise (anom_earlier : list feature) (yb : Q)
    (a_l : feature) (e : exn) :
  scan_later (_build_search_points anom_earlier) anom_earlier yb a_l = Raise e ->
  e = ValueError /\ corrected_distance a_l = NaN.
Proof.
  intros Hraise.
  destruct (corrected_distance a_l) as [| d] eqn:Hd.
  - split; [| reflexivity]. revert Hraise.
    unfold scan_later, query_ball_point, _build_search_point_single.
    destruct (clock_to_trig (clock_hours a_l)) as [cos_c sin_c].
    unfold finite_point. cbn [fst]. rewrite Hd. cbn. congruence.
  - destruct (scan_later_Ok anom_earlier yb a_l) as (st & Hst & _);
      congruence.
Qed.

Lemma KDTree_Raise (df : list feature) (e : exn) :
  KDTree (_build_search_points df) = Raise e ->
  e = ValueError /\ Exists (fun a => corrected_distance a = NaN) df.
Proof.
  unfold KDTree.
  destruct (forallb finite_point (_build_search_points df)) eqn:Hf;
    [discriminate |].
  intros [= <-]. split; [reflexivity |].
  induction df as [| a df IH]; [discriminate |].
  cbn [_build_search_points List.map forallb] in Hf.
  apply andb_false_iff in Hf. destruct Hf as [Ha | Hf].
  - apply Exists_cons_hd. revert Ha.
    unfold _build_search_point_single, finite_point.
    destruct (clock_to_trig (clock_hours a)) as [cos_c sin_c]. cbn [fst].
    destruct (corrected_distance a); [reflexivity | discriminate].
  - apply Exists_cons_tl, IH, Hf.
Qed.

(** X20: the ways the matcher fails.  It raises nothing but an IndexError,
    a ZeroDivisionError or a ValueError: a ZeroDivisionError only for a
    year gap of zero, a ValueError only when an anomaly has no corrected
    distance; and on aligned runs with a non-zero year gap it raises only
    if the solver broke its contract. *)
Theorem match_anomalies_errors (run_later run_earlier : list feature)
    (yb : Q) (e : exn) :
  match_anomalies run_later run_earlier yb = Raise e ->
  (e = IndexError \/ e = ZeroDivisionError \/ e = ValueError) /\
  (e = ZeroDivisionError -> yb == 0) /\
  (e = ValueError ->
   Exists (fun a => corrected_distance a = NaN)
     (get_anomalies run_later ++ get_anomalies run_earlier)) /\
  (~ yb == 0 -> aligned run_later -> aligned run_earlier ->
   ~ valid_assignment (length (get_anomalies run_later))
       (length (get_anomalies run_earlier))
       (assignment_of (get_anomalies run_later) (get_anomalies run_earlier) yb)).
Proof.
  intros Hraise.
  assert (Hkind : e = IndexError \/
                  (e = ZeroDivisionError /\ Qeq_bool yb 0 = true) \/
                  (e = ValueError /\
                   Exists (fun a => corrected_distance a = NaN)
                     (get_anomalies run_later ++ get_anomalies run_earlier))).
  { revert Hraise. unfold match_anomalies.
    set (anom_later := get_anomalies run_later).
    set (anom_earlier := get_anomalies run_earlier).
    destruct ((length anom_later =? 0)%nat || (length anom_earlier =? 0)%nat);
      [discriminate |].
    destruct (KDTree (_build_search_points anom_earlier)) as [tree |] eqn:Htree;
      cbn [mbind result_bind].
    2:{ intros [= <-]. right. right.
        destruct (KDTree_Raise _ _ Htree) as [-> Hex].
        split; [reflexivity |]. apply Exists_app. right. exact Hex. }
    assert (Et : tree = _build_search_points anom_earlier).
    { unfold KDTree in Htree. destruct (forallb _ _); congruence. }
    subst tree.
    destruct (mapM (scan_later (_build_search_points anom_earlier)
                      anom_earlier yb) anom_later) as [scanned |] eqn:Hs;
      cbn [mbind result_bind].
    2:{ intros [= <-]. right. right. apply mapM_Raise in Hs.
        destruct Hs as (a_l & Hin & Hs).
        destruct (scan_later_Raise _ _ _ _ Hs) as [-> Hnan].
        split; [reflexivity |]. apply Exists_app. left.
        apply Exists_exists. exists a_l.
        split; [apply list_elem_of_In; exact Hin | exact Hnan]. }
    destruct (linear_sum_assignment (List.map fst scanned))
      as [row_ind col_ind].
    destruct (for_each _ _ _) as [[[ms ML] ME] |] eqn:Hloop;
      cbn [mbind result_bind].
    - destruct (mapM (iloc anom_later) _) as [new |] eqn:Hnew;
        cbn [mbind result_bind].
      + destruct (mapM (iloc anom_earlier) _) as [missing |] eqn:Hmissing;
          cbn [mbind result_bind]; [discriminate |].
        intros [= <-]. left. apply mapM_Raise in Hmissing.
        destruct Hmissing as (i & _ & Hi). eapply iloc_Raise, Hi.
      + intros [= <-]. left. apply mapM_Raise in Hnew.
        destruct Hnew as (i & _ & Hi). eapply iloc_Raise, Hi.
    - intros [= <-]. apply for_each_Raise in Hloop.
      destruct Hloop as (st & ij & _ & Hstep).
      destruct (keep_assignment_Raise _ _ _ _ _ _ _ _ Hstep) as [H | H];
        [left; exact H | right; left; exact H]. }
  split; [tauto |]. split; [| split].
  - intros ->. destruct Hkind as [H | [[_ H] | [H _]]]; try discriminate.
    apply Qeq_bool_iff, H.
  - intros ->. destruct Hkind as [H | [[H _] | [_ H]]]; try discriminate.
    exact H.
  - intros Hyb HfinL HfinE Hvalid.
    assert (Hyb' : Qeq_bool yb 0 = false).
    { destruct (Qeq_bool yb 0) eqn:E; [| reflexivity].
      apply Qeq_bool_iff in E. contradiction. }
    destruct (match_anomalies_Ok run_later run_earlier yb Hyb' Hvalid
                HfinL HfinE) as (r & _ & Hr & _).
    congruence.
Qed.

End MatcherErrors.

Section AnalysisProperties.
Import Config DataIngestion Alignment Matching MultiRun Trends FullAnalysis.
Context {lib : SciPy} {reg : Regression}.
Local Open Scope Q_scope.

Lemma zip_tail_sorted (l : list Z) (a b : Z) :
  StronglySorted Z.lt l -> In (a, b) (zip l (tail l)) ->
  (a < b)%Z /\ In a l /\ In b l.
Proof.
  induction 1 as [| x l Hs IH Hhd]; cbn [tail zip zip_with]; [intros [] |].
  destruct l as [| y l]; cbn [zip zip_with]; [intros [] |].
  intros [[= <- <-] | Hin].
  - apply Forall_cons in Hhd. destruct Hhd as [Hxy _].
    split; [exact Hxy |]. split; [left; reflexivity | right; left; reflexivity].
  - destruct (IH Hin) as (Hab & Ha & Hb).
    split; [exact Hab |]. split; right; assumption.
Qed.

Lemma sorted_years (runs : list (Z * list feature)) :
  NoDup (List.map fst runs) ->
  StronglySorted Z.lt (merge_sort Z.le (List.map fst runs)).
Proof.
  intros Hnd. apply sorted_NoDup_strict.
  - apply Sorted_merge_sort. intros x y. lia.
  - rewrite merge_sort_Permutation. exact Hnd.
Qed.

Lemma year_gap_difference (a b : Z) : year_gap a b = inject_Z (b - a).
Proof. unfold year_gap. rewrite years_between_difference. reflexivity. Qed.

Lemma gap_nonzero (a b : Z) : (a < b)%Z -> Qeq_bool (inject_Z (b - a)) 0 = false.
Proof.
  intros Hab. destruct (Qeq_bool (inject_Z (b - a)) 0) eqn:E; [| reflexivity].
  apply Qeq_bool_iff in E. unfold Qeq in E. cbn in E. lia.
Qed.

(** One call of the matcher from the analysis: two years of the runs, the
    earlier one first. *)
Lemma match_years_Ok (runs : list (Z * list feature)) (a b : Z) :
  solver_valid_for runs -> Forall (fun run => aligned (snd run)) runs ->
  (a < b)%Z -> In a (List.map fst runs) -> In b (List.map fst runs) ->
  exists run_a run_b r,
    dict_get runs a = Ok run_a /\ dict_get runs b = Ok run_b /\
    In (a, run_a) runs /\ In (b, run_b) runs /\
    match_anomalies run_b run_a (year_gap a b) = Ok r.
Proof.
  intros Hvalid Hfin Hab Ha Hb. rewrite Forall_forall in Hfin.
  destruct (dict_get_In runs a Ha) as [run_a Hra].
  destruct (dict_get_In runs b Hb) as [run_b Hrb].
  pose proof (dict_get_Ok_In _ _ _ Hra) as Hina.
  pose proof (dict_get_Ok_In _ _ _ Hrb) as Hinb.
  rewrite year_gap_difference.
  destruct (match_anomalies_Ok run_b run_a (inject_Z (b - a)))
    as (r & _ & Hr & _).
  { apply gap_nonzero, Hab. }
  { apply (Hvalid a b run_a run_b Hina Hinb Hab). }
  { apply (Hfin (b, run_b)), list_elem_of_In, Hinb. }
  { apply (Hfin (a, run_a)), list_elem_of_In, Hina. }
  exists run_a, run_b, r. auto.
Qed.

Lemma match_pair_step (runs : list (Z * list feature))
    (pw : gmap (Z * Z) match_result) (a b : Z)
    (run_a run_b : list feature) (r : match_result) :
  dict_get runs a = Ok run_a -> dict_get runs b = Ok run_b ->
  match_anomalies run_b run_a (year_gap a b) = Ok r ->
  match_pair runs pw (a, b) = Ok (<[(a, b) := r]> pw).
Proof.
  intros Ha Hb Hr. unfold match_pair. cbv zeta. rewrite Hb.
  cbn [mbind result_bind]. rewrite Ha. cbn [mbind result_bind]. rewrite Hr.
  reflexivity.
Qed.

Lemma match_pairs_Ok (runs : list (Z * list feature)) (pairs : list (Z * Z)) :
  solver_valid_for runs -> Forall (fun run => aligned (snd run)) runs ->
  Forall (fun p => (fst p < snd p)%Z /\ In (fst p) (List.map fst runs) /\
                   In (snd p) (List.map fst runs)) pairs ->
  forall pw0,
  exists pw,
    for_each (match_pair runs) pw0 pairs = Ok pw /\
    forall k,
      (forall r, pw !! k = Some r ->
         pw0 !! k = Some r \/
         (In k pairs /\
          exists run_a run_b,
            In (fst k, run_a) runs /\ In (snd k, run_b) runs /\
            match_anomalies run_b run_a (inject_Z (snd k - fst k)) = Ok r)) /\
      (In k pairs \/ is_Some (pw0 !! k) -> is_Some (pw !! k)).
Proof.
  intros Hvalid Hfin. induction 1 as [| [a b] pairs (Hab & Ha & Hb) _ IH];
    intros pw0; cbn [for_each].
  - exists pw0. split; [reflexivity |]. intros k. split; [auto |].
    intros [[] | H]; exact H.
  - cbn [fst snd] in Hab, Ha, Hb.
    destruct (match_years_Ok runs a b Hvalid Hfin Hab Ha Hb)
      as (run_a & run_b & r & Hra & Hrb & Hina & Hinb & Hr).
    rewrite (match_pair_step runs pw0 a b run_a run_b r Hra Hrb Hr).
    cbn [mbind result_bind].
    destruct (IH (<[(a, b) := r]> pw0)) as (pw & Hpw & Hk).
    exists pw. split; [exact Hpw |]. intros k. destruct (Hk k) as [Hk1 Hk2].
    split.
    + intros r' Hr'. destruct (Hk1 r' Hr') as [H0 | (Hin & H1)].
      * destruct (decide ((a, b) = k)) as [<- | Hne].
        -- rewrite lookup_insert_eq in H0. injection H0 as <-.
           right. split; [left; reflexivity |].
           exists run_a, run_b. cbn [fst snd].
           rewrite <- year_gap_difference. auto.
        -- rewrite lookup_insert_ne in H0 by exact Hne. left. exact H0.
      * right. split; [right; exact Hin | exact H1].
    + intros [[<- | Hin] | H0]; apply Hk2.
      * right. rewrite lookup_insert_eq. eauto.
      * left. exact Hin.
      * right. destruct (decide ((a, b) = k)) as [<- | Hne].
        -- rewrite lookup_insert_eq. eauto.
        -- rewrite lookup_insert_ne by exact Hne. exact H0.
Qed.

(** X21: the whole analysis on aligned runs keyed by distinct years, with
    a solver that keeps its contract.  It returns.  It matches each pair of
    consecutive years, and no other pair, the later run against the
    earlier one with their difference in years as the gap, which is
    positive.  With fewer than three runs there is no direct match, no
    chain and no trend; with three or more there is a direct match of the
    first and last year and the chain of the pairwise results, and trends
    are fitted exactly when the chain has a triple. *)
Theorem run_full_analysis_Ok (runs : list (Z * list feature)) :
  NoDup (List.map fst runs) -> solver_valid_for runs ->
  Forall (fun run => aligned (snd run)) runs ->
  exists res,
    run_full_analysis runs = Ok res /\
    (forall k,
       is_Some (pairwise res !! k) <->
       In k (zip (merge_sort Z.le (List.map fst runs))
               (tail (merge_sort Z.le (List.map fst runs))))) /\
    (forall a b r, pairwise res !! (a, b) = Some r ->
       (a < b)%Z /\
       exists run_a run_b,
         In (a, run_a) runs /\ In (b, run_b) runs /\
         match_anomalies run_b run_a (inject_Z (b - a)) = Ok r) /\
    ((length runs < 3)%nat ->
       direct_first_last res = None /\ chain res = None /\ trends res = None) /\
    ((3 <= length runs)%nat ->
       exists d c,
         direct_first_last res = Some d /\ chain res = Some c /\
         chain_three_runs (pairwise res)
           (merge_sort Z.le (List.map fst runs)) = Ok c /\
         (trends res = None <-> triple_matches c = [])).
Proof.
  intros Hnd Hvalid Hfin. unfold run_full_analysis.
  pose proof (sorted_years runs Hnd) as Hsorted.
  assert (Hlen : length (merge_sort Z.le (List.map fst runs)) = length runs).
  { rewrite merge_sort_Permutation. apply List.length_map. }
  assert (Hmem : forall y, In y (merge_sort Z.le (List.map fst runs)) ->
                           In y (List.map fst runs)).
  { intros y Hy. apply list_elem_of_In. apply list_elem_of_In in Hy.
    rewrite merge_sort_Permutation in Hy. exact Hy. }
  set (years := merge_sort Z.le (List.map fst runs)) in *.
  destruct (match_pairs_Ok runs (zip years (tail years)) Hvalid Hfin) with (pw0 := (∅ : gmap (Z * Z) match_result))
    as (pw & Hpw & Hk).
  { apply Forall_forall. intros [a b] Hin. apply list_elem_of_In in Hin.
    destruct (zip_tail_sorted _ _ _ Hsorted Hin) as (Hab & Ha & Hb).
    cbn [fst snd]. auto. }
  rewrite Hpw. cbn [mbind result_bind].
  assert (Hdom : forall k, is_Some (pw !! k) <-> In k (zip years (tail years))).
  { intros k. destruct (Hk k) as [Hk1 Hk2]. split.
    - intros [r Hr]. destruct (Hk1 r Hr) as [H0 | [Hin _]]; [| exact Hin].
      rewrite lookup_empty in H0. discriminate.
    - intros Hin. apply Hk2. left. exact Hin. }
  assert (Hres : forall a b r, pw !! (a, b) = Some r ->
            (a < b)%Z /\
            exists run_a run_b,
              In (a, run_a) runs /\ In (b, run_b) runs /\
              match_anomalies run_b run_a (inject_Z (b - a)) = Ok r).
  { intros a b r Hr. destruct (Hk (a, b)) as [Hk1 _].
    destruct (Hk1 r Hr) as [H0 | [Hin H1]].
    - rewrite lookup_empty in H0. discriminate.
    - split; [| exact H1].
      apply (zip_tail_sorted _ _ _ Hsorted Hin). }
  destruct (3 <=? length years)%nat eqn:H3.
  - apply Nat.leb_le in H3.
    assert (Hruns : (3 <= length runs)%nat) by lia.
    destruct years as [| y1 [| y2 [| y3 more]]] eqn:Ey;
      cbn [length] in H3; try lia.
    rewrite <- Ey in *. 
    assert (Hfirst : iloc years 0 = Ok y1) by (rewrite Ey; reflexivity).
    rewrite Hfirst. cbn [mbind result_bind].
    destruct (lookup_lt_is_Some_2 years (length years - 1)) as [y_last Hlast];
      [rewrite Ey; cbn [length]; lia |].
    unfold iloc at 1. rewrite Hlast. cbn [mbind result_bind].
    assert (Hlt : (y1 < y_last)%Z).
    { rewrite Ey in Hsorted, Hlast. cbn [length] in Hlast.
      apply StronglySorted_inv in Hsorted. destruct Hsorted as [_ Hhd].
      replace (S (S (S (length more))) - 1)%nat with (S (S (length more)))
        in Hlast by lia.
      cbn [lookup list_lookup] in Hlast.
      rewrite Forall_forall in Hhd. apply Hhd.
      eapply list_elem_of_lookup_2.
      instantiate (1 := S (length more)). exact Hlast. }
    destruct (match_years_Ok runs y1 y_last Hvalid Hfin Hlt)
      as (run_a & run_b & d & Hra & Hrb & _ & _ & Hd).
    { apply Hmem. rewrite Ey. left. reflexivity. }
    { apply Hmem. apply list_elem_of_In. eapply list_elem_of_lookup_2, Hlast. }
    rewrite Hrb. cbn [mbind result_bind]. rewrite Hra. cbn [mbind result_bind].
    rewrite Hd. cbn [mbind result_bind].
    destruct (chain_three_runs_unfold pw y1 y2 y3 more) as (c & Hc & _).
    rewrite <- Ey in Hc. rewrite Hc. cbn [mbind result_bind].
    eexists. split; [reflexivity |].
    cbn [pairwise direct_first_last chain trends].
    split; [exact Hdom |]. split; [exact Hres |].
    split; [intros Hfew; lia |].
    intros _. exists d, c. split; [reflexivity |]. split; [reflexivity |].
    split; [exact Hc |].
    destruct (triple_matches c); split; intros H; try reflexivity;
      discriminate H.
  - apply Nat.leb_gt in H3.
    assert (Hruns : (length runs < 3)%nat) by lia.
    eexists. split; [reflexivity |].
    cbn [pairwise direct_first_last chain trends].
    split; [exact Hdom |]. split; [exact Hres |].
    split; [auto | intros Hmany; lia].
Qed.

End AnalysisProperties.

(** ** Clock positions *)

Section ClockCellProperties.
Import Config DataIngestion Matching ClockCells.
Context {py : Builtins}.
Local Open Scope Q_scope.

Lemma Qmod_12_range (x : Q) : 0 <= Qmod x 12.0 /\ Qmod x 12.0 < 12.
Proof.
  destruct (Qmod_range x 12.0) as [H0 H12]; [reflexivity |].
  split; [exact H0 |]. assert (E : 12.0 == 12) by reflexivity. lra.
Qed.

Lemma to_float_Raise (n : Z) (e : exn) :
  to_float n = Raise e -> e = OverflowError.
Proof. unfold to_float. destruct (_ <? _)%Z; congruence. Qed.

(** The hours of a cell, when it has any, are on the dial. *)
Lemma clock_to_hours_range (val : cell) (h : Q) :
  _clock_to_hours val = Ok (Fin h) -> 0 <= h < 12.
Proof.
  destruct val as [| hour minute second | n | q | s |]; cbn [_clock_to_hours];
    try discriminate.
  - cbv zeta. destruct (Qlt_bool 0 _); [| discriminate].
    intros [= <-]. apply Qmod_12_range.
  - destruct (to_float n) as [x |]; cbn [mbind result_bind]; [| discriminate].
    intros [= <-]. apply Qmod_12_range.
  - intros [= <-]. apply Qmod_12_range.
  - cbv zeta. destruct (py_int _) as [hh |]; [| discriminate].
    destruct (if (1 <? length (split_colon s))%nat then _ else _) as [m |];
      [| discriminate].
    destruct (to_float m) as [m' |]; cbn [mbind result_bind]; [| discriminate].
    destruct (to_float hh) as [h' |]; cbn [mbind result_bind];
      [| discriminate].
    intros [= <-]. apply Qmod_12_range.
Qed.

(** X23: clock positions after ingestion.  The conversion of a cell
    raises nothing but an OverflowError, and only for an int, or a string
    naming an int, that is too large for a float; otherwise the result is
    missing or an hour from 0 to 12. *)
Theorem clock_to_hours_on_dial (val : cell) :
  (forall e, _clock_to_hours val = Raise e ->
     e = OverflowError /\
     ((exists n, val = Int n) \/ (exists s, val = Text s))) /\
  (forall x, _clock_to_hours val = Ok x ->
     x = NaN \/ exists h, x = Fin h /\ 0 <= h <= 12) /\
  (forall n, (2 ^ 1024 <= n)%Z ->
     _clock_to_hours (Int n) = Raise OverflowError).
Proof.
  split; [| split].
  - destruct val as [| hour minute second | n | q | s |];
      cbn [_clock_to_hours]; intros e; try discriminate.
    + cbv zeta. destruct (Qlt_bool 0 _); discriminate.
    + destruct (to_float n) as [x |] eqn:En; cbn [mbind result_bind];
        [discriminate |].
      intros [= <-]. split; [eapply to_float_Raise, En | left; eauto].
    + cbv zeta. destruct (py_int _) as [hh |]; [| discriminate].
      destruct (if (1 <? length (split_colon s))%nat then _ else _) as [m |];
        [| discriminate].
      destruct (to_float m) as [m' |] eqn:Em; cbn [mbind result_bind].
      * destruct (to_float hh) as [h' |] eqn:Eh; cbn [mbind result_bind];
          [discriminate |].
        intros [= <-]. split; [eapply to_float_Raise, Eh | right; eauto].
      * intros [= <-]. split; [eapply to_float_Raise, Em | right; eauto].
  - intros [| h] Hx; [left; reflexivity |]. right. exists h.
    split; [reflexivity |]. apply clock_to_hours_range in Hx. lra.
  - intros n Hn. cbn [_clock_to_hours]. unfold to_float.
    assert (Hbig : (Z.abs n <? 2 ^ 1024 - 2 ^ 970)%Z = false).
    { apply Z.ltb_ge.
      assert (H0 : (0 < 2 ^ 970)%Z) by (apply Z.pow_pos_nonneg; lia).
      lia. }
    rewrite Hbig. reflexivity.
Qed.

End ClockCellProperties.

(** ** Scoring the matcher's output *)

Section ScoredMatches.
Import Config DataIngestion Matching Growth.
Context {lib : SciPy}.
Local Open Scope Q_scope.

Lemma classify_growth_known (r : Q) :
  In (_classify_growth (Fin r))
     ["Apparent Shrinkage"; "Stable"; "Low"; "Moderate"; "High"; "Severe"].
Proof.
  unfold _classify_growth. cbn [isnan].
  destruct (flt (Fin r) 0); [cbn; tauto |].
  destruct (feqb (Fin r) 0); [cbn; tauto |].
  destruct (fle (Fin r) 1.0); [cbn; tauto |].
  destruct (fle (Fin r) 3.0); [cbn; tauto |].
  destruct (fle (Fin r) MAX_PLAUSIBLE_GROWTH_RATE); cbn; tauto.
Qed.

(** The five columns of a scored frame with at least one row. *)
Lemma calculate_growth_rates_columns (df : frame) :
  rows df <> [] ->
  calculate_growth_rates df =
  Ok {| rows := rows df;
        remaining_wall_pct :=
          Some (List.map (fun r => fsub 100.0 (later_depth_pct r)) (rows df));
        remaining_life_years := Some (List.map _remaining_life (rows df));
        growth_class :=
          Some (List.map (fun r => _classify_growth (depth_growth_rate r))
                  (rows df));
        risk_score := Some (List.map _compute_risk_score (rows df));
        risk_category :=
          Some (List.map _classify_risk
                  (List.map _compute_risk_score (rows df))) |}.
Proof.
  intros Hne. unfold calculate_growth_rates, empty.
  destruct df as [rs c1 c2 c3 c4 c5]. cbn [rows] in *.
  destruct rs as [| r rs]; [contradiction |]. reflexivity.
Qed.

(** X12: scoring what the matcher returns on two aligned runs.  The
    scorer returns, with the match rows unchanged.  Without a match the frame gets none of the
    score columns; with one, every row has its growth class and its risk
    category, and neither is ever Unknown. *)
Theorem scored_matches_known (run_later run_earlier : list feature) (yb : Q) :
  Qeq_bool yb 0 = false ->
  valid_assignment (length (get_anomalies run_later))
    (length (get_anomalies run_earlier))
    (assignment_of (get_anomalies run_later) (get_anomalies run_earlier) yb) ->
  aligned run_later -> aligned run_earlier ->
  exists r scored,
    match_anomalies run_later run_earlier yb = Ok r /\
    calculate_growth_rates (of_matches (matches r)) = Ok scored /\
    rows scored = matches r /\
    (matches r = [] ->
       growth_class scored = None /\ risk_score scored = None /\
       risk_category scored = None) /\
    (matches r <> [] ->
       exists classes categories,
         growth_class scored = Some classes /\
         risk_category scored = Some categories /\
         length classes = length (matches r) /\
         length categories = length (matches r) /\
         Forall (fun c =>
                   In c ["Apparent Shrinkage"; "Stable"; "Low"; "Moderate";
                         "High"; "Severe"]) classes /\
         Forall (fun c => In c ["Low"; "Medium"; "High"; "Critical"])
           categories).
Proof.
  intros Hyb Hvalid HfinL HfinE.
  destruct (match_anomalies_Ok run_later run_earlier yb Hyb Hvalid HfinL HfinE)
    as (r & _ & Hr & _).
  pose proof (match_anomalies_match_rows _ _ _ _ Hr) as Hrates.
  exists r. destruct (matches r) as [| m ms] eqn:Ems.
  - eexists. split; [exact Hr |]. split; [reflexivity |].
    split; [reflexivity |]. split; [auto |]. intros H. contradiction.
  - rewrite <- Ems in *.
    eexists. split; [exact Hr |].
    split; [apply calculate_growth_rates_columns; cbn [of_matches rows];
            rewrite Ems; discriminate |].
    cbn [rows of_matches growth_class risk_score risk_category].
    split; [reflexivity |]. split; [rewrite Ems; discriminate |].
    intros _. eexists _, _. split; [reflexivity |]. split; [reflexivity |].
    rewrite !List.length_map. split; [reflexivity |]. split; [reflexivity |].
    split.
    + apply Forall_forall. intros c Hc.
      apply list_elem_of_In, in_map_iff in Hc. destruct Hc as (row & <- & Hrow).
      rewrite Forall_forall in Hrates.
      destruct (match_row_depths _ _ _ _ Hyb
                  (Hrates row ltac:(apply list_elem_of_In, Hrow)))
        as (dl & de & g & q & _ & _ & _ & _ & _ & _ & ->).
      cbn [py_round]. apply classify_growth_known.
    + apply Forall_forall. intros c Hc.
      apply list_elem_of_In, in_map_iff in Hc. destruct Hc as (s & <- & Hs).
      apply in_map_iff in Hs. destruct Hs as (row & <- & _).
      apply risk_category_known.
Qed.

End ScoredMatches.

(** ** The dig list *)

Section DigListProperties.
Import Config Matching Growth Integrity.
Local Open Scope Q_scope.

Lemma insert_item_Permutation (x : dig_item) (l : list dig_item) :
  insert_item x l ≡ₚ x :: l.
Proof.
  induction l as [| y l IH]; cbn [insert_item]; [reflexivity |].
  destruct (key_lt y x); [| reflexivity].
  rewrite IH. apply Permutation_swap.
Qed.

Lemma sort_items_Permutation (l : list dig_item) : sort_items l ≡ₚ l.
Proof.
  unfold sort_items. induction l as [| x l IH]; cbn [List.fold_right];
    [reflexivity |].
  rewrite insert_item_Permutation, IH. reflexivity.
Qed.

Lemma key_lt_order (x y : dig_item) (ux uy : Q) :
  dig_urgency_score x = Fin ux -> dig_urgency_score y = Fin uy ->
  (key_lt y x = true -> dig_order y x) /\
  (key_lt y x = false -> dig_order x y).
Proof.
  intros Ex Ey. unfold key_lt, dig_order. rewrite Ex, Ey. cbn [fneg flt cmp2].
  split; intros H.
  - exists uy, ux. split; [reflexivity |]. split; [reflexivity |].
    apply orb_true_iff in H. destruct H as [H | H].
    + left. apply Z.ltb_lt, H.
    + apply andb_true_iff in H. destruct H as [Hp Hu].
      apply Z.eqb_eq in Hp. apply Qlt_bool_iff in Hu. right.
      split; [exact Hp | lra].
  - exists ux, uy. split; [reflexivity |]. split; [reflexivity |].
    apply orb_false_iff in H. destruct H as [Hp Hu].
    apply Z.ltb_ge in Hp.
    destruct (Z.eq_dec (dig_priority y) (dig_priority x)) as [E | Hne];
      [| left; lia].
    right. split; [symmetry; exact E |].
    rewrite E, Z.eqb_refl in Hu. cbn [andb] in Hu.
    apply Qlt_bool_false in Hu. lra.
Qed.

Lemma dig_order_trans (a b c : dig_item) :
  dig_order a b -> dig_order b c -> dig_order a c.
Proof.
  intros (ua & ub & Ea & Eb & Hab) (ub' & uc & Eb' & Ec & Hbc).
  rewrite Eb in Eb'. injection Eb' as <-.
  exists ua, uc. split; [exact Ea |]. split; [exact Ec |].
  destruct Hab as [Hab | [Hab Hu]]; destruct Hbc as [Hbc | [Hbc Hu']];
    (left; lia) || (right; split; [congruence | lra]).
Qed.

Lemma insert_item_sorted (x : dig_item) (l : list dig_item) :
  Forall (fun i => dig_urgency_score i <> NaN) (x :: l) ->
  StronglySorted dig_order l -> StronglySorted dig_order (insert_item x l).
Proof.
  intros Hfin Hs. apply Forall_cons in Hfin. destruct Hfin as [Hx Hfin].
  destruct (dig_urgency_score x) as [| ux] eqn:Ex; [congruence |].
  induction Hs as [| y l Hs IH Hhd]; cbn [insert_item];
    [repeat constructor |].
  apply Forall_cons in Hfin. destruct Hfin as [Hy Hfin].
  destruct (dig_urgency_score y) as [| uy] eqn:Ey; [congruence |].
  destruct (key_lt_order x y ux uy Ex Ey) as [Ht Hf].
  destruct (key_lt y x) eqn:Hk.
  - constructor; [apply IH, Hfin |].
    apply Forall_forall. intros z Hz.
    rewrite insert_item_Permutation in Hz. apply elem_of_cons in Hz.
    destruct Hz as [-> | Hz]; [apply Ht; reflexivity |].
    rewrite Forall_forall in Hhd. apply Hhd, Hz.
  - constructor; [constructor; assumption |].
    constructor; [apply Hf; reflexivity |].
    eapply Forall_impl; [exact Hhd |]. intros z Hz.
    eapply dig_order_trans; [apply Hf; reflexivity | exact Hz].
Qed.

Lemma sort_items_sorted (l : list dig_item) :
  Forall (fun i => dig_urgency_score i <> NaN) l ->
  StronglySorted dig_order (sort_items l).
Proof.
  unfold sort_items. induction 1 as [| x l Hx Hl IH]; cbn [List.fold_right];
    [constructor |].
  apply insert_item_sorted; [| exact IH].
  constructor; [exact Hx |].
  change (foldr insert_item [] l) with (sort_items l).
  rewrite sort_items_Permutation. exact Hl.
Qed.

Lemma dig_rate_nonneg (x : fl) : 0 <= dig_rate x.
Proof.
  destruct x as [| r]; cbn; [lra |].
  destruct (Qlt_bool r 0) eqn:E; [lra |]. apply Qlt_bool_false in E. exact E.
Qed.

(** What the loop body makes of a row that has a later depth [d]. *)
Lemma dig_row_Some (df : frame) (i : nat) (row : match_record) (d : Q)
    (item : dig_item) :
  later_depth_pct row = Fin d -> dig_row df i row = Some item ->
  ~ (d < 20 /\ dig_rate (depth_growth_rate row) <= 0.5) /\
  dig_depth_pct item = py_round (Fin d) 1 /\
  dig_growth_rate item = py_round (Fin (dig_rate (depth_growth_rate row))) 3 /\
  exists u,
    dig_urgency_score item = Fin u /\ u <= 100 /\ (0 <= d -> 0 <= u) /\
    ((dig_priority item = 1%Z /\ dig_category item = "IMMEDIATE") \/
     (dig_priority item = 2%Z /\ dig_category item = "SCHEDULED" /\
      u < 75 /\ d < 70) \/
     (dig_priority item = 3%Z /\ dig_category item = "MONITOR" /\
      u < 50 /\ d < 50)) /\
    (75 <= u \/ 70 <= d -> dig_priority item = 1%Z) /\
    (50 <= u \/ 50 <= d -> (dig_priority item <= 2)%Z).
Proof.
  intros Hd. unfold dig_row. rewrite Hd. cbn [isnan].
  assert (Erate :
    (if isnan (depth_growth_rate row) || flt (depth_growth_rate row) 0
     then Fin 0 else depth_growth_rate row)
    = Fin (dig_rate (depth_growth_rate row))).
  { destruct (depth_growth_rate row) as [| r]; [reflexivity |].
    cbn. destruct (Qlt_bool r 0); reflexivity. }
  rewrite Erate. pose proof (dig_rate_nonneg (depth_growth_rate row)) as Hrate.
  set (rate := dig_rate (depth_growth_rate row)) in *.
  assert (Elife : exists rl,
    (if isnan (row_get (remaining_life_years df) i NaN) then Fin 999
     else row_get (remaining_life_years df) i NaN) = Fin rl).
  { destruct (row_get (remaining_life_years df) i NaN) as [| rl];
      eexists; reflexivity. }
  destruct Elife as [rl ->].
  cbn [flt fle fge fdiv fmul fsub fadd lift2 cmp2 WALL_LOSS_REPAIR_THRESHOLD
       MAX_PLAUSIBLE_GROWTH_RATE].
  destruct (Qlt_bool d 20 && Qle_bool rate 0.5) eqn:Hskip; [discriminate |].
  rewrite !py_min_Fin.
  set (ds := if Qlt_bool (d / 80.0 * 40) 40 then d / 80.0 * 40 else 40).
  set (rs := if Qlt_bool (rate / 5.0 * 30) 30 then rate / 5.0 * 30 else 30).
  assert (Hds : ds <= 40 /\ (0 <= d -> 0 <= ds)).
  { assert (E : d / 80.0 * 40 == d * (1 # 2)) by field.
    subst ds. destruct (Qlt_bool (d / 80.0 * 40) 40) eqn:H;
      [apply Qlt_bool_iff in H | apply Qlt_bool_false in H]; split; lra. }
  assert (Hrs : 0 <= rs <= 30).
  { assert (E : rate / 5.0 * 30 == rate * 6) by field.
    subst rs. destruct (Qlt_bool (rate / 5.0 * 30) 30) eqn:H;
      [apply Qlt_bool_iff in H | apply Qlt_bool_false in H]; split; lra. }
  assert (Els : exists ls,
    (if Qle_bool rl 0 then Fin 30
     else if Qle_bool 15 rl then Fin 0
     else Fin (30 * (1 - rl / 15))) = Fin ls /\ 0 <= ls <= 30).
  { destruct (Qle_bool rl 0) eqn:H0; [exists 30; split; [reflexivity | lra] |].
    destruct (Qle_bool 15 rl) eqn:H15; [exists 0; split; [reflexivity | lra] |].
    apply Qle_bool_false in H0, H15. eexists. split; [reflexivity |].
    assert (E : 30 * (1 - rl / 15) == 30 - 2 * rl) by field. lra. }
  destruct Els as (ls & -> & Hls). cbn [fadd lift2].
  destruct (py_round_range (ds + rs + ls) (ds + rs + ls) 100 1)
    as (_ & u & hi & _ & Hu & Hhi & [_ Hu100]); [lra |].
  assert (Ehi : hi == 100) by (injection Hhi as <-; reflexivity).
  rewrite Hu. cbn [fge fle flt cmp2].
  assert (Hu0 : 0 <= d -> 0 <= u).
  { intros H0d. destruct Hds as [_ Hds]. specialize (Hds H0d).
    destruct (py_round_range (ds + rs + ls) 0 (ds + rs + ls) 1)
      as (lo & u' & _ & Hlo & Hu' & _ & [Hlo' _]); [lra |].
    rewrite Hu in Hu'. injection Hu' as <-.
    assert (Elo : lo == 0) by (injection Hlo as <-; reflexivity). lra. }
  assert (Hkeep : ~ (d < 20 /\ rate <= 0.5)).
  { intros [H1 H2]. apply andb_false_iff in Hskip.
    destruct Hskip as [H | H];
      [apply Qlt_bool_false in H | apply Qle_bool_false in H]; lra. }
  destruct (Qle_bool 75 u || Qle_bool 70 d || Qlt_bool rl 3) eqn:H1.
  - intros [= <-]. cbn [dig_depth_pct dig_growth_rate dig_urgency_score
                        dig_priority dig_category].
    split; [exact Hkeep |]. split; [reflexivity |]. split; [reflexivity |].
    exists u. split; [reflexivity |]. split; [lra |]. split; [exact Hu0 |].
    split; [left; auto |]. split; [auto | intros _; lia].
  - apply orb_false_iff in H1. destruct H1 as [H1 _].
    apply orb_false_iff in H1. destruct H1 as [H75 H70].
    apply Qle_bool_false in H75, H70.
    destruct (Qle_bool 50 u || Qle_bool 50 d || Qlt_bool rl 7) eqn:H2.
    + intros [= <-]. cbn [dig_depth_pct dig_growth_rate dig_urgency_score
                          dig_priority dig_category].
      split; [exact Hkeep |]. split; [reflexivity |]. split; [reflexivity |].
      exists u. split; [reflexivity |]. split; [lra |]. split; [exact Hu0 |].
      split; [right; left; auto |].
      split; [intros [H | H]; lra | intros _; lia].
    + apply orb_false_iff in H2. destruct H2 as [H2 _].
      apply orb_false_iff in H2. destruct H2 as [H50u H50d].
      apply Qle_bool_false in H50u, H50d.
      intros [= <-]. cbn [dig_depth_pct dig_growth_rate dig_urgency_score
                          dig_priority dig_category].
      split; [exact Hkeep |]. split; [reflexivity |]. split; [reflexivity |].
      exists u. split; [reflexivity |]. split; [lra |]. split; [exact Hu0 |].
      split; [right; right; auto |].
      split; intros [H | H]; lra.
Qed.

(** A row with a later depth is skipped only when it is shallow and slow. *)
Lemma dig_row_None (df : frame) (i : nat) (row : match_record) (d : Q) :
  later_depth_pct row = Fin d -> dig_row df i row = None ->
  d < 20 /\ dig_rate (depth_growth_rate row) <= 0.5.
Proof.
  intros Hd. unfold dig_row. rewrite Hd. cbn [isnan].
  assert (Erate :
    (if isnan (depth_growth_rate row) || flt (depth_growth_rate row) 0
     then Fin 0 else depth_growth_rate row)
    = Fin (dig_rate (depth_growth_rate row))).
  { destruct (depth_growth_rate row) as [| r]; [reflexivity |].
    cbn. destruct (Qlt_bool r 0); reflexivity. }
  rewrite Erate. cbn [flt fle cmp2].
  destruct (Qlt_bool d 20 && Qle_bool (dig_rate (depth_growth_rate row)) 0.5)
    eqn:Hskip.
  - intros _. apply andb_true_iff in Hskip. destruct Hskip as [H1 H2].
    apply Qlt_bool_iff in H1. apply Qle_bool_iff in H2. auto.
  - repeat match goal with
           | |- context [if ?b then _ else _] => destruct b
           end; discriminate.
Qed.

Lemma in_dig_items (df : frame) (item : dig_item) :
  In item (dig_items df) <->
  exists i row d,
    rows df !! i = Some row /\ later_depth_pct row = Fin d /\
    dig_row df i row = Some item.
Proof.
  unfold dig_items. rewrite in_flat_map. split.
  - intros ([i row] & Hin & Hitem).
    apply list_elem_of_In, elem_of_lookup_imap in Hin.
    destruct Hin as (i' & row' & [= <- <-] & Hrow).
    destruct (later_depth_pct row) as [| d] eqn:Ed; [destruct Hitem |].
    cbn [notna isnan negb] in Hitem.
    destruct (dig_row df i row) as [item' |] eqn:Er; [| destruct Hitem].
    destruct Hitem as [<- | []]. exists i, row, d. auto.
  - intros (i & row & d & Hrow & Hd & Hitem). exists (i, row). split.
    + apply list_elem_of_In, elem_of_lookup_imap. exists i, row. auto.
    + rewrite Hd, Hitem. left. reflexivity.
Qed.

Lemma generate_dig_list_items (df : frame) :
  generate_dig_list df ≡ₚ dig_items df.
Proof.
  unfold generate_dig_list, empty, dig_items.
  destruct (rows df) as [| r rs]; [reflexivity |].
  apply sort_items_Permutation.
Qed.

Lemma dig_items_scored (df : frame) :
  Forall (fun item => dig_urgency_score item <> NaN) (dig_items df).
Proof.
  apply Forall_forall. intros item Hin.
  apply list_elem_of_In, in_dig_items in Hin.
  destruct Hin as (i & row & d & _ & Hd & Hitem).
  destruct (dig_row_Some df i row d item Hd Hitem)
    as (_ & _ & _ & u & -> & _).
  discriminate.
Qed.

(** X24: the order of the dig list.  The list holds the items of the
    loop, each once, ordered by priority and, within a priority, by
    urgency with the most urgent first; so all IMMEDIATE items come before
    all SCHEDULED ones, and these before all MONITOR ones. *)
Theorem dig_list_sorted (df : frame) :
  generate_dig_list df ≡ₚ dig_items df /\
  StronglySorted dig_order (generate_dig_list df).
Proof.
  split; [apply generate_dig_list_items |].
  unfold generate_dig_list. destruct (empty df); [constructor |].
  apply sort_items_sorted, dig_items_scored.
Qed.

(** X25: what is on the dig list.  Every item comes from a match row with
    a later depth that is not both shallow (under 20) and slow (rate
    missing, negative or at most 0.5); its urgency is at most 100, and not
    negative for a depth that is not negative; its priority and category
    go together; a depth of 70 or an urgency of 75 makes it IMMEDIATE, a
    depth or an urgency of 50 at least SCHEDULED.  And no such row is
    left out: every row with a later depth of at least 20, or with a rate
    above 0.5, has its item on the list. *)
Theorem dig_list_rules (df : frame) :
  Forall (fun item =>
    exists i row d u,
      rows df !! i = Some row /\ later_depth_pct row = Fin d /\
      ~ (d < 20 /\ dig_rate (depth_growth_rate row) <= 0.5) /\
      dig_depth_pct item = py_round (Fin d) 1 /\
      dig_urgency_score item = Fin u /\ u <= 100 /\ (0 <= d -> 0 <= u) /\
      ((dig_priority item = 1%Z /\ dig_category item = "IMMEDIATE") \/
       (dig_priority item = 2%Z /\ dig_category item = "SCHEDULED" /\
        u < 75 /\ d < 70) \/
       (dig_priority item = 3%Z /\ dig_category item = "MONITOR" /\
        u < 50 /\ d < 50)) /\
      (75 <= u \/ 70 <= d -> dig_priority item = 1%Z) /\
      (50 <= u \/ 50 <= d -> (dig_priority item <= 2)%Z))
    (generate_dig_list df) /\
  (forall i row d,
     rows df !! i = Some row -> later_depth_pct row = Fin d ->
     20 <= d \/ 0.5 < dig_rate (depth_growth_rate row) ->
     exists item,
       In item (generate_dig_list df) /\ dig_row df i row = Some item).
Proof.
  split.
  - apply Forall_forall. intros item Hin.
    rewrite generate_dig_list_items in Hin.
    apply list_elem_of_In, in_dig_items in Hin.
    destruct Hin as (i & row & d & Hrow & Hd & Hitem).
    destruct (dig_row_Some df i row d item Hd Hitem)
      as (Hkeep & Hdepth & _ & u & Hu & Hrest).
    exists i, row, d, u. tauto.
  - intros i row d Hrow Hd Hdeep.
    destruct (dig_row df i row) as [item |] eqn:Er.
    + exists item. split; [| reflexivity].
      apply list_elem_of_In. rewrite generate_dig_list_items.
      apply list_elem_of_In, in_dig_items. exists i, row, d. auto.
    + destruct (dig_row_None df i row d Hd Er) as [H1 H2].
      destruct Hdeep; lra.
Qed.

End DigListProperties.

(** ** The reference solver keeps the solver's contract *)

Section ReferenceSolver.
Import Config DataIngestion Matching Reference.
Local Open Scope Q_scope.

Lemma remove_elem_of (j x : nat) (l : list nat) :
  x ∈ List.remove Nat.eq_dec j l <-> x ∈ l /\ x <> j.
Proof.
  rewrite !list_elem_of_In. split.
  - apply in_remove.
  - intros [H1 H2]. apply in_in_remove; assumption.
Qed.

Lemma remove_NoDup (j : nat) (l : list nat) :
  NoDup l -> NoDup (List.remove Nat.eq_dec j l).
Proof.
  induction 1 as [| x l Hx Hnd IH]; cbn [List.remove]; [constructor |].
  destruct (Nat.eq_dec j x) as [_ | Hne]; [exact IH |].
  constructor; [| exact IH]. rewrite remove_elem_of. tauto.
Qed.

(** Every enumerated assignment gives the rows in order, each to a column
    of its own. *)
Lemma assignments_spec (rows cols : list nat) (a : list (nat * nat)) :
  NoDup cols -> In a (assignments rows cols) ->
  List.map fst a = rows /\ NoDup (List.map snd a) /\
  Forall (fun j => j ∈ cols) (List.map snd a).
Proof.
  revert cols a. induction rows as [| i rows IH]; intros cols a Hnd Ha;
    cbn [assignments] in Ha.
  - destruct Ha as [<- | []]. cbn. repeat split; constructor.
  - apply in_flat_map in Ha. destruct Ha as (j & Hj & Ha).
    apply in_map_iff in Ha. destruct Ha as (a' & <- & Ha').
    destruct (IH _ _ (remove_NoDup j cols Hnd) Ha') as (Hf & Hs & Hin).
    cbn [List.map fst snd]. split; [f_equal; exact Hf |]. split.
    + constructor; [| exact Hs]. intros Hj'.
      rewrite Forall_forall in Hin. apply Hin in Hj'.
      apply remove_elem_of in Hj'. tauto.
    + constructor; [apply list_elem_of_In; exact Hj |].
      eapply Forall_impl; [exact Hin |]. cbn beta. intros x Hx.
      apply remove_elem_of in Hx. tauto.
Qed.

Lemma cheapest_In (cost : list (list fl)) (l : list (list (nat * nat))) :
  cheapest cost l = [] \/ In (cheapest cost l) l.
Proof.
  destruct l as [| a l]; [left; reflexivity |]. right. cbn [cheapest].
  assert (Hpick : forall l' best,
    List.fold_left
      (fun best b =>
         if flt (total_cost cost b) (total_cost cost best) then b else best)
      l' best = best \/
    In (List.fold_left
          (fun best b =>
             if flt (total_cost cost b) (total_cost cost best) then b
             else best)
          l' best) l').
  { induction l' as [| b l' IH]; intros best; cbn [List.fold_left];
      [left; reflexivity |].
    destruct (IH (if flt (total_cost cost b) (total_cost cost best)
                  then b else best)) as [-> | Hin].
    - destruct (flt _ _); [right; left; reflexivity | left; reflexivity].
    - right. right. exact Hin. }
  destruct (Hpick l a) as [-> | Hin]; [left; reflexivity | right; exact Hin].
Qed.

Lemma insert_pair_Permutation (p : nat * nat) (l : list (nat * nat)) :
  insert_pair p l ≡ₚ p :: l.
Proof.
  induction l as [| q l IH]; cbn [insert_pair]; [reflexivity |].
  destruct (fst q <=? fst p)%nat; [| reflexivity].
  rewrite IH. apply Permutation_swap.
Qed.

Lemma sort_pairs_Permutation (l : list (nat * nat)) :
  List.fold_right insert_pair [] l ≡ₚ l.
Proof.
  induction l as [| p l IH]; cbn [List.fold_right]; [reflexivity |].
  rewrite insert_pair_Permutation, IH. reflexivity.
Qed.

Lemma seq_bound (n : nat) (l : list nat) :
  Forall (fun j => j ∈ seq 0 n) l -> Forall (fun j => (j < n)%nat) l.
Proof.
  intros H. eapply Forall_impl; [exact H |]. cbn beta. intros j Hj.
  apply elem_of_seq in Hj. lia.
Qed.

Lemma valid_assignment_parts (n m : nat) (pairs : list (nat * nat)) :
  NoDup (List.map fst pairs) -> NoDup (List.map snd pairs) ->
  Forall (fun i => (i < n)%nat) (List.map fst pairs) ->
  Forall (fun j => (j < m)%nat) (List.map snd pairs) ->
  valid_assignment n m pairs.
Proof.
  intros Hf Hs Hn Hm. split; [exact Hf |]. split; [exact Hs |].
  rewrite Forall_forall. intros p Hp.
  rewrite Forall_forall in Hn, Hm. split.
  - apply Hn. apply list_elem_of_In, in_map, list_elem_of_In, Hp.
  - apply Hm. apply list_elem_of_In, in_map, list_elem_of_In, Hp.
Qed.

(** The brute-force solver uses no row and no column twice, and stays
    inside the matrix. *)
Lemma solve_valid (cost : list (list fl)) :
  valid_assignment (length cost)
    (match cost with [] => 0%nat | row :: _ => length row end)
    (zip (fst (solve cost)) (snd (solve cost))).
Proof.
  unfold solve. cbv zeta. cbn [fst snd].
  set (n := length cost).
  set (m := match cost with [] => 0%nat | row :: _ => length row end).
  assert (Hzip : forall pairs : list (nat * nat),
            zip (List.map fst pairs) (List.map snd pairs) = pairs)
    by (intros pairs; apply zip_fst_snd).
  rewrite Hzip.
  destruct (n <=? m)%nat.
  - destruct (cheapest_In cost (assignments (seq 0 n) (seq 0 m)))
      as [-> | Hin].
    + apply valid_assignment_parts; constructor.
    + apply assignments_spec in Hin; [| apply NoDup_seq].
      destruct Hin as (Hf & Hs & Hc).
      apply valid_assignment_parts.
      * rewrite Hf. apply NoDup_seq.
      * exact Hs.
      * rewrite Hf. apply seq_bound. rewrite Forall_forall. auto.
      * apply seq_bound, Hc.
  - set (c := cheapest cost _).
    assert (Hc : c = [] \/ exists a,
               In a (assignments (seq 0 m) (seq 0 n)) /\
               c = List.map (fun '(j, i) => (i, j)) a).
    { destruct (cheapest_In cost
                  (List.map (List.map (fun '(j, i) => (i, j)))
                     (assignments (seq 0 m) (seq 0 n)))) as [H | H].
      - left. exact H.
      - right. apply in_map_iff in H. destruct H as (a & Ha & Hin).
        exists a. split; [exact Hin | symmetry; exact Ha]. }
    assert (Hp := sort_pairs_Permutation c).
    assert (Hvalid : valid_assignment n m c).
    { destruct Hc as [-> | (a & Hin & ->)];
        [apply valid_assignment_parts; constructor |].
      apply assignments_spec in Hin; [| apply NoDup_seq].
      destruct Hin as (Hf & Hs & Hcols).
      assert (Hfst : List.map fst (List.map (fun '(j, i) => (i, j)) a)
                     = List.map snd a).
      { rewrite List.map_map. apply List.map_ext. intros [j i]. reflexivity. }
      assert (Hsnd : List.map snd (List.map (fun '(j, i) => (i, j)) a)
                     = List.map fst a).
      { rewrite List.map_map. apply List.map_ext. intros [j i]. reflexivity. }
      apply valid_assignment_parts; rewrite ?Hfst, ?Hsnd.
      - exact Hs.
      - rewrite Hf. apply NoDup_seq.
      - apply seq_bound, Hcols.
      - rewrite Hf. apply seq_bound. rewrite Forall_forall. auto. }
    destruct Hvalid as (Hf & Hs & Hb).
    split; [| split].
    + rewrite (Permutation_map fst Hp). exact Hf.
    + rewrite (Permutation_map snd Hp). exact Hs.
    + rewrite Hp. exact Hb.
Qed.

(** On the cost matrix of any two lists of anomalies, the reference solver
    returns an assignment that keeps the contract. *)
Lemma reference_solver_valid (anom_later anom_earlier : list feature)
    (yb : Q) :
  valid_assignment (length anom_later) (length anom_earlier)
    (assignment_of (lib := Reference.scipy) anom_later anom_earlier yb).
Proof.
  unfold assignment_of, cost_matrix_of.
  destruct (mapM (scan_later (_build_search_points anom_earlier)
                    anom_earlier yb) anom_later) as [scanned | e] eqn:Hs.
  - assert (Hrows : Forall2 (fun a_l st => row_ok a_l anom_earlier yb (fst st))
                      anom_later scanned).
    { apply mapM_Ok_Forall2 in Hs.
      eapply Forall2_impl; [exact Hs |]. cbn beta.
      intros a_l st Hst. eapply scan_later_inv, Hst. }
    clear Hs. cbn [linear_sum_assignment scipy].
    assert (Hsolve := solve_valid (List.map fst scanned)).
    destruct (solve (List.map fst scanned)) as [row_ind col_ind].
    cbn [fst snd] in Hsolve.
    rewrite length_map in Hsolve.
    rewrite <- (Forall2_length _ _ _ Hrows) in Hsolve.
    destruct Hrows as [| a_l st anom_later' scanned' Hrow Hrows].
    + destruct Hsolve as (Hf & Hs & Hb). split; [exact Hf |].
      split; [exact Hs |]. eapply Forall_impl; [exact Hb |].
      cbn. intros p [Hlt _]. lia.
    + cbn [List.map] in Hsolve. destruct Hrow as [Hlen _].
      rewrite Hlen in Hsolve. exact Hsolve.
  - cbn [linear_sum_assignment scipy].
    assert (Hsolve := solve_valid []).
    destruct (solve []) as [row_ind col_ind].
    cbn [fst snd length] in Hsolve.
    destruct Hsolve as (Hf & Hs' & Hb). split; [exact Hf |].
    split; [exact Hs' |]. eapply Forall_impl; [exact Hb |].
    cbn. intros p [Hlt _]. lia.
Qed.

End ReferenceSolver.

(** ** Interaction clusters *)

Section InteractionProperties.
Import Config Matching Growth Integrity.
Local Open Scope Q_scope.

(** A loop over [range(n)] keeps what each of its steps keeps. *)
Lemma fold_seq_inv {St : Type} (f : St -> nat -> St)
    (P : nat -> St -> Prop) (n : nat) :
  (forall i s, (i < n)%nat -> P i s -> P (S i) (f s i)) ->
  forall s, P 0%nat s -> P n (List.fold_left f (seq 0 n) s).
Proof.
  intros Hstep.
  assert (H : forall k i s, (i + k = n)%nat -> P i s ->
                P n (List.fold_left f (seq i k) s)).
  { induction k as [| k IH]; intros i s Hik Hs; cbn [seq List.fold_left].
    - replace n with i by lia. exact Hs.
    - apply IH; [lia |]. apply Hstep; [lia | exact Hs]. }
  intros s Hs. apply (H n 0%nat s); [lia | exact Hs].
Qed.

(** *** Maximum and minimum of a column without missing values *)

Lemma filter_notna_all (l : list fl) :
  Forall (fun x => x <> NaN) l -> List.filter notna l = l.
Proof.
  induction 1 as [| x l Hx _ IH]; [reflexivity |].
  destruct x as [| q]; [congruence |]. cbn. f_equal. exact IH.
Qed.

Lemma fold_py_max_spec (v : list fl) (x : Q) :
  Forall (fun y => y <> NaN) v ->
  exists m,
    List.fold_left py_max v (Fin x) = Fin m /\ In (Fin m) (Fin x :: v) /\
    x <= m /\ forall q, In (Fin q) v -> q <= m.
Proof.
  intros Hv. revert x.
  induction Hv as [| y v Hy _ IH]; intros x; cbn [List.fold_left].
  - exists x. split; [reflexivity |]. split; [left; reflexivity |].
    split; [lra |]. intros q [].
  - destruct y as [| b]; [congruence |]. rewrite py_max_Fin.
    destruct (Qlt_bool x b) eqn:E;
      [apply Qlt_bool_iff in E | apply Qlt_bool_false in E].
    + destruct (IH b) as (m & Hm & Hin & Hx & Hall).
      exists m. split; [exact Hm |]. split; [right; exact Hin |].
      split; [lra |].
      intros q [Hq | Hq]; [injection Hq as <-; lra | apply Hall, Hq].
    + destruct (IH x) as (m & Hm & Hin & Hx & Hall).
      exists m. split; [exact Hm |]. split.
      { destruct Hin as [Hin | Hin];
          [left; exact Hin | right; right; exact Hin]. }
      split; [lra |].
      intros q [Hq | Hq]; [injection Hq as <-; lra | apply Hall, Hq].
Qed.

Lemma fold_py_min_spec (v : list fl) (x : Q) :
  Forall (fun y => y <> NaN) v ->
  exists m,
    List.fold_left py_min v (Fin x) = Fin m /\ In (Fin m) (Fin x :: v) /\
    m <= x /\ forall q, In (Fin q) v -> m <= q.
Proof.
  intros Hv. revert x.
  induction Hv as [| y v Hy _ IH]; intros x; cbn [List.fold_left].
  - exists x. split; [reflexivity |]. split; [left; reflexivity |].
    split; [lra |]. intros q [].
  - destruct y as [| b]; [congruence |]. rewrite py_min_Fin.
    destruct (Qlt_bool b x) eqn:E;
      [apply Qlt_bool_iff in E | apply Qlt_bool_false in E].
    + destruct (IH b) as (m & Hm & Hin & Hx & Hall).
      exists m. split; [exact Hm |]. split; [right; exact Hin |].
      split; [lra |].
      intros q [Hq | Hq]; [injection Hq as <-; lra | apply Hall, Hq].
    + destruct (IH x) as (m & Hm & Hin & Hx & Hall).
      exists m. split; [exact Hm |]. split.
      { destruct Hin as [Hin | Hin];
          [left; exact Hin | right; right; exact Hin]. }
      split; [lra |].
      intros q [Hq | Hq]; [injection Hq as <-; lra | apply Hall, Hq].
Qed.

(** The maximum of a column with a value in every row is one of its
    values, and none is above it. *)
Lemma series_max_spec (l : list fl) :
  l <> [] -> Forall (fun y => y <> NaN) l ->
  exists m,
    series_max l = Fin m /\ In (Fin m) l /\ forall q, In (Fin q) l -> q <= m.
Proof.
  intros Hne Hl. unfold series_max. rewrite (filter_notna_all l Hl).
  destruct l as [| x v]; [congruence |].
  apply Forall_cons in Hl. destruct Hl as [Hx Hv].
  destruct x as [| x]; [congruence |].
  destruct (fold_py_max_spec v x Hv) as (m & Hm & Hin & Hxm & Hall).
  exists m. split; [exact Hm |]. split; [exact Hin |].
  intros q [Hq | Hq]; [injection Hq as <-; exact Hxm | apply Hall, Hq].
Qed.

Lemma series_min_spec (l : list fl) :
  l <> [] -> Forall (fun y => y <> NaN) l ->
  exists m,
    series_min l = Fin m /\ In (Fin m) l /\ forall q, In (Fin q) l -> m <= q.
Proof.
  intros Hne Hl. unfold series_min. rewrite (filter_notna_all l Hl).
  destruct l as [| x v]; [congruence |].
  apply Forall_cons in Hl. destruct Hl as [Hx Hv].
  destruct x as [| x]; [congruence |].
  destruct (fold_py_min_spec v x Hv) as (m & Hm & Hin & Hxm & Hall).
  exists m. split; [exact Hm |]. split; [exact Hin |].
  intros q [Hq | Hq]; [injection Hq as <-; exact Hxm | apply Hall, Hq].
Qed.

(** *** The sorted working frame *)

Lemma insert_row_Permutation (r : work_row) (l : list work_row) :
  insert_row r l ≡ₚ r :: l.
Proof.
  induction l as [| r' l IH]; cbn [insert_row]; [reflexivity |].
  destruct (flt (distance_of r') (distance_of r)); [| reflexivity].
  rewrite IH. apply Permutation_swap.
Qed.

Lemma sort_rows_Permutation (l : list work_row) : sort_rows l ≡ₚ l.
Proof.
  unfold sort_rows. induction l as [| r l IH]; cbn [List.fold_right];
    [reflexivity |].
  rewrite insert_row_Permutation, IH. reflexivity.
Qed.

Lemma dist_le_trans (a b c : work_row) :
  dist_le a b -> dist_le b c -> dist_le a c.
Proof.
  intros (xa & xb & Ea & Eb & Hab) (xb' & xc & Eb' & Ec & Hbc).
  rewrite Eb in Eb'. injection Eb' as <-.
  exists xa, xc. split; [exact Ea |]. split; [exact Ec | lra].
Qed.

Lemma insert_row_sorted (r : work_row) (l : list work_row) :
  Forall (fun r => distance_of r <> NaN) (r :: l) ->
  StronglySorted dist_le l -> StronglySorted dist_le (insert_row r l).
Proof.
  intros Hfin Hs. apply Forall_cons in Hfin. destruct Hfin as [Hr Hfin].
  destruct (distance_of r) as [| x] eqn:Ex; [congruence |].
  induction Hs as [| r' l Hs IH Hhd]; cbn [insert_row];
    [repeat constructor |].
  apply Forall_cons in Hfin. destruct Hfin as [Hr' Hfin].
  destruct (distance_of r') as [| x'] eqn:Ex'; [congruence |].
  rewrite Ex. cbn [flt cmp2].
  destruct (Qlt_bool x' x) eqn:Hlt;
    [apply Qlt_bool_iff in Hlt | apply Qlt_bool_false in Hlt].
  - assert (Hle : dist_le r' r).
    { exists x', x. split; [exact Ex' |]. split; [exact Ex | lra]. }
    constructor; [apply IH, Hfin |].
    apply Forall_forall. intros z Hz.
    rewrite insert_row_Permutation in Hz. apply elem_of_cons in Hz.
    destruct Hz as [-> | Hz]; [exact Hle |].
    rewrite Forall_forall in Hhd. apply Hhd, Hz.
  - assert (Hle : dist_le r r').
    { exists x, x'. split; [exact Ex |]. split; [exact Ex' | exact Hlt]. }
    constructor; [constructor; assumption |].
    constructor; [exact Hle |].
    eapply Forall_impl; [exact Hhd |]. intros z Hz.
    eapply dist_le_trans; [exact Hle | exact Hz].
Qed.

Lemma sort_rows_sorted (l : list work_row) :
  Forall usable l -> StronglySorted dist_le (sort_rows l).
Proof.
  unfold sort_rows. induction 1 as [| r l Hr Hl IH]; cbn [List.fold_right];
    [constructor |].
  apply insert_row_sorted; [| exact IH].
  constructor; [apply Hr |].
  change (foldr insert_row [] l) with (sort_rows l).
  rewrite sort_rows_Permutation.
  eapply Forall_impl; [exact Hl |]. intros z Hz. apply Hz.
Qed.

Lemma work_rows_usable (df : frame) : Forall usable (work_rows df).
Proof.
  unfold work_rows. apply Forall_forall. intros r Hr.
  apply list_elem_of_In, filter_In in Hr. destruct Hr as [_ Hr].
  apply andb_true_iff in Hr. destruct Hr as [H1 H2]. split.
  - unfold distance_of. destruct (later_distance (fst r)); [discriminate |].
    discriminate.
  - destruct (later_depth_pct (fst r)); discriminate.
Qed.

Lemma sorted_lookup (l : list work_row) (i j : nat) (r r' : work_row) :
  StronglySorted dist_le l -> (i < j)%nat ->
  l !! i = Some r -> l !! j = Some r' -> dist_le r r'.
Proof.
  intros Hs. revert i j.
  induction Hs as [| x l Hs IH Hhd]; intros i j Hij Hi Hj;
    [rewrite lookup_nil in Hi; discriminate |].
  destruct j as [| j]; [lia |]. cbn in Hj. destruct i as [| i]; cbn in Hi.
  - injection Hi as <-. rewrite Forall_forall in Hhd. apply Hhd.
    eapply list_elem_of_lookup_2, Hj.
  - eapply IH; [| exact Hi | exact Hj]. lia.
Qed.

(** *** The loop *)

(** The rows that join a cluster are the rows that follow its first row,
    up to some row. *)
Lemma chain_forward_prefix (row_i : work_row) (thr last : fl)
    (rest : list work_row) :
  exists rest', rest = (chain_forward row_i thr last rest ++ rest')%list.
Proof.
  revert last. induction rest as [| r rest IH]; intros last;
    cbn [chain_forward]; [exists []; reflexivity |].
  cbv zeta.
  match goal with |- context [if ?b then _ else _] => destruct b end.
  - destruct (IH (distance_of r)) as [rest' H]. exists rest'.
    cbn [app]. f_equal. exact H.
  - exists (r :: rest). reflexivity.
Qed.

(** The three ways of a step: the row is used already; it stays alone;
    or it starts a cluster with the rows that follow it. *)
Lemma cluster_step_cases (df : list work_row) (ints : list interaction)
    (used : gset nat) (i : nat) :
  (i < length df)%nat ->
  ((i ∈ used) /\ cluster_step df (ints, used) i = (ints, used)) \/
  ((i ∉ used) /\
   exists row_i wt tail rest,
     wt = Fin (wall_q row_i) /\
     tail = chain_forward row_i (fdiv (fmul (Fin 6) wt) (Fin 12.0))
              (distance_of row_i) (drop (S i) df) /\
     df !! i = Some row_i /\ drop (S i) df = (tail ++ rest)%list /\
     ((tail = [] /\ cluster_step df (ints, used) i = (ints, used)) \/
      (tail <> [] /\
       cluster_step df (ints, used) i =
         ((ints ++ [cluster_record (length ints) wt row_i tail])%list,
          {[i]} ∪ (used ∪ list_to_set (seq (S i) (length tail))))))).
Proof.
  intros Hi. unfold cluster_step. cbv beta match.
  destruct (bool_decide (i ∈ used)) eqn:Hu.
  - left. apply bool_decide_eq_true in Hu. split; [exact Hu | reflexivity].
  - right. apply bool_decide_eq_false in Hu. split; [exact Hu |].
    destruct (lookup_lt_is_Some_2 df i Hi) as [row_i Hrow].
    repeat match goal with
    | |- context [match ?x with Some _ => _ | None => _ end] =>
        replace x with (Some row_i) by (symmetry; exact Hrow)
    end.
    cbv beta match zeta.
    match goal with
    | |- context [chain_forward ?a ?b ?c ?d] =>
        pose proof (chain_forward_prefix a b c d) as Hrest;
        remember (chain_forward a b c d) as tail eqn:Etail
    end.
    destruct Hrest as [rest Hrest].
    match goal with
    | |- context [cluster_record _ ?w _ _] => exists row_i, w, tail, rest
    end.
    split.
    { unfold wall_q. destruct (later_wall_thickness (fst row_i)) as [| w];
        [reflexivity |].
      cbn [isnan orb fle cmp2]. destruct (Qle_bool w 0); reflexivity. }
    split; [exact Etail |].
    split; [exact Hrow |]. split; [exact Hrest |]. clear Etail.
    destruct tail as [| r tail].
    + left. split; [reflexivity |]. cbn [length Nat.leb seq list_to_set].
      f_equal. apply (right_id_L ∅ (∪)).
    + right. split; [discriminate |]. reflexivity.
Qed.

Lemma member_lookup (df : list work_row) (i : nat) (row_i : work_row)
    (tail rest : list work_row) (r : work_row) :
  df !! i = Some row_i -> drop (S i) df = (tail ++ rest)%list ->
  In r (row_i :: tail) ->
  exists j, (i <= j < S i + length tail)%nat /\ df !! j = Some r.
Proof.
  intros Hrow Hrest [<- | Hin].
  - exists i. split; [lia | exact Hrow].
  - apply list_elem_of_In, list_elem_of_lookup_1 in Hin.
    destruct Hin as [t Ht].
    pose proof (lookup_lt_Some _ _ _ Ht) as Hlt.
    exists (S i + t)%nat. split; [lia |].
    rewrite <- lookup_drop, Hrest. apply lookup_app_l_Some, Ht.
Qed.

Lemma total_count_app (l : list interaction) (c : interaction) :
  total_count (l ++ [c]) = (total_count l + ia_anomaly_count c)%Z.
Proof.
  unfold total_count. induction l as [| x l IH]; cbn [app List.fold_right];
    [lia |].
  rewrite IH. lia.
Qed.

Lemma StronglySorted_snoc {A : Type} (R : A -> A -> Prop) (l : list A)
    (y : A) :
  StronglySorted R l -> Forall (fun x => R x y) l ->
  StronglySorted R (l ++ [y]).
Proof.
  intros Hs Hall. induction Hs as [| x l Hs IH Hhd]; cbn [app];
    [repeat constructor |].
  apply Forall_cons in Hall. destruct Hall as [Hx Hall].
  constructor; [apply IH, Hall |].
  apply Forall_app. split; [exact Hhd |]. constructor; [exact Hx |].
  constructor.
Qed.

(** Where a recorded cluster starts and ends: at the least and at the
    greatest distance of its rows. *)
Lemma cluster_record_ends (n : nat) (wt : fl) (row_i : work_row)
    (tail : list work_row) :
  Forall usable (row_i :: tail) ->
  exists s e r_s r_e,
    In r_s (row_i :: tail) /\ distance_of r_s = Fin s /\
    In r_e (row_i :: tail) /\ distance_of r_e = Fin e /\
    s <= e /\
    ia_start_distance_ft (cluster_record n wt row_i tail)
      = py_round (Fin s) 2 /\
    ia_end_distance_ft (cluster_record n wt row_i tail)
      = py_round (Fin e) 2.
Proof.
  intros Hus.
  assert (Hfin : Forall (fun y => y <> NaN)
                   (List.map distance_of (row_i :: tail))).
  { apply Forall_forall. intros y Hy.
    apply list_elem_of_In, in_map_iff in Hy. destruct Hy as (r & <- & Hr).
    rewrite Forall_forall in Hus. apply Hus, list_elem_of_In, Hr. }
  assert (Hne : List.map distance_of (row_i :: tail) <> [])
    by discriminate.
  destruct (series_min_spec _ Hne Hfin) as (s & Hs & Hins & Hmin).
  destruct (series_max_spec _ Hne Hfin) as (e & He & Hine & Hmax).
  apply in_map_iff in Hins. destruct Hins as (r_s & Hrs & Hins).
  apply in_map_iff in Hine. destruct Hine as (r_e & Hre & Hine).
  exists s, e, r_s, r_e.
  split; [exact Hins |]. split; [exact Hrs |].
  split; [exact Hine |]. split; [exact Hre |].
  split.
  - apply Hmax. rewrite <- Hrs. apply in_map, Hins.
  - unfold cluster_record. cbn [ia_start_distance_ft ia_end_distance_ft].
    rewrite Hs, He. split; reflexivity.
Qed.

Lemma shape_step (df : list work_row) (i : nat)
    (st : list interaction * gset nat) :
  Forall usable df -> (i < length df)%nat ->
  shape_inv st -> shape_inv (cluster_step df st i).
Proof.
  intros Hus Hi [Hids Hmade]. destruct st as [ints used].
  cbn [fst snd] in Hids, Hmade.
  destruct (cluster_step_cases df ints used i Hi)
    as [[_ ->] | (_ & row_i & wt & tail & rest & _ & _ & Hrow & Hrest & Hcase)];
    [split; assumption |].
  destruct Hcase as [[_ ->] | [Hne ->]]; [split; assumption |].
  split; cbn [fst snd].
  - intros k c Hk. apply lookup_app_Some in Hk.
    destruct Hk as [Hk | [Hlen Hk]]; [apply Hids, Hk |].
    destruct (k - length ints)%nat as [| k'] eqn:Ek; [| discriminate].
    cbn in Hk. injection Hk as <-. cbn [cluster_record ia_cluster_id].
    f_equal. lia.
  - apply Forall_app. split; [exact Hmade |]. constructor; [| constructor].
    exists (length ints), wt, row_i, tail. split; [reflexivity |].
    split; [exact Hne |].
    apply Forall_forall. intros r Hr. apply list_elem_of_In in Hr.
    destruct (member_lookup df i row_i tail rest r Hrow Hrest Hr)
      as (j & _ & Hj).
    rewrite Forall_forall in Hus. eapply Hus, list_elem_of_lookup_2, Hj.
Qed.

Lemma frontier_step (df : list work_row) (i : nat)
    (st : list interaction * gset nat) :
  Forall usable df -> StronglySorted dist_le df -> (i < length df)%nat ->
  frontier_inv df i st -> frontier_inv df (S i) (cluster_step df st i).
Proof.
  intros Hus Hsorted Hi (m & Ha & Hb & Hc & Hd & He & Hf).
  destruct st as [ints used]. cbn [fst snd] in Ha, Hb, Hd, He, Hf.
  assert (Hsame : frontier_inv df (S i) (ints, used)).
  { exists m. cbn [fst snd]. split; [exact Ha |].
    split; [intros j Hj; apply Hb; lia |]. auto. }
  destruct (cluster_step_cases df ints used i Hi)
    as [[_ ->]
       | (Hnot & row_i & wt & tail & rest & _ & _ & Hrow & Hrest & Hcase)];
    [exact Hsame |].
  destruct Hcase as [[_ ->] | [Hne ->]]; [exact Hsame |].
  assert (Hmi : (m <= i)%nat).
  { destruct (Nat.le_gt_cases m i) as [H | H]; [exact H |].
    exfalso. apply Hnot, Hb. lia. }
  assert (Hlen : (S i + length tail <= length df)%nat).
  { apply (f_equal length) in Hrest.
    rewrite length_drop, length_app in Hrest. lia. }
  assert (Hmem : Forall usable (row_i :: tail)).
  { apply Forall_forall. intros r Hr. apply list_elem_of_In in Hr.
    destruct (member_lookup df i row_i tail rest r Hrow Hrest Hr)
      as (j & _ & Hj).
    rewrite Forall_forall in Hus. eapply Hus, list_elem_of_lookup_2, Hj. }
  destruct (cluster_record_ends (length ints) wt row_i tail Hmem)
    as (s & e & r_s & r_e & Hins & Hrs & Hine & Hre & Hse & Hstart & Hend).
  destruct (member_lookup df i row_i tail rest r_s Hrow Hrest Hins)
    as (j_s & Hjs & Hlook_s).
  destruct (member_lookup df i row_i tail rest r_e Hrow Hrest Hine)
    as (j_e & Hje & Hlook_e).
  exists (S i + length tail)%nat. cbn [fst snd].
  split; [| split; [| split; [| split; [| split]]]].
  - intros j Hj. rewrite !elem_of_union, elem_of_singleton in Hj.
    destruct Hj as [-> | [Hj | Hj]]; [lia | apply Ha in Hj; lia |].
    apply elem_of_list_to_set, elem_of_seq in Hj. lia.
  - intros j Hj. rewrite !elem_of_union. right. right.
    apply elem_of_list_to_set, elem_of_seq. lia.
  - exact Hlen.
  - rewrite total_count_app. cbn [cluster_record ia_anomaly_count].
    cbn [length]. lia.
  - apply StronglySorted_snoc; [exact He |].
    eapply Forall_impl; [exact Hf |]. cbn beta.
    intros c (e_c & Hec & Hreach).
    assert (Hle : e_c <= s)
      by (apply (Hreach j_s r_s s); [lia | exact Hlook_s | exact Hrs]).
    destruct (py_round_mono e_c s 2 Hle) as (a & b & Ea & Eb & Hab).
    exists a, b. split; [rewrite Hec; exact Ea |].
    split; [rewrite Hstart; exact Eb | exact Hab].
  - apply Forall_app. split.
    + eapply Forall_impl; [exact Hf |]. cbn beta.
      intros c (e_c & Hec & Hreach). exists e_c. split; [exact Hec |].
      intros j r x Hj. apply Hreach. lia.
    + constructor; [| constructor]. exists e. split; [exact Hend |].
      intros j r x Hj Hlook Hx.
      destruct (sorted_lookup df j_e j r_e r Hsorted) as (a & b & Ea & Eb & Hab);
        [lia | exact Hlook_e | exact Hlook |].
      rewrite Hre in Ea. injection Ea as <-.
      rewrite Hx in Eb. injection Eb as <-. exact Hab.
Qed.

(** The list of clusters, with the state of the loop that made it. *)
Lemma interaction_assessment_inv (df : frame) :
  exists used i,
    shape_inv (interaction_assessment df, used) /\
    frontier_inv (sort_rows (work_rows df)) i
      (interaction_assessment df, used).
Proof.
  assert (Hnil : forall (wr : list work_row) i,
            shape_inv ([], ∅) /\ frontier_inv wr i ([], ∅)).
  { intros wr i. split.
    - split; cbn [fst]; [| constructor].
      intros k c Hk. rewrite lookup_nil in Hk. discriminate.
    - exists 0%nat. cbn [fst snd].
      split; [intros j Hj; apply elem_of_empty in Hj; contradiction |].
      split; [intros j Hj; lia |].
      split; [lia |]. split; [cbn; lia |].
      split; constructor. }
  unfold interaction_assessment.
  destruct (empty df); [exists ∅, 0%nat; apply Hnil |].
  cbv zeta. set (wr := sort_rows (work_rows df)).
  destruct (length wr <? 2)%nat; [exists ∅, 0%nat; apply Hnil |].
  assert (Hus : Forall usable wr).
  { unfold wr. rewrite sort_rows_Permutation. apply work_rows_usable. }
  assert (Hsorted : StronglySorted dist_le wr)
    by (apply sort_rows_sorted, work_rows_usable).
  unfold interaction_clusters.
  pose proof (fold_seq_inv (cluster_step wr)
                (fun i st => shape_inv st /\ frontier_inv wr i st)
                (length wr)) as Hloop.
  cbn beta in Hloop.
  specialize (Hloop
    (fun i st Hi Hinv =>
       conj (shape_step wr i st Hus Hi (proj1 Hinv))
            (frontier_step wr i st Hus Hsorted Hi (proj2 Hinv)))
    ([], ∅) (Hnil wr 0%nat)).
  destruct (List.fold_left (cluster_step wr) (seq 0 (length wr)) ([], ∅))
    as [ints used].
  exists used, (length wr). exact Hloop.
Qed.

(** The severity of a recorded cluster, by its depth and its size. *)
Lemma cluster_record_severity (n : nat) (wt : fl) (row_i : work_row)
    (tail : list work_row) :
  tail <> [] -> Forall usable (row_i :: tail) ->
  exists d,
    ia_max_depth_pct (cluster_record n wt row_i tail) = Fin d /\
    ((ia_severity (cluster_record n wt row_i tail) = "HIGH" /\
      (60 <= d \/
       (4 <= ia_anomaly_count (cluster_record n wt row_i tail))%Z)) \/
     (ia_severity (cluster_record n wt row_i tail) = "MEDIUM" /\
      d <= 60 /\
      (ia_anomaly_count (cluster_record n wt row_i tail) <= 3)%Z /\
      (40 <= d \/ ia_anomaly_count (cluster_record n wt row_i tail) = 3%Z)) \/
     (ia_severity (cluster_record n wt row_i tail) = "LOW" /\
      d <= 40 /\ ia_anomaly_count (cluster_record n wt row_i tail) = 2%Z)).
Proof.
  intros Hne Hus.
  assert (Hfin : Forall (fun y => y <> NaN)
                   (List.map (fun r : work_row => later_depth_pct (fst r))
                      (row_i :: tail))).
  { apply Forall_forall. intros y Hy.
    apply list_elem_of_In, in_map_iff in Hy. destruct Hy as (r & <- & Hr).
    rewrite Forall_forall in Hus. apply Hus, list_elem_of_In, Hr. }
  assert (Hne' : List.map (fun r : work_row => later_depth_pct (fst r))
                   (row_i :: tail) <> []) by discriminate.
  unfold cluster_record. cbv zeta.
  cbn [ia_max_depth_pct ia_severity ia_anomaly_count].
  match goal with
  | |- context [py_round (series_max ?l) 1] =>
      destruct (series_max_spec l Hne' Hfin) as (md & Hmd & _)
  end.
  rewrite Hmd. cbn [fge fle cmp2].
  assert (H60 : exists a, py_round (Fin 60) 1 = Fin a /\ a == 60).
  { eexists. split; [reflexivity | reflexivity]. }
  assert (H40 : exists a, py_round (Fin 40) 1 = Fin a /\ a == 40).
  { eexists. split; [reflexivity | reflexivity]. }
  destruct H60 as (a60 & E60 & Ha60). destruct H40 as (a40 & E40 & Ha40).
  assert (Hup : forall x, x <= md -> forall a, py_round (Fin x) 1 = Fin a ->
            exists d, py_round (Fin md) 1 = Fin d /\ a <= d).
  { intros x Hx a Ea.
    destruct (py_round_mono x md 1 Hx) as (a' & d & Ea' & Ed & Hle).
    rewrite Ea in Ea'. injection Ea' as <-. exists d. auto. }
  assert (Hdown : forall x, md <= x -> forall a, py_round (Fin x) 1 = Fin a ->
            exists d, py_round (Fin md) 1 = Fin d /\ d <= a).
  { intros x Hx a Ea.
    destruct (py_round_mono md x 1 Hx) as (d & a' & Ed & Ea' & Hle).
    rewrite Ea in Ea'. injection Ea' as <-. exists d. auto. }
  set (k := length (row_i :: tail)).
  assert (Hk : (2 <= k)%nat).
  { unfold k. destruct tail; [congruence | cbn [length]; lia]. }
  destruct (Qle_bool 60 md) eqn:D60.
  - apply Qle_bool_iff in D60.
    destruct (Hup 60 D60 a60 E60) as (d & Ed & Hd).
    exists d. split; [exact Ed |]. left. cbn [orb].
    split; [reflexivity | left; lra].
  - apply Qle_bool_false in D60.
    destruct (Hdown 60 (Qlt_le_weak _ _ D60) a60 E60) as (d & Ed & Hd).
    exists d. split; [exact Ed |]. cbn [orb].
    destruct (4 <=? k)%nat eqn:K4;
      [apply Nat.leb_le in K4 | apply Nat.leb_gt in K4].
    + left. split; [reflexivity | right; lia].
    + right. destruct (Qle_bool 40 md) eqn:D40.
      * apply Qle_bool_iff in D40.
        destruct (Hup 40 D40 a40 E40) as (d' & Ed' & Hd').
        rewrite Ed in Ed'. injection Ed' as <-.
        left. cbn [orb]. split; [reflexivity |].
        split; [lra |]. split; [lia | left; lra].
      * apply Qle_bool_false in D40.
        destruct (Hdown 40 (Qlt_le_weak _ _ D40) a40 E40) as (d' & Ed' & Hd').
        rewrite Ed in Ed'. injection Ed' as <-. cbn [orb].
        destruct (3 <=? k)%nat eqn:K3;
          [apply Nat.leb_le in K3 | apply Nat.leb_gt in K3].
        -- left. split; [reflexivity |].
           split; [lra |]. split; [lia | right; lia].
        -- right. split; [reflexivity |]. split; [lra | lia].
Qed.

(** The first turn of the [while] loop: the row after [r] joins exactly
    when it is within the threshold. *)
Lemma chain_forward_first (r r' : work_row) (rest : list work_row)
    (x x' : Q) :
  distance_of r = Fin x -> distance_of r' = Fin x' ->
  chain_forward r (fdiv (fmul (Fin 6) (Fin (wall_q r))) (Fin 12.0)) (Fin x)
    (r' :: rest) <> []
  <-> x' - x - length_q r / 12 <= 6 * wall_q r / 12.
Proof.
  intros Hx Hx'. cbn [chain_forward]. cbv zeta. rewrite Hx'.
  unfold length_q.
  assert (Ew : 6 * wall_q r / 12.0 == wall_q r * (1 # 2)) by field.
  assert (Ew' : 6 * wall_q r / 12 == wall_q r * (1 # 2)) by field.
  assert (El : forall l, l / 12.0 == l * (1 # 12)) by (intros l; field).
  assert (El' : forall l, l / 12 == l * (1 # 12)) by (intros l; field).
  destruct (later_length_in (fst r)) as [| l];
    cbn [isnan fsub fdiv fmul lift2 fle cmp2];
    match goal with
    | |- context [Qle_bool ?a ?b] =>
        destruct (Qle_bool a b) eqn:E;
          [apply Qle_bool_iff in E | apply Qle_bool_false in E]
    end;
    rewrite ?El, ?Ew in E; rewrite ?El', ?Ew';
    (split; [intros H; try (exfalso; apply H; reflexivity); lra
            | intros H; try discriminate; exfalso; lra]).
Qed.

Lemma usable_distance (wr : list work_row) (j : nat) (r : work_row) :
  Forall usable wr -> wr !! j = Some r -> exists x, distance_of r = Fin x.
Proof.
  intros Hus Hj. rewrite Forall_forall in Hus.
  destruct (Hus r (list_elem_of_lookup_2 _ _ _ Hj)) as [Hd _].
  destruct (distance_of r) as [| x]; [congruence | exists x; reflexivity].
Qed.

(** Whether the row at [j] takes the row after it into a cluster. *)
Lemma joiners_first (wr : list work_row) (j : nat) (r r' : work_row) :
  Forall usable wr -> wr !! j = Some r -> wr !! S j = Some r' ->
  chain_forward r (fdiv (fmul (Fin 6) (Fin (wall_q r))) (Fin 12.0))
    (distance_of r) (drop (S j) wr) <> []
  <-> within_threshold r r'.
Proof.
  intros Hus Hj Hj'.
  destruct (usable_distance wr j r Hus Hj) as [x Hx].
  destruct (usable_distance wr (S j) r' Hus Hj') as [x' Hx'].
  rewrite (drop_S _ _ _ Hj'), Hx.
  rewrite (chain_forward_first r r' _ x x' Hx Hx').
  unfold within_threshold. split.
  - intros H. exists x, x'. auto.
  - intros (y & y' & Ey & Ey' & H). rewrite Hx in Ey. rewrite Hx' in Ey'.
    injection Ey as <-. injection Ey' as <-. exact H.
Qed.

Lemma no_neighbour_no_cluster (wr : list work_row) :
  Forall usable wr ->
  (forall j r r', wr !! j = Some r -> wr !! S j = Some r' ->
     ~ within_threshold r r') ->
  interaction_clusters wr = [].
Proof.
  intros Hus Hfar. unfold interaction_clusters.
  pose proof (fold_seq_inv (cluster_step wr) (fun _ st => st = ([], ∅))
                (length wr)) as Hloop.
  cbn beta in Hloop. rewrite Hloop; [reflexivity | | reflexivity].
  intros i s Hi ->.
  destruct (cluster_step_cases wr [] ∅ i Hi)
    as [[Hin _]
       | (_ & row_i & wt & tail & rest & Hwt & Htail & Hrow & Hrest & Hcase)].
  - apply elem_of_empty in Hin. contradiction.
  - destruct Hcase as [[_ ->] | [Hne _]]; [reflexivity |].
    exfalso. subst wt.
    destruct (wr !! S i) as [r' |] eqn:Hnext.
    + apply (Hfar i row_i r' Hrow Hnext).
      apply (joiners_first wr i row_i r' Hus Hrow Hnext).
      rewrite <- Htail. exact Hne.
    + apply Hne. rewrite Htail.
      apply lookup_ge_None in Hnext. rewrite drop_ge by lia. reflexivity.
Qed.

Lemma neighbour_cluster (wr : list work_row) (j : nat) (r r' : work_row) :
  Forall usable wr -> wr !! j = Some r -> wr !! S j = Some r' ->
  within_threshold r r' -> interaction_clusters wr <> [].
Proof.
  intros Hus Hj Hj' Hnear. unfold interaction_clusters.
  pose proof (fold_seq_inv (cluster_step wr)
                (fun i st => ((j < i)%nat -> fst st <> []) /\
                             (fst st = [] -> snd st = ∅))
                (length wr)) as Hloop.
  cbn beta in Hloop. refine (proj1 (Hloop _ ([], ∅) _) _).
  - intros i [ints used] Hi [Hseen Hused]. cbn [fst snd] in Hseen, Hused.
    destruct (cluster_step_cases wr ints used i Hi)
      as [[Hin ->]
         | (Hnot & row_i & wt & tail & rest & Hwt & Htail & Hrow & Hrest
            & Hcase)].
    + cbn [fst snd]. split; [| exact Hused]. intros Hlt Hnil.
      destruct (Nat.eq_dec j i) as [-> | Hne]; [| apply Hseen; [lia | exact Hnil]].
      rewrite (Hused Hnil) in Hin. apply elem_of_empty in Hin. contradiction.
    + destruct Hcase as [[Hnil ->] | [Hne ->]]; cbn [fst snd].
      * split; [| exact Hused]. intros Hlt Hints.
        destruct (Nat.eq_dec j i) as [-> | Hne];
          [| apply Hseen; [lia | exact Hints]].
        rewrite Hrow in Hj. injection Hj as ->. subst wt.
        apply (joiners_first wr i r r' Hus Hrow Hj') in Hnear.
        apply Hnear. rewrite <- Htail. exact Hnil.
      * split; [intros _ Hints | intros Hints]; apply app_eq_nil in Hints;
          destruct Hints as [_ Hints]; discriminate.
  - cbn [fst snd]. split; [lia | reflexivity].
  - apply lookup_lt_Some in Hj. exact Hj.
Qed.

(** X26: the clusters of the interaction assessment.  They are numbered
    1, 2, ... in the order of the list; each has at least two anomalies;
    together they have no more anomalies than the frame has rows with a
    distance and a depth, as no row is counted in two clusters; and a
    frame with fewer than two such rows has no cluster. *)
Theorem interaction_clusters_counted (df : frame) :
  (forall k c, interaction_assessment df !! k = Some c ->
     ia_cluster_id c = (Z.of_nat k + 1)%Z /\ (2 <= ia_anomaly_count c)%Z) /\
  (total_count (interaction_assessment df)
   <= Z.of_nat (length (work_rows df)))%Z /\
  ((length (work_rows df) < 2)%nat -> interaction_assessment df = []).
Proof.
  destruct (interaction_assessment_inv df)
    as (used & i & [Hids Hmade] & (m & _ & _ & Hm & Hcount & _)).
  cbn [fst snd] in *.
  split; [| split].
  - intros k c Hk. split; [apply Hids, Hk |].
    rewrite Forall_forall in Hmade.
    destruct (Hmade c (list_elem_of_lookup_2 _ _ _ Hk))
      as (n & wt & row_i & tail & -> & Hne & _).
    cbn [cluster_record ia_anomaly_count length].
    destruct tail; [congruence | cbn [length]; lia].
  - rewrite sort_rows_Permutation in Hm. lia.
  - intros Hfew. unfold interaction_assessment.
    destruct (empty df); [reflexivity |]. cbv zeta.
    rewrite sort_rows_Permutation.
    apply Nat.ltb_lt in Hfew. rewrite Hfew. reflexivity.
Qed.

(** X27: the clusters along the pipe.  Every cluster starts at or before
    the distance where it ends, and every cluster ends at or before the
    distance where any later cluster of the list starts: the list is in
    the order of the pipe and no two clusters overlap. *)
Theorem interaction_clusters_apart (df : frame) :
  StronglySorted before (interaction_assessment df) /\
  Forall (fun c =>
    exists s e,
      ia_start_distance_ft c = Fin s /\ ia_end_distance_ft c = Fin e /\
      s <= e) (interaction_assessment df).
Proof.
  destruct (interaction_assessment_inv df)
    as (used & i & [_ Hmade] & (m & _ & _ & _ & _ & Hsorted & _)).
  cbn [fst snd] in *.
  split; [exact Hsorted |].
  eapply Forall_impl; [exact Hmade |]. cbn beta.
  intros c (n & wt & row_i & tail & -> & _ & Hus).
  destruct (cluster_record_ends n wt row_i tail Hus)
    as (s & e & _ & _ & _ & _ & _ & _ & Hse & Hstart & Hend).
  destruct (py_round_mono s e 2 Hse) as (a & b & Ea & Eb & Hab).
  exists a, b. split; [rewrite Hstart; exact Ea |].
  split; [rewrite Hend; exact Eb | exact Hab].
Qed.

(** X28: the severity of a cluster, read off its record.  With [d] the
    reported maximum depth: a HIGH cluster has [d] of 60 or more, or four
    or more anomalies; a MEDIUM one has [d] at most 60 and at most three
    anomalies, and [d] of 40 or more or exactly three anomalies; a LOW
    one has [d] at most 40 and exactly two anomalies.  So four anomalies
    always make a cluster HIGH and three never leave it LOW. *)
Theorem interaction_severity (df : frame) :
  Forall (fun c =>
    exists d,
      ia_max_depth_pct c = Fin d /\
      ((ia_severity c = "HIGH" /\ (60 <= d \/ (4 <= ia_anomaly_count c)%Z)) \/
       (ia_severity c = "MEDIUM" /\ d <= 60 /\
        (ia_anomaly_count c <= 3)%Z /\
        (40 <= d \/ ia_anomaly_count c = 3%Z)) \/
       (ia_severity c = "LOW" /\ d <= 40 /\ ia_anomaly_count c = 2%Z)))
    (interaction_assessment df).
Proof.
  destruct (interaction_assessment_inv df) as (used & i & [_ Hmade] & _).
  cbn [fst snd] in *.
  eapply Forall_impl; [exact Hmade |]. cbn beta.
  intros c (n & wt & row_i & tail & -> & Hne & Hus).
  apply cluster_record_severity; assumption.
Qed.

(** X29: when there is no cluster.  The assessment reports no cluster
    exactly when, in the rows with a distance and a depth sorted by
    distance, no row is followed by a row within its threshold: a gap of
    at most six wall thicknesses after the length of the first row, with
    0.3 in for a wall thickness that is missing or not positive. *)
Theorem interaction_none_iff (df : frame) :
  interaction_assessment df = [] <->
  (forall j r r',
     sort_rows (work_rows df) !! j = Some r ->
     sort_rows (work_rows df) !! S j = Some r' ->
     ~ within_threshold r r').
Proof.
  unfold interaction_assessment.
  assert (Hus : Forall usable (sort_rows (work_rows df))).
  { rewrite sort_rows_Permutation. apply work_rows_usable. }
  destruct (empty df) eqn:Hempty.
  - split; [| reflexivity]. intros _ j r r' Hj. exfalso.
    unfold empty in Hempty. unfold work_rows in Hj.
    destruct (rows df); [| discriminate]. cbn in Hj.
    rewrite lookup_nil in Hj. discriminate.
  - cbv zeta.
    destruct (length (sort_rows (work_rows df)) <? 2)%nat eqn:Hlen.
    + split; [| reflexivity]. intros _ j r r' Hj Hj'.
      apply lookup_lt_Some in Hj'. apply Nat.ltb_lt in Hlen. lia.
    + split.
      * intros Hout j r r' Hj Hj' Hw.
        exact (neighbour_cluster _ j r r' Hus Hj Hj' Hw Hout).
      * apply no_neighbour_no_cluster, Hus.
Qed.

End InteractionProperties.

(** ** Predicted inspections *)

Section VirtualProperties.
Import Config Matching Growth MultiRun Integrity VirtualILI.
Local Open Scope Q_scope.

Lemma pairwise_get_In (pairwise : list (Z * Z * frame)) (key : Z * Z)
    (v : frame) :
  pairwise_get pairwise key = Ok v -> In (key, v) pairwise.
Proof.
  induction pairwise as [| [k w] pairwise IH]; cbn [pairwise_get];
    [discriminate |].
  destruct (bool_decide (k = key)) eqn:E.
  - apply bool_decide_eq_true in E. intros [= <-]. left. congruence.
  - intros H. right. apply IH, H.
Qed.

Lemma pairwise_get_Ok (pairwise : list (Z * Z * frame)) (key : Z * Z)
    (v : frame) :
  In (key, v) pairwise -> exists w, pairwise_get pairwise key = Ok w.
Proof.
  induction pairwise as [| [k w] pairwise IH]; cbn [pairwise_get];
    intros Hin; [destruct Hin |].
  destruct (bool_decide (k = key)) eqn:E; [eexists; reflexivity |].
  destruct Hin as [Heq | Hin]; [| apply IH, Hin].
  apply bool_decide_eq_false in E. injection Heq as -> _. congruence.
Qed.

Lemma has_key_In (pairwise : list (Z * Z * frame)) (key : Z * Z) :
  has_key pairwise key = true -> exists v, In (key, v) pairwise.
Proof.
  unfold has_key. intros H. apply existsb_exists in H.
  destruct H as ([k v] & Hin & Hk). apply bool_decide_eq_true in Hk.
  cbn in Hk. subst k. exists v. exact Hin.
Qed.

Lemma last_In {A : Type} (l : list A) (d : A) :
  l <> [] -> In (List.last l d) l.
Proof.
  induction l as [| x l IH]; [congruence |]. intros _.
  destruct l as [| y l]; [left; reflexivity |].
  right. apply IH. discriminate.
Qed.

Lemma last_default {A : Type} (l : list A) (d : A) :
  l <> [] -> last l = Some (List.last l d).
Proof.
  induction l as [| x l IH]; [congruence |]. intros _.
  destruct l as [| y l]; [reflexivity |].
  change (last (x :: y :: l)) with (last (y :: l)).
  change (List.last (x :: y :: l) d) with (List.last (y :: l) d).
  apply IH. discriminate.
Qed.

(** The refined rate is a number, and only a triple frame without a
    column for 2022 makes the refinement fail. *)
Lemma refine_rate_cases (triple : triple_frame) (row : match_record)
    (g : Q) :
  (forall rr b, refine_rate triple row (Fin g) = Ok (rr, b) ->
     (exists r, rr = Fin r) /\ (b = false -> rr = Fin g)) /\
  (forall e, refine_rate triple row (Fin g) = Raise e ->
     e = KeyError /\ t_rows triple <> [] /\
     forall y1 y2 y3, t_years triple = (y1, y2, y3) ->
       y1 <> 2022%Z /\ y2 <> 2022%Z /\ y3 <> 2022%Z).
Proof.
  unfold refine_rate. destruct (t_rows triple) as [| t ts] eqn:Hrows.
  - split; [| discriminate]. intros rr b [= <- <-].
    split; [exists g; reflexivity | reflexivity].
  - cbv zeta. unfold joint_2022. destruct (t_years triple) as [[y1 y2] y3].
    rewrite Hrows.
    assert (Hok : forall col : list fl,
      (forall rr b,
         match find_joint col (later_joint row) 0 with
         | Some k =>
             if isnan (row_get (t_linear_rate triple) k NaN)
             then Ok (Fin g, false)
             else Ok (row_get (t_linear_rate triple) k NaN, true)
         | None => Ok (Fin g, false)
         end = Ok (rr, b) ->
         (exists r, rr = Fin r) /\ (b = false -> rr = Fin g)) /\
      (forall e,
         match find_joint col (later_joint row) 0 with
         | Some k =>
             if isnan (row_get (t_linear_rate triple) k NaN)
             then Ok (Fin g, false)
             else Ok (row_get (t_linear_rate triple) k NaN, true)
         | None => Ok (Fin g, false)
         end = Raise e -> False)).
    { intros col. destruct (find_joint col (later_joint row) 0) as [k |].
      - destruct (row_get (t_linear_rate triple) k NaN) as [| lr];
          cbn [isnan]; (split; [| discriminate]); intros rr b [= <- <-].
        + split; [exists g; reflexivity | reflexivity].
        + split; [exists lr; reflexivity | discriminate].
      - split; [| discriminate]. intros rr b [= <- <-].
        split; [exists g; reflexivity | reflexivity]. }
    destruct (y3 =? 2022)%Z eqn:E3; cbn [mbind result_bind];
      [split; [apply Hok | intros e He; exfalso; eapply Hok, He] |].
    destruct (y2 =? 2022)%Z eqn:E2; cbn [mbind result_bind];
      [split; [apply Hok | intros e He; exfalso; eapply Hok, He] |].
    destruct (y1 =? 2022)%Z eqn:E1; cbn [mbind result_bind];
      [split; [apply Hok | intros e He; exfalso; eapply Hok, He] |].
    split; [discriminate |]. intros e [= <-].
    split; [reflexivity |]. split; [discriminate |].
    intros z1 z2 z3 [= <- <- <-].
    apply Z.eqb_neq in E1, E2, E3. auto.
Qed.

Lemma round_zero (n : nat) : exists a, py_round (Fin 0) n = Fin a /\ a == 0.
Proof.
  eexists. split; [reflexivity |]. cbv zeta.
  assert (E : 0 * inject_Z (10 ^ Z.of_nat n) == 0) by ring.
  rewrite (round_half_even_comp _ _ E).
  change (round_half_even 0) with 0%Z.
  unfold Qdiv. rewrite Qmult_0_l. reflexivity.
Qed.

Lemma round_nonneg (x : Q) (n : nat) :
  0 <= x -> exists a, py_round (Fin x) n = Fin a /\ 0 <= a.
Proof.
  intros Hx. destruct (py_round_mono 0 x n Hx) as (z & a & Ez & Ea & Hle).
  destruct (round_zero n) as (z' & Ez' & Hz'). rewrite Ez in Ez'.
  injection Ez' as <-. exists a. split; [exact Ea | lra].
Qed.

(** Rounding to one decimal keeps a whole number, and a depth on its side
    of a whole number. *)
Lemma round_whole (k : Z) :
  exists a, py_round (Fin (inject_Z k)) 1 = Fin a /\ a == inject_Z k.
Proof.
  eexists. split; [reflexivity |]. cbv zeta.
  assert (E : inject_Z k * inject_Z (10 ^ Z.of_nat 1) == inject_Z (k * 10))
    by (rewrite <- inject_Z_mult; reflexivity).
  rewrite (round_half_even_comp _ _ E).
  assert (Er : round_half_even (inject_Z (k * 10)) = (k * 10)%Z).
  { unfold round_half_even. rewrite Qfloor_Z.
    assert (E0 : inject_Z (k * 10) - inject_Z (k * 10) == 0) by ring.
    destruct (Qlt_bool (inject_Z (k * 10) - inject_Z (k * 10)) (1 # 2))
      eqn:Hlt; [reflexivity |].
    apply Qlt_bool_false in Hlt. rewrite E0 in Hlt. lra. }
  rewrite Er. change (10 ^ Z.of_nat 1)%Z with 10%Z.
  rewrite inject_Z_mult. field.
Qed.

Lemma round_above (k : Z) (x : Q) :
  inject_Z k <= x ->
  exists a, py_round (Fin x) 1 = Fin a /\ inject_Z k <= a.
Proof.
  intros Hx.
  destruct (py_round_mono (inject_Z k) x 1 Hx) as (z & a & Ez & Ea & Hle).
  destruct (round_whole k) as (z' & Ez' & Hz). rewrite Ez in Ez'.
  injection Ez' as <-. exists a. split; [exact Ea | lra].
Qed.

Lemma round_below (k : Z) (x : Q) :
  x <= inject_Z k ->
  exists a, py_round (Fin x) 1 = Fin a /\ a <= inject_Z k.
Proof.
  intros Hx.
  destruct (py_round_mono x (inject_Z k) 1 Hx) as (a & z & Ea & Ez & Hle).
  destruct (round_whole k) as (z' & Ez' & Hz). rewrite Ez in Ez'.
  injection Ez' as <-. exists a. split; [exact Ea | lra].
Qed.

Lemma clamp_range (x : Q) :
  exists pd,
    py_max (Fin 0) (py_min (Fin 100) (Fin x)) = Fin pd /\ 0 <= pd <= 100.
Proof.
  rewrite py_min_Fin, py_max_Fin. eexists. split; [reflexivity |].
  destruct (Qlt_bool x 100) eqn:E1;
    [apply Qlt_bool_iff in E1 | apply Qlt_bool_false in E1].
  - destruct (Qlt_bool 0 x) eqn:E2;
      [apply Qlt_bool_iff in E2 | apply Qlt_bool_false in E2]; lra.
  - destruct (Qlt_bool 0 100) eqn:E2;
      [apply Qlt_bool_iff in E2 | apply Qlt_bool_false in E2]; lra.
Qed.

(** The risk class of a clamped depth, against the depth as reported. *)
Lemma risk_class (pd : Q) :
  0 <= pd <= 100 ->
  exists d,
    py_round (Fin pd) 1 = Fin d /\ 0 <= d <= 100 /\
    (((if fge (Fin pd) (Fin 70) then "Critical"
       else if fge (Fin pd) (Fin 50) then "High"
       else if fge (Fin pd) (Fin 30) then "Medium" else "Low") = "Critical"
      /\ 70 <= d) \/
     ((if fge (Fin pd) (Fin 70) then "Critical"
       else if fge (Fin pd) (Fin 50) then "High"
       else if fge (Fin pd) (Fin 30) then "Medium" else "Low") = "High"
      /\ 50 <= d <= 70) \/
     ((if fge (Fin pd) (Fin 70) then "Critical"
       else if fge (Fin pd) (Fin 50) then "High"
       else if fge (Fin pd) (Fin 30) then "Medium" else "Low") = "Medium"
      /\ 30 <= d <= 50) \/
     ((if fge (Fin pd) (Fin 70) then "Critical"
       else if fge (Fin pd) (Fin 50) then "High"
       else if fge (Fin pd) (Fin 30) then "Medium" else "Low") = "Low"
      /\ d <= 30)).
Proof.
  intros [H0 H100].
  assert (Hup : forall k, inject_Z k <= pd ->
            forall d, py_round (Fin pd) 1 = Fin d -> inject_Z k <= d).
  { intros k Hk d Hd. destruct (round_above k pd Hk) as (a & Ea & Ha).
    rewrite Hd in Ea. injection Ea as <-. exact Ha. }
  assert (Hdown : forall k, pd <= inject_Z k ->
            forall d, py_round (Fin pd) 1 = Fin d -> d <= inject_Z k).
  { intros k Hk d Hd. destruct (round_below k pd Hk) as (a & Ea & Ha).
    rewrite Hd in Ea. injection Ea as <-. exact Ha. }
  destruct (round_above 0 pd H0) as (d & Ed & _).
  exists d. split; [exact Ed |].
  pose proof (Hup 0%Z H0 d Ed) as Hd0.
  pose proof (Hdown 100%Z H100 d Ed) as Hd100.
  change (inject_Z 0) with 0 in Hd0. change (inject_Z 100) with 100 in Hd100.
  split; [split; assumption |].
  cbn [fge fle cmp2].
  destruct (Qle_bool 70 pd) eqn:E70;
    [apply Qle_bool_iff in E70 | apply Qle_bool_false in E70].
  { left. split; [reflexivity |]. apply (Hup 70%Z E70 d Ed). }
  apply Qlt_le_weak in E70. pose proof (Hdown 70%Z E70 d Ed) as Hd70.
  change (inject_Z 70) with 70 in Hd70.
  destruct (Qle_bool 50 pd) eqn:E50;
    [apply Qle_bool_iff in E50 | apply Qle_bool_false in E50].
  { right. left. split; [reflexivity |].
    split; [apply (Hup 50%Z E50 d Ed) | exact Hd70]. }
  apply Qlt_le_weak in E50. pose proof (Hdown 50%Z E50 d Ed) as Hd50.
  change (inject_Z 50) with 50 in Hd50.
  destruct (Qle_bool 30 pd) eqn:E30;
    [apply Qle_bool_iff in E30 | apply Qle_bool_false in E30].
  { right. right. left. split; [reflexivity |].
    split; [apply (Hup 30%Z E30 d Ed) | exact Hd50]. }
  apply Qlt_le_weak in E30.
  right. right. right. split; [reflexivity |]. apply (Hdown 30%Z E30 d Ed).
Qed.

(** What the loop body makes of a row it does not skip. *)
Lemma predict_row_Some (triple : triple_frame) (years_forward : Z)
    (row : match_record) (p : forecast) :
  predict_row triple years_forward row = Ok (Some p) ->
  forecast_ok p /\ forecast_of row p.
Proof.
  unfold predict_row. cbv zeta.
  destruct (later_depth_pct row) as [| cd] eqn:Ecd; [discriminate |].
  destruct (depth_growth_rate row) as [| g] eqn:Eg; [discriminate |].
  cbn [isnan orb].
  destruct (refine_rate_cases triple row g) as [Hok _].
  destruct (refine_rate triple row (Fin g)) as [[rr b] | e];
    cbn [mbind result_bind]; [| discriminate].
  destruct (Hok rr b eq_refl) as [[r ->] Hb].
  cbn [flt cmp2].
  destruct (Qlt_bool r 0) eqn:Hneg; [discriminate |].
  apply Qlt_bool_false in Hneg.
  cbn [fadd fmul lift2].
  destruct (clamp_range (cd + r * inject_Z years_forward))
    as (pd & -> & Hpd).
  destruct (risk_class pd Hpd) as (d & Ed & Hd & Hrisk).
  destruct (round_nonneg r 3 Hneg) as (g' & Eg' & Hg').
  intros [= <-]. split.
  - exists d, g'. cbn [p_predicted_depth p_growth_rate p_years_to_80pct
                       p_predicted_risk].
    split; [exact Ed |]. split; [exact Hd |]. split; [exact Eg' |].
    split; [exact Hg' |].
    cbn [fgt flt cmp2 fsub fdiv lift2 WALL_LOSS_REPAIR_THRESHOLD].
    destruct (Qlt_bool 0 r) eqn:Hpos;
      [apply Qlt_bool_iff in Hpos | apply Qlt_bool_false in Hpos].
    + split; [| split; [discriminate | exact Hrisk]].
      intros y [= <-].
      assert (Hq : exists q,
                (if Qlt_bool 0 (80.0 - pd) then Fin ((80.0 - pd) / r)
                 else Fin 0) = Fin q /\ 0 <= q).
      { destruct (Qlt_bool 0 (80.0 - pd)) eqn:Hrc;
          [apply Qlt_bool_iff in Hrc | apply Qlt_bool_false in Hrc].
        - eexists. split; [reflexivity |].
          apply Qle_shift_div_l; [exact Hpos | lra].
        - exists 0. split; [reflexivity | lra]. }
      destruct Hq as (q & Eq & Hq).
      destruct (round_nonneg q 1 Hq) as (a & Ea & Ha).
      exists a. split; [| exact Ha]. rewrite <- Ea. f_equal.
      destruct (Qlt_bool 0 (80.0 - pd)); exact Eq.
    + split; [discriminate |]. split; [| exact Hrisk]. intros _.
      destruct (round_zero 3) as (z & Ez & Hz).
      destruct (py_round_mono r 0 3 Hpos) as (a & a' & Ea & Ea' & Hab).
      rewrite Eg' in Ea. injection Ea as <-.
      rewrite Ez in Ea'. injection Ea' as <-. lra.
  - unfold forecast_of.
    cbn [p_joint p_distance_ft p_clock p_current_depth_2022 p_event_type
         p_confidence p_is_triple_tracked p_growth_rate _safe].
    rewrite Ecd, Eg.
    split; [reflexivity |]. split; [reflexivity |]. split; [reflexivity |].
    split; [reflexivity |]. split; [discriminate |]. split; [discriminate |].
    split; [reflexivity |]. split; [reflexivity |].
    intros Hfalse. specialize (Hb Hfalse). injection Hb as ->. reflexivity.
Qed.

Lemma predict_row_Raise (triple : triple_frame) (years_forward : Z)
    (row : match_record) (e : exn) :
  predict_row triple years_forward row = Raise e ->
  e = KeyError /\ t_rows triple <> [] /\
  forall y1 y2 y3, t_years triple = (y1, y2, y3) ->
    y1 <> 2022%Z /\ y2 <> 2022%Z /\ y3 <> 2022%Z.
Proof.
  unfold predict_row. cbv zeta.
  destruct (later_depth_pct row) as [| cd]; [discriminate |].
  destruct (depth_growth_rate row) as [| g]; [discriminate |].
  cbn [isnan orb].
  destruct (refine_rate_cases triple row g) as [_ Hraise].
  destruct (refine_rate triple row (Fin g)) as [[rr b] | e'];
    cbn [mbind result_bind].
  - destruct (flt rr (Fin 0)); discriminate.
  - intros [= <-]. apply Hraise. reflexivity.
Qed.

(** *** Counting the predictions *)

Lemma count_where_cons (q : forecast -> bool) (x : forecast)
    (l : list forecast) :
  count_where q (x :: l)
  = ((if q x then 1 else 0) + count_where q l)%Z.
Proof.
  unfold count_where. cbn [List.filter]. destruct (q x); cbn [length]; lia.
Qed.

(** Masks of which exactly one holds for every prediction count all the
    predictions. *)
Lemma counts_partition (qs : list (forecast -> bool)) (l : list forecast) :
  Forall (fun x => length (List.filter (fun q => q x) qs) = 1%nat) l ->
  List.fold_right (fun q s => (count_where q l + s)%Z) 0%Z qs
  = Z.of_nat (length l).
Proof.
  induction 1 as [| x l Hx _ IH].
  - induction qs as [| q qs IHq]; cbn [List.fold_right]; [reflexivity |].
    rewrite IHq. reflexivity.
  - assert (Hsplit : forall qs',
      List.fold_right (fun q s => (count_where q (x :: l) + s)%Z) 0%Z qs'
      = (Z.of_nat (length (List.filter (fun q => q x) qs'))
         + List.fold_right (fun q s => (count_where q l + s)%Z) 0%Z qs')%Z).
    { induction qs' as [| q qs' IHq]; cbn [List.fold_right List.filter];
        [reflexivity |].
      rewrite count_where_cons, IHq. destruct (q x); cbn [length]; lia. }
    rewrite Hsplit, Hx, IH. cbn [length]. lia.
Qed.

Lemma risk_counts (l : list forecast) :
  Forall forecast_ok l ->
  (count_where (fun p => String.eqb (p_predicted_risk p) "Critical") l
   + count_where (fun p => String.eqb (p_predicted_risk p) "High") l
   + count_where (fun p => String.eqb (p_predicted_risk p) "Medium") l
   + count_where (fun p => String.eqb (p_predicted_risk p) "Low") l
   = Z.of_nat (length l))%Z.
Proof.
  intros Hok.
  rewrite <- (counts_partition
    [ (fun p => String.eqb (p_predicted_risk p) "Critical");
      (fun p => String.eqb (p_predicted_risk p) "High");
      (fun p => String.eqb (p_predicted_risk p) "Medium");
      (fun p => String.eqb (p_predicted_risk p) "Low") ] l).
  - cbn [List.fold_right]. lia.
  - eapply Forall_impl; [exact Hok |]. cbn beta.
    intros p (d & g & _ & _ & _ & _ & _ & _ & Hrisk). cbn [List.filter].
    destruct Hrisk as [[-> _] | [[-> _] | [[-> _] | [-> _]]]]; reflexivity.
Qed.

Lemma depth_bins (l : list forecast) :
  Forall forecast_ok l ->
  counted
    [ ("0-20%", count_where (fun p => flt (p_predicted_depth p) (Fin 20)) l);
      ("20-40%",
       count_where
         (fun p => fge (p_predicted_depth p) (Fin 20)
                   && flt (p_predicted_depth p) (Fin 40)) l);
      ("40-60%",
       count_where
         (fun p => fge (p_predicted_depth p) (Fin 40)
                   && flt (p_predicted_depth p) (Fin 60)) l);
      ("60-80%",
       count_where
         (fun p => fge (p_predicted_depth p) (Fin 60)
                   && flt (p_predicted_depth p) (Fin 80)) l);
      ("80-100%",
       count_where (fun p => fge (p_predicted_depth p) (Fin 80)) l) ]
  = Z.of_nat (length l).
Proof.
  intros Hok.
  rewrite <- (counts_partition
    [ (fun p => flt (p_predicted_depth p) (Fin 20));
      (fun p => fge (p_predicted_depth p) (Fin 20)
                && flt (p_predicted_depth p) (Fin 40));
      (fun p => fge (p_predicted_depth p) (Fin 40)
                && flt (p_predicted_depth p) (Fin 60));
      (fun p => fge (p_predicted_depth p) (Fin 60)
                && flt (p_predicted_depth p) (Fin 80));
      (fun p => fge (p_predicted_depth p) (Fin 80)) ] l).
  - reflexivity.
  - eapply Forall_impl; [exact Hok |]. cbn beta.
    intros p (d & g & Hd & _). cbn [List.filter]. rewrite Hd.
    cbn [flt fge fle cmp2]. unfold Qlt_bool.
    destruct (Qle_bool 20 d) eqn:E20; destruct (Qle_bool 40 d) eqn:E40;
      destruct (Qle_bool 60 d) eqn:E60; destruct (Qle_bool 80 d) eqn:E80;
      cbn [negb andb length]; try reflexivity; exfalso;
      repeat match goal with
      | H : Qle_bool _ _ = true |- _ => apply Qle_bool_iff in H
      | H : Qle_bool _ _ = false |- _ => apply Qle_bool_false in H
      end; lra.
Qed.

(** *** The top concerns *)

Lemma insert_desc_Permutation (x : forecast) (l : list forecast) :
  insert_desc x l ≡ₚ x :: l.
Proof.
  induction l as [| y l IH]; cbn [insert_desc]; [reflexivity |].
  destruct (fle (p_predicted_depth y) (p_predicted_depth x));
    [reflexivity |].
  rewrite IH. apply Permutation_swap.
Qed.

Lemma nlargest_In (n : nat) (l : list forecast) :
  (length (nlargest n l) <= n)%nat /\
  forall p, In p (nlargest n l) -> In p l.
Proof.
  assert (Hs : List.fold_right insert_desc [] l ≡ₚ l).
  { induction l as [| x l IH]; cbn [List.fold_right]; [reflexivity |].
    rewrite insert_desc_Permutation, IH. reflexivity. }
  unfold nlargest. split; [rewrite length_take; lia |].
  intros p Hp. apply list_elem_of_In. rewrite <- Hs.
  apply list_elem_of_In, elem_of_take in Hp. destruct Hp as (i & Hi & _).
  eapply list_elem_of_lookup_2, Hi.
Qed.

(** *** The function *)

Lemma key_choice (pairwise : list (Z * Z * frame)) :
  (pairwise = [] /\
   (if has_key pairwise (2015, 2022)%Z then Some (2015, 2022)%Z
    else match pairwise with
         | [] => None
         | kv :: _ => Some (fst (List.last pairwise kv))
         end) = None) \/
  exists key matches,
    (if has_key pairwise (2015, 2022)%Z then Some (2015, 2022)%Z
     else match pairwise with
          | [] => None
          | kv :: _ => Some (fst (List.last pairwise kv))
          end) = Some key /\
    pairwise_get pairwise key = Ok matches /\
    In (key, matches) pairwise /\
    (has_key pairwise (2015, 2022)%Z = true -> key = (2015, 2022)%Z) /\
    (has_key pairwise (2015, 2022)%Z = false ->
     exists kv, last pairwise = Some kv /\ key = fst kv).
Proof.
  destruct (has_key pairwise (2015, 2022)%Z) eqn:Hk.
  - right. destruct (has_key_In _ _ Hk) as [v Hv].
    destruct (pairwise_get_Ok _ _ _ Hv) as [w Hw].
    exists (2015, 2022)%Z, w. split; [reflexivity |]. split; [exact Hw |].
    split; [apply pairwise_get_In, Hw |].
    split; [reflexivity | discriminate].
  - destruct pairwise as [| kv pairwise'] eqn:Hpw;
      [left; split; reflexivity |].
    right. rewrite <- Hpw.
    assert (Hne : pairwise <> []) by (rewrite Hpw; discriminate).
    pose proof (last_In pairwise kv Hne) as Hlast.
    destruct (List.last pairwise kv) as [k v] eqn:El.
    destruct (pairwise_get_Ok _ _ _ Hlast) as [w Hw].
    exists k, w. cbn [fst]. split; [reflexivity |]. split; [exact Hw |].
    split; [apply pairwise_get_In, Hw |]. split; [discriminate |].
    intros _. exists (k, v). split; [| reflexivity].
    rewrite <- El. apply last_default, Hne.
Qed.

Lemma omap_id_In {A : Type} (outs : list (option A)) (p : A) :
  In p (omap id outs) <-> In (Some p) outs.
Proof.
  rewrite <- !list_elem_of_In, list_elem_of_omap. split.
  - intros (o & Ho & Hp). cbn in Hp. subst o. exact Ho.
  - intros H. exists (Some p). split; [exact H | reflexivity].
Qed.

Lemma Forall2_In_r {A B : Type} (R : A -> B -> Prop) (l : list A)
    (k : list B) (y : B) :
  Forall2 R l k -> In y k -> exists x, In x l /\ R x y.
Proof.
  induction 1 as [| x y' l k Hxy _ IH]; intros Hy; [destruct Hy |].
  destruct Hy as [-> | Hy].
  - exists x. split; [left; reflexivity | exact Hxy].
  - destruct (IH Hy) as (x' & Hx' & Hr). exists x'.
    split; [right; exact Hx' | exact Hr].
Qed.

(** X30: what a predicted inspection returns.  Without a pairwise match
    the answer is the error "No match data available".  A report
    satisfies [report_ok]: the target year is after 2022; every
    prediction has a predicted depth from 0 to 100, a rate that is not
    negative and a risk class that goes with its depth, and was made of a
    row of the frame of the key (2015, 2022), or without such a key of the
    frame of the last key, whose joint, distance and clock position it
    hands on; the
    total, the four risk counts together and the five depth bins together
    all count the predictions; the top concerns are at most 20 of them.
    And the function raises nothing but the KeyError of a triple frame
    that has rows and no column for 2022. *)
Theorem predict_future_inspection_report (c : cache) (target_year : Z) :
  (c_pairwise c = [] ->
   predict_future_inspection c target_year
   = Ok (Error "No match data available")) /\
  (forall r,
     predict_future_inspection c target_year = Ok (Report r) ->
     report_ok c target_year r) /\
  (forall e,
     predict_future_inspection c target_year = Raise e ->
     e = KeyError /\ t_rows (c_triple c) <> [] /\
     forall y1 y2 y3, t_years (c_triple c) = (y1, y2, y3) ->
       y1 <> 2022%Z /\ y2 <> 2022%Z /\ y3 <> 2022%Z).
Proof.
  unfold predict_future_inspection. cbv zeta.
  destruct (key_choice (c_pairwise c))
    as [[Hnil ->] | (key & matches & -> & Hget & Hin & Hpref & Hlast)].
  { split; [reflexivity |]. split; [discriminate | discriminate]. }
  assert (Hne : c_pairwise c <> [])
    by (intros E; rewrite E in Hin; destruct Hin).
  rewrite Hget. cbn [mbind result_bind].
  destruct (empty matches);
    [split; [congruence |]; split; [discriminate | discriminate] |].
  destruct (target_year - 2022 <=? 0)%Z eqn:Hyear;
    [split; [congruence |]; split; [discriminate | discriminate] |].
  apply Z.leb_gt in Hyear.
  destruct (mapM (predict_row (c_triple c) (target_year - 2022))
              (rows matches)) as [outs | e'] eqn:Hloop;
    cbn [mbind result_bind].
  - assert (Hall : Forall (fun p =>
                forecast_ok p /\
                exists row, In row (rows matches) /\ forecast_of row p)
              (omap id outs)).
    { apply Forall_forall. intros p Hp.
      apply list_elem_of_In, omap_id_In in Hp.
      destruct (Forall2_In_r _ _ _ _ (mapM_Ok_Forall2 _ _ _ Hloop) Hp)
        as (row & Hrow & Hp').
      destruct (predict_row_Some _ _ _ _ Hp') as [Hok Hof].
      split; [exact Hok |]. exists row. split; assumption. }
    assert (Hok : Forall forecast_ok (omap id outs)).
    { eapply Forall_impl; [exact Hall |]. intros p Hp. apply Hp. }
    destruct (omap id outs) as [| p ps] eqn:Hpreds;
      [split; [congruence |]; split; [discriminate | discriminate] |].
    rewrite <- Hpreds in *.
    split; [congruence |]. split; [| discriminate].
    intros r [= <-]. unfold report_ok.
    cbn [r_all_predictions r_summary r_depth_distribution r_top_concerns
         s_total_predicted s_critical_count s_high_count s_medium_count
         s_low_count].
    split; [lia |]. split; [rewrite Hpreds; discriminate |].
    split.
    { exists matches. split; [| exact Hall].
      exists key. split; [exact Hget |]. split; [exact Hpref | exact Hlast]. }
    split; [reflexivity |]. split; [apply risk_counts, Hok |].
    split; [apply depth_bins, Hok |].
    apply nlargest_In.
  - split; [congruence |]. split; [discriminate |].
    intros e [= <-]. apply mapM_Raise in Hloop.
    destruct Hloop as (row & _ & Hrow).
    eapply predict_row_Raise, Hrow.
Qed.

End VirtualProperties.

(** ** The further theorems at concrete inputs *)

Section MoreWitnesses.
Import Config DataIngestion Alignment Matching Growth MultiRun.
Import Correction Trends FullAnalysis ClockCells Integrity.
Local Open Scope Q_scope.

Lemma types_compatible_equivalence_witness :
  types_compatible "Cluster" "Metal Loss" = true.
Proof.
  apply (proj1 (proj2 types_compatible_equivalence) "Metal Loss" "Cluster").
  reflexivity.
Defined.

Lemma compute_confidence_range_witness :
  exists c,
    _compute_confidence (Fin 0.9) 1 cut_later cut_earlier 8 = Fin c /\
    0.15 <= c <= 1.
Proof.
  apply (compute_confidence_range 0.9 1 cut_later cut_earlier 8).
  split; discriminate.
Defined.

Lemma matches_compatible_types_witness :
  exists r,
    match_anomalies (lib := Reference.scipy) later_run earlier_run 8 = Ok r /\
    Forall (fun m =>
      types_compatible (later_event_type m) (earlier_event_type m) = true)
      (matches r).
Proof.
  apply (matches_compatible_types (lib := Reference.scipy)
           later_run earlier_run 8).
  - reflexivity.
  - exact reference_assignment_valid.
  - exact later_run_aligned.
  - exact earlier_run_aligned.
Defined.

Lemma matches_scores_and_labels_witness :
  exists r,
    match_anomalies (lib := Reference.scipy) later_run earlier_run 8 = Ok r /\
    Forall (fun m =>
      exists a_l a_e raw s c,
        In a_l (get_anomalies later_run) /\
        In a_e (get_anomalies earlier_run) /\
        compute_similarity a_l a_e 8 = Fin raw /\
        similarity m = Fin s /\ Qabs (s - raw) <= 0.0001 /\
        0.4 <= s <= 1 /\
        confidence m = Fin c /\ 0.31 <= c <= 1 /\
        ((0.85 <= c /\ confidence_label m = "HIGH") \/
         (0.60 <= c < 0.85 /\ confidence_label m = "MEDIUM") \/
         (c < 0.60 /\ confidence_label m = "LOW"))) (matches r).
Proof.
  apply (matches_scores_and_labels (lib := Reference.scipy)
           later_run earlier_run 8).
  - reflexivity.
  - exact reference_assignment_valid.
  - exact later_run_aligned.
  - exact earlier_run_aligned.
Defined.


Lemma match_stats_agree_witness :
  exists r,
    match_anomalies (lib := Reference.scipy) later_run earlier_run 8 = Ok r /\
    (length (matches r) + length (new_anomalies r)
     = length (get_anomalies later_run))%nat /\
    (length (matches r) + length (missing_anomalies r)
     = length (get_anomalies earlier_run))%nat /\
    stats r !! "total_matches"
      = Some (Fin (inject_Z (Z.of_nat (length (matches r))))) /\
    (get_anomalies later_run <> [] -> get_anomalies earlier_run <> [] ->
     stats r !! "new_anomalies"
       = Some (Fin (inject_Z (Z.of_nat (length (new_anomalies r))))) /\
     stats r !! "missing_anomalies"
       = Some (Fin (inject_Z (Z.of_nat (length (missing_anomalies r)))))) /\
    (matches r <> [] ->
     exists h m l : nat,
       stats r !! "high_confidence" = Some (Fin (inject_Z (Z.of_nat h))) /\
       stats r !! "medium_confidence" = Some (Fin (inject_Z (Z.of_nat m))) /\
       stats r !! "low_confidence" = Some (Fin (inject_Z (Z.of_nat l))) /\
       (h + m + l = length (matches r))%nat).
Proof.
  apply (match_stats_agree (lib := Reference.scipy) later_run earlier_run 8).
  - reflexivity.
  - exact reference_assignment_valid.
  - exact later_run_aligned.
  - exact earlier_run_aligned.
Defined.

Lemma risk_score_range_witness :
  exists s,
    _compute_risk_score
      (Examples.matched 1 2 (Fin 0.9) (Fin 49) (Fin 70) (Fin 3)) = Fin s /\
    0 <= s <= 100.
Proof.
  destruct (risk_score_range
              (Examples.matched 1 2 (Fin 0.9) (Fin 49) (Fin 70) (Fin 3)))
    as (s & Hs & Hle & Hge & _).
  exists s. split; [exact Hs |]. split; [| exact Hle].
  apply Hge. discriminate.
Defined.

Lemma risk_category_floor_witness :
  _classify_risk
    (_compute_risk_score
       (Examples.matched 1 2 (Fin 0.9) (Fin 70) (Fin 85) (Fin 3)))
  = "Critical".
Proof.
  apply (proj1 (proj2 (risk_category_floor
           (Examples.matched 1 2 (Fin 0.9) (Fin 70) (Fin 85) (Fin 3)) 85
           eq_refl))) with (r := 3).
  - discriminate.
  - reflexivity.
  - discriminate.
Defined.

Lemma remaining_life_iff_growing_witness :
  exists y,
    _remaining_life (Examples.matched 1 2 (Fin 0.9) (Fin 49) (Fin 70) (Fin 3))
    = Fin y.
Proof.
  destruct (_remaining_life
              (Examples.matched 1 2 (Fin 0.9) (Fin 49) (Fin 70) (Fin 3)))
    as [| y] eqn:E; [| exists y; reflexivity].
  exfalso.
  apply (proj2 (remaining_life_iff_growing
           (Examples.matched 1 2 (Fin 0.9) (Fin 49) (Fin 70) (Fin 3))));
    [| exact E].
  split; [discriminate |]. vm_compute. tauto.
Defined.


Lemma chain_join_complete_witness :
  exists r,
    chain_three_runs chained_pairs [2007; 2015; 2022]%Z = Ok r /\
    In (triple_record 2007 2022
          (Examples.matched 1 2 (Fin 0.9) (Fin 10) (Fin 10.5) (Fin 0.063))
          (Examples.matched 2 3 (Fin 0.8) (Fin 10.5) (Fin 11) (Fin 0.071)))
       (triple_matches r).
Proof.
  destruct (chain_join_complete chained_pairs 2007 2015 2022 [])
    as (r & Hr & _ & Hjoin).
  - apply (bool_decide_unpack _). vm_compute. exact I.
  - exists r. split; [exact Hr |]. apply Hjoin.
    + vm_compute. left. reflexivity.
    + vm_compute. left. reflexivity.
    + reflexivity.
Defined.

Lemma chain_three_runs_edges_witness :
  chain_three_runs chained_pairs [2007; 2015]%Z = Raise IndexError.
Proof.
  apply (proj1 (chain_three_runs_edges chained_pairs [2007; 2015]%Z)).
  cbn. lia.
Defined.

Lemma anchor_joints_witness :
  exists tbl,
    match_girth_welds three_runs = Ok tbl /\
    In 10%Z (List.map gw_joint_number tbl) /\
    StronglySorted Z.lt (List.map gw_joint_number tbl).
Proof.
  destruct (match_girth_welds three_runs) as [tbl | e] eqn:Et;
    [| vm_compute in Et; discriminate].
  destruct (anchor_joints three_runs tbl Et) as [Hin Hs].
  exists tbl. split; [reflexivity |]. split; [| exact Hs].
  apply Hin. intros year df Hrun. cbn in Hrun.
  destruct Hrun as [[= <- <-] | [[= <- <-] | [[= <- <-] | []]]];
    eexists; eexists; (split; [left; reflexivity |]);
    repeat split; discriminate.
Defined.

Lemma anchor_distance_least_witness :
  exists tbl,
    match_girth_welds three_runs = Ok tbl /\
    Forall (fun row =>
      forall year df, In (year, df) three_runs ->
        exists d,
          dict_get (gw_dist row) year = Ok (Fin d) /\
          weld_of df (gw_joint_number row) d /\
          forall d', weld_of df (gw_joint_number row) d' -> d <= d') tbl.
Proof.
  destruct (match_girth_welds three_runs) as [tbl | e] eqn:Et;
    [| vm_compute in Et; discriminate].
  exists tbl. split; [reflexivity |].
  apply (anchor_distance_least three_runs tbl Et).
  apply (bool_decide_unpack _). vm_compute. exact I.
Defined.

Lemma correction_after_anchors_witness :
  exists tbl out,
    match_girth_welds three_runs = Ok tbl /\
    apply_distance_correction (ip := ReferenceMore.interpolate)
      three_runs tbl 2022 = Ok out /\
    List.map fst out = List.map fst three_runs /\
    Forall (fun run' => fst run' = 2022%Z -> aligned (snd run')) out.
Proof.
  destruct (match_girth_welds three_runs) as [tbl | e] eqn:Et;
    [| vm_compute in Et; discriminate].
  destruct (correction_after_anchors (ip := ReferenceMore.interpolate)
              three_runs tbl 2022 Et) as (out & Hout & Hall).
  - cbn. right. right. left. reflexivity.
  - exists tbl, out. split; [reflexivity |]. split; [exact Hout |].
    clear Hout Et. revert Hall. generalize three_runs. intros runs Hall.
    induction Hall as [| run run' runs outs (Hy & _ & _ & Href & _) _ IH].
    + split; [reflexivity | constructor].
    + destruct IH as [IH1 IH2]. split.
      * cbn [List.map]. rewrite Hy, IH1. reflexivity.
      * constructor; [| exact IH2].
        intros E. apply Href. rewrite <- Hy. exact E.
Defined.

Lemma correction_errors_witness :
  apply_distance_correction (ip := ReferenceMore.interpolate)
    three_runs [] 2022 = Raise KeyError.
Proof.
  apply (proj1 (proj2 (correction_errors (ip := ReferenceMore.interpolate)
                         three_runs [] 2022))).
  - reflexivity.
  - exists 2007%Z. split; [left; reflexivity | discriminate].
Defined.

Lemma trends_fixed_years_witness :
  Forall (fun rp => no_prediction (snd rp))
    (predict_growth_trends (reg := ReferenceMore.regression) 2010 2015 2020
       [deepening_triple]).
Proof.
  apply (proj2 (proj2 (trends_fixed_years (reg := ReferenceMore.regression)
                         2010 2015 2020 [deepening_triple]))).
  cbn. lia.
Defined.

Lemma match_anomalies_errors_witness :
  match_anomalies (lib := Reference.scipy)
    [Examples.anomaly 7 5 1000.2 3.0 24 2 1 "Metal Loss"]
    [Examples.anomaly 4 5 1000.0 3.0 20 2 1 "Metal Loss"] 0
    = Raise ZeroDivisionError /\
  0 == 0.
Proof.
  assert (H : match_anomalies (lib := Reference.scipy)
                [Examples.anomaly 7 5 1000.2 3.0 24 2 1 "Metal Loss"]
                [Examples.anomaly 4 5 1000.0 3.0 20 2 1 "Metal Loss"] 0
              = Raise ZeroDivisionError) by (vm_compute; reflexivity).
  split; [exact H |].
  apply (proj1 (proj2 (match_anomalies_errors (lib := Reference.scipy)
                         _ _ 0 ZeroDivisionError H))).
  reflexivity.
Defined.

Lemma three_runs_solver_valid :
  solver_valid_for (lib := Reference.scipy) three_runs.
Proof.
  intros y_early y_later run_earlier run_later _ _ _.
  apply reference_solver_valid.
Defined.

Lemma three_runs_aligned :
  Forall (fun run => aligned (snd run)) three_runs.
Proof.
  unfold three_runs.
  repeat (constructor;
          [unfold aligned; cbn; repeat constructor; discriminate |]).
  constructor.
Defined.

Lemma run_full_analysis_Ok_witness :
  exists res d c,
    run_full_analysis (lib := Reference.scipy) (reg := ReferenceMore.regression)
      three_runs = Ok res /\
    is_Some (pairwise res !! (2007, 2015)%Z) /\
    is_Some (pairwise res !! (2015, 2022)%Z) /\
    pairwise res !! (2007, 2022)%Z = None /\
    direct_first_last res = Some d /\ chain res = Some c.
Proof.
  destruct (run_full_analysis_Ok (lib := Reference.scipy)
              (reg := ReferenceMore.regression) three_runs)
    as (res & Hres & Hdom & _ & _ & Hmany).
  - apply (bool_decide_unpack _). vm_compute. exact I.
  - exact three_runs_solver_valid.
  - exact three_runs_aligned.
  - destruct Hmany as (d & c & Hd & Hc & _); [cbn; lia |].
    exists res, d, c. split; [exact Hres |].
    split; [apply Hdom; vm_compute; left; reflexivity |].
    split; [apply Hdom; vm_compute; right; left; reflexivity |].
    split; [| split; assumption].
    destruct (pairwise res !! (2007, 2022)%Z) as [r |] eqn:E; [| reflexivity].
    exfalso. assert (Hsome : is_Some (pairwise res !! (2007, 2022)%Z))
      by (rewrite E; eauto).
    apply Hdom in Hsome. vm_compute in Hsome.
    destruct Hsome as [H | [H | []]]; discriminate H.
Defined.

Lemma clock_to_hours_on_dial_witness :
  exists h,
    _clock_to_hours (py := ReferenceMore.builtins) (Text "11:30")
    = Ok (Fin h) /\
    0 <= h <= 12.
Proof.
  destruct (_clock_to_hours (py := ReferenceMore.builtins) (Text "11:30"))
    as [[| h] | e] eqn:E;
    [vm_compute in E; discriminate | | vm_compute in E; discriminate].
  exists h. split; [reflexivity |].
  destruct (proj1 (proj2 (clock_to_hours_on_dial
                            (py := ReferenceMore.builtins) (Text "11:30")))
              (Fin h) E) as [H | (h' & H & Hr)]; [discriminate |].
  injection H as <-. exact Hr.
Defined.

Lemma scored_matches_known_witness :
  exists r scored,
    match_anomalies (lib := Reference.scipy) later_run earlier_run 8 = Ok r /\
    calculate_growth_rates (of_matches (matches r)) = Ok scored /\
    rows scored = matches r.
Proof.
  destruct (scored_matches_known (lib := Reference.scipy)
              later_run earlier_run 8) as (r & scored & Hr & Hs & Hrows & _).
  - reflexivity.
  - exact reference_assignment_valid.
  - exact later_run_aligned.
  - exact earlier_run_aligned.
  - exists r, scored. auto.
Defined.

Lemma dig_list_rules_witness :
  exists item,
    In item
      (generate_dig_list
         (of_matches
            [Examples.matched 1 2 (Fin 0.9) (Fin 70) (Fin 85) (Fin 3)])) /\
    dig_category item = "IMMEDIATE".
Proof.
  destruct (proj2 (dig_list_rules
              (of_matches
                 [Examples.matched 1 2 (Fin 0.9) (Fin 70) (Fin 85) (Fin 3)]))
              0%nat (Examples.matched 1 2 (Fin 0.9) (Fin 70) (Fin 85) (Fin 3))
              85 eq_refl eq_refl)
    as (item & Hin & Hrow).
  - left. discriminate.
  - exists item. split; [exact Hin |].
    vm_compute in Hrow. injection Hrow as <-. reflexivity.
Defined.

End MoreWitnesses.
